(** * Flip game: provably-fair engine, bet ledger, settlement and sessions

  A shallow embedding of the back end of the flip game
  ([backend/engine/flipEngine.js], [backend/engine/seeds.js],
  [backend/util/hmac.js], [backend/services/betService.js],
  [backend/services/callbackService.js],
  [backend/services/sessionService.js], [backend/ws/gameNamespace.js],
  [backend/config.js]) and the proofs of its specified properties.

  Conventions of the embedding.
  - A JavaScript number that carries money or a percentage is an IEEE-754
    binary64 value: Rocq's primitive [float], with the same rounding as the
    JavaScript engine.  Counters, indices and millisecond timestamps, which
    the program only ever increments or compares, are [N] or [Z].
  - A JavaScript string is a [string] of bytes (its UTF-8 encoding, which is
    what [crypto]'s [update] hashes).
  - A [Map] is an insertion-ordered association list ([JsMap]).
  - A method of a service is a computation in the monad [M]: it threads the
    process state, may throw a JavaScript [Error], and records on a trace
    what leaves the process (HTTP requests, timer waits, emitted events).
  - [console.log]/[console.error] lines are not modelled. *)

From Stdlib Require Import ZArith NArith QArith Qround List String Ascii Bool Lia.
From Stdlib Require Import DecimalString.
From Stdlib Require Import Numbers.Cyclic.Int63.Uint63 Floats.PrimFloat.
Import ListNotations.

Set Warnings "-inexact-float".

Local Open Scope string_scope.
Local Open Scope Z_scope.

(* ================================================================== *)
(** * JavaScript values and the built-ins the program calls *)
(* ================================================================== *)

Module Js.

(** [Math.floor] on a binary64 value.  Below 2^52 in magnitude, adding and
    subtracting 2^52 rounds to the nearest integer; one is taken off when
    that went up.  From 2^52 on every binary64 value is an integer, and NaN
    and the infinities are returned as they are. *)
Definition two52 : float := 4503599627370496%float.

Definition floor (x : float) : float :=
  if PrimFloat.eqb x 0%float then x
  else if PrimFloat.ltb (PrimFloat.abs x) two52 then
    let t := PrimFloat.sub (PrimFloat.add (PrimFloat.abs x) two52) two52 in
    let r := if PrimFloat.ltb x 0%float then PrimFloat.opp t else t in
    if PrimFloat.ltb x r then PrimFloat.sub r 1%float else r
  else x.

(** [Math.round]: the nearest integer, a tie going towards +infinity; a
    value in [-0.5, 0) gives -0. *)
Definition round (x : float) : float :=
  if PrimFloat.ltb x 0%float && PrimFloat.leb (-0.5)%float x then (-0)%float
  else
    let f := floor x in
    if PrimFloat.leb 0.5%float (PrimFloat.sub x f)
    then PrimFloat.add f 1%float else f.

(** [isNaN(x)] on a number: NaN is the only value different from itself. *)
Definition isNaN (x : float) : bool := negb (PrimFloat.eqb x x).

(** The number held by a byte of a [Buffer]. *)
Definition of_byte (b : Z) : float := PrimFloat.of_uint63 (Uint63.of_Z b).

(** An integer inside a template literal: its decimal digits. *)
Definition show_Z (z : Z) : string := NilZero.string_of_int (Z.to_int z).
Definition show_N (n : N) : string := show_Z (Z.of_N n).

(** The values a field of a JSON message holds in this program. *)
Inductive value : Type :=
| Undefined
| Null
| Bool (b : bool)
| Num (x : float)      (* a number carrying an amount *)
| Int (z : Z)          (* a number carrying a counter or a timestamp *)
| Str (s : string).

(** An object literal: its fields in the order they were written. *)
Definition object := list (string * value).

Fixpoint field (k : string) (o : object) : value :=
  match o with
  | [] => Undefined
  | (k', v) :: o' => if String.eqb k k' then v else field k o'
  end.

Fixpoint has_field (k : string) (o : object) : bool :=
  match o with
  | [] => false
  | (k', _) :: o' => if String.eqb k k' then true else has_field k o'
  end.

(** [a === b] on field values. *)
Definition strict_eq (a b : value) : bool :=
  match a, b with
  | Undefined, Undefined | Null, Null => true
  | Bool x, Bool y => Bool.eqb x y
  | Num x, Num y => PrimFloat.eqb x y
  | Int x, Int y => Z.eqb x y
  | Num x, Int y | Int y, Num x => PrimFloat.eqb x (PrimFloat.of_uint63 (Uint63.of_Z y))
  | Str x, Str y => String.eqb x y
  | _, _ => false
  end.

(** Truthiness, as [||] and [if] read a value. *)
Definition truthy (v : value) : bool :=
  match v with
  | Undefined | Null => false
  | Bool b => b
  | Num x => negb (isNaN x) && negb (PrimFloat.eqb x 0%float)
  | Int z => negb (Z.eqb z 0)
  | Str s => negb (String.eqb s "")
  end.

Definition or (a b : value) : value := if truthy a then a else b.

(** [a.slice(0, end)] for an integer [end]: a negative [end] counts from
    the end of the array, and the result stays within the array. *)
Definition slice_to {A : Type} (stop : Z) (a : list A) : list A :=
  let len := Z.of_nat (List.length a) in
  let final := if stop <? 0 then Z.max (len + stop) 0 else Z.min stop len in
  List.firstn (Z.to_nat final) a.

(** Whether a value is a number. *)
Definition is_number (v : value) : bool :=
  match v with
  | Num _ | Int _ => true
  | _ => false
  end.

(** A value placed in a template literal or given to [new Error].  The
    digits that JavaScript gives a number that is not a counter of the
    program are not modelled: a [Num] is left as a placeholder, and what is
    proved of the text of a message is proved for values that are not
    numbers. *)
Definition to_string (v : value) : string :=
  match v with
  | Undefined => "undefined"
  | Null => "null"
  | Bool true => "true"
  | Bool false => "false"
  | Num _ => "<number>"
  | Int z => show_Z z
  | Str s => s
  end.

End Js.

(* ================================================================== *)
(** * [crypto]: SHA-256 (FIPS 180-4) and HMAC (RFC 2104) *)
(* ================================================================== *)

Module Crypto.

Local Open Scope list_scope.

Definition bytes := list Z.

Definition bytes_of_string (s : string) : bytes :=
  List.map (fun a => Z.of_N (N_of_ascii a)) (list_ascii_of_string s).

Definition w32 (x : Z) : Z := Z.land x 0xFFFFFFFF.

Definition rotr (n x : Z) : Z :=
  Z.lor (Z.shiftr x n) (w32 (Z.shiftl x (32 - n))).

Definition Ch (x y z : Z) : Z :=
  Z.lxor (Z.land x y) (Z.land (Z.lxor x 0xFFFFFFFF) z).
Definition Maj (x y z : Z) : Z :=
  Z.lxor (Z.lxor (Z.land x y) (Z.land x z)) (Z.land y z).
Definition Sigma0 (x : Z) : Z := Z.lxor (Z.lxor (rotr 2 x) (rotr 13 x)) (rotr 22 x).
Definition Sigma1 (x : Z) : Z := Z.lxor (Z.lxor (rotr 6 x) (rotr 11 x)) (rotr 25 x).
Definition sigma0 (x : Z) : Z := Z.lxor (Z.lxor (rotr 7 x) (rotr 18 x)) (Z.shiftr x 3).
Definition sigma1 (x : Z) : Z := Z.lxor (Z.lxor (rotr 17 x) (rotr 19 x)) (Z.shiftr x 10).

(** The constants of FIPS 180-4 are taken from their definition: the first
    32 bits of the fractional parts of the cube roots (square roots, for
    the initial hash value) of the first primes. *)
Definition is_prime (n : Z) : bool :=
  (1 <? n)
  && List.forallb (fun d => negb (n mod d =? 0))
       (List.filter (fun d => d * d <=? n) (List.map Z.of_nat (List.seq 2 16))).

Definition primes : list Z :=
  List.filter is_prime (List.map Z.of_nat (List.seq 2 310)).

(** The integer cube root, bit by bit from bit [k] down. *)
Fixpoint cube_root (k : nat) (r n : Z) : Z :=
  match k with
  | O => r
  | S k' =>
      let r' := r + 2 ^ Z.of_nat k' in
      if r' * r' * r' <=? n then cube_root k' r' n else cube_root k' r n
  end.

Definition cube_fraction (p : Z) : Z := cube_root 40 0 (p * 2 ^ 96) mod 2 ^ 32.
Definition square_fraction (p : Z) : Z := Z.sqrt (p * 2 ^ 64) mod 2 ^ 32.

Definition K256 : list Z :=
  Eval vm_compute in List.map cube_fraction (List.firstn 64 primes).

(** Big-endian words of a block, and bytes of a word. *)
Fixpoint words_of_bytes (l : bytes) : list Z :=
  match l with
  | a :: b :: c :: d :: l' =>
      Z.lor (Z.lor (Z.shiftl a 24) (Z.shiftl b 16)) (Z.lor (Z.shiftl c 8) d)
      :: words_of_bytes l'
  | _ => []
  end.

Definition bytes_of_word (w : Z) : bytes :=
  [ Z.land (Z.shiftr w 24) 0xFF; Z.land (Z.shiftr w 16) 0xFF;
    Z.land (Z.shiftr w 8) 0xFF; Z.land w 0xFF ].

(** Padding: a 1 bit, zeros up to 56 mod 64, then the bit length on 8 bytes. *)
Definition pad (msg : bytes) : bytes :=
  let len := Z.of_nat (List.length msg) in
  let zeros := Z.to_nat ((55 - len) mod 64) in
  let bits := len * 8 in
  msg ++ [0x80] ++ List.repeat 0 zeros
      ++ bytes_of_word (Z.shiftr bits 32) ++ bytes_of_word (w32 bits).

Fixpoint blocks (fuel : nat) (l : bytes) : list bytes :=
  match fuel with
  | O => []
  | S fuel' =>
      match l with
      | [] => []
      | _ => List.firstn 64 l :: blocks fuel' (List.skipn 64 l)
      end
  end.

(** The message schedule, over a window of the last sixteen words. *)
Fixpoint schedule (n : nat) (win : list Z) : list Z :=
  match n with
  | O => []
  | S n' =>
      match win with
      | w16 :: rest =>
          let w := w32 (sigma1 (List.nth 13 rest 0) + List.nth 8 rest 0
                        + sigma0 (List.nth 0 rest 0) + w16) in
          w :: schedule n' (rest ++ [w])
      | [] => []
      end
  end.

Record regs : Type := Regs { ra : Z; rb : Z; rc : Z; rd : Z; re : Z; rf : Z; rg : Z; rh : Z }.

Definition round (s : regs) (kw : Z * Z) : regs :=
  let t1 := rh s + Sigma1 (re s) + Ch (re s) (rf s) (rg s) + fst kw + snd kw in
  let t2 := Sigma0 (ra s) + Maj (ra s) (rb s) (rc s) in
  Regs (w32 (t1 + t2)) (ra s) (rb s) (rc s) (w32 (rd s + t1)) (re s) (rf s) (rg s).

Definition compress (h : regs) (block : bytes) : regs :=
  let w16 := words_of_bytes block in
  let w := w16 ++ schedule 48 w16 in
  let s := List.fold_left round (List.combine K256 w) h in
  Regs (w32 (ra h + ra s)) (w32 (rb h + rb s)) (w32 (rc h + rc s)) (w32 (rd h + rd s))
       (w32 (re h + re s)) (w32 (rf h + rf s)) (w32 (rg h + rg s)) (w32 (rh h + rh s)).

Definition init_regs : regs :=
  Eval vm_compute in
    Regs (square_fraction 2) (square_fraction 3) (square_fraction 5) (square_fraction 7)
         (square_fraction 11) (square_fraction 13) (square_fraction 17) (square_fraction 19).

(** The 32 bytes of the digest; the first is the top byte of register a. *)
Definition digest_of (s : regs) : Z * bytes :=
  (Z.land (Z.shiftr (ra s) 24) 0xFF,
   List.tl (bytes_of_word (ra s)) ++ bytes_of_word (rb s) ++ bytes_of_word (rc s)
     ++ bytes_of_word (rd s) ++ bytes_of_word (re s) ++ bytes_of_word (rf s)
     ++ bytes_of_word (rg s) ++ bytes_of_word (rh s)).

Definition sha256_regs (msg : bytes) : regs :=
  let p := pad msg in
  List.fold_left compress (blocks (List.length p) p) init_regs.

Definition sha256_bytes (msg : bytes) : bytes :=
  let d := digest_of (sha256_regs msg) in fst d :: snd d.

Definition hex_digit (n : Z) : ascii :=
  ascii_of_N (Z.to_N (if n <? 10 then 48 + n else 87 + n)).

Fixpoint hex (l : bytes) : string :=
  match l with
  | [] => EmptyString
  | b :: l' => String (hex_digit (Z.shiftr b 4)) (String (hex_digit (Z.land b 15)) (hex l'))
  end.

(** [crypto.createHash('sha256').update(message).digest('hex')] *)
Definition sha256 (message : string) : string :=
  hex (sha256_bytes (bytes_of_string message)).

(** The HMAC key block: a key longer than a block is hashed first. *)
Definition hmac_key (key : bytes) : bytes :=
  let k := if (64 <? Z.of_nat (List.length key)) then sha256_bytes key else key in
  k ++ List.repeat 0 (64 - List.length k).

(** The registers of the outer hash of HMAC-SHA256. *)
Definition hmac_regs (key message : string) : regs :=
  let k := hmac_key (bytes_of_string key) in
  let inner := sha256_bytes (List.map (Z.lxor 0x36) k ++ bytes_of_string message) in
  sha256_regs (List.map (Z.lxor 0x5c) k ++ inner).

(** [crypto.createHmac('sha256', key).update(message).digest()]: a Buffer
    of 32 bytes, given as its first byte and the 31 that follow. *)
Definition hmacSha256Buffer (key message : string) : Z * bytes :=
  digest_of (hmac_regs key message).

(** [crypto.createHmac('sha256', key).update(message).digest('hex')] *)
Definition hmacSha256 (key message : string) : string :=
  let d := hmacSha256Buffer key message in hex (fst d :: snd d).

End Crypto.


(* ================================================================== *)
(** * [Map]: an insertion-ordered association list *)
(* ================================================================== *)

Module JsMap.

Local Open Scope list_scope.

Definition t (V : Type) : Type := list (string * V).

Definition empty {V : Type} : t V := [].

(** [m.get(k)]; [None] is [undefined]. *)
Fixpoint get {V : Type} (k : string) (m : t V) : option V :=
  match m with
  | [] => None
  | (k', v) :: m' => if String.eqb k k' then Some v else get k m'
  end.

(** [m.has(k)] *)
Definition has {V : Type} (k : string) (m : t V) : bool :=
  match get k m with Some _ => true | None => false end.

(** [m.set(k, v)]: a present key keeps its place, a new one goes last. *)
Fixpoint set {V : Type} (k : string) (v : V) (m : t V) : t V :=
  match m with
  | [] => [(k, v)]
  | (k', v') :: m' =>
      if String.eqb k k' then (k', v) :: m' else (k', v') :: set k v m'
  end.

(** [m.delete(k)] *)
Fixpoint delete {V : Type} (k : string) (m : t V) : t V :=
  match m with
  | [] => []
  | (k', v') :: m' =>
      if String.eqb k k' then delete k m' else (k', v') :: delete k m'
  end.

(** [m.size] *)
Definition size {V : Type} (m : t V) : N := N.of_nat (List.length m).

Definition keys {V : Type} (m : t V) : list string := List.map fst m.

End JsMap.

(* ================================================================== *)
(** * [config.js] *)
(* ================================================================== *)

Module Config.

(* GAME *)
Definition ROUND_DELAY_MS : Z := 2000.
Definition BETTING_PHASE_MS : Z := 60000.
Definition RESULT_REVEAL_MS : Z := 5000.
Definition MIN_BET : float := 1%float.
Definition MAX_BET : float := 100000000000%float.
Definition PAYOUT_MULTIPLIER : float := 1.95%float.
Definition EDGE_MULTIPLIER : float := 10.0%float.
Definition PROBABILITY_HEADS : float := 48.65%float.
Definition PROBABILITY_TAILS : float := 48.65%float.
Definition PROBABILITY_EDGE : float := 2.7%float.

(* CALLBACK *)
Definition TIMEOUT_MS : Z := 10000.
Definition RETRY_ATTEMPTS : N := 3.
Definition RETRY_DELAY_MS : Z := 1000.

(* SESSION *)
Definition EXPIRY_MS : Z := 24 * 60 * 60 * 1000.

End Config.

(* ================================================================== *)
(** * The data model *)
(* ================================================================== *)

(** The [status] of a round. *)
Inductive Status : Type := pending | betting | revealing | finished.

Definition Status_eqb (a b : Status) : bool :=
  match a, b with
  | pending, pending | betting, betting
  | revealing, revealing | finished, finished => true
  | _, _ => false
  end.

Definition Status_label (s : Status) : string :=
  match s with
  | pending => "pending"
  | betting => "betting"
  | revealing => "revealing"
  | finished => "finished"
  end.

(** An entry of the bet ledger ([addBet]). *)
Module Bet.
Record t : Type := mk {
  playerId : string;
  sessionId : string;
  amount : float;
  choice : string;
  placedAt : Z
}.
End Bet.

(** An entry of [round.winners] and of [round.losers] ([calculateResults]). *)
Module Winner.
Record t : Type := mk { betAmount : float; winAmount : float; choice : string }.
End Winner.

Module Loser.
Record t : Type := mk { betAmount : float; choice : string }.
End Loser.

(** The round object of [generateRound]. *)
Module Round.
Record t : Type := mk {
  id : string;
  serverSeed : string;
  serverSeedHash : string;
  clientSeed : string;
  nonce : N;
  result : string;
  startTime : option Z;
  endTime : option Z;
  status : Status;
  bets : JsMap.t Bet.t;
  winners : JsMap.t Winner.t;
  losers : JsMap.t Loser.t
}.

Definition with_status (s : Status) (r : t) : t :=
  mk (id r) (serverSeed r) (serverSeedHash r) (clientSeed r) (nonce r) (result r)
     (startTime r) (endTime r) s (bets r) (winners r) (losers r).
Definition with_startTime (x : option Z) (r : t) : t :=
  mk (id r) (serverSeed r) (serverSeedHash r) (clientSeed r) (nonce r) (result r)
     x (endTime r) (status r) (bets r) (winners r) (losers r).
Definition with_endTime (x : option Z) (r : t) : t :=
  mk (id r) (serverSeed r) (serverSeedHash r) (clientSeed r) (nonce r) (result r)
     (startTime r) x (status r) (bets r) (winners r) (losers r).
Definition with_bets (x : JsMap.t Bet.t) (r : t) : t :=
  mk (id r) (serverSeed r) (serverSeedHash r) (clientSeed r) (nonce r) (result r)
     (startTime r) (endTime r) (status r) x (winners r) (losers r).
Definition with_winners (x : JsMap.t Winner.t) (r : t) : t :=
  mk (id r) (serverSeed r) (serverSeedHash r) (clientSeed r) (nonce r) (result r)
     (startTime r) (endTime r) (status r) (bets r) x (losers r).
Definition with_losers (x : JsMap.t Loser.t) (r : t) : t :=
  mk (id r) (serverSeed r) (serverSeedHash r) (clientSeed r) (nonce r) (result r)
     (startTime r) (endTime r) (status r) (bets r) (winners r) x.
End Round.

(** An entry of [roundHistory] ([finishRound]). *)
Module Archived.
Record t : Type := mk {
  id : string;
  result : string;
  serverSeed : string;
  serverSeedHash : string;
  clientSeed : string;
  nonce : N;
  startTime : option Z;
  endTime : option Z;
  winnersCount : N;
  losersCount : N
}.
End Archived.

(** What [getCurrentRound] hands out. [result = None] is [null]. *)
Module RoundView.
Record t : Type := mk {
  id : string;
  status : Status;
  result : option string;
  serverSeedHash : string;
  clientSeed : string;
  nonce : N;
  betsCount : N;
  startTime : option Z
}.
End RoundView.

(** The fields of [SeedManager]. *)
Module Seed.
Record t : Type := mk {
  chainLength : N;
  currentIndex : N;
  seedChain : list string;
  clientSeed : string;
  initialHash : string;
  nonce : N
}.
End Seed.

(** The fields of [FlipEngine]; its listeners are the trace of the world. *)
Module Engine.
Record t : Type := mk {
  currentRound : option Round.t;
  roundHistory : list Archived.t
}.
End Engine.

(** A session of [SessionService]. *)
Module Session.
Record t : Type := mk {
  sessionId : string;
  playerId : string;
  currency : string;
  token : string;
  callbackBaseUrl : string;
  createdAt : Z;
  expiresAt : Z;
  balance : Js.value;
  isConnected : bool;
  gameSocketId : option string;
  controlsSocketId : option string
}.

Definition with_balance (b : Js.value) (s : t) : t :=
  mk (sessionId s) (playerId s) (currency s) (token s) (callbackBaseUrl s)
     (createdAt s) (expiresAt s) b (isConnected s) (gameSocketId s) (controlsSocketId s).
Definition with_isConnected (c : bool) (s : t) : t :=
  mk (sessionId s) (playerId s) (currency s) (token s) (callbackBaseUrl s)
     (createdAt s) (expiresAt s) (balance s) c (gameSocketId s) (controlsSocketId s).

Definition with_gameSocketId (g : option string) (s : t) : t :=
  mk (sessionId s) (playerId s) (currency s) (token s) (callbackBaseUrl s)
     (createdAt s) (expiresAt s) (balance s) (isConnected s) g (controlsSocketId s).

Definition with_controlsSocketId (c : option string) (s : t) : t :=
  mk (sessionId s) (playerId s) (currency s) (token s) (callbackBaseUrl s)
     (createdAt s) (expiresAt s) (balance s) (isConnected s) (gameSocketId s) c.

End Session.

(** The fields of [SessionService]. *)
Module Directory.
Record t : Type := mk {
  sessions : JsMap.t Session.t;
  playerSessions : JsMap.t string
}.
End Directory.

(** An entry of [BetService.activeBets]. *)
Module ActiveBet.
Record t : Type := mk {
  bet : Bet.t;
  transactionId : Js.value;
  roundId : string;
  callbackBaseUrl : string;
  currency : string
}.
End ActiveBet.

(** The state of the Node process: the singletons, the clock that
    [Date.now()] reads, and how many values were drawn from [crypto]'s
    random source. *)
Record Process : Type := mkProcess {
  clock : Z;
  drawn : nat;
  seedManager : Seed.t;
  flipEngine : Engine.t;
  sessionService : Directory.t;
  pendingTransactions : JsMap.t Js.object;   (* CallbackService *)
  activeBets : JsMap.t ActiveBet.t;          (* BetService *)
  isRunning : bool                           (* RoundService *)
}.

Definition with_clock (x : Z) (p : Process) : Process :=
  mkProcess x (drawn p) (seedManager p) (flipEngine p) (sessionService p)
            (pendingTransactions p) (activeBets p) (isRunning p).
Definition with_drawn (x : nat) (p : Process) : Process :=
  mkProcess (clock p) x (seedManager p) (flipEngine p) (sessionService p)
            (pendingTransactions p) (activeBets p) (isRunning p).
Definition with_seedManager (x : Seed.t) (p : Process) : Process :=
  mkProcess (clock p) (drawn p) x (flipEngine p) (sessionService p)
            (pendingTransactions p) (activeBets p) (isRunning p).
Definition with_flipEngine (x : Engine.t) (p : Process) : Process :=
  mkProcess (clock p) (drawn p) (seedManager p) x (sessionService p)
            (pendingTransactions p) (activeBets p) (isRunning p).
Definition with_sessionService (x : Directory.t) (p : Process) : Process :=
  mkProcess (clock p) (drawn p) (seedManager p) (flipEngine p) x
            (pendingTransactions p) (activeBets p) (isRunning p).
Definition with_pendingTransactions (x : JsMap.t Js.object) (p : Process) : Process :=
  mkProcess (clock p) (drawn p) (seedManager p) (flipEngine p) (sessionService p)
            x (activeBets p) (isRunning p).
Definition with_activeBets (x : JsMap.t ActiveBet.t) (p : Process) : Process :=
  mkProcess (clock p) (drawn p) (seedManager p) (flipEngine p) (sessionService p)
            (pendingTransactions p) x (isRunning p).
Definition with_isRunning (x : bool) (p : Process) : Process :=
  mkProcess (clock p) (drawn p) (seedManager p) (flipEngine p) (sessionService p)
            (pendingTransactions p) (activeBets p) x.

(** The body of an HTTP response, after [response.json()]. *)
Inductive Body : Type :=
| BNull                       (* the JSON text null *)
| BPrimitive                  (* a JSON number, string or boolean *)
| BObject (o : Js.object).

(** What one [fetch] of the platform comes to. *)
Inductive Reply : Type :=
| Failed (reason : string)    (* network error, timeout, or a body that is no JSON *)
| Http (code : Z) (body : Body).

(** What leaves the process, in the order it happened. *)
Inductive Effect : Type :=
| HttpPost (url : string) (payload : Js.object)   (* a [fetch] of the platform *)
| Wait (ms : Z)                                   (* a [setTimeout] that is awaited *)
| Emit (event : string) (payload : Js.object)     (* an engine event, broadcast to both namespaces *)
| SocketEmit (socket : string) (event : string) (payload : Js.object). (* to one client *)

(** The world a task runs in.  [entropy k] is the k-th value [crypto] draws;
    [network k] answers the task's k-th [fetch]; [concurrent k] is what the
    other tasks of the event loop (timers, other players' messages) do to the
    process while this task is suspended at its k-th [await]. *)
Record World : Type := mkWorld {
  proc : Process;
  entropy : nat -> string;
  network : nat -> Reply;
  fetched : nat;
  concurrent : nat -> Process -> Process;
  awaited : nat;
  trace : list Effect
}.

Definition with_proc (x : Process) (w : World) : World :=
  mkWorld x (entropy w) (network w) (fetched w) (concurrent w) (awaited w) (trace w).
Definition with_fetched (x : nat) (w : World) : World :=
  mkWorld (proc w) (entropy w) (network w) x (concurrent w) (awaited w) (trace w).
Definition with_awaited (x : nat) (w : World) : World :=
  mkWorld (proc w) (entropy w) (network w) (fetched w) (concurrent w) x (trace w).
Definition with_trace (x : list Effect) (w : World) : World :=
  mkWorld (proc w) (entropy w) (network w) (fetched w) (concurrent w) (awaited w) x.

(* ================================================================== *)
(** * The monad of service methods *)
(* ================================================================== *)

(** [new Error(message)] *)
Record JsError : Type := Error { message : string }.

Inductive Result (A : Type) : Type :=
| Ok (a : A)
| Throw (e : JsError).
Arguments Ok {A} a.
Arguments Throw {A} e.

Definition M (A : Type) : Type := World -> Result A * World.

Definition ret {A : Type} (a : A) : M A := fun w => (Ok a, w).

Definition bind {A B : Type} (m : M A) (k : A -> M B) : M B :=
  fun w => match m w with
           | (Ok a, w') => k a w'
           | (Throw e, w') => (Throw e, w')
           end.

Definition throw {A : Type} (e : JsError) : M A := fun w => (Throw e, w).

(** [try { m } catch (error) { h error }] *)
Definition try_catch {A : Type} (m : M A) (h : JsError -> M A) : M A :=
  fun w => match m w with
           | (Ok a, w') => (Ok a, w')
           | (Throw e, w') => h e w'
           end.

Declare Scope monad_scope.
Delimit Scope monad_scope with monad.
Notation "x <- m ;; k" := (bind m (fun x => k))
  (at level 61, m at next level, right associativity) : monad_scope.
Notation "m ;;; k" := (bind m (fun _ => k))
  (at level 61, right associativity) : monad_scope.
Local Open Scope monad_scope.

Definition gets {A : Type} (f : Process -> A) : M A := fun w => (Ok (f (proc w)), w).

Definition modify (f : Process -> Process) : M unit :=
  fun w => (Ok tt, with_proc (f (proc w)) w).

Definition record (e : Effect) : M unit :=
  fun w => (Ok tt, with_trace (trace w ++ [e])%list w).

(** [Date.now()] *)
Definition dateNow : M Z := gets clock.

(** A suspension of the task: the rest of the event loop runs. *)
Definition await : M unit :=
  fun w => (Ok tt, with_awaited (S (awaited w)) (with_proc (concurrent w (awaited w) (proc w)) w)).

(** [generateRandomHex(bytes)] and [crypto.randomUUID()]: the next value of
    the random source. *)
Definition generateRandomHex (bytes : N) : M string :=
  fun w => (Ok (entropy w (drawn (proc w))),
            with_proc (with_drawn (S (drawn (proc w))) (proc w)) w).

Definition randomUUID : M string := generateRandomHex 16.

(* ================================================================== *)
(** * [util/hmac.js]: the check of a platform signature *)
(* ================================================================== *)

Module Hmac.

Local Open Scope list_scope.

(** The value of a hexadecimal digit, in either case. *)
Definition unhex (c : ascii) : option Z :=
  let n := Z.of_N (N_of_ascii c) in
  if (48 <=? n) && (n <=? 57) then Some (n - 48)
  else if (97 <=? n) && (n <=? 102) then Some (n - 87)
  else if (65 <=? n) && (n <=? 70) then Some (n - 55)
  else None.

(** [Buffer.from(s, 'hex')]: the bytes of the pairs of digits, up to the
    first pair that is not hexadecimal; a last digit alone is dropped. *)
Fixpoint hex_decode (s : string) : Crypto.bytes :=
  match s with
  | String a (String b s') =>
      match unhex a, unhex b with
      | Some x, Some y => (x * 16 + y) :: hex_decode s'
      | _, _ => []
      end
  | _ => []
  end.

Fixpoint same_bytes (a b : Crypto.bytes) : bool :=
  match a, b with
  | [], [] => true
  | x :: a', y :: b' => (x =? y) && same_bytes a' b'
  | _, _ => false
  end.

(** [crypto.timingSafeEqual(a, b)]: a [RangeError] when the lengths differ. *)
Definition timingSafeEqual (a b : Crypto.bytes) : Result bool :=
  if Nat.eqb (List.length a) (List.length b) then Ok (same_bytes a b)
  else Throw (Error "Input buffers must have the same byte length").

(** [validateSignature(providerSecret, playerId, token, timestamp,
    signature)], all of them strings. *)
Definition validateSignature (providerSecret playerId token timestamp signature : string)
  : Result bool :=
  let message := (playerId ++ token ++ timestamp)%string in
  let expectedSignature := Crypto.hmacSha256 providerSecret message in
  timingSafeEqual (hex_decode signature) (hex_decode expectedSignature).

End Hmac.

(* ================================================================== *)
(** * [engine/seeds.js]: SeedManager *)
(* ================================================================== *)

Module SeedManager.

Local Open Scope list_scope.

(** [constructor()] *)
Definition constructor : Seed.t := Seed.mk 10000 0 [] "" "" 0.

(** The loop of [initialize]: [k] more rounds of
    [currentSeed = sha256(currentSeed); seedChain.push(currentSeed)]. *)
Fixpoint extend (k : nat) (currentSeed : string) (seedChain : list string) : list string :=
  match k with
  | O => seedChain
  | S k' =>
      let currentSeed' := Crypto.sha256 currentSeed in
      extend k' currentSeed' (seedChain ++ [currentSeed'])
  end.

(** [initialize()].  The loop variable runs over [1 <= i < chainLength]. *)
Definition initialize : M (string * string) :=
  currentSeed <- generateRandomHex 32 ;;
  sm <- gets seedManager ;;
  let seedChain :=
    List.rev (extend (N.to_nat (N.pred (Seed.chainLength sm))) currentSeed [currentSeed]) in
  let initialHash := List.hd "" seedChain in
  clientSeed <- generateRandomHex 32 ;;
  modify (with_seedManager
            (Seed.mk (Seed.chainLength sm) 0 seedChain clientSeed initialHash 0)) ;;;
  ret (initialHash, clientSeed).

(** [currentIndex >= seedChain.length] *)
Definition exhausted (sm : Seed.t) : bool :=
  (N.of_nat (List.length (Seed.seedChain sm)) <=? Seed.currentIndex sm)%N.

(** [getCurrentServerSeed()].  The index is in range when the chain is read
    (a chain has at least one element), so the default is never returned. *)
Definition getCurrentServerSeed : M string :=
  sm <- gets seedManager ;;
  (if exhausted sm then initialize ;;; ret tt else ret tt) ;;;
  sm <- gets seedManager ;;
  ret (List.nth (N.to_nat (Seed.currentIndex sm)) (Seed.seedChain sm) "").

(** [advanceToNextSeed()] *)
Definition advanceToNextSeed : M unit :=
  modify (fun p =>
    let sm := seedManager p in
    with_seedManager
      (Seed.mk (Seed.chainLength sm) (Seed.currentIndex sm + 1)%N (Seed.seedChain sm)
               (Seed.clientSeed sm) (Seed.initialHash sm) (Seed.nonce sm + 1)%N) p) ;;;
  sm <- gets seedManager ;;
  if exhausted sm then initialize ;;; ret tt else ret tt.

(** [getNonce()] *)
Definition getNonce : M N := gets (fun p => Seed.nonce (seedManager p)).

(** [getClientSeed()] *)
Definition getClientSeed : M string := gets (fun p => Seed.clientSeed (seedManager p)).

(** [getPublicData()] *)
Definition getPublicData : M Js.object :=
  sm <- gets seedManager ;;
  ret [ ("publicHash", Js.Str (Seed.initialHash sm));
        ("clientSeed", Js.Str (Seed.clientSeed sm));
        ("nonce", Js.Int (Z.of_N (Seed.nonce sm)));
        ("gamesRemaining", Js.Int (Z.of_N (Seed.chainLength sm) - Z.of_N (Seed.currentIndex sm))) ].

(** [setClientSeed(newClientSeed)] *)
Definition setClientSeed (newClientSeed : string) : M unit :=
  modify (fun p =>
    let sm := seedManager p in
    with_seedManager
      (Seed.mk (Seed.chainLength sm) (Seed.currentIndex sm) (Seed.seedChain sm)
               newClientSeed (Seed.initialHash sm) (Seed.nonce sm)) p).

End SeedManager.

(* ================================================================== *)
(** * [engine/flipEngine.js]: FlipEngine *)
(* ================================================================== *)

Module FlipEngine.

Local Open Scope list_scope.

(** [constructor()] *)
Definition constructor : Engine.t := Engine.mk None [].

(** [emit(event, data)]: the listeners that RoundService registers forward
    the event to both namespaces. *)
Definition emit (event : string) (data : Js.object) : M unit := record (Emit event data).

(** [calculateFlipResult], from [hash[0]] on. *)
Definition outcome_of_byte (firstByte : Z) : string :=
  let probHeads := Config.PROBABILITY_HEADS in
  let probTails := Config.PROBABILITY_TAILS in
  let percentage := PrimFloat.mul (PrimFloat.div (Js.of_byte firstByte) 255%float) 100%float in
  if PrimFloat.ltb percentage probHeads then "HEADS"
  else if PrimFloat.ltb percentage (PrimFloat.add probHeads probTails) then "TAILS"
  else "EDGE".

(** [calculateFlipResult(serverSeed, clientSeed, nonce)] *)
Definition calculateFlipResult (serverSeed clientSeed : string) (nonce : N) : string :=
  let message := (clientSeed ++ ":" ++ Js.show_N nonce)%string in
  let hash := Crypto.hmacSha256Buffer serverSeed message in
  let firstByte := fst hash in
  outcome_of_byte firstByte.

Definition set_currentRound (r : option Round.t) (p : Process) : Process :=
  with_flipEngine (Engine.mk r (Engine.roundHistory (flipEngine p))) p.

Definition currentRound : M (option Round.t) :=
  gets (fun p => Engine.currentRound (flipEngine p)).

(** [generateRound()] *)
Definition generateRound : M Round.t :=
  serverSeed <- SeedManager.getCurrentServerSeed ;;
  clientSeed <- SeedManager.getClientSeed ;;
  nonce <- SeedManager.getNonce ;;
  let result := calculateFlipResult serverSeed clientSeed nonce in
  now <- dateNow ;;
  let round :=
    Round.mk ("F-" ++ Js.show_Z now ++ "-" ++ Js.show_N nonce)%string
             serverSeed (Crypto.sha256 serverSeed) clientSeed nonce result
             None None pending JsMap.empty JsMap.empty JsMap.empty in
  modify (set_currentRound (Some round)) ;;;
  ret round.

(** [startBettingPhase()] *)
Definition startBettingPhase : M Round.t :=
  cur <- currentRound ;;
  r <- match cur with
       | None => generateRound
       | Some r => ret r
       end ;;
  let r := Round.with_status betting r in
  modify (set_currentRound (Some r)) ;;;
  emit "betting_phase"
       [ ("roundId", Js.Str (Round.id r));
         ("serverSeedHash", Js.Str (Round.serverSeedHash r));
         ("clientSeed", Js.Str (Round.clientSeed r));
         ("nonce", Js.Int (Z.of_N (Round.nonce r)));
         ("duration", Js.Int Config.BETTING_PHASE_MS) ] ;;;
  ret r.

(** One turn of the loop of [calculateResults]. *)
Definition settle (r : Round.t) (entry : string * Bet.t) : Round.t :=
  let (playerId, bet) := entry in
  if String.eqb (Bet.choice bet) (Round.result r) then
    let multiplier :=
      if String.eqb (Round.result r) "EDGE"
      then Config.EDGE_MULTIPLIER else Config.PAYOUT_MULTIPLIER in
    let winAmount :=
      PrimFloat.div
        (Js.floor (PrimFloat.mul (PrimFloat.mul (Bet.amount bet) multiplier) 100%float))
        100%float in
    Round.with_winners
      (JsMap.set playerId (Winner.mk (Bet.amount bet) winAmount (Bet.choice bet))
                 (Round.winners r)) r
  else
    Round.with_losers
      (JsMap.set playerId (Loser.mk (Bet.amount bet) (Bet.choice bet)) (Round.losers r)) r.

(** [calculateResults()] *)
Definition calculateResults : M unit :=
  cur <- currentRound ;;
  match cur with
  | None => ret tt
  | Some r => modify (set_currentRound (Some (List.fold_left settle (Round.bets r) r)))
  end.

(** [startReveal()] *)
Definition startReveal : M Round.t :=
  cur <- currentRound ;;
  match cur with
  | None => throw (Error "No round in betting phase")
  | Some r =>
      if negb (Status_eqb (Round.status r) betting)
      then throw (Error "No round in betting phase")
      else
        now <- dateNow ;;
        modify (set_currentRound
                  (Some (Round.with_startTime (Some now) (Round.with_status revealing r)))) ;;;
        calculateResults ;;;
        cur <- currentRound ;;   (* [this.currentRound], still the round *)
        match cur with
        | None => throw (Error "Cannot read properties of null (reading 'id')")
        | Some r =>
            emit "round_reveal"
                 [ ("roundId", Js.Str (Round.id r));
                   ("result", Js.Str (Round.result r));
                   ("serverSeedHash", Js.Str (Round.serverSeedHash r));
                   ("startTime", Js.Int now) ] ;;;
            ret r
        end
  end.

(** What [finishRound] returns. *)
Record Finished : Type := mkFinished {
  round : Round.t;
  winners : list (string * Winner.t);
  losers : list (string * Loser.t);
  verification : Js.object
}.

(** [roundHistory.unshift(entry)], then [pop()] beyond 50 entries. *)
Definition archive (entry : Archived.t) (history : list Archived.t) : list Archived.t :=
  let history' := entry :: history in
  if (50 <? Z.of_nat (List.length history')) then List.removelast history' else history'.

(** [finishRound()]; [None] is [null]. *)
Definition finishRound : M (option Finished) :=
  cur <- currentRound ;;
  match cur with
  | None => ret None
  | Some r =>
      now <- dateNow ;;
      let r := Round.with_endTime (Some now) (Round.with_status finished r) in
      modify (set_currentRound (Some r)) ;;;
      let verificationData :=
        [ ("roundId", Js.Str (Round.id r));
          ("result", Js.Str (Round.result r));
          ("serverSeed", Js.Str (Round.serverSeed r));
          ("serverSeedHash", Js.Str (Round.serverSeedHash r));
          ("clientSeed", Js.Str (Round.clientSeed r));
          ("nonce", Js.Int (Z.of_N (Round.nonce r))) ] in
      emit "round_finished" verificationData ;;;
      let entry :=
        Archived.mk (Round.id r) (Round.result r) (Round.serverSeed r)
                    (Round.serverSeedHash r) (Round.clientSeed r) (Round.nonce r)
                    (Round.startTime r) (Round.endTime r)
                    (JsMap.size (Round.winners r)) (JsMap.size (Round.losers r)) in
      modify (fun p =>
        with_flipEngine
          (Engine.mk (Engine.currentRound (flipEngine p))
                     (archive entry (Engine.roundHistory (flipEngine p)))) p) ;;;
      SeedManager.advanceToNextSeed ;;;
      modify (set_currentRound None) ;;;
      ret (Some (mkFinished r (Round.winners r) (Round.losers r) verificationData))
  end.

(** [choice !== 'HEADS' && choice !== 'TAILS' && choice !== 'EDGE'] *)
Definition invalid_choice (choice : string) : bool :=
  negb (String.eqb choice "HEADS") && negb (String.eqb choice "TAILS")
  && negb (String.eqb choice "EDGE").

(** [addBet(playerId, amount, choice, sessionId)] *)
Definition addBet (playerId : string) (amount : float) (choice sessionId : string) : M Bet.t :=
  cur <- currentRound ;;
  match cur with
  | None => throw (Error "No active round")
  | Some r =>
      if negb (Status_eqb (Round.status r) betting)
      then throw (Error "Betting phase has ended")
      else if invalid_choice choice
      then throw (Error "Invalid choice. Must be HEADS, TAILS, or EDGE")
      else if JsMap.has playerId (Round.bets r)
      then throw (Error "Already placed a bet this round")
      else
        now <- dateNow ;;
        let bet := Bet.mk playerId sessionId amount choice now in
        modify (set_currentRound
                  (Some (Round.with_bets (JsMap.set playerId bet (Round.bets r)) r))) ;;;
        ret bet
  end.

(** [getCurrentRound()]; [None] is [null]. *)
Definition getCurrentRound : M (option RoundView.t) :=
  cur <- currentRound ;;
  match cur with
  | None => ret None
  | Some r =>
      ret (Some (RoundView.mk
                   (Round.id r)
                   (Round.status r)
                   (if Status_eqb (Round.status r) revealing
                       || Status_eqb (Round.status r) finished
                    then Some (Round.result r) else None)
                   (Round.serverSeedHash r)
                   (Round.clientSeed r)
                   (Round.nonce r)
                   (JsMap.size (Round.bets r))
                   (Round.startTime r)))
  end.

(** [getHistory(limit = 20)]: [roundHistory.slice(0, limit)].  The limit
    is an integer, which is what the callers pass; [None] is a call
    without it. *)
Definition getHistory (limit : option Z) : M (list Archived.t) :=
  let limit := match limit with Some limit => limit | None => 20 end in
  gets (fun p => Js.slice_to limit (Engine.roundHistory (flipEngine p))).

(** [getPlayerBet(playerId)]; [None] is [null]. *)
Definition getPlayerBet (playerId : string) : M (option Bet.t) :=
  cur <- currentRound ;;
  match cur with
  | None => ret None
  | Some r => ret (JsMap.get playerId (Round.bets r))
  end.

(** [didPlayerWin(playerId)]; [None] is [null]. *)
Definition didPlayerWin (playerId : string) : M (option bool) :=
  cur <- currentRound ;;
  match cur with
  | None => ret None
  | Some r =>
      if Status_eqb (Round.status r) betting then ret None
      else ret (Some (JsMap.has playerId (Round.winners r)))
  end.

(** [getPlayerWinAmount(playerId)]; [None] is [null]. *)
Definition getPlayerWinAmount (playerId : string) : M (option float) :=
  cur <- currentRound ;;
  match cur with
  | None => ret None
  | Some r => ret (option_map Winner.winAmount (JsMap.get playerId (Round.winners r)))
  end.

End FlipEngine.

(* ================================================================== *)
(** * [services/sessionService.js]: SessionService *)
(* ================================================================== *)

Module SessionService.

Local Open Scope list_scope.

(** [constructor()] *)
Definition constructor : Directory.t := Directory.mk JsMap.empty JsMap.empty.

Definition set_sessions (m : JsMap.t Session.t) (p : Process) : Process :=
  with_sessionService (Directory.mk m (Directory.playerSessions (sessionService p))) p.

Definition set_playerSessions (m : JsMap.t string) (p : Process) : Process :=
  with_sessionService (Directory.mk (Directory.sessions (sessionService p)) m) p.

(** [!s] on a string *)
Definition blank (s : string) : bool := String.eqb s "".

(** [createSession({ playerId, currency, token, timestamp, signature,
    callbackBaseUrl })]; the signature check is commented out in the source. *)
Definition createSession (playerId currency token callbackBaseUrl : string) : M Js.object :=
  if blank playerId || blank currency || blank token || blank callbackBaseUrl
  then throw (Error "Missing required fields")
  else
    dir <- gets sessionService ;;
    match JsMap.get playerId (Directory.playerSessions dir) with
    | Some existingSessionId =>
        if blank existingSessionId then ret tt
        else modify (fun p =>
               set_sessions (JsMap.delete existingSessionId
                               (Directory.sessions (sessionService p))) p)
    | None => ret tt
    end ;;;
    uuid <- randomUUID ;;
    let sessionId := ("SESSION-" ++ uuid)%string in
    createdAt <- dateNow ;;
    now <- dateNow ;;
    let session :=
      Session.mk sessionId playerId currency token callbackBaseUrl
                 createdAt (now + Config.EXPIRY_MS) (Js.Int 0) false None None in
    modify (fun p =>
      set_sessions (JsMap.set sessionId session (Directory.sessions (sessionService p))) p) ;;;
    modify (fun p =>
      set_playerSessions
        (JsMap.set playerId sessionId (Directory.playerSessions (sessionService p))) p) ;;;
    ret [ ("sessionId", Js.Str sessionId);
          ("gameUrl", Js.Str ("/game-iframe?sessionId=" ++ sessionId));
          ("controlsUrl", Js.Str ("/controls-iframe?sessionId=" ++ sessionId)) ].

(** [destroySession(sessionId)] *)
Definition destroySession (sessionId : string) : M unit :=
  dir <- gets sessionService ;;
  match JsMap.get sessionId (Directory.sessions dir) with
  | Some session =>
      modify (fun p =>
        set_playerSessions
          (JsMap.delete (Session.playerId session)
                        (Directory.playerSessions (sessionService p))) p) ;;;
      modify (fun p =>
        set_sessions (JsMap.delete sessionId (Directory.sessions (sessionService p))) p)
  | None => ret tt
  end.

(** [getSession(sessionId)]; [None] is [null]. *)
Definition getSession (sessionId : string) : M (option Session.t) :=
  dir <- gets sessionService ;;
  match JsMap.get sessionId (Directory.sessions dir) with
  | None => ret None
  | Some session =>
      now <- dateNow ;;
      if Session.expiresAt session <? now
      then destroySession sessionId ;;; ret None
      else ret (Some session)
  end.

(** [getSessionByPlayerId(playerId)] *)
Definition getSessionByPlayerId (playerId : string) : M (option Session.t) :=
  dir <- gets sessionService ;;
  match JsMap.get playerId (Directory.playerSessions dir) with
  | None => ret None
  | Some sessionId => if blank sessionId then ret None else getSession sessionId
  end.

(** [validateSession(sessionId)] *)
Definition validateSession (sessionId : string) : M Session.t :=
  session <- getSession sessionId ;;
  match session with
  | None => throw (Error "Invalid or expired session")
  | Some session => ret session
  end.

(** [updateBalance(sessionId, balance)] *)
Definition updateBalance (sessionId : string) (balance : Js.value) : M unit :=
  dir <- gets sessionService ;;
  match JsMap.get sessionId (Directory.sessions dir) with
  | Some session =>
      modify (fun p =>
        set_sessions (JsMap.set sessionId (Session.with_balance balance session)
                                (Directory.sessions (sessionService p))) p)
  | None => ret tt
  end.

(** [getBalance(sessionId)]; [None] is [null]. *)
Definition getBalance (sessionId : string) : M (option Js.value) :=
  dir <- gets sessionService ;;
  ret (option_map Session.balance (JsMap.get sessionId (Directory.sessions dir))).

(** The first loop of [cleanupExpiredSessions]: the ids to destroy. *)
Definition expired_ids (now : Z) (sessions : JsMap.t Session.t) : list string :=
  List.map fst (List.filter (fun e => Session.expiresAt (snd e) <? now) sessions).

(** [ids.forEach(f)] *)
Fixpoint forEach {A : Type} (l : list A) (f : A -> M unit) : M unit :=
  match l with
  | [] => ret tt
  | a :: l' => f a ;;; forEach l' f
  end.

(** [cleanupExpiredSessions()] *)
Definition cleanupExpiredSessions : M unit :=
  now <- dateNow ;;
  dir <- gets sessionService ;;
  let expired := expired_ids now (Directory.sessions dir) in
  forEach expired destroySession.

(** [setGameSocket(sessionId, socketId)]: the session object is written in
    place, so the entry keeps its key and its position in the map. *)
Definition setGameSocket (sessionId socketId : string) : M unit :=
  dir <- gets sessionService ;;
  match JsMap.get sessionId (Directory.sessions dir) with
  | Some session =>
      modify (fun p =>
        set_sessions
          (JsMap.set sessionId
             (Session.with_isConnected true (Session.with_gameSocketId (Some socketId) session))
             (Directory.sessions (sessionService p))) p)
  | None => ret tt
  end.

(** [setControlsSocket(sessionId, socketId)] *)
Definition setControlsSocket (sessionId socketId : string) : M unit :=
  dir <- gets sessionService ;;
  match JsMap.get sessionId (Directory.sessions dir) with
  | Some session =>
      modify (fun p =>
        set_sessions
          (JsMap.set sessionId
             (Session.with_isConnected true
                (Session.with_controlsSocketId (Some socketId) session))
             (Directory.sessions (sessionService p))) p)
  | None => ret tt
  end.

(** [!socketId] on a socket id that is a string or [null] *)
Definition no_socket (socketId : option string) : bool :=
  match socketId with
  | None => true
  | Some s => blank s
  end.

(** [clearSocket(sessionId, socketType)] *)
Definition clearSocket (sessionId socketType : string) : M unit :=
  dir <- gets sessionService ;;
  match JsMap.get sessionId (Directory.sessions dir) with
  | Some session =>
      let session :=
        if String.eqb socketType "game" then Session.with_gameSocketId None session
        else if String.eqb socketType "controls"
             then Session.with_controlsSocketId None session
             else session in
      let session :=
        if no_socket (Session.gameSocketId session)
           && no_socket (Session.controlsSocketId session)
        then Session.with_isConnected false session
        else session in
      modify (fun p =>
        set_sessions (JsMap.set sessionId session (Directory.sessions (sessionService p))) p)
  | None => ret tt
  end.

(** [getActiveSessions()] *)
Definition getActiveSessions : M (list Session.t) :=
  now <- dateNow ;;
  dir <- gets sessionService ;;
  ret (List.map snd
         (List.filter (fun e => now <? Session.expiresAt (snd e)) (Directory.sessions dir))).

(** [getConnectedPlayersCount()] *)
Definition getConnectedPlayersCount : M N :=
  dir <- gets sessionService ;;
  ret (N.of_nat (List.length
         (List.filter (fun e => Session.isConnected (snd e)) (Directory.sessions dir)))).

(** [session.gameSocketId === socketId] *)
Definition is_socket (socketId : string) (held : option string) : bool :=
  match held with
  | Some s => String.eqb s socketId
  | None => false
  end.

(** [findSessionBySocketId(socketId)]; [None] is [null]. *)
Definition findSessionBySocketId (socketId : string) : M (option Session.t) :=
  dir <- gets sessionService ;;
  ret (option_map snd
         (List.find (fun e => is_socket socketId (Session.gameSocketId (snd e))
                              || is_socket socketId (Session.controlsSocketId (snd e)))
                    (Directory.sessions dir))).

End SessionService.

(* ================================================================== *)
(** * [services/callbackService.js]: CallbackService *)
(* ================================================================== *)

Module CallbackService.

Local Open Scope list_scope.

(** [response.ok] *)
Definition ok (code : Z) : bool := (200 <=? code) && (code <=? 299).

(** [body.k], a [TypeError] on [null]. *)
Definition prop (k : string) (body : Body) : M Js.value :=
  match body with
  | BNull => throw (Error ("Cannot read properties of null (reading '" ++ k ++ "')"))
  | BPrimitive => ret Js.Undefined
  | BObject o => ret (Js.field k o)
  end.

(** [delay(ms)], awaited. *)
Definition delay (ms : Z) : M unit :=
  record (Wait ms) ;;;
  modify (fun p => with_clock (clock p + ms) p) ;;;
  await.

(** The [try] block of [makeRequest]: one [fetch], then [response.json()].
    The request headers (signature, request id) and the abort signal are
    not modelled; a timeout is a [Failed] reply. *)
Definition attempt (url : string) (payload : Js.object) : M Body :=
  record (HttpPost url payload) ;;;
  reply <- (fun w => (Ok (network w (fetched w)), with_fetched (S (fetched w)) w)) ;;
  await ;;;
  match reply with
  | Failed reason => throw (Error reason)
  | Http code data =>
      if ok code then ret data
      else
        message <- prop "message" data ;;
        throw (Error ("HTTP " ++ Js.show_Z code ++ ": "
                        ++ Js.to_string (Js.or message (Js.Str "Unknown error"))))
  end.

(** [makeRequest(url, payload, attempt)], by recursion on the attempts left. *)
Fixpoint makeRequest_left (left : nat) (url : string) (payload : Js.object) (n : N) : M Body :=
  try_catch (attempt url payload)
    (fun error =>
       match left with
       | S left' =>
           if (n <? Config.RETRY_ATTEMPTS)%N then
             delay (Config.RETRY_DELAY_MS * Z.of_N n) ;;;
             makeRequest_left left' url payload (n + 1)%N
           else throw error
       | O => throw error
       end).

(** [makeRequest(url, payload, attempt = 1)] *)
Definition makeRequest (url : string) (payload : Js.object) (n : N) : M Body :=
  makeRequest_left (N.to_nat (Config.RETRY_ATTEMPTS - n)) url payload n.

Fixpoint find_transaction (transactionId : Js.value) (m : JsMap.t Js.object) : option string :=
  match m with
  | [] => None
  | (requestId, tx) :: m' =>
      if Js.strict_eq (Js.field "transactionId" tx) transactionId
      then Some requestId else find_transaction transactionId m'
  end.

(** [clearPendingTransaction(transactionId)] *)
Definition clearPendingTransaction (transactionId : Js.value) : M unit :=
  modify (fun p =>
    match find_transaction transactionId (pendingTransactions p) with
    | Some requestId => with_pendingTransactions (JsMap.delete requestId (pendingTransactions p)) p
    | None => p
    end).

(** The structured failure of the [catch] blocks. *)
Definition callback_failed (error : JsError) (requestId : string) : Js.object :=
  [ ("success", Js.Bool false);
    ("code", Js.Str "CALLBACK_FAILED");
    ("message", Js.Str (message error));
    ("requestId", Js.Str requestId) ].

Definition rejected (response : Body) (requestId : string) : M Js.object :=
  code <- prop "code" response ;;
  message <- prop "message" response ;;
  ret [ ("success", Js.Bool false); ("code", code); ("message", message);
        ("requestId", Js.Str requestId) ].

Definition accepted (response : Body) (transactionId : Js.value) (requestId : string)
  : M Js.object :=
  newBalance <- prop "newBalance" response ;;
  ret [ ("success", Js.Bool true); ("transactionId", transactionId);
        ("newBalance", newBalance); ("requestId", Js.Str requestId) ].

Definition is_undefined (v : Js.value) : bool :=
  match v with Js.Undefined => true | _ => false end.

(** [placeBet({ callbackBaseUrl, roundId, playerId, sessionId, amount, currency })] *)
Definition placeBet (callbackBaseUrl roundId playerId sessionId : string)
    (amount : float) (currency : string) : M Js.object :=
  let url := (callbackBaseUrl ++ "/bet")%string in
  now <- dateNow ;;
  let requestId := ("BET-" ++ roundId ++ "-" ++ playerId ++ "-" ++ Js.show_Z now)%string in
  timestamp <- dateNow ;;
  let payload :=
    [ ("requestId", Js.Str requestId); ("roundId", Js.Str roundId);
      ("playerId", Js.Str playerId); ("sessionId", Js.Str sessionId);
      ("amount", Js.Num amount); ("currency", Js.Str currency);
      ("timestamp", Js.Int timestamp) ] in
  try_catch
    (response <- makeRequest url payload 1 ;;
     transactionId <- prop "transactionId" response ;;
     if negb (is_undefined transactionId) then
       modify (fun p =>
         with_pendingTransactions
           (JsMap.set requestId
              (("type", Js.Str "bet") :: payload ++ [("transactionId", transactionId)])
              (pendingTransactions p)) p) ;;;
       accepted response transactionId requestId
     else rejected response requestId)
    (fun error => ret (callback_failed error requestId)).

(** [creditWin({ callbackBaseUrl, roundId, playerId, sessionId, betAmount,
    winAmount, currency, betTransactionId })] *)
Definition creditWin (callbackBaseUrl roundId playerId sessionId : string)
    (betAmount winAmount : float) (currency : string) (betTransactionId : Js.value)
  : M Js.object :=
  let url := (callbackBaseUrl ++ "/win")%string in
  now <- dateNow ;;
  let requestId := ("WIN-" ++ roundId ++ "-" ++ playerId ++ "-" ++ Js.show_Z now)%string in
  timestamp <- dateNow ;;
  let payload :=
    [ ("requestId", Js.Str requestId); ("roundId", Js.Str roundId);
      ("playerId", Js.Str playerId); ("sessionId", Js.Str sessionId);
      ("betAmount", Js.Num betAmount); ("winAmount", Js.Num winAmount);
      ("currency", Js.Str currency); ("betTransactionId", betTransactionId);
      ("timestamp", Js.Int timestamp) ] in
  try_catch
    (response <- makeRequest url payload 1 ;;
     transactionId <- prop "transactionId" response ;;
     if negb (is_undefined transactionId) then
       clearPendingTransaction betTransactionId ;;;
       accepted response transactionId requestId
     else rejected response requestId)
    (fun error => ret (callback_failed error requestId)).

(** [rollback({ callbackBaseUrl, roundId, playerId, sessionId, amount,
    currency, originalTransactionId, reason })] *)
Definition rollback (callbackBaseUrl roundId playerId sessionId : string)
    (amount : float) (currency : string) (originalTransactionId : Js.value)
    (reason : string) : M Js.object :=
  let url := (callbackBaseUrl ++ "/rollback")%string in
  now <- dateNow ;;
  let requestId :=
    ("ROLLBACK-" ++ roundId ++ "-" ++ playerId ++ "-" ++ Js.show_Z now)%string in
  timestamp <- dateNow ;;
  let payload :=
    [ ("requestId", Js.Str requestId); ("roundId", Js.Str roundId);
      ("playerId", Js.Str playerId); ("sessionId", Js.Str sessionId);
      ("amount", Js.Num amount); ("currency", Js.Str currency);
      ("originalTransactionId", originalTransactionId);
      ("reason", Js.Str reason); ("timestamp", Js.Int timestamp) ] in
  try_catch
    (response <- makeRequest url payload 1 ;;
     status <- prop "status" response ;;
     if Js.strict_eq status (Js.Str "OK") then
       clearPendingTransaction originalTransactionId ;;;
       transactionId <- prop "transactionId" response ;;
       accepted response transactionId requestId
     else rejected response requestId)
    (fun error => ret (callback_failed error requestId)).

(** [o.k = v] *)
Fixpoint assign (k : string) (v : Js.value) (o : Js.object) : Js.object :=
  match o with
  | [] => [(k, v)]
  | (k', v') :: o' => if String.eqb k k' then (k', v) :: o' else (k', v') :: assign k v o'
  end.

(** [getBalance({ callbackBaseUrl, playerId, sessionId })] *)
Definition getBalance (callbackBaseUrl playerId sessionId : string) : M Js.object :=
  let url := (callbackBaseUrl ++ "/balance")%string in
  timestamp <- dateNow ;;
  let payload :=
    [ ("playerId", Js.Str playerId); ("sessionId", Js.Str sessionId);
      ("timestamp", Js.Int timestamp) ] in
  try_catch
    (response <- makeRequest url payload 1 ;;
     match response with
     | BNull => throw (Error "Cannot set properties of null (setting 'success')")
     | BPrimitive => throw (Error "Cannot create property 'success' on a primitive")
     | BObject o => ret (assign "success" (Js.Bool true) o)
     end)
    (fun error =>
       ret [ ("success", Js.Bool false);
             ("code", Js.Str "CALLBACK_FAILED");
             ("message", Js.Str (message error)) ]).

End CallbackService.

(* ================================================================== *)
(** * [services/betService.js]: BetService *)
(* ================================================================== *)

Module BetService.

Local Open Scope list_scope.

(** What [placeBet] holds once its checks have passed, before it calls the
    platform. *)
Record Ticket : Type := mkTicket {
  playerId : string;
  currency : string;
  callbackBaseUrl : string;
  roundId : string;
  roundedAmount : float
}.

(** The [bet] of the object [placeBet] returns, with its [newBalance]. *)
Record Placed : Type := mkPlaced {
  amount : float;
  choice : string;
  placedRoundId : string;
  transactionId : Js.value;
  newBalance : Js.value
}.

(** [Math.round(amount * 100) / 100] *)
Definition round2 (amount : float) : float :=
  PrimFloat.div (Js.round (PrimFloat.mul amount 100%float)) 100%float.

(** [placeBet], up to the call of the platform: the session, the amount
    (a number, by its type here), the choice, the player's bet and the round. *)
Definition validate (sessionId : string) (amount : float) (choice : string) : M Ticket :=
  session <- SessionService.validateSession sessionId ;;
  if Js.isNaN amount then throw (Error "Invalid bet amount")
  else if PrimFloat.ltb amount Config.MIN_BET then throw (Error "Minimum bet is 1")
  else if PrimFloat.ltb Config.MAX_BET amount then throw (Error "Maximum bet is 100000000000")
  else if FlipEngine.invalid_choice choice
  then throw (Error "Invalid choice. Must be HEADS, TAILS, or EDGE")
  else
    existingBet <- FlipEngine.getPlayerBet (Session.playerId session) ;;
    match existingBet with
    | Some _ => throw (Error "Already placed a bet this round")
    | None =>
        round <- FlipEngine.getCurrentRound ;;
        match round with
        | None => throw (Error "No active round")
        | Some round =>
            if negb (Status_eqb (RoundView.status round) betting)
            then throw (Error "Betting phase has ended")
            else ret (mkTicket (Session.playerId session) (Session.currency session)
                               (Session.callbackBaseUrl session) (RoundView.id round)
                               (round2 amount))
        end
    end.

(** The call of the platform that deducts the balance. *)
Definition debit (sessionId : string) (t : Ticket) : M Js.object :=
  CallbackService.placeBet (callbackBaseUrl t) (roundId t) (playerId t) sessionId
                           (roundedAmount t) (currency t).

(** The [try] block of [placeBet]: the bet enters the ledger. *)
Definition register (sessionId choice : string) (t : Ticket) (callbackResult : Js.object)
  : M Placed :=
  bet <- FlipEngine.addBet (playerId t) (roundedAmount t) choice sessionId ;;
  modify (fun p =>
    with_activeBets
      (JsMap.set (playerId t)
         (ActiveBet.mk bet (Js.field "transactionId" callbackResult) (roundId t)
                       (callbackBaseUrl t) (currency t))
         (activeBets p)) p) ;;;
  SessionService.updateBalance sessionId (Js.field "newBalance" callbackResult) ;;;
  ret (mkPlaced (roundedAmount t) choice (roundId t)
                (Js.field "transactionId" callbackResult)
                (Js.field "newBalance" callbackResult)).

(** The call of the platform in the [catch] block of [placeBet]. *)
Definition refund (sessionId : string) (t : Ticket) (callbackResult : Js.object) : M Js.object :=
  CallbackService.rollback (callbackBaseUrl t) (roundId t) (playerId t) sessionId
                           (roundedAmount t) (currency t)
                           (Js.field "transactionId" callbackResult)
                           "REGISTRATION_FAILED".

(** [callbackResult.message || callbackResult.code || 'Bet rejected by platform'] *)
Definition rejection (callbackResult : Js.object) : JsError :=
  Error (Js.to_string
           (Js.or (Js.or (Js.field "message" callbackResult) (Js.field "code" callbackResult))
                  (Js.Str "Bet rejected by platform"))).

(** [placeBet(sessionId, amount, choice)] *)
Definition placeBet (sessionId : string) (amount : float) (choice : string) : M Placed :=
  t <- validate sessionId amount choice ;;
  callbackResult <- debit sessionId t ;;
  if negb (Js.truthy (Js.field "success" callbackResult))
  then throw (rejection callbackResult)
  else
    try_catch (register sessionId choice t callbackResult)
      (fun error => refund sessionId t callbackResult ;;; throw error).

(** The body of the loop over the winners in [processRoundResults]. *)
Definition process_winner (roundId : string) (results : list Js.object)
    (winner : string * Winner.t) : M (list Js.object) :=
  let (winnerId, data) := winner in
  bets <- gets activeBets ;;
  match JsMap.get winnerId bets with
  | None => ret results
  | Some activeBet =>
      try_catch
        (callbackResult <-
           CallbackService.creditWin (ActiveBet.callbackBaseUrl activeBet) roundId winnerId
             (Bet.sessionId (ActiveBet.bet activeBet))
             (Winner.betAmount data) (Winner.winAmount data)
             (ActiveBet.currency activeBet) (ActiveBet.transactionId activeBet) ;;
         results' <-
           (if Js.truthy (Js.field "success" callbackResult) then
              session <- SessionService.getSessionByPlayerId winnerId ;;
              match session with
              | Some session =>
                  SessionService.updateBalance (Session.sessionId session)
                                               (Js.field "newBalance" callbackResult)
              | None => ret tt
              end ;;;
              ret (results ++ [[ ("playerId", Js.Str winnerId);
                                 ("success", Js.Bool true);
                                 ("winAmount", Js.Num (Winner.winAmount data));
                                 ("newBalance", Js.field "newBalance" callbackResult) ]])
            else
              ret (results ++ [[ ("playerId", Js.Str winnerId);
                                 ("success", Js.Bool false);
                                 ("error", Js.or (Js.field "message" callbackResult)
                                                 (Js.field "code" callbackResult)) ]])) ;;
         modify (fun p => with_activeBets (JsMap.delete winnerId (activeBets p)) p) ;;;
         ret results')
        (fun error =>
           ret (results ++ [[ ("playerId", Js.Str winnerId);
                              ("success", Js.Bool false);
                              ("error", Js.Str (message error)) ]]))
  end.

Fixpoint process_winners (roundId : string) (results : list Js.object)
    (winners : list (string * Winner.t)) : M (list Js.object) :=
  match winners with
  | [] => ret results
  | winner :: winners' =>
      results' <- process_winner roundId results winner ;;
      process_winners roundId results' winners'
  end.

(** The body of the loop over the losers. *)
Definition process_loser (loser : string * Loser.t) : M unit :=
  bets <- gets activeBets ;;
  match JsMap.get (fst loser) bets with
  | Some _ => modify (fun p => with_activeBets (JsMap.delete (fst loser) (activeBets p)) p)
  | None => ret tt
  end.

(** [processRoundResults(roundId, winners, losers)] *)
Definition processRoundResults (roundId : string) (winners : list (string * Winner.t))
    (losers : list (string * Loser.t)) : M (list Js.object) :=
  results <- process_winners roundId [] winners ;;
  SessionService.forEach losers process_loser ;;;
  ret results.

(** [getActiveBet(playerId)]; [None] is [undefined]. *)
Definition getActiveBet (playerId : string) : M (option ActiveBet.t) :=
  gets (fun p => JsMap.get playerId (activeBets p)).

(** [hasActiveBet(playerId)] *)
Definition hasActiveBet (playerId : string) : M bool :=
  gets (fun p => JsMap.has playerId (activeBets p)).

(** [clearAllBets()] *)
Definition clearAllBets : M unit := modify (with_activeBets JsMap.empty).

End BetService.

(* ================================================================== *)
(** * [services/roundService.js]: the steps of the round loop *)
(* ================================================================== *)

Module RoundService.

(** [startNewRound()]; the timer it sets calls [revealRound] later. *)
Definition startNewRound : M unit :=
  running <- gets isRunning ;;
  if negb running then ret tt
  else
    FlipEngine.generateRound ;;;
    FlipEngine.startBettingPhase ;;;
    ret tt.

(** [revealRound()]; the timer it sets calls [finishRound] later. *)
Definition revealRound : M unit :=
  running <- gets isRunning ;;
  if negb running then ret tt
  else
    round <- FlipEngine.getCurrentRound ;;
    match round with
    | None => ret tt
    | Some round =>
        if negb (Status_eqb (RoundView.status round) betting) then ret tt
        else FlipEngine.startReveal ;;; ret tt
    end.

(** [start()]; [flipEngine.initialize()] is [seedManager.initialize()]. *)
Definition start : M unit :=
  running <- gets isRunning ;;
  if running then ret tt
  else
    SeedManager.initialize ;;;
    modify (with_isRunning true) ;;;
    startNewRound.

(** [stop()] *)
Definition stop : M unit := modify (with_isRunning false).

(** [finishRound()], up to its first [await]: the round is archived.  What
    follows (the credit of the winners and their notification) leaves the
    engine as it is. *)
Definition finishRound : M (option FlipEngine.Finished) :=
  running <- gets isRunning ;;
  if negb running then ret None
  else FlipEngine.finishRound.

(** [getCurrentRoundState()] *)
Definition getCurrentRoundState : M (option RoundView.t) := FlipEngine.getCurrentRound.

(** [getHistory(limit = 20)] *)
Definition getHistory (limit : option Z) : M (list Archived.t) :=
  let limit := match limit with Some limit => limit | None => 20 end in
  FlipEngine.getHistory (Some limit).

(** [isInBettingPhase()]: [round && round.status === 'betting'], [None]
    being the [null] that [&&] passes on. *)
Definition isInBettingPhase : M (option bool) :=
  round <- FlipEngine.getCurrentRound ;;
  match round with
  | None => ret None
  | Some round => ret (Some (Status_eqb (RoundView.status round) betting))
  end.

(** [processResults.find(r => r.playerId === playerId)] *)
Definition find_result (playerId : string) (processResults : list Js.object)
  : option Js.object :=
  List.find (fun r => Js.strict_eq (Js.field "playerId" r) (Js.Str playerId)) processResults.

(** The body of the loop over the winners in [finishRound]: [bet_won] and,
    with a new balance, [balance_update] to the controls socket of the
    player.  [controlsNamespace] is set, as the server sets it before it
    starts the loop. *)
Definition notify_winner (round : Round.t) (processResults : list Js.object)
    (winner : string * Winner.t) : M unit :=
  session <- SessionService.getSessionByPlayerId (fst winner) ;;
  match session with
  | None => ret tt
  | Some session =>
      match Session.controlsSocketId session with
      | None => ret tt
      | Some socket =>
          if SessionService.blank socket then ret tt
          else
            let processedResult := find_result (fst winner) processResults in
            let credited :=
              match processedResult with
              | Some r => Js.truthy (Js.field "success" r)
              | None => false
              end in
            let newBalance :=
              match processedResult with
              | Some r => Js.field "newBalance" r
              | None => Js.Undefined
              end in
            record (SocketEmit socket "bet_won"
                      [ ("roundId", Js.Str (Round.id round));
                        ("result", Js.Str (Round.result round));
                        ("betAmount", Js.Num (Winner.betAmount (snd winner)));
                        ("winAmount", Js.Num (Winner.winAmount (snd winner)));
                        ("choice", Js.Str (Winner.choice (snd winner)));
                        ("newBalance", if credited then newBalance else Js.Null) ]) ;;;
            if credited && negb (CallbackService.is_undefined newBalance)
            then record (SocketEmit socket "balance_update"
                           [ ("balance", newBalance);
                             ("currency", Js.Str (Session.currency session)) ])
            else ret tt
      end
  end.

(** The body of the loop over the losers: [bet_lost]. *)
Definition notify_loser (round : Round.t) (loser : string * Loser.t) : M unit :=
  session <- SessionService.getSessionByPlayerId (fst loser) ;;
  match session with
  | None => ret tt
  | Some session =>
      match Session.controlsSocketId session with
      | None => ret tt
      | Some socket =>
          if SessionService.blank socket then ret tt
          else
            record (SocketEmit socket "bet_lost"
                      [ ("roundId", Js.Str (Round.id round));
                        ("result", Js.Str (Round.result round));
                        ("betAmount", Js.Num (Loser.betAmount (snd loser)));
                        ("choice", Js.Str (Loser.choice (snd loser))) ])
      end
  end.

(** [finishRound()], the whole task up to the timer it sets for the next
    round: the round is archived, the winners are credited, and the players
    are told. *)
Definition finishRoundTask : M unit :=
  result <- finishRound ;;
  match result with
  | None => ret tt
  | Some result =>
      let round := FlipEngine.round result in
      processResults <-
        BetService.processRoundResults (Round.id round) (FlipEngine.winners result)
                                       (FlipEngine.losers result) ;;
      SessionService.forEach (FlipEngine.winners result)
                             (notify_winner round processResults) ;;;
      SessionService.forEach (FlipEngine.losers result) (notify_loser round)
  end.

End RoundService.

(* ================================================================== *)
(** * [ws/gameNamespace.js] and [ws/controlsNamespace.js]: the state sent
      to a socket that connects *)
(* ================================================================== *)

Definition nullable (s : option string) : Js.value :=
  match s with Some s => Js.Str s | None => Js.Null end.

Module GameNamespace.

(** [sendCurrentState(socket)] *)
Definition sendCurrentState (socket : string) : M unit :=
  round <- FlipEngine.getCurrentRound ;;
  match round with
  | None => record (SocketEmit socket "waiting" [("message", Js.Str "Waiting for next round...")])
  | Some round =>
      match RoundView.status round with
      | betting =>
          record (SocketEmit socket "betting_phase"
                    [ ("roundId", Js.Str (RoundView.id round));
                      ("serverSeedHash", Js.Str (RoundView.serverSeedHash round));
                      ("clientSeed", Js.Str (RoundView.clientSeed round));
                      ("nonce", Js.Int (Z.of_N (RoundView.nonce round))) ])
      | revealing =>
          record (SocketEmit socket "round_revealing"
                    [ ("roundId", Js.Str (RoundView.id round));
                      ("serverSeedHash", Js.Str (RoundView.serverSeedHash round));
                      ("result", nullable (RoundView.result round)) ])
      | finished =>
          record (SocketEmit socket "round_finished"
                    [ ("roundId", Js.Str (RoundView.id round));
                      ("result", nullable (RoundView.result round)) ])
      | pending =>
          record (SocketEmit socket "waiting" [("message", Js.Str "Waiting for next round...")])
      end
  end.

End GameNamespace.

Module ControlsNamespace.

(** [sendRoundState(socket)] *)
Definition sendRoundState (socket : string) : M unit :=
  round <- FlipEngine.getCurrentRound ;;
  match round with
  | None => record (SocketEmit socket "waiting" [("message", Js.Str "Waiting for next round...")])
  | Some round =>
      record (SocketEmit socket "round_state"
                [ ("roundId", Js.Str (RoundView.id round));
                  ("status", Js.Str (Status_label (RoundView.status round)));
                  ("result", nullable (RoundView.result round));
                  ("serverSeedHash", Js.Str (RoundView.serverSeedHash round)) ])
  end.

(** [sendBalanceUpdate(socket, session)]; nothing in its [try] block
    throws, the [catch] is kept as the source has it. *)
Definition sendBalanceUpdate (socket : string) (session : Session.t) : M unit :=
  try_catch
    (balanceResult <-
       CallbackService.getBalance (Session.callbackBaseUrl session)
                                  (Session.playerId session) (Session.sessionId session) ;;
     if Js.truthy (Js.field "success" balanceResult) then
       SessionService.updateBalance (Session.sessionId session)
                                    (Js.field "balance" balanceResult) ;;;
       record (SocketEmit socket "balance_update"
                 [ ("balance", Js.field "balance" balanceResult);
                   ("currency", Js.or (Js.field "currency" balanceResult)
                                      (Js.Str (Session.currency session))) ])
     else
       cachedBalance <- SessionService.getBalance (Session.sessionId session) ;;
       match cachedBalance with
       | None | Some Js.Null =>
           record (SocketEmit socket "error"
                     [ ("code", Js.Str "BALANCE_FETCH_FAILED");
                       ("message", Js.Str "Could not fetch balance") ])
       | Some cachedBalance =>
           record (SocketEmit socket "balance_update"
                     [ ("balance", cachedBalance);
                       ("currency", Js.Str (Session.currency session));
                       ("cached", Js.Bool true) ])
       end)
    (fun error =>
       record (SocketEmit socket "error"
                 [ ("code", Js.Str "BALANCE_FETCH_FAILED");
                   ("message", Js.Str (message error)) ])).

End ControlsNamespace.

(* ================================================================== *)
(** * [index.js]: the endpoints of the provably fair scheme *)
(* ================================================================== *)

(** The JSON of [GET /provably-fair]. *)
Module ProvablyFair.
Record t : Type := mk {
  current : Js.object;
  recentRounds : list Js.object
}.
End ProvablyFair.

Module Server.

Local Open Scope list_scope.

(** [POST /provably-fair/verify] on two strings and a counter, for which
    nothing throws: the JSON of the answer. *)
Definition verify (serverSeed clientSeed : string) (nonce : N) : Js.object :=
  let result := FlipEngine.calculateFlipResult serverSeed clientSeed nonce in
  let hash := Crypto.sha256 serverSeed in
  [ ("valid", Js.Bool true); ("result", Js.Str result); ("serverSeedHash", Js.Str hash) ].

(** [GET /game/history]; [parsed] is [parseInt(req.query.limit)], [None]
    being NaN.  [parsed || 50] is 50 for NaN and for 0. *)
Definition gameHistory (parsed : option Z) : M (list Archived.t) :=
  let limit :=
    match parsed with
    | Some z => if z =? 0 then 50 else z
    | None => 50
    end in
  RoundService.getHistory (Some limit).

(** One of the [recentRounds] of [GET /provably-fair]. *)
Definition recentRound (r : Archived.t) : Js.object :=
  [ ("roundId", Js.Str (Archived.id r));
    ("result", Js.Str (Archived.result r));
    ("serverSeed", Js.Str (Archived.serverSeed r));
    ("serverSeedHash", Js.Str (Archived.serverSeedHash r));
    ("clientSeed", Js.Str (Archived.clientSeed r));
    ("nonce", Js.Int (Z.of_N (Archived.nonce r))) ].

(** [GET /provably-fair]: the JSON of the answer. *)
Definition provablyFair : M ProvablyFair.t :=
  publicData <- SeedManager.getPublicData ;;
  history <- RoundService.getHistory (Some 10) ;;
  ret (ProvablyFair.mk publicData (List.map recentRound history)).

(** [POST /session/init]: the status and the JSON of the answer. *)
Definition sessionInit (playerId currency token callbackBaseUrl : string)
  : M (Z * Js.object) :=
  try_catch
    (result <- SessionService.createSession playerId currency token callbackBaseUrl ;;
     ret (200, ("success", Js.Bool true) :: result))
    (fun error =>
       ret (400, [ ("success", Js.Bool false); ("error", Js.Str (message error)) ])).

End Server.

Local Open Scope list_scope.

(** The arithmetic of the spec's outcome rule, over the rationals:
    [p = b/255*100], HEADS below 48.65, TAILS below 48.65 + 48.65, EDGE for
    the rest up to 100.  It is what [calculateFlipResult] is compared
    with. *)
Definition reference_outcome (b : Z) : string :=
  let p : Q := (inject_Z b / 255 * 100)%Q in
  if Qlt_le_dec p (4865 # 100) then "HEADS"
  else if Qlt_le_dec p ((4865 # 100) + (4865 # 100)) then "TAILS"
  else "EDGE".

(** The reference definition of the outcome: the first byte of
    HMAC-SHA256(key = serverSeed, message = clientSeed ":" nonce), through
    [reference_outcome]. *)
Definition reference_flip (serverSeed clientSeed : string) (nonce : N) : string :=
  reference_outcome
    (fst (Crypto.hmacSha256Buffer serverSeed (clientSeed ++ ":" ++ Js.show_N nonce))).

(* ================================================================== *)
(** * The round loop as a transition system *)
(* ================================================================== *)

(** The steps of the event loop that write the engine: the round loop of
    RoundService, the bets that BetService registers ([FlipEngine.addBet]),
    and the passing of time.  Each runs to completion before the next. *)
Inductive Action : Type :=
| Start
| Stop
| StartNewRound
| RevealRound
| FinishRound
| AddBet (playerId : string) (amount : float) (choice sessionId : string)
| Elapse (ms : Z).

Definition perform (a : Action) : M unit :=
  match a with
  | Start => RoundService.start
  | Stop => RoundService.stop
  | StartNewRound => RoundService.startNewRound
  | RevealRound => RoundService.revealRound
  | FinishRound => RoundService.finishRound ;;; ret tt
  | AddBet playerId amount choice sessionId =>
      FlipEngine.addBet playerId amount choice sessionId ;;; ret tt
  | Elapse ms => modify (fun p => with_clock (clock p + ms) p)
  end.

Definition run (actions : list Action) (w : World) : World :=
  List.fold_left (fun w a => snd (perform a w)) actions w.

(** A process whose modules were just loaded. *)
Definition loaded (w : World) : Prop :=
  seedManager (proc w) = SeedManager.constructor
  /\ flipEngine (proc w) = FlipEngine.constructor
  /\ isRunning (proc w) = false
  /\ trace w = [].

Definition reachable (w : World) : Prop :=
  exists w0 actions, loaded w0 /\ w = run actions w0.

(** A process just loaded, with a random source that always says "00", a
    platform that is offline and no other task. *)
Definition constructed : World :=
  mkWorld (mkProcess 0 0 SeedManager.constructor FlipEngine.constructor
                     SessionService.constructor JsMap.empty JsMap.empty false)
          (fun _ => "00") (fun _ => Failed "offline") 0%nat (fun _ p => p) 0%nat [].

Definition current (w : World) : option Round.t := Engine.currentRound (flipEngine (proc w)).
Definition history (w : World) : list Archived.t := Engine.roundHistory (flipEngine (proc w)).

(** The state of the seed manager after a computation. *)
Definition seeds_after {A : Type} (m : M A) (w : World) : Seed.t :=
  seedManager (proc (snd (m w))).

(** [currentIndex++; nonce++] *)
Definition bumped (sm : Seed.t) : Seed.t :=
  Seed.mk (Seed.chainLength sm) (Seed.currentIndex sm + 1)%N (Seed.seedChain sm)
          (Seed.clientSeed sm) (Seed.initialHash sm) (Seed.nonce sm + 1)%N.

(** [k] calls of [advanceToNextSeed]. *)
Definition advanced (k : nat) (w : World) : World :=
  Nat.iter k (fun w => snd (SeedManager.advanceToNextSeed w)) w.

(** Consecutive elements of a list are linked by the hash. *)
Definition chained (l : list string) : Prop :=
  forall j, (S j < List.length l)%nat ->
            List.nth (S j) l "" = Crypto.sha256 (List.nth j l "").

(** The commitment [hash] was broadcast for round [id] at a betting start. *)
Definition published (id hash : string) (tr : list Effect) : Prop :=
  exists payload,
    List.In (Emit "betting_phase" payload) tr
    /\ Js.field "roundId" payload = Js.Str id
    /\ Js.field "serverSeedHash" payload = Js.Str hash.

(** The payloads of the engine's events. *)
Definition betting_phase_payload (r : Round.t) : Js.object :=
  [ ("roundId", Js.Str (Round.id r));
    ("serverSeedHash", Js.Str (Round.serverSeedHash r));
    ("clientSeed", Js.Str (Round.clientSeed r));
    ("nonce", Js.Int (Z.of_N (Round.nonce r)));
    ("duration", Js.Int Config.BETTING_PHASE_MS) ].

Definition round_reveal_payload (now : Z) (r : Round.t) : Js.object :=
  [ ("roundId", Js.Str (Round.id r));
    ("result", Js.Str (Round.result r));
    ("serverSeedHash", Js.Str (Round.serverSeedHash r));
    ("startTime", Js.Int now) ].

Definition verification_payload (r : Round.t) : Js.object :=
  [ ("roundId", Js.Str (Round.id r));
    ("result", Js.Str (Round.result r));
    ("serverSeed", Js.Str (Round.serverSeed r));
    ("serverSeedHash", Js.Str (Round.serverSeedHash r));
    ("clientSeed", Js.Str (Round.clientSeed r));
    ("nonce", Js.Int (Z.of_N (Round.nonce r))) ].

(** The round as [startReveal] leaves it at time [now]. *)
Definition revealed (now : Z) (r : Round.t) : Round.t :=
  List.fold_left FlipEngine.settle (Round.bets r)
    (Round.with_startTime (Some now) (Round.with_status revealing r)).

(** The round as [finishRound] closes it at time [now], and its archive entry. *)
Definition closed (now : Z) (r : Round.t) : Round.t :=
  Round.with_endTime (Some now) (Round.with_status finished r).

Definition archived_of (r : Round.t) : Archived.t :=
  Archived.mk (Round.id r) (Round.result r) (Round.serverSeed r)
              (Round.serverSeedHash r) (Round.clientSeed r) (Round.nonce r)
              (Round.startTime r) (Round.endTime r)
              (JsMap.size (Round.winners r)) (JsMap.size (Round.losers r)).

(** The world after [addBet] has put a bet in the ledger of round [r]. *)
Definition placed (w : World) (r : Round.t) (playerId : string) (amount : float)
    (choice sessionId : string) : World :=
  with_proc
    (FlipEngine.set_currentRound
       (Some (Round.with_bets
                (JsMap.set playerId (Bet.mk playerId sessionId amount choice (clock (proc w)))
                           (Round.bets r)) r))
       (proc w)) w.

(** The fields of a round that [calculateResults] leaves alone. *)
Definition same_core (r r' : Round.t) : Prop :=
  Round.id r' = Round.id r
  /\ Round.serverSeed r' = Round.serverSeed r
  /\ Round.serverSeedHash r' = Round.serverSeedHash r
  /\ Round.clientSeed r' = Round.clientSeed r
  /\ Round.nonce r' = Round.nonce r
  /\ Round.result r' = Round.result r
  /\ Round.startTime r' = Round.startTime r
  /\ Round.endTime r' = Round.endTime r
  /\ Round.status r' = Round.status r
  /\ Round.bets r' = Round.bets r.

(** What the seed manager does leaves the engine, the trace and the round
    loop's flag as they are. *)
Definition same_engine (w w' : World) : Prop :=
  flipEngine (proc w') = flipEngine (proc w)
  /\ trace w' = trace w /\ isRunning (proc w') = isRunning (proc w).

(** The invariant of the round loop: the round in progress and every
    archived round carry the hash of their server seed, that hash was
    broadcast at the betting start, and the ledger has a player once. *)
Record invariant (w : World) : Prop := mkInvariant {
  inv_current :
    forall r, current w = Some r ->
      Crypto.sha256 (Round.serverSeed r) = Round.serverSeedHash r
      /\ Round.status r <> pending
      /\ published (Round.id r) (Round.serverSeedHash r) (trace w)
      /\ List.NoDup (JsMap.keys (Round.bets r));
  inv_history :
    forall h, List.In h (history w) ->
      Crypto.sha256 (Archived.serverSeed h) = Archived.serverSeedHash h
      /\ published (Archived.id h) (Archived.serverSeedHash h) (trace w)
}.

(** The three bands of the first byte, as the configured table cuts them. *)
Definition band (b : Z) : string :=
  if b <=? 124 then "HEADS" else if b <=? 248 then "TAILS" else "EDGE".

(** Each element of the chain is the hash of the next. *)
Definition linked (l : list string) : Prop :=
  forall i, (S i < List.length l)%nat ->
            Crypto.sha256 (List.nth (S i) l "") = List.nth i l "".

(** The discipline of the seed chain in the round loop: the round in
    progress holds the seed at the current index, and the round archived
    last holds the seed before it. *)
Record seed_invariant (w : World) : Prop := mkSeedInvariant {
  si_length : Seed.chainLength (seedManager (proc w)) = 10000%N;
  si_linked : linked (Seed.seedChain (seedManager (proc w)));
  si_seed :
    forall r, current w = Some r ->
      Round.serverSeed r
      = List.nth (N.to_nat (Seed.currentIndex (seedManager (proc w))))
                 (Seed.seedChain (seedManager (proc w))) ""
      /\ (N.to_nat (Seed.currentIndex (seedManager (proc w)))
          < List.length (Seed.seedChain (seedManager (proc w))))%nat;
  si_previous :
    (0 < Seed.currentIndex (seedManager (proc w)))%N ->
    exists h rest,
      history w = h :: rest
      /\ Archived.serverSeed h
         = List.nth (N.to_nat (Seed.currentIndex (seedManager (proc w))) - 1)
                    (Seed.seedChain (seedManager (proc w))) ""
}.

(** The multiplier of an outcome label and the win amount of a winning bet
    as [calculateResults] computes them, in binary64:
    [Math.floor(bet.amount * multiplier * 100) / 100]. *)
Definition multiplier (label : string) : float :=
  if String.eqb label "EDGE" then Config.EDGE_MULTIPLIER else Config.PAYOUT_MULTIPLIER.

Definition payout (betAmount : float) (label : string) : float :=
  PrimFloat.div
    (Js.floor (PrimFloat.mul (PrimFloat.mul betAmount (multiplier label)) 100%float))
    100%float.

(** The payout as the spec words it, over the rationals: the bet times the
    multiplier of the label (10 for EDGE, 1.95 for the others), rounded down
    to the cent.  It is what the win amount of [calculateResults] is compared
    with. *)
Definition reference_multiplier (label : string) : Q :=
  if String.eqb label "EDGE" then 10 # 1 else 195 # 100.

Definition reference_payout (betAmount : Q) (label : string) : Q :=
  (inject_Z (Qfloor (betAmount * reference_multiplier label * 100)) / 100)%Q.

(** The number that JavaScript holds for an amount of [c] cents: the
    binary64 value nearest to [c / 100].  It is what the literal of the
    amount reads as, and what [Math.round(amount * 100) / 100] leaves in
    the ledger. *)
Definition cents (c : Z) : float :=
  PrimFloat.div (PrimFloat.of_uint63 (Uint63.of_Z c)) 100%float.

(** Whether the win amount of a bet of [c] cents is the reference payout,
    and whether it is one cent below it. *)
Definition paid_in_full (label : string) (c : Z) : bool :=
  PrimFloat.eqb (payout (cents c) label)
                (cents (Qfloor (reference_payout (c # 100) label * 100))).

Definition paid_a_cent_less (label : string) (c : Z) : bool :=
  PrimFloat.eqb (payout (cents c) label)
                (cents (Qfloor (reference_payout (c # 100) label * 100) - 1)).

(** [f] on the [n] integers from [c] on. *)
Fixpoint all_from (n : nat) (c : Z) (f : Z -> bool) : bool :=
  match n with
  | O => true
  | S n' => f c && all_from n' (c + 1) f
  end.

(** A round in its betting phase with one bet of 19.00 on HEADS, the result
    of the seeds "seed", "client", 7. *)
Definition nineteen : JsMap.t Bet.t :=
  [ ("alice", Bet.mk "alice" "SESSION-a" (cents 1900) "HEADS" 1700000000500) ].

(** Before the reveal the round has no winners and no losers. *)
Definition unsettled (w : World) : Prop :=
  forall r, current w = Some r -> Round.status r = betting ->
            Round.winners r = JsMap.empty /\ Round.losers r = JsMap.empty.

(** A round in its betting phase, with two bets in the ledger, in a process
    where a session is open for each player.  The outcome of the seeds
    "seed", "client", 7 is HEADS. *)
Definition two_bets : JsMap.t Bet.t :=
  [ ("alice", Bet.mk "alice" "SESSION-a" 10%float "HEADS" 1700000000500);
    ("bob", Bet.mk "bob" "SESSION-b" 5%float "TAILS" 1700000000900) ].

Definition table_round (bets : JsMap.t Bet.t) : Round.t :=
  Round.mk "F-1700000000000-7" "seed" (Crypto.sha256 "seed") "client" 7
           (FlipEngine.calculateFlipResult "seed" "client" 7)
           None None betting bets JsMap.empty JsMap.empty.

Definition session_of (sessionId playerId : string) : Session.t :=
  Session.mk sessionId playerId "EUR" "token" "http://platform" 1700000000000
             (1700000000000 + Config.EXPIRY_MS) (Js.Int 0) false None None.

Definition table_process (bets : JsMap.t Bet.t) : Process :=
  mkProcess 1700000001000 2
            (Seed.mk 10000 7 [] "client" "" 7)
            (Engine.mk (Some (table_round bets)) [])
            (Directory.mk [ ("SESSION-a", session_of "SESSION-a" "alice");
                            ("SESSION-b", session_of "SESSION-b" "bob") ]
                          [ ("alice", "SESSION-a"); ("bob", "SESSION-b") ])
            JsMap.empty JsMap.empty true.

(** The platform accepts every request. *)
Definition platform_ok (k : nat) : Reply :=
  Http 200 (BObject [ ("status", Js.Str "OK");
                      ("transactionId", Js.Str "TX-1");
                      ("newBalance", Js.Num 90%float) ]).

Definition table (bets : JsMap.t Bet.t) : World :=
  mkWorld (table_process bets) (fun _ => "00") platform_ok 0%nat (fun _ p => p) 0%nat [].

(** The same process with another outcome in the round in progress: the
    server seed and the result computed from it are replaced. *)
Definition with_outcome (serverSeed result : string) (r : Round.t) : Round.t :=
  Round.mk (Round.id r) serverSeed (Round.serverSeedHash r) (Round.clientSeed r)
           (Round.nonce r) result (Round.startTime r) (Round.endTime r)
           (Round.status r) (Round.bets r) (Round.winners r) (Round.losers r).

Definition other_outcome (serverSeed result : string) (w : World) : World :=
  match current w with
  | Some r =>
      with_proc (FlipEngine.set_currentRound (Some (with_outcome serverSeed result r)) (proc w)) w
  | None => w
  end.

(** What a client is sent when it asks for the state of the round: the view
    of [getCurrentRound] (the body of GET /game/state) and the messages of
    the two namespaces to a socket that connects.  The answer of
    GET /provably-fair is not among them: it is [Server.provablyFair], and it
    is read from the seed manager and the history. *)
Definition snapshot (socket : string) (w : World)
  : Result (option RoundView.t) * list Effect * list Effect :=
  (fst (FlipEngine.getCurrentRound w),
   trace (snd (GameNamespace.sendCurrentState socket w)),
   trace (snd (ControlsNamespace.sendRoundState socket w))).

Definition concealing (s : Status) : Prop := s = pending \/ s = betting.

Definition view_of (r : Round.t) (result : option string) : RoundView.t :=
  RoundView.mk (Round.id r) (Round.status r) result (Round.serverSeedHash r)
               (Round.clientSeed r) (Round.nonce r) (JsMap.size (Round.bets r))
               (Round.startTime r).

Definition sessions_of (w : World) : JsMap.t Session.t :=
  Directory.sessions (sessionService (proc w)).

(** [Date.now() > session.expiresAt] *)
Definition elapsed (now : Z) (s : Session.t) : bool := Session.expiresAt s <? now.

Definition at_time (now : Z) (w : World) : World := with_proc (with_clock now (proc w)) w.

(** What one attempt comes to, by the reply of the platform. *)
Definition outcome (reply : Reply) : Result Body :=
  match reply with
  | Failed reason => Throw (Error reason)
  | Http code data =>
      if CallbackService.ok code then Ok data
      else
        match data with
        | BNull => Throw (Error "Cannot read properties of null (reading 'message')")
        | BPrimitive => Throw (Error ("HTTP " ++ Js.show_Z code ++ ": Unknown error"))
        | BObject o =>
            Throw (Error ("HTTP " ++ Js.show_Z code ++ ": "
                            ++ Js.to_string (Js.or (Js.field "message" o)
                                                   (Js.Str "Unknown error"))))
        end
  end.

(** The world after a suspension, after one attempt and after a wait. *)
Definition resumed (w : World) : World :=
  with_awaited (S (awaited w)) (with_proc (concurrent w (awaited w) (proc w)) w).

Definition attempted (url : string) (payload : Js.object) (w : World) : World :=
  resumed (with_fetched (S (fetched w)) (with_trace (trace w ++ [HttpPost url payload]) w)).

Definition waited (ms : Z) (w : World) : World :=
  resumed (with_proc (with_clock (clock (proc w) + ms) (proc w))
                     (with_trace (trace w ++ [Wait ms]) w)).

(** The requests and waits of a call that takes [n] attempts. *)
Definition retry_trace (url : string) (payload : Js.object) (n : nat) : list Effect :=
  match n with
  | 0%nat => []
  | 1%nat => [HttpPost url payload]
  | 2%nat => [HttpPost url payload; Wait 1000; HttpPost url payload]
  | _ => [HttpPost url payload; Wait 1000; HttpPost url payload; Wait 2000;
          HttpPost url payload]
  end.

(** The three attempts of [makeRequest(url, payload)]. *)
Definition first_try (url : string) (payload : Js.object) (w : World) : World :=
  attempted url payload w.
Definition second_try (url : string) (payload : Js.object) (w : World) : World :=
  attempted url payload (waited 1000 (first_try url payload w)).
Definition third_try (url : string) (payload : Js.object) (w : World) : World :=
  attempted url payload (waited 2000 (second_try url payload w)).

(** The three replies that a call at [w] may consume all fail. *)
Definition all_fail (w : World) (e1 e2 e3 : JsError) : Prop :=
  outcome (network w (fetched w)) = Throw e1
  /\ outcome (network w (S (fetched w))) = Throw e2
  /\ outcome (network w (S (S (fetched w)))) = Throw e3.

(** No other task runs while this one is suspended. *)
Definition quiet (w : World) : Prop := forall k p, concurrent w k p = p.

(** What a settlement operation guarantees: it returns an object and does
    not throw; it posts one payload to its URL between one and three times,
    waiting 1000 ms and then 2000 ms in between; one post is enough when the
    first reply is a success; when three replies in a row fail it returns
    the structured failure made from the last error; and it does not write
    the engine. *)
Definition settles (op : M Js.object) (url : string) (payload : Js.object)
    (fail : JsError -> Js.object) (w : World) : Prop :=
  exists (r : Js.object) (w' : World) (n : nat),
    op w = (Ok r, w')
    /\ (1 <= n <= 3)%nat
    /\ trace w' = trace w ++ retry_trace url payload n
    /\ (forall data, outcome (network w (fetched w)) = Ok data -> n = 1%nat)
    /\ (forall e1 e2 e3, all_fail w e1 e2 e3 -> n = 3%nat /\ r = fail e3)
    /\ (quiet w -> flipEngine (proc w') = flipEngine (proc w)).

(** The payloads of the four settlement calls, made at time [now]. *)
Definition bet_payload (roundId playerId sessionId : string) (amount : float)
    (currency : string) (now : Z) : Js.object :=
  [ ("requestId", Js.Str ("BET-" ++ roundId ++ "-" ++ playerId ++ "-" ++ Js.show_Z now));
    ("roundId", Js.Str roundId); ("playerId", Js.Str playerId);
    ("sessionId", Js.Str sessionId); ("amount", Js.Num amount);
    ("currency", Js.Str currency); ("timestamp", Js.Int now) ].

Definition win_payload (roundId playerId sessionId : string) (betAmount winAmount : float)
    (currency : string) (betTransactionId : Js.value) (now : Z) : Js.object :=
  [ ("requestId", Js.Str ("WIN-" ++ roundId ++ "-" ++ playerId ++ "-" ++ Js.show_Z now));
    ("roundId", Js.Str roundId); ("playerId", Js.Str playerId);
    ("sessionId", Js.Str sessionId); ("betAmount", Js.Num betAmount);
    ("winAmount", Js.Num winAmount); ("currency", Js.Str currency);
    ("betTransactionId", betTransactionId); ("timestamp", Js.Int now) ].

Definition rollback_payload (roundId playerId sessionId : string) (amount : float)
    (currency : string) (originalTransactionId : Js.value) (reason : string) (now : Z)
  : Js.object :=
  [ ("requestId", Js.Str ("ROLLBACK-" ++ roundId ++ "-" ++ playerId ++ "-" ++ Js.show_Z now));
    ("roundId", Js.Str roundId); ("playerId", Js.Str playerId);
    ("sessionId", Js.Str sessionId); ("amount", Js.Num amount);
    ("currency", Js.Str currency); ("originalTransactionId", originalTransactionId);
    ("reason", Js.Str reason); ("timestamp", Js.Int now) ].

Definition balance_payload (playerId sessionId : string) (now : Z) : Js.object :=
  [ ("playerId", Js.Str playerId); ("sessionId", Js.Str sessionId);
    ("timestamp", Js.Int now) ].

(** The structured failure of a call whose payload is [payload]. *)
Definition failure_of (payload : Js.object) (error : JsError) : Js.object :=
  [ ("success", Js.Bool false);
    ("code", Js.Str "CALLBACK_FAILED");
    ("message", Js.Str (message error)) ]
  ++ match Js.field "requestId" payload with
     | Js.Undefined => []
     | requestId => [("requestId", requestId)]
     end.

(** The timer of the round loop fires while the task is suspended for the
    first time: [revealRound] runs and closes the betting. *)
Definition timer_fires (k : nat) (p : Process) : Process :=
  if Nat.eqb k 0 then proc (snd (RoundService.revealRound (with_proc p constructed))) else p.

(** The table with no bet yet, a platform that accepts, and the timer about
    to fire. *)
Definition racing : World :=
  mkWorld (table_process JsMap.empty) (fun _ => "00") platform_ok 0%nat timer_fires 0%nat [].

(** What [Math.floor] would have made of the amount. *)
Definition floor2 (amount : float) : float :=
  PrimFloat.div (Js.floor (PrimFloat.mul amount 100%float)) 100%float.

(** The round that [generateRound] builds at time [now] from the seed
    manager [sm] and the server seed [s] it was given. *)
Definition generated (sm : Seed.t) (now : Z) (s : string) : Round.t :=
  Round.mk ("F-" ++ Js.show_Z now ++ "-" ++ Js.show_N (Seed.nonce sm))
           s (Crypto.sha256 s) (Seed.clientSeed sm) (Seed.nonce sm)
           (FlipEngine.calculateFlipResult s (Seed.clientSeed sm) (Seed.nonce sm))
           None None pending JsMap.empty JsMap.empty JsMap.empty.

(** The seed manager once [getCurrentServerSeed] has answered: as it was,
    or with a chain just built. *)
Definition seed_ready (sm sm' : Seed.t) : Prop :=
  (SeedManager.exhausted sm = false /\ sm' = sm)
  \/ exists wx, Seed.chainLength (seedManager (proc wx)) = Seed.chainLength sm
                /\ sm' = seeds_after SeedManager.initialize wx.

(** The seed manager after [advanceToNextSeed]. *)
Definition seed_advanced (sm sm' : Seed.t) : Prop :=
  (SeedManager.exhausted (bumped sm) = false /\ sm' = bumped sm)
  \/ exists wx, Seed.chainLength (seedManager (proc wx)) = Seed.chainLength sm
                /\ sm' = seeds_after SeedManager.initialize wx.

(** What one step of the loop does to the round in progress, the history,
    the seed manager and the events sent. *)
Inductive loop_step (w w' : World) : Prop :=
| step_idle :
    current w' = current w -> history w' = history w ->
    seedManager (proc w') = seedManager (proc w) -> trace w' = trace w ->
    loop_step w w'
| step_new (s : string) :
    let sm' := seedManager (proc w') in
    let r := Round.with_status betting (generated sm' (clock (proc w)) s) in
    seed_ready (seedManager (proc w)) sm' ->
    s = List.nth (N.to_nat (Seed.currentIndex sm')) (Seed.seedChain sm') "" ->
    current w' = Some r -> history w' = history w ->
    trace w' = trace w ++ [Emit "betting_phase" (betting_phase_payload r)] ->
    loop_step w w'
| step_reveal (r : Round.t) :
    let r' := revealed (clock (proc w)) r in
    current w = Some r -> Round.status r = betting ->
    current w' = Some r' -> history w' = history w ->
    seedManager (proc w') = seedManager (proc w) ->
    trace w' = trace w ++ [Emit "round_reveal" (round_reveal_payload (clock (proc w)) r')] ->
    loop_step w w'
| step_finish (r : Round.t) :
    current w = Some r -> current w' = None ->
    history w' = FlipEngine.archive (archived_of (closed (clock (proc w)) r)) (history w) ->
    seed_advanced (seedManager (proc w)) (seedManager (proc w')) ->
    trace w' = trace w ++ [Emit "round_finished" (verification_payload r)] ->
    loop_step w w'
| step_bet (r : Round.t) (playerId : string) (amount : float) (choice sessionId : string) :
    current w = Some r -> Round.status r = betting ->
    JsMap.has playerId (Round.bets r) = false ->
    FlipEngine.invalid_choice choice = false ->
    current w'
    = Some (Round.with_bets
              (JsMap.set playerId (Bet.mk playerId sessionId amount choice (clock (proc w)))
                         (Round.bets r)) r) ->
    history w' = history w -> seedManager (proc w') = seedManager (proc w) ->
    trace w' = trace w ->
    loop_step w w'.

(** The data of a round answer to [POST /provably-fair/verify] with the
    result and the commitment of the round. *)
Definition verifies (serverSeed clientSeed : string) (nonce : N)
    (result serverSeedHash : string) : Prop :=
  Server.verify serverSeed clientSeed nonce
  = [ ("valid", Js.Bool true); ("result", Js.Str result);
      ("serverSeedHash", Js.Str serverSeedHash) ].

Definition round_verifies (r : Round.t) : Prop :=
  verifies (Round.serverSeed r) (Round.clientSeed r) (Round.nonce r)
           (Round.result r) (Round.serverSeedHash r).

(** A [round_finished] payload carries seeds that give its result. *)
Definition payload_verifies (payload : Js.object) : Prop :=
  exists serverSeed clientSeed nonce result serverSeedHash,
    Js.field "serverSeed" payload = Js.Str serverSeed
    /\ Js.field "clientSeed" payload = Js.Str clientSeed
    /\ Js.field "nonce" payload = Js.Int (Z.of_N nonce)
    /\ Js.field "result" payload = Js.Str result
    /\ Js.field "serverSeedHash" payload = Js.Str serverSeedHash
    /\ verifies serverSeed clientSeed nonce result serverSeedHash.

Record fair (w : World) : Prop := mkFair {
  fair_current : forall r, current w = Some r -> round_verifies r;
  fair_history :
    forall h, List.In h (history w) ->
      verifies (Archived.serverSeed h) (Archived.clientSeed h) (Archived.nonce h)
               (Archived.result h) (Archived.serverSeedHash h);
  fair_trace :
    forall payload, List.In (Emit "round_finished" payload) (trace w) ->
                    payload_verifies payload
}.

(** The counters of the seed manager: the nonce is the index in the chain,
    the commitment is the head of the chain, and the chain is empty (before
    the first [initialize]) or has 10000 seeds with the index inside. *)
Record seed_counters (sm : Seed.t) : Prop := mkSeedCounters {
  sc_length : Seed.chainLength sm = 10000%N;
  sc_nonce : Seed.nonce sm = Seed.currentIndex sm;
  sc_commitment : Seed.initialHash sm = List.hd "" (Seed.seedChain sm);
  sc_index :
    (Seed.seedChain sm = [] /\ Seed.currentIndex sm = 0%N)
    \/ (List.length (Seed.seedChain sm) = N.to_nat 10000
        /\ (Seed.currentIndex sm < 10000)%N)
}.

Record seeded (w : World) : Prop := mkSeeded {
  sd_counters : seed_counters (seedManager (proc w));
  sd_round :
    forall r, current w = Some r ->
      Round.nonce r = Seed.nonce (seedManager (proc w))
      /\ Round.clientSeed r = Seed.clientSeed (seedManager (proc w))
      /\ Round.serverSeed r
         = List.nth (N.to_nat (Seed.currentIndex (seedManager (proc w))))
                    (Seed.seedChain (seedManager (proc w))) ""
      /\ Seed.seedChain (seedManager (proc w)) <> []
}.

(** The steps that the timers of RoundService fire. *)
Definition timer_step (a : Action) : Prop :=
  a = StartNewRound \/ a = RevealRound \/ a = FinishRound.

Definition bet_step (a : Action) : Prop :=
  exists playerId amount choice sessionId, a = AddBet playerId amount choice sessionId.

(** The same round, whatever its ledger. *)
Definition same_round (r r' : Round.t) : Prop :=
  Round.id r' = Round.id r
  /\ Round.serverSeed r' = Round.serverSeed r
  /\ Round.serverSeedHash r' = Round.serverSeedHash r
  /\ Round.clientSeed r' = Round.clientSeed r
  /\ Round.nonce r' = Round.nonce r
  /\ Round.result r' = Round.result r
  /\ Round.status r' = Round.status r.

Definition players_of (w : World) : JsMap.t string :=
  Directory.playerSessions (sessionService (proc w)).

(** The session that [createSession] stores at time [now]. *)
Definition opened (sessionId playerId currency token callbackBaseUrl : string) (now : Z)
  : Session.t :=
  Session.mk sessionId playerId currency token callbackBaseUrl now (now + Config.EXPIRY_MS)
             (Js.Int 0) false None None.

(** The two maps agree: a session is filed under its own id, which is not
    empty, and the player of the session is sent to that id. *)
Definition consistent (w : World) : Prop :=
  forall sessionId session,
    JsMap.get sessionId (sessions_of w) = Some session ->
    SessionService.blank sessionId = false
    /\ Session.sessionId session = sessionId
    /\ JsMap.get (Session.playerId session) (players_of w) = Some sessionId.

(** The calls that the endpoints and the namespaces make to SessionService,
    and the passing of time. *)
Inductive SessionCall : Type :=
| CreateSession (playerId currency token callbackBaseUrl : string)
| DestroySession (sessionId : string)
| GetSession (sessionId : string)
| GetSessionByPlayerId (playerId : string)
| ValidateSession (sessionId : string)
| UpdateBalance (sessionId : string) (balance : Js.value)
| SetGameSocket (sessionId socketId : string)
| SetControlsSocket (sessionId socketId : string)
| ClearSocket (sessionId socketType : string)
| CleanupExpiredSessions
| Tick (ms : Z).

Definition call (c : SessionCall) (w : World) : World :=
  match c with
  | CreateSession playerId currency token callbackBaseUrl =>
      snd (SessionService.createSession playerId currency token callbackBaseUrl w)
  | DestroySession sessionId => snd (SessionService.destroySession sessionId w)
  | GetSession sessionId => snd (SessionService.getSession sessionId w)
  | GetSessionByPlayerId playerId => snd (SessionService.getSessionByPlayerId playerId w)
  | ValidateSession sessionId => snd (SessionService.validateSession sessionId w)
  | UpdateBalance sessionId balance => snd (SessionService.updateBalance sessionId balance w)
  | SetGameSocket sessionId socketId => snd (SessionService.setGameSocket sessionId socketId w)
  | SetControlsSocket sessionId socketId =>
      snd (SessionService.setControlsSocket sessionId socketId w)
  | ClearSocket sessionId socketType => snd (SessionService.clearSocket sessionId socketType w)
  | CleanupExpiredSessions => snd (SessionService.cleanupExpiredSessions w)
  | Tick ms => with_proc (with_clock (clock (proc w) + ms) (proc w)) w
  end.

Definition serve (calls : list SessionCall) (w : World) : World :=
  List.fold_left (fun w c => call c w) calls w.

(** The world with its directory replaced. *)
Definition with_directory (sessions : JsMap.t Session.t) (players : JsMap.t string)
    (w : World) : World :=
  with_proc (with_sessionService (Directory.mk sessions players) (proc w)) w.

(** The session map without the session that the player had. *)
Definition without_previous (playerId : string) (w : World) : JsMap.t Session.t :=
  match JsMap.get playerId (players_of w) with
  | Some existing =>
      if SessionService.blank existing then sessions_of w
      else JsMap.delete existing (sessions_of w)
  | None => sessions_of w
  end.

(** A session written in place at [sessionId]. *)
Definition rewritten (sessionId : string) (session : Session.t) (w : World) : World :=
  with_proc (SessionService.set_sessions (JsMap.set sessionId session (sessions_of w))
                                         (proc w)) w.

(** The number that [getConnectedPlayersCount] gives. *)
Definition connected (w : World) : nat :=
  List.length (List.filter (fun e => Session.isConnected (snd e)) (sessions_of w)).

(** The session as [clearSocket] leaves it. *)
Definition cleared (socketType : string) (s : Session.t) : Session.t :=
  let s1 :=
    if String.eqb socketType "game" then Session.with_gameSocketId None s
    else if String.eqb socketType "controls" then Session.with_controlsSocketId None s
         else s in
  if SessionService.no_socket (Session.gameSocketId s1)
     && SessionService.no_socket (Session.controlsSocketId s1)
  then Session.with_isConnected false s1 else s1.

(** [socketId] is one of the two sockets of the session. *)
Definition holds (socketId : string) (s : Session.t) : bool :=
  SessionService.is_socket socketId (Session.gameSocketId s)
  || SessionService.is_socket socketId (Session.controlsSocketId s).

(** The services other than CallbackService are as they were, and so are
    the platform, the random source and the other tasks. *)
Definition same_services (w w' : World) : Prop :=
  flipEngine (proc w') = flipEngine (proc w)
  /\ sessionService (proc w') = sessionService (proc w)
  /\ activeBets (proc w') = activeBets (proc w)
  /\ seedManager (proc w') = seedManager (proc w)
  /\ isRunning (proc w') = isRunning (proc w)
  /\ concurrent w' = concurrent w.

(** The request id of a debit made at time [now]. *)
Definition bet_request (roundId playerId : string) (now : Z) : string :=
  ("BET-" ++ roundId ++ "-" ++ playerId ++ "-" ++ Js.show_Z now)%string.

(** The pending transaction that an accepted debit leaves. *)
Definition pending_bet (payload : Js.object) (transactionId : Js.value) : Js.object :=
  ("type", Js.Str "bet") :: payload ++ [("transactionId", transactionId)].

(** The world after [register]: the bet in the ledger, the active bet of
    the player, and the balance of the platform's answer in the session. *)
Definition registered (sessionId choice : string) (t : BetService.Ticket)
    (callbackResult : Js.object) (r : Round.t) (w : World) : World :=
  let bet := Bet.mk (BetService.playerId t) sessionId (BetService.roundedAmount t) choice
                    (clock (proc w)) in
  let w2 := placed w r (BetService.playerId t) (BetService.roundedAmount t) choice sessionId in
  snd (SessionService.updateBalance sessionId (Js.field "newBalance" callbackResult)
         (with_proc
            (with_activeBets
               (JsMap.set (BetService.playerId t)
                  (ActiveBet.mk bet (Js.field "transactionId" callbackResult)
                                (BetService.roundId t) (BetService.callbackBaseUrl t)
                                (BetService.currency t))
                  (activeBets (proc w2))) (proc w2)) w2)).

(** Only the session directory was written. *)
Definition only_sessions (w w' : World) : Prop :=
  flipEngine (proc w') = flipEngine (proc w)
  /\ activeBets (proc w') = activeBets (proc w)
  /\ pendingTransactions (proc w') = pendingTransactions (proc w)
  /\ clock (proc w') = clock (proc w)
  /\ trace w' = trace w /\ fetched w' = fetched w
  /\ concurrent w' = concurrent w /\ network w' = network w.

(** The entry of the results for a winner, from the answer of the credit. *)
Definition credit_entry (winnerId : string) (data : Winner.t) (callbackResult : Js.object)
  : Js.object :=
  if Js.truthy (Js.field "success" callbackResult)
  then [ ("playerId", Js.Str winnerId); ("success", Js.Bool true);
         ("winAmount", Js.Num (Winner.winAmount data));
         ("newBalance", Js.field "newBalance" callbackResult) ]
  else [ ("playerId", Js.Str winnerId); ("success", Js.Bool false);
         ("error", Js.or (Js.field "message" callbackResult)
                         (Js.field "code" callbackResult)) ].

(** What [processRoundResults] sends: requests to a [/win] URL and the
    waits between the attempts. *)
Definition win_effect (e : Effect) : Prop :=
  match e with
  | HttpPost url _ => exists base, url = (base ++ "/win")%string
  | Wait _ => True
  | _ => False
  end.

(** The players of a list of winners or losers. *)
Definition ids {V : Type} (l : list (string * V)) : list string := List.map fst l.

(** The request id of a credit made at time [now]. *)
Definition win_request (roundId playerId : string) (now : Z) : string :=
  ("WIN-" ++ roundId ++ "-" ++ playerId ++ "-" ++ Js.show_Z now)%string.

(** The pending transactions once the one of [transactionId] is cleared. *)
Definition cleared_pending (transactionId : Js.value) (pending : JsMap.t Js.object)
  : JsMap.t Js.object :=
  match CallbackService.find_transaction transactionId pending with
  | Some requestId => JsMap.delete requestId pending
  | None => pending
  end.

(** The 32 bytes of an HMAC, as [crypto] gives them. *)
Definition hmac_bytes (key message : string) : Crypto.bytes :=
  fst (Crypto.hmacSha256Buffer key message) :: snd (Crypto.hmacSha256Buffer key message).

Definition is_byte (b : Z) : Prop := 0 <= b < 256.

(** The request id of a rollback made at time [now]. *)
Definition rollback_request (roundId playerId : string) (now : Z) : string :=
  ("ROLLBACK-" ++ roundId ++ "-" ++ playerId ++ "-" ++ Js.show_Z now)%string.

(** The messages of [finishRound] to the controls socket of a player. *)
Definition notice (e : Effect) : Prop :=
  match e with
  | SocketEmit _ event _ =>
      event = "bet_won" \/ event = "balance_update" \/ event = "bet_lost"
  | _ => False
  end.

(** What the seed manager and the engine leave alone. *)
Definition same_others (w w' : World) : Prop :=
  concurrent w' = concurrent w
  /\ activeBets (proc w') = activeBets (proc w)
  /\ sessionService (proc w') = sessionService (proc w)
  /\ pendingTransactions (proc w') = pendingTransactions (proc w)
  /\ clock (proc w') = clock (proc w)
  /\ network w' = network w /\ fetched w' = fetched w.

(** A round in its reveal with one bet, which wins, in a process where the
    player has an active bet and a session with a controls socket. *)
Definition won_round : Round.t :=
  Round.mk "F-1700000000000-7" "seed" (Crypto.sha256 "seed") "client" 7 "HEADS"
           (Some 1700000000000) None revealing
           [ ("alice", Bet.mk "alice" "SESSION-a" 10%float "HEADS" 1700000000500) ]
           [ ("alice", Winner.mk 10%float 19.5%float "HEADS") ] [].

Definition connected_session : Session.t :=
  Session.mk "SESSION-a" "alice" "EUR" "token" "http://platform" 1700000000000
             (1700000000000 + Config.EXPIRY_MS) (Js.Int 0) true None (Some "socket-1").

Definition won_table (network : nat -> Reply) : World :=
  mkWorld
    (mkProcess 1700000065000 2 (Seed.mk 10000 7 [] "client" "" 7)
       (Engine.mk (Some won_round) [])
       (Directory.mk [ ("SESSION-a", connected_session) ] [ ("alice", "SESSION-a") ])
       JsMap.empty
       [ ("alice",
          ActiveBet.mk (Bet.mk "alice" "SESSION-a" 10%float "HEADS" 1700000000500)
                       (Js.Str "TX-1") "F-1700000000000-7" "http://platform" "EUR") ]
       true)
    (fun _ => "00") network 0%nat (fun _ p => p) 0%nat [].

(* ================================================================== *)
(** * Properties *)
(* ================================================================== *)


(** ** The built-ins against known values *)

Example sha256_constants :
  List.length Crypto.K256 = 64%nat
  /\ List.nth 0 Crypto.K256 0 = 0x428a2f98 /\ List.nth 63 Crypto.K256 0 = 0xc67178f2
  /\ Crypto.ra Crypto.init_regs = 0x6a09e667 /\ Crypto.rh Crypto.init_regs = 0x5be0cd19.
Proof. repeat split. Qed.

Example sha256_abc :
  Crypto.sha256 "abc" = "ba7816bf8f01cfea414140de5dae2223b00361a396177a9cb410ff61f20015ad".
Proof. vm_compute. reflexivity. Qed.

Example sha256_empty :
  Crypto.sha256 "" = "e3b0c44298fc1c149afbf4c8996fb92427ae41e4649b934ca495991b7852b855".
Proof. vm_compute. reflexivity. Qed.

Example sha256_two_blocks :
  Crypto.sha256 "abcdbcdecdefdefgefghfghighijhijkijkljklmklmnlmnomnopnopq"
  = "248d6a61d20638b8e5c026930c3e6039a33ce45964ff2167f6ecedd419db06c1".
Proof. vm_compute. reflexivity. Qed.

Example hmac_rfc4231_case2 :
  Crypto.hmacSha256 "Jefe" "what do ya want for nothing?"
  = "5bdcc146bf60754e6a042426089575c75a003f089d2739839dec58b964ec3843".
Proof. vm_compute. reflexivity. Qed.

Example hmac_fox :
  Crypto.hmacSha256 "key" "The quick brown fox jumps over the lazy dog"
  = "f7bc83f430538424b13298e6aa6fb143ef4d59a14946175997479dbc2d1a3cd8".
Proof. vm_compute. reflexivity. Qed.

Example floor_samples :
  Js.floor 2.5%float = 2%float /\ Js.floor (-2.5)%float = (-3)%float
  /\ Js.floor 1950%float = 1950%float /\ Js.floor 0.9999999999999999%float = 0%float
  /\ Js.floor 4503599627370495.5%float = 4503599627370495%float.
Proof. repeat split; vm_compute; reflexivity. Qed.

Example round_samples :
  Js.round 2.5%float = 3%float /\ Js.round (-2.5)%float = (-2)%float
  /\ Js.round 123.9%float = 124%float /\ Js.round 0.49999999999999994%float = 0%float
  /\ Js.round 100.49999999999999%float = 100%float.
Proof. repeat split; vm_compute; reflexivity. Qed.

Example show_samples :
  Js.show_Z 0 = "0" /\ Js.show_Z 1700000000000 = "1700000000000" /\ Js.show_N 42 = "42".
Proof. repeat split; vm_compute; reflexivity. Qed.

(** ** The outcome function *)

Lemma first_byte_range (key message : string) :
  0 <= fst (Crypto.hmacSha256Buffer key message) < 256.
Proof.
  unfold Crypto.hmacSha256Buffer, Crypto.digest_of. cbn [fst].
  change 0xFF with (Z.ones 8). rewrite Z.land_ones by lia.
  apply Z.mod_pos_bound. reflexivity.
Qed.

Lemma bytes_checked :
  List.forallb
    (fun b => String.eqb (FlipEngine.outcome_of_byte b) (reference_outcome b)
              && String.eqb (FlipEngine.outcome_of_byte b) (band b))
    (List.map Z.of_nat (List.seq 0 256)) = true.
Proof. vm_compute. reflexivity. Qed.

Lemma outcome_of_byte_checked (b : Z) :
  0 <= b < 256 ->
  FlipEngine.outcome_of_byte b = reference_outcome b
  /\ FlipEngine.outcome_of_byte b = band b.
Proof.
  intros Hb.
  pose proof bytes_checked as H. rewrite List.forallb_forall in H.
  specialize (H b).
  rewrite Bool.andb_true_iff, !String.eqb_eq in H. apply H.
  rewrite <- (Z2Nat.id b) by lia.
  apply List.in_map, List.in_seq. lia.
Qed.

Example first_bytes :
  fst (Crypto.hmacSha256Buffer "a" "b:0") = 73
  /\ fst (Crypto.hmacSha256Buffer "seed" "client:7") = 64.
Proof. split; vm_compute; reflexivity. Qed.

Example calculateFlipResult_samples :
  FlipEngine.calculateFlipResult "a" "b" 0 = "HEADS"
  /\ FlipEngine.calculateFlipResult "seed" "client" 7 = "HEADS".
Proof. split; vm_compute; reflexivity. Qed.

(** C1.  [calculateFlipResult] is the reference definition: the first byte
    [b] of HMAC-SHA256 keyed by the server seed over [clientSeed ":" nonce],
    scaled to [p = b/255*100] and placed in the cumulative intervals
    HEADS < 48.65, TAILS < 97.3, EDGE up to 100 (the binary64 arithmetic of
    the code and the exact arithmetic of the reference agree on every byte).
    With the configured table, byte 100 and byte 124 give HEADS and byte 250
    gives EDGE; the bands are 0..124, 125..248 and 249..255.  Equal inputs
    give equal outcomes. *)
Theorem calculateFlipResult_reference :
  forall (serverSeed clientSeed : string) (nonce : N),
    FlipEngine.calculateFlipResult serverSeed clientSeed nonce
      = reference_flip serverSeed clientSeed nonce
    /\ (exists b, 0 <= b < 256
          /\ b = fst (Crypto.hmacSha256Buffer serverSeed (clientSeed ++ ":" ++ Js.show_N nonce))
          /\ FlipEngine.calculateFlipResult serverSeed clientSeed nonce = band b)
    /\ FlipEngine.outcome_of_byte 100 = "HEADS"
    /\ FlipEngine.outcome_of_byte 124 = "HEADS"
    /\ FlipEngine.outcome_of_byte 125 = "TAILS"
    /\ FlipEngine.outcome_of_byte 250 = "EDGE"
    /\ (forall serverSeed' clientSeed' nonce',
          (serverSeed', clientSeed', nonce') = (serverSeed, clientSeed, nonce) ->
          FlipEngine.calculateFlipResult serverSeed' clientSeed' nonce'
          = FlipEngine.calculateFlipResult serverSeed clientSeed nonce).
Proof.
  intros serverSeed clientSeed nonce.
  pose proof (first_byte_range serverSeed (clientSeed ++ ":" ++ Js.show_N nonce)) as Hb.
  destruct (outcome_of_byte_checked _ Hb) as [Href Hband].
  split; [| split; [| split; [| split; [| split; [| split]]]]].
  - unfold FlipEngine.calculateFlipResult, reference_flip. exact Href.
  - eexists. split; [exact Hb |]. split; [reflexivity |]. exact Hband.
  - vm_compute. reflexivity.
  - vm_compute. reflexivity.
  - vm_compute. reflexivity.
  - vm_compute. reflexivity.
  - intros s' c' n' Heq. inversion Heq. reflexivity.
Qed.

(** From here on the hash functions are used through their equations only. *)
#[global] Opaque Crypto.sha256 Crypto.hmacSha256Buffer.

(** ** The seed chain *)

Lemma extend_chained (k : nat) :
  forall currentSeed seedChain,
    seedChain <> [] ->
    List.nth (List.length seedChain - 1) seedChain "" = currentSeed ->
    chained seedChain ->
    chained (SeedManager.extend k currentSeed seedChain)
    /\ List.length (SeedManager.extend k currentSeed seedChain) = (List.length seedChain + k)%nat.
Proof.
  induction k as [| k IH]; intros cur acc Hne Hlast Hch; cbn [SeedManager.extend].
  - split; [exact Hch | lia].
  - assert (Hlen : (0 < List.length acc)%nat) by (destruct acc; [congruence | cbn; lia]).
    destruct (IH (Crypto.sha256 cur) (acc ++ [Crypto.sha256 cur])) as [H1 H2].
    + intros H; apply app_eq_nil in H; destruct H; discriminate.
    + rewrite List.length_app. cbn [List.length].
      replace (List.length acc + 1 - 1)%nat with (List.length acc) by lia.
      apply List.nth_middle.
    + intros j Hj. rewrite List.length_app in Hj. cbn [List.length] in Hj.
      destruct (Nat.eq_dec (S j) (List.length acc)) as [E | E].
      * rewrite E, List.nth_middle.
        rewrite List.app_nth1 by lia.
        f_equal. rewrite <- Hlast. f_equal. lia.
      * rewrite !List.app_nth1 by lia. apply Hch. lia.
    + split; [exact H1 |]. rewrite H2, List.length_app. cbn. lia.
Qed.

Lemma initialize_run (w : World) :
  SeedManager.initialize w =
  let sm := seedManager (proc w) in
  let d := drawn (proc w) in
  let seedChain :=
    List.rev (SeedManager.extend (N.to_nat (N.pred (Seed.chainLength sm)))
                                 (entropy w d) [entropy w d]) in
  (Ok (List.hd "" seedChain, entropy w (S d)),
   with_proc
     (with_seedManager
        (Seed.mk (Seed.chainLength sm) 0 seedChain (entropy w (S d))
                 (List.hd "" seedChain) 0)
        (with_drawn (S (S d)) (proc w))) w).
Proof. reflexivity. Qed.

Lemma fresh_chain (n : nat) (seed : string) :
  let seedChain := List.rev (SeedManager.extend n seed [seed]) in
  List.length seedChain = S n
  /\ (forall i, (S i < S n)%nat ->
        Crypto.sha256 (List.nth (S i) seedChain "") = List.nth i seedChain "")
  /\ List.nth_error seedChain 0 = Some (List.hd "" seedChain).
Proof.
  cbn zeta.
  destruct (extend_chained n seed [seed]) as [Hch Hlen];
    [discriminate | reflexivity | intros j Hj; cbn in Hj; lia |].
  cbn [List.length] in Hlen.
  split; [rewrite List.length_rev; lia |].
  split.
  - intros i Hi.
    rewrite !List.rev_nth by lia. rewrite Hlen.
    replace (1 + n - S i)%nat with (S (1 + n - S (S i)))%nat by lia.
    symmetry. apply Hch. lia.
  - destruct (List.rev (SeedManager.extend n seed [seed])) eqn:E; [| reflexivity].
    apply (f_equal (@List.length string)) in E. rewrite List.length_rev in E. cbn in E. lia.
Qed.

(** ** The state of the seed manager after its operations *)

Lemma initialize_nonce (w : World) :
  Seed.nonce (seeds_after SeedManager.initialize w) = 0%N
  /\ Seed.currentIndex (seeds_after SeedManager.initialize w) = 0%N
  /\ Seed.chainLength (seeds_after SeedManager.initialize w)
     = Seed.chainLength (seedManager (proc w)).
Proof. unfold seeds_after. rewrite initialize_run. cbn. auto. Qed.

Lemma advance_cases (w : World) :
  seeds_after SeedManager.advanceToNextSeed w =
  if SeedManager.exhausted (bumped (seedManager (proc w)))
  then seeds_after SeedManager.initialize
         (with_proc (with_seedManager (bumped (seedManager (proc w))) (proc w)) w)
  else bumped (seedManager (proc w)).
Proof.
  unfold seeds_after, SeedManager.advanceToNextSeed, bind, modify, gets.
  cbn [proc with_proc with_seedManager seedManager fst snd].
  fold (bumped (seedManager (proc w))).
  destruct (SeedManager.exhausted (bumped (seedManager (proc w)))) eqn:E.
  - destruct (SeedManager.initialize _) as [[? | ?] ?] eqn:E2; reflexivity.
  - reflexivity.
Qed.

Lemma getCurrentServerSeed_cases (w : World) :
  seeds_after SeedManager.getCurrentServerSeed w =
  if SeedManager.exhausted (seedManager (proc w))
  then seeds_after SeedManager.initialize w
  else seedManager (proc w).
Proof.
  unfold seeds_after, SeedManager.getCurrentServerSeed, bind, gets.
  cbn [proc fst snd].
  destruct (SeedManager.exhausted (seedManager (proc w))) eqn:E.
  - destruct (SeedManager.initialize w) as [[? | ?] ?] eqn:E2; reflexivity.
  - reflexivity.
Qed.

Lemma advanceToNextSeed_nonce (w : World) :
  Seed.nonce (seeds_after SeedManager.advanceToNextSeed w)
  = (if SeedManager.exhausted (bumped (seedManager (proc w))) then 0
     else Seed.nonce (seedManager (proc w)) + 1)%N.
Proof.
  rewrite advance_cases.
  destruct (SeedManager.exhausted (bumped (seedManager (proc w)))).
  - apply initialize_nonce.
  - reflexivity.
Qed.

(** C8, as the code has it.  [advanceToNextSeed] adds one to the nonce when
    the chain is not exhausted by the step and [getCurrentServerSeed] leaves
    the nonce as it is on a chain that is not exhausted; the regeneration of
    an exhausted chain ([initialize]) sets the nonce back to 0. *)
Theorem nonce_steps :
  forall w : World,
    let sm := seedManager (proc w) in
    Seed.nonce (seeds_after SeedManager.advanceToNextSeed w)
      = (if SeedManager.exhausted (bumped sm) then 0 else Seed.nonce sm + 1)%N
    /\ Seed.nonce (seeds_after SeedManager.getCurrentServerSeed w)
      = (if SeedManager.exhausted sm then 0 else Seed.nonce sm)%N
    /\ (SeedManager.exhausted (bumped sm) = false ->
        (Seed.nonce sm < Seed.nonce (seeds_after SeedManager.advanceToNextSeed w))%N)
    /\ (SeedManager.exhausted sm = false ->
        Seed.nonce (seeds_after SeedManager.getCurrentServerSeed w) = Seed.nonce sm).
Proof.
  intros w sm.
  assert (Ha : Seed.nonce (seeds_after SeedManager.advanceToNextSeed w)
               = (if SeedManager.exhausted (bumped sm) then 0 else Seed.nonce sm + 1)%N).
  { apply advanceToNextSeed_nonce. }
  assert (Hg : Seed.nonce (seeds_after SeedManager.getCurrentServerSeed w)
               = (if SeedManager.exhausted sm then 0 else Seed.nonce sm)%N).
  { rewrite getCurrentServerSeed_cases. fold sm.
    destruct (SeedManager.exhausted sm).
    - apply initialize_nonce.
    - reflexivity. }
  split; [exact Ha |]. split; [exact Hg |]. split.
  - intros E. rewrite Ha, E. lia.
  - intros E. rewrite Hg, E. reflexivity.
Qed.

Lemma advanced_S (k : nat) (w : World) :
  seedManager (proc (advanced (S k) w))
  = seeds_after SeedManager.advanceToNextSeed (advanced k w).
Proof. reflexivity. Qed.

Lemma advanced_within (k : nat) :
  forall w,
    (N.to_nat (Seed.currentIndex (seedManager (proc w))) + k
     < List.length (Seed.seedChain (seedManager (proc w))))%nat ->
    Seed.currentIndex (seedManager (proc (advanced k w)))
      = (Seed.currentIndex (seedManager (proc w)) + N.of_nat k)%N
    /\ Seed.nonce (seedManager (proc (advanced k w)))
      = (Seed.nonce (seedManager (proc w)) + N.of_nat k)%N
    /\ Seed.seedChain (seedManager (proc (advanced k w)))
      = Seed.seedChain (seedManager (proc w)).
Proof.
  induction k as [| k IH]; intros w Hk.
  - unfold advanced. cbn [Nat.iter]. rewrite !N.add_0_r. auto.
  - destruct (IH w) as (Hi & Hn & Hc); [lia |].
    rewrite advanced_S, advance_cases.
    assert (E : SeedManager.exhausted (bumped (seedManager (proc (advanced k w)))) = false).
    { unfold SeedManager.exhausted, bumped. cbn [Seed.seedChain Seed.currentIndex].
      rewrite Hc, Hi. apply N.leb_gt. lia. }
    rewrite E. unfold bumped. cbn [Seed.currentIndex Seed.nonce Seed.seedChain].
    rewrite Hi, Hn, Hc. repeat split; lia.
Qed.

Lemma seeded_chain :
  let sm := seeds_after SeedManager.initialize constructed in
  List.length (Seed.seedChain sm) = N.to_nat 10000
  /\ Seed.currentIndex sm = 0%N /\ Seed.nonce sm = 0%N.
Proof.
  unfold seeds_after. rewrite initialize_run.
  cbn [snd proc with_proc with_seedManager seedManager Seed.seedChain Seed.currentIndex
       Seed.nonce constructed SeedManager.constructor Seed.chainLength drawn entropy].
  split; [| split; reflexivity].
  destruct (fresh_chain (N.to_nat (N.pred 10000)) "00") as [H _].
  cbn zeta in H. rewrite H. lia.
Qed.

(** The step that exhausts a chain of 10000 seeds. *)
Lemma regeneration_step (w : World) :
  Seed.currentIndex (seedManager (proc w)) = 9999%N ->
  Seed.nonce (seedManager (proc w)) = 9999%N ->
  List.length (Seed.seedChain (seedManager (proc w))) = N.to_nat 10000 ->
  Seed.nonce (seeds_after SeedManager.advanceToNextSeed w) = 0%N.
Proof.
  intros Hi Hn Hlen.
  rewrite advanceToNextSeed_nonce.
  assert (E : SeedManager.exhausted (bumped (seedManager (proc w))) = true).
  { unfold SeedManager.exhausted, bumped. cbn [Seed.seedChain Seed.currentIndex].
    rewrite Hi, Hlen. reflexivity. }
  rewrite E. reflexivity.
Qed.

Lemma before_regeneration :
  let w := advanced (N.to_nat 9999) (snd (SeedManager.initialize constructed)) in
  Seed.currentIndex (seedManager (proc w)) = 9999%N
  /\ Seed.nonce (seedManager (proc w)) = 9999%N
  /\ List.length (Seed.seedChain (seedManager (proc w))) = N.to_nat 10000.
Proof.
  cbn zeta.
  destruct seeded_chain as (Hlen & Hidx & Hnonce). unfold seeds_after in Hlen, Hidx, Hnonce.
  destruct (advanced_within (N.to_nat 9999) (snd (SeedManager.initialize constructed)))
    as (Hi & Hn & Hc).
  { rewrite Hlen, Hidx. lia. }
  rewrite Hi, Hn, Hc, Hidx, Hnonce, Hlen. repeat split.
Qed.

(** C8, refuted as stated: after [initialize] and 9999 rounds the nonce is
    9999, and the next [advanceToNextSeed] exhausts the chain, regenerates it
    and leaves the nonce at 0. *)
Lemma nonce_decreases_on_regeneration :
  let w := advanced (N.to_nat 9999) (snd (SeedManager.initialize constructed)) in
  Seed.nonce (seedManager (proc w)) = 9999%N
  /\ Seed.nonce (seeds_after SeedManager.advanceToNextSeed w) = 0%N
  /\ ~ (Seed.nonce (seedManager (proc w))
        <= Seed.nonce (seeds_after SeedManager.advanceToNextSeed w))%N.
Proof.
  pose proof before_regeneration as H. cbn zeta in H |- *.
  destruct H as (Hi & Hn & Hlen).
  pose proof (regeneration_step _ Hi Hn Hlen) as Hz.
  split; [exact Hn |]. split; [exact Hz |].
  rewrite Hz, Hn. lia.
Qed.

(** ** What the operations do to the engine *)

Lemma initialize_frame (w : World) :
  exists x w', SeedManager.initialize w = (Ok x, w') /\ same_engine w w'.
Proof. cbn. do 2 eexists. split; [reflexivity |]. repeat split. Qed.

Lemma getCurrentServerSeed_frame (w : World) :
  exists s w', SeedManager.getCurrentServerSeed w = (Ok s, w') /\ same_engine w w'.
Proof.
  unfold SeedManager.getCurrentServerSeed, bind, gets. cbn [proc].
  destruct (SeedManager.exhausted (seedManager (proc w))).
  - cbn. do 2 eexists. split; [reflexivity |]. repeat split.
  - cbn. do 2 eexists. split; [reflexivity |]. repeat split.
Qed.

Lemma advanceToNextSeed_frame (w : World) :
  exists w', SeedManager.advanceToNextSeed w = (Ok tt, w') /\ same_engine w w'.
Proof.
  unfold SeedManager.advanceToNextSeed, bind, gets, modify. cbn [proc with_proc].
  match goal with |- context [SeedManager.exhausted ?x] => destruct (SeedManager.exhausted x) end.
  - cbn. eexists. split; [reflexivity |]. repeat split.
  - cbn. eexists. split; [reflexivity |]. repeat split.
Qed.

Lemma generateRound_run (w : World) :
  exists r w',
    FlipEngine.generateRound w = (Ok r, w')
    /\ current w' = Some r
    /\ history w' = history w
    /\ trace w' = trace w /\ isRunning (proc w') = isRunning (proc w)
    /\ Crypto.sha256 (Round.serverSeed r) = Round.serverSeedHash r
    /\ Round.status r = pending
    /\ Round.bets r = JsMap.empty.
Proof.
  unfold FlipEngine.generateRound, current, history.
  destruct (getCurrentServerSeed_frame w) as (s & w1 & H1 & (He & Ht & Hr)).
  unfold bind at 1. rewrite H1.
  do 2 eexists. split; [reflexivity |]. cbn. rewrite He, Ht, Hr. repeat split.
Qed.

Lemma startBettingPhase_run (w : World) (r : Round.t) :
  current w = Some r ->
  FlipEngine.startBettingPhase w =
  (Ok (Round.with_status betting r),
   with_trace (trace w ++ [Emit "betting_phase" (betting_phase_payload r)])
     (with_proc (FlipEngine.set_currentRound (Some (Round.with_status betting r)) (proc w)) w)).
Proof.
  unfold current. intros H.
  unfold FlipEngine.startBettingPhase, FlipEngine.currentRound, bind, gets. cbn [proc].
  rewrite H. reflexivity.
Qed.

Lemma startNewRound_run (w : World) :
  isRunning (proc w) = true ->
  exists r w',
    RoundService.startNewRound w = (Ok tt, w')
    /\ current w' = Some r
    /\ history w' = history w
    /\ trace w' = trace w ++ [Emit "betting_phase" (betting_phase_payload r)]
    /\ isRunning (proc w') = true
    /\ Crypto.sha256 (Round.serverSeed r) = Round.serverSeedHash r
    /\ Round.status r = betting
    /\ Round.bets r = JsMap.empty.
Proof.
  intros Hrun.
  destruct (generateRound_run w) as (r & w1 & H1 & Hc & Hh & Ht & Hr & Hs & Hst & Hb).
  unfold RoundService.startNewRound, bind, gets. cbn [proc]. rewrite Hrun. cbn [negb].
  rewrite H1. rewrite (startBettingPhase_run w1 r Hc).
  exists (Round.with_status betting r). eexists. split; [reflexivity |].
  unfold current, history in *. cbn. rewrite Hh, Ht, Hr, Hrun. repeat split; assumption.
Qed.

Lemma same_core_refl (r : Round.t) : same_core r r.
Proof. repeat split. Qed.

Lemma settle_core (r : Round.t) (entry : string * Bet.t) : same_core r (FlipEngine.settle r entry).
Proof.
  destruct entry as [playerId bet]. unfold FlipEngine.settle.
  destruct (String.eqb (Bet.choice bet) (Round.result r)); repeat split.
Qed.

Lemma same_core_trans (a b c : Round.t) : same_core a b -> same_core b c -> same_core a c.
Proof.
  unfold same_core. intros H1 H2.
  decompose [and] H1. decompose [and] H2. repeat split; congruence.
Qed.

Lemma results_core (l : list (string * Bet.t)) :
  forall r, same_core r (List.fold_left FlipEngine.settle l r).
Proof.
  induction l as [| e l IH]; intros r; cbn [List.fold_left].
  - apply same_core_refl.
  - eapply same_core_trans; [apply settle_core | apply IH].
Qed.

Lemma startReveal_run (w : World) (r : Round.t) :
  current w = Some r ->
  Round.status r = betting ->
  FlipEngine.startReveal w =
  (Ok (revealed (clock (proc w)) r),
   with_trace (trace w ++ [Emit "round_reveal"
                             (round_reveal_payload (clock (proc w)) (revealed (clock (proc w)) r))])
     (with_proc (FlipEngine.set_currentRound (Some (revealed (clock (proc w)) r)) (proc w)) w)).
Proof.
  unfold current. intros H Hs.
  unfold FlipEngine.startReveal, FlipEngine.calculateResults, FlipEngine.currentRound,
    bind, gets, dateNow, gets.
  cbn [proc]. rewrite H, Hs. cbn. reflexivity.
Qed.

Lemma startReveal_throws (w : World) :
  (current w = None \/ exists r, current w = Some r /\ Round.status r <> betting) ->
  FlipEngine.startReveal w = (Throw (Error "No round in betting phase"), w).
Proof.
  unfold current. intros H.
  unfold FlipEngine.startReveal, FlipEngine.currentRound, bind, gets. cbn [proc].
  destruct H as [H | (r & H & Hs)]; rewrite H; [reflexivity |].
  destruct (Round.status r); try reflexivity. congruence.
Qed.

Lemma getCurrentRound_run (w : World) :
  FlipEngine.getCurrentRound w =
  (Ok (match current w with
       | None => None
       | Some r =>
           Some (RoundView.mk (Round.id r) (Round.status r)
                   (if Status_eqb (Round.status r) revealing
                       || Status_eqb (Round.status r) finished
                    then Some (Round.result r) else None)
                   (Round.serverSeedHash r) (Round.clientSeed r) (Round.nonce r)
                   (JsMap.size (Round.bets r)) (Round.startTime r))
       end), w).
Proof.
  unfold FlipEngine.getCurrentRound, FlipEngine.currentRound, current, bind, gets.
  cbn [proc]. destruct (Engine.currentRound (flipEngine (proc w))); reflexivity.
Qed.

Lemma Status_eqb_eq (a b : Status) : Status_eqb a b = true <-> a = b.
Proof. destruct a, b; cbn; split; congruence. Qed.

Lemma revealRound_run (w : World) :
  RoundService.revealRound w =
  match current w with
  | Some r =>
      if isRunning (proc w) && Status_eqb (Round.status r) betting
      then (Ok tt, snd (FlipEngine.startReveal w))
      else (Ok tt, w)
  | None => (Ok tt, w)
  end.
Proof.
  unfold RoundService.revealRound, bind at 1, gets at 1. cbn [proc].
  destruct (isRunning (proc w)); cbn [negb andb].
  - unfold bind. rewrite getCurrentRound_run.
    destruct (current w) as [r |] eqn:E; [| reflexivity].
    cbn [RoundView.status].
    destruct (Status_eqb (Round.status r) betting) eqn:Es; cbn [negb]; [| reflexivity].
    apply Status_eqb_eq in Es.
    rewrite (startReveal_run w r E Es). reflexivity.
  - destruct (current w); reflexivity.
Qed.

Lemma finishRound_run (w : World) (r : Round.t) :
  current w = Some r ->
  exists w',
    FlipEngine.finishRound w =
      (Ok (Some (FlipEngine.mkFinished (closed (clock (proc w)) r)
                   (Round.winners r) (Round.losers r)
                   (verification_payload r))), w')
    /\ current w' = None
    /\ history w' = FlipEngine.archive (archived_of (closed (clock (proc w)) r)) (history w)
    /\ trace w' = trace w ++ [Emit "round_finished" (verification_payload r)]
    /\ isRunning (proc w') = isRunning (proc w)
    /\ ((SeedManager.exhausted (bumped (seedManager (proc w))) = false
         /\ seedManager (proc w') = bumped (seedManager (proc w)))
        \/ seedManager (proc w') = seeds_after SeedManager.initialize w).
Proof.
  unfold current, history. intros H.
  unfold FlipEngine.finishRound, FlipEngine.currentRound, bind at 1, gets at 1. cbn [proc].
  rewrite H.
  unfold bind at 1, dateNow, gets at 1. cbn [proc].
  unfold bind at 1, modify at 1.
  unfold bind at 1, FlipEngine.emit, record at 1.
  unfold bind at 1, modify at 1.
  unfold bind at 1.
  match goal with
  | |- context [SeedManager.advanceToNextSeed ?x] =>
      pose proof (advance_cases x) as Hadv;
      destruct (advanceToNextSeed_frame x) as (w2 & H2 & He & Ht & Hr); rewrite H2;
      unfold seeds_after in Hadv; rewrite H2 in Hadv; cbn [snd] in Hadv
  end.
  eexists. split; [reflexivity |].
  cbn in He, Ht, Hr |- *. rewrite He, Ht, Hr. cbn.
  do 4 (split; [reflexivity |]).
  cbn in Hadv.
  destruct (SeedManager.exhausted (bumped (seedManager (proc w)))) eqn:E.
  - right. exact Hadv.
  - left. split; [reflexivity | exact Hadv].
Qed.

Lemma finishRound_idle (w : World) :
  current w = None -> FlipEngine.finishRound w = (Ok None, w).
Proof.
  unfold current. intros H.
  unfold FlipEngine.finishRound, FlipEngine.currentRound, bind, gets. cbn [proc].
  rewrite H. reflexivity.
Qed.

Lemma addBet_run (w : World) (playerId : string) (amount : float) (choice sessionId : string) :
  FlipEngine.addBet playerId amount choice sessionId w =
  match current w with
  | None => (Throw (Error "No active round"), w)
  | Some r =>
      if negb (Status_eqb (Round.status r) betting)
      then (Throw (Error "Betting phase has ended"), w)
      else if FlipEngine.invalid_choice choice
      then (Throw (Error "Invalid choice. Must be HEADS, TAILS, or EDGE"), w)
      else if JsMap.has playerId (Round.bets r)
      then (Throw (Error "Already placed a bet this round"), w)
      else (Ok (Bet.mk playerId sessionId amount choice (clock (proc w))),
            placed w r playerId amount choice sessionId)
  end.
Proof.
  unfold FlipEngine.addBet, FlipEngine.currentRound, current, bind at 1, gets at 1. cbn [proc].
  destruct (Engine.currentRound (flipEngine (proc w))) as [r |]; [| reflexivity].
  destruct (negb (Status_eqb (Round.status r) betting)); [reflexivity |].
  destruct (FlipEngine.invalid_choice choice); [reflexivity |].
  destruct (JsMap.has playerId (Round.bets r)); reflexivity.
Qed.

(** ** Facts about [Map] *)

Lemma get_set_same {V : Type} (k : string) (v : V) (m : JsMap.t V) :
  JsMap.get k (JsMap.set k v m) = Some v.
Proof.
  induction m as [| [k' v'] m IH]; cbn.
  - rewrite String.eqb_refl. reflexivity.
  - destruct (String.eqb k k') eqn:E; cbn; rewrite E; [reflexivity | exact IH].
Qed.

Lemma get_set_other {V : Type} (k k' : string) (v : V) (m : JsMap.t V) :
  k' <> k -> JsMap.get k' (JsMap.set k v m) = JsMap.get k' m.
Proof.
  intros Hne. induction m as [| [k0 v0] m IH]; cbn.
  - destruct (String.eqb k' k) eqn:E; [apply String.eqb_eq in E; congruence | reflexivity].
  - destruct (String.eqb k k0) eqn:E; cbn.
    + apply String.eqb_eq in E. subst k0.
      destruct (String.eqb k' k) eqn:E'; [apply String.eqb_eq in E'; congruence | reflexivity].
    + rewrite IH. reflexivity.
Qed.

Lemma has_keys {V : Type} (k : string) (m : JsMap.t V) :
  JsMap.has k m = true <-> List.In k (JsMap.keys m).
Proof.
  unfold JsMap.has, JsMap.keys.
  induction m as [| [k' v'] m IH]; cbn.
  - split; [discriminate | tauto].
  - destruct (String.eqb k k') eqn:E.
    + apply String.eqb_eq in E. subst. tauto.
    + apply String.eqb_neq in E. rewrite IH. split; [tauto |].
      intros [H | H]; [congruence | exact H].
Qed.

Lemma keys_set {V : Type} (k : string) (v : V) (m : JsMap.t V) :
  JsMap.keys (JsMap.set k v m)
  = if JsMap.has k m then JsMap.keys m else JsMap.keys m ++ [k].
Proof.
  unfold JsMap.has, JsMap.keys.
  induction m as [| [k' v'] m IH]; cbn.
  - reflexivity.
  - destruct (String.eqb k k') eqn:E; cbn; [reflexivity |].
    rewrite IH. destruct (JsMap.get k m); reflexivity.
Qed.

Lemma NoDup_keys_set {V : Type} (k : string) (v : V) (m : JsMap.t V) :
  List.NoDup (JsMap.keys m) -> List.NoDup (JsMap.keys (JsMap.set k v m)).
Proof.
  intros H. rewrite keys_set.
  destruct (JsMap.has k m) eqn:E; [exact H |].
  apply List.NoDup_app; [exact H | repeat constructor; intros [] |].
  intros x Hx [Hk | []]. subst x.
  apply has_keys in Hx. congruence.
Qed.

(** ** The invariant of the round loop *)

Lemma published_app (id hash : string) (tr extra : list Effect) :
  published id hash tr -> published id hash (tr ++ extra).
Proof.
  intros (payload & Hin & H1 & H2). exists payload.
  split; [apply List.in_or_app; left; exact Hin | split; assumption].
Qed.

Lemma published_now (r : Round.t) (tr : list Effect) :
  published (Round.id r) (Round.serverSeedHash r)
            (tr ++ [Emit "betting_phase" (betting_phase_payload r)]).
Proof.
  exists (betting_phase_payload r).
  split; [apply List.in_or_app; right; left; reflexivity |]. split; reflexivity.
Qed.

Lemma archive_In (e h : Archived.t) (l : list Archived.t) :
  List.In h (FlipEngine.archive e l) -> h = e \/ List.In h l.
Proof.
  unfold FlipEngine.archive.
  destruct (50 <? Z.of_nat (List.length (e :: l))); intros H.
  - assert (H' : List.In h (e :: l)).
    { clear - H. revert H. generalize (e :: l). intros l0.
      induction l0 as [| a l0 IH]; cbn; [tauto |].
      destruct l0 as [| b l0]; [cbn; tauto |].
      intros [H | H]; [left; exact H | right; apply IH; exact H]. }
    destruct H'; [left; congruence | right; assumption].
  - destruct H; [left; congruence | right; assumption].
Qed.

Lemma invariant_startNewRound (w : World) :
  isRunning (proc w) = true -> invariant w ->
  invariant (snd (RoundService.startNewRound w)).
Proof.
  intros Hrun [Hc Hh].
  destruct (startNewRound_run w Hrun) as (r & w' & E & Hcur & Hhist & Htr & _ & Hsha & Hst & Hb).
  rewrite E. cbn [snd]. split.
  - intros r0 H0. rewrite Hcur in H0. injection H0 as <-.
    split; [exact Hsha |]. split; [congruence |]. split.
    + rewrite Htr. apply published_now.
    + rewrite Hb. constructor.
  - intros h Hin. rewrite Hhist in Hin. destruct (Hh h Hin) as [H1 H2].
    split; [exact H1 |]. rewrite Htr. apply published_app. exact H2.
Qed.

Lemma invariant_frame (w w' : World) :
  current w' = current w -> history w' = history w -> trace w' = trace w ->
  invariant w -> invariant w'.
Proof.
  intros Hc Hh Ht [H1 H2]. split.
  - intros r Hr. rewrite Hc in Hr. rewrite Ht. apply H1. exact Hr.
  - intros h Hin. rewrite Hh in Hin. rewrite Ht. apply H2. exact Hin.
Qed.

Lemma invariant_perform (a : Action) (w : World) :
  invariant w -> invariant (snd (perform a w)).
Proof.
  intros Hinv. destruct a; cbn [perform].
  - (* Start *)
    unfold RoundService.start, bind at 1, gets at 1. cbn [proc].
    destruct (isRunning (proc w)) eqn:Hrun; [exact Hinv |].
    destruct (initialize_frame w) as (x & w1 & E1 & He & Ht & Hr).
    unfold bind at 1. rewrite E1.
    unfold bind at 1, modify at 1.
    apply invariant_startNewRound; [reflexivity |].
    apply (invariant_frame w); try assumption; unfold current, history; cbn; rewrite ?He; reflexivity.
  - (* Stop *)
    apply (invariant_frame w); try assumption; reflexivity.
  - (* StartNewRound *)
    destruct (isRunning (proc w)) eqn:Hrun.
    + apply invariant_startNewRound; assumption.
    + unfold RoundService.startNewRound, bind, gets. cbn [proc]. rewrite Hrun. exact Hinv.
  - (* RevealRound *)
    rewrite revealRound_run.
    destruct (current w) as [r |] eqn:Hcur; [| exact Hinv].
    destruct (isRunning (proc w) && Status_eqb (Round.status r) betting) eqn:E; [| exact Hinv].
    apply andb_true_iff in E. destruct E as [_ Es]. apply Status_eqb_eq in Es.
    rewrite (startReveal_run w r Hcur Es). cbn [snd].
    destruct Hinv as [Hc Hh]. destruct (Hc r Hcur) as (H1 & H2 & H3 & H4).
    pose proof (results_core (Round.bets r)
                  (Round.with_startTime (Some (clock (proc w))) (Round.with_status revealing r)))
      as Hcore.
    fold (revealed (clock (proc w)) r) in Hcore.
    destruct Hcore as (Ci & Cs & Ch & _ & _ & _ & _ & _ & Cst & Cb).
    cbn in Ci, Cs, Ch, Cst, Cb.
    split.
    + intros r0 H0. unfold current in H0. cbn in H0. injection H0 as <-.
      rewrite Ci, Cs, Ch, Cst, Cb.
      split; [exact H1 |]. split; [discriminate |]. split; [| exact H4].
      cbn [trace with_trace]. apply published_app. exact H3.
    + intros h Hin. unfold history in Hin. cbn in Hin.
      destruct (Hh h Hin) as [G1 G2]. split; [exact G1 |].
      cbn [trace with_trace]. apply published_app. exact G2.
  - (* FinishRound *)
    unfold RoundService.finishRound, bind at 1, bind at 1, gets at 1. cbn [proc].
    destruct (isRunning (proc w)); cbn [negb]; [| exact Hinv].
    destruct (current w) as [r |] eqn:Hcur.
    + destruct (finishRound_run w r Hcur) as (w' & E & Hc' & Hh' & Ht' & _ & _).
      rewrite E. cbn [snd ret].
      destruct Hinv as [Hc Hh]. destruct (Hc r Hcur) as (H1 & H2 & H3 & H4).
      split.
      * intros r0 H0. congruence.
      * intros h Hin. rewrite Hh' in Hin. rewrite Ht'.
        apply archive_In in Hin. destruct Hin as [-> | Hin].
        -- cbn. split; [exact H1 | apply published_app; exact H3].
        -- destruct (Hh h Hin) as [G1 G2]. split; [exact G1 | apply published_app; exact G2].
    + rewrite (finishRound_idle w Hcur). exact Hinv.
  - (* AddBet *)
    unfold bind. rewrite addBet_run.
    destruct (current w) as [r |] eqn:Hcur; [| exact Hinv].
    destruct (negb (Status_eqb (Round.status r) betting)); [exact Hinv |].
    destruct (FlipEngine.invalid_choice choice); [exact Hinv |].
    destruct (JsMap.has playerId (Round.bets r)) eqn:Hhas; [exact Hinv |].
    cbn [snd ret]. destruct Hinv as [Hc Hh]. destruct (Hc r Hcur) as (H1 & H2 & H3 & H4).
    split.
    + intros r0 H0. unfold current, placed in H0. cbn in H0. injection H0 as <-. cbn.
      split; [exact H1 |]. split; [exact H2 |]. split; [exact H3 |].
      apply NoDup_keys_set. exact H4.
    + intros h Hin. apply Hh. exact Hin.
  - (* Elapse *)
    apply (invariant_frame w); try assumption; reflexivity.
Qed.

Lemma invariant_reachable (w : World) : reachable w -> invariant w.
Proof.
  intros (w0 & actions & (Hs & He & Hr & Ht) & ->).
  assert (H0 : invariant w0).
  { split.
    - intros r H. unfold current in H. rewrite He in H. discriminate.
    - intros h H. unfold history in H. rewrite He in H. destruct H. }
  clear Hs He Hr Ht. revert w0 H0.
  induction actions as [| a actions IH]; intros w0 H0; cbn [run List.fold_left].
  - exact H0.
  - apply IH. apply invariant_perform. exact H0.
Qed.

(** ** The seed chain in the round loop *)

Lemma initialize_fresh (w : World) :
  let sm := seeds_after SeedManager.initialize w in
  linked (Seed.seedChain sm)
  /\ Seed.currentIndex sm = 0%N
  /\ (0 < List.length (Seed.seedChain sm))%nat.
Proof.
  unfold seeds_after. rewrite initialize_run.
  cbn [snd proc with_proc with_seedManager seedManager Seed.seedChain Seed.currentIndex].
  destruct (fresh_chain (N.to_nat (N.pred (Seed.chainLength (seedManager (proc w)))))
                        (entropy w (drawn (proc w)))) as (Hlen & Hlink & _).
  cbn zeta in Hlen, Hlink.
  split; [| split; [reflexivity | lia]].
  intros i Hi. apply Hlink. lia.
Qed.

Lemma exhausted_false (sm : Seed.t) :
  SeedManager.exhausted sm = false ->
  (N.to_nat (Seed.currentIndex sm) < List.length (Seed.seedChain sm))%nat.
Proof. unfold SeedManager.exhausted. intros H. apply N.leb_gt in H. lia. Qed.

Lemma getCurrentServerSeed_run (w : World) :
  exists s w',
    SeedManager.getCurrentServerSeed w = (Ok s, w')
    /\ same_engine w w'
    /\ s = List.nth (N.to_nat (Seed.currentIndex (seedManager (proc w'))))
                    (Seed.seedChain (seedManager (proc w'))) ""
    /\ (N.to_nat (Seed.currentIndex (seedManager (proc w')))
        < List.length (Seed.seedChain (seedManager (proc w'))))%nat
    /\ (seedManager (proc w') = seedManager (proc w)
        \/ seedManager (proc w') = seeds_after SeedManager.initialize w).
Proof.
  unfold SeedManager.getCurrentServerSeed, bind at 1, gets at 1. cbn [proc].
  destruct (SeedManager.exhausted (seedManager (proc w))) eqn:E.
  - pose proof (initialize_fresh w) as (_ & _ & Hl). unfold seeds_after in *.
    unfold bind at 1. rewrite initialize_run in *. cbn in Hl |- *.
    do 2 eexists. split; [reflexivity |]. cbn. split; [repeat split |].
    split; [reflexivity |]. split; [exact Hl | right; reflexivity].
  - unfold bind, gets, ret. cbn [proc].
    do 2 eexists. split; [reflexivity |]. split; [repeat split |].
    split; [reflexivity |]. split; [apply exhausted_false; exact E | left; reflexivity].
Qed.

Lemma generateRound_seed (w : World) :
  exists r w',
    FlipEngine.generateRound w = (Ok r, w')
    /\ Round.serverSeed r
       = List.nth (N.to_nat (Seed.currentIndex (seedManager (proc w'))))
                  (Seed.seedChain (seedManager (proc w'))) ""
    /\ (N.to_nat (Seed.currentIndex (seedManager (proc w')))
        < List.length (Seed.seedChain (seedManager (proc w'))))%nat
    /\ (seedManager (proc w') = seedManager (proc w)
        \/ seedManager (proc w') = seeds_after SeedManager.initialize w).
Proof.
  unfold FlipEngine.generateRound.
  destruct (getCurrentServerSeed_run w) as (s & w1 & H1 & _ & Hs & Hl & Hsm).
  unfold bind at 1. rewrite H1.
  do 2 eexists. split; [reflexivity |]. cbn. auto.
Qed.

Lemma startNewRound_seed (w : World) :
  isRunning (proc w) = true ->
  let w' := snd (RoundService.startNewRound w) in
  (forall r, current w' = Some r ->
     Round.serverSeed r
     = List.nth (N.to_nat (Seed.currentIndex (seedManager (proc w'))))
                (Seed.seedChain (seedManager (proc w'))) ""
     /\ (N.to_nat (Seed.currentIndex (seedManager (proc w')))
         < List.length (Seed.seedChain (seedManager (proc w'))))%nat)
  /\ (seedManager (proc w') = seedManager (proc w)
      \/ seedManager (proc w') = seeds_after SeedManager.initialize w).
Proof.
  intros Hrun.
  destruct (generateRound_seed w) as (r & w1 & H1 & Hs & Hl & Hsm).
  destruct (generateRound_run w) as (r' & w1' & H1' & Hc & _).
  rewrite H1 in H1'. injection H1' as <- <-.
  unfold RoundService.startNewRound, bind, gets. cbn [proc]. rewrite Hrun. cbn [negb].
  rewrite H1. rewrite (startBettingPhase_run w1 r Hc). cbn.
  split; [| exact Hsm].
  intros r0 H0. unfold current in H0. cbn in H0. injection H0 as <-. cbn. auto.
Qed.

Lemma archive_head (e : Archived.t) (l : list Archived.t) :
  exists rest, FlipEngine.archive e l = e :: rest.
Proof.
  unfold FlipEngine.archive.
  destruct (50 <? Z.of_nat (List.length (e :: l))) eqn:E.
  - destruct l as [| a l]; [cbn in E; discriminate |].
    exists (List.removelast (a :: l)). reflexivity.
  - exists l. reflexivity.
Qed.

Lemma seed_invariant_fresh (wx w' : World) :
  seedManager (proc w') = seeds_after SeedManager.initialize wx ->
  Seed.chainLength (seedManager (proc wx)) = 10000%N ->
  (forall r, current w' = Some r ->
     Round.serverSeed r
     = List.nth (N.to_nat (Seed.currentIndex (seedManager (proc w'))))
                (Seed.seedChain (seedManager (proc w'))) ""
     /\ (N.to_nat (Seed.currentIndex (seedManager (proc w')))
         < List.length (Seed.seedChain (seedManager (proc w'))))%nat) ->
  seed_invariant w'.
Proof.
  intros Hsm Hlen Hseed.
  destruct (initialize_fresh wx) as (Hl & Hi & _). cbn zeta in Hl, Hi. rewrite <- Hsm in Hl, Hi.
  destruct (initialize_nonce wx) as (_ & _ & Hc). rewrite <- Hsm in Hc.
  split; [congruence | exact Hl | exact Hseed |].
  rewrite Hi. intros H. lia.
Qed.

Lemma seed_invariant_startNewRound (w : World) :
  isRunning (proc w) = true ->
  seed_invariant w
  \/ (exists wx, seedManager (proc w) = seeds_after SeedManager.initialize wx
                 /\ Seed.chainLength (seedManager (proc wx)) = 10000%N) ->
  seed_invariant (snd (RoundService.startNewRound w)).
Proof.
  intros Hrun Hinv.
  destruct (startNewRound_seed w Hrun) as (Hseed & Hsm).
  destruct (startNewRound_run w Hrun) as (r & w' & E & _ & Hhist & _).
  rewrite E in *. cbn [snd] in *.
  assert (Hlen : Seed.chainLength (seedManager (proc w)) = 10000%N).
  { destruct Hinv as [[Hlen _ _ _] | (wx & Hfresh & Hlen)]; [exact Hlen |].
    rewrite Hfresh. destruct (initialize_nonce wx) as (_ & _ & Hc). congruence. }
  destruct Hsm as [Hsm | Hsm].
  - destruct Hinv as [[_ Hl _ Hp] | (wx & Hfresh & Hlenx)].
    + split; [congruence | rewrite Hsm; exact Hl | exact Hseed |].
      rewrite Hsm, Hhist. exact Hp.
    + apply (seed_invariant_fresh wx); [rewrite Hsm; exact Hfresh | exact Hlenx | exact Hseed].
  - apply (seed_invariant_fresh w); [exact Hsm | exact Hlen | exact Hseed].
Qed.

Lemma seed_invariant_perform (a : Action) (w : World) :
  seed_invariant w -> seed_invariant (snd (perform a w)).
Proof.
  intros Hinv. destruct a; cbn [perform].
  - (* Start *)
    unfold RoundService.start, bind at 1, gets at 1. cbn [proc].
    destruct (isRunning (proc w)) eqn:Hrun; [exact Hinv |].
    unfold bind at 1. rewrite initialize_run. cbn zeta.
    unfold bind at 1, modify at 1.
    apply seed_invariant_startNewRound; [reflexivity |].
    right. exists w. split; [unfold seeds_after; rewrite initialize_run; reflexivity |].
    apply Hinv.
  - (* Stop *)
    destruct Hinv as [Hn Hl Hs Hp]. split; assumption.
  - (* StartNewRound *)
    destruct (isRunning (proc w)) eqn:Hrun.
    + apply seed_invariant_startNewRound; [assumption | left; assumption].
    + unfold RoundService.startNewRound, bind, gets. cbn [proc]. rewrite Hrun. exact Hinv.
  - (* RevealRound *)
    rewrite revealRound_run.
    destruct (current w) as [r |] eqn:Hcur; [| exact Hinv].
    destruct (isRunning (proc w) && Status_eqb (Round.status r) betting) eqn:E; [| exact Hinv].
    apply andb_true_iff in E. destruct E as [_ Es]. apply Status_eqb_eq in Es.
    rewrite (startReveal_run w r Hcur Es). cbn [snd].
    destruct Hinv as [Hn Hl Hs Hp]. destruct (Hs r Hcur) as [Hs1 Hs2].
    pose proof (results_core (Round.bets r)
                  (Round.with_startTime (Some (clock (proc w))) (Round.with_status revealing r)))
      as Hcore.
    fold (revealed (clock (proc w)) r) in Hcore.
    destruct Hcore as (_ & Cs & _). cbn in Cs.
    split.
    + exact Hn.
    + exact Hl.
    + intros r0 H0. unfold current in H0. cbn in H0. injection H0 as <-.
      cbn. rewrite Cs. split; assumption.
    + exact Hp.
  - (* FinishRound *)
    unfold RoundService.finishRound, bind at 1, bind at 1, gets at 1. cbn [proc].
    destruct (isRunning (proc w)); cbn [negb]; [| exact Hinv].
    destruct (current w) as [r |] eqn:Hcur.
    + destruct (finishRound_run w r Hcur) as (w' & E & Hc' & Hh' & _ & _ & Hseed).
      rewrite E in *. cbn [snd ret] in *.
      destruct Hinv as [Hn Hl Hs Hp]. destruct (Hs r Hcur) as [Hs1 Hs2].
      destruct Hseed as [[Hex Hsm] | Hfresh].
      * split.
        -- rewrite Hsm. exact Hn.
        -- rewrite Hsm. exact Hl.
        -- intros r0 H0. congruence.
        -- intros _. rewrite Hh', Hsm.
           destruct (archive_head (archived_of (closed (clock (proc w)) r)) (history w))
             as (rest & ->).
           do 2 eexists. split; [reflexivity |].
           cbn. rewrite Hs1. f_equal. lia.
      * apply (seed_invariant_fresh w); [exact Hfresh | exact Hn |].
        intros r0 H0. congruence.
    + rewrite (finishRound_idle w Hcur). exact Hinv.
  - (* AddBet *)
    unfold bind. rewrite addBet_run.
    destruct (current w) as [r |] eqn:Hcur; [| exact Hinv].
    destruct (negb (Status_eqb (Round.status r) betting)); [exact Hinv |].
    destruct (FlipEngine.invalid_choice choice); [exact Hinv |].
    destruct (JsMap.has playerId (Round.bets r)) eqn:Hhas; [exact Hinv |].
    cbn [snd ret]. destruct Hinv as [Hn Hl Hs Hp]. destruct (Hs r Hcur) as [Hs1 Hs2].
    split.
    + exact Hn.
    + exact Hl.
    + intros r0 H0. unfold current, placed in H0. cbn in H0. injection H0 as <-. cbn.
      split; assumption.
    + exact Hp.
  - (* Elapse *)
    destruct Hinv as [Hn Hl Hs Hp]. split; assumption.
Qed.

Lemma seed_invariant_reachable (w : World) : reachable w -> seed_invariant w.
Proof.
  intros (w0 & actions & (Hs & He & Hr & Ht) & ->).
  assert (H0 : seed_invariant w0).
  { split.
    - rewrite Hs. reflexivity.
    - rewrite Hs. intros i Hi. cbn in Hi. lia.
    - intros r H. unfold current in H. rewrite He in H. discriminate.
    - rewrite Hs. cbn. lia. }
  clear Hs He Hr Ht. revert w0 H0.
  induction actions as [| a actions IH]; intros w0 H0; cbn [run List.fold_left].
  - exact H0.
  - apply IH. apply seed_invariant_perform. exact H0.
Qed.

(** After the service has started, one reveal and one finish archive the
    first round. *)
Lemma first_round_archived (w0 : World) :
  loaded w0 -> exists h, history (run [Start; RevealRound; FinishRound] w0) = [h].
Proof.
  intros (Hs & He & Hr & Ht).
  cbn [run List.fold_left perform].
  (* Start *)
  assert (H1 : exists r w1,
             snd (RoundService.start w0) = w1 /\ current w1 = Some r
             /\ Round.status r = betting /\ history w1 = [] /\ isRunning (proc w1) = true).
  { unfold RoundService.start, bind at 1, gets at 1. cbn [proc]. rewrite Hr.
    unfold bind at 1. rewrite initialize_run. cbn zeta.
    unfold bind at 1, modify at 1.
    match goal with
    | |- context [RoundService.startNewRound ?x] =>
        destruct (startNewRound_run x eq_refl) as (r & w1 & E & Hc & Hh & _ & Hrun & _ & Hst & _)
    end.
    rewrite E. exists r, w1. cbn [snd].
    split; [reflexivity |]. split; [exact Hc |]. split; [exact Hst |]. split; [| exact Hrun].
    rewrite Hh. unfold history. cbn. rewrite He. reflexivity. }
  destruct H1 as (r & w1 & -> & Hc & Hst & Hh & Hrun).
  (* RevealRound *)
  rewrite revealRound_run, Hc, Hrun, Hst. cbn [andb Status_eqb snd].
  rewrite (startReveal_run w1 r Hc Hst). cbn [snd].
  (* FinishRound *)
  unfold RoundService.finishRound, bind at 1, bind at 1, gets at 1.
  cbn [proc with_proc with_trace isRunning FlipEngine.set_currentRound with_flipEngine].
  rewrite Hrun. cbn [negb].
  match goal with
  | |- context [FlipEngine.finishRound ?x] =>
      destruct (finishRound_run x (revealed (clock (proc w1)) r) eq_refl)
        as (w3 & E & _ & Hh3 & _)
  end.
  rewrite E. cbn [snd ret]. rewrite Hh3.
  unfold history at 1. cbn [proc with_proc with_trace flipEngine FlipEngine.set_currentRound
                            with_flipEngine Engine.roundHistory].
  fold (history w1). rewrite Hh. eexists. reflexivity.
Qed.

Lemma invalid_choice_spec (choice : string) :
  FlipEngine.invalid_choice choice = false
  <-> (choice = "HEADS" \/ choice = "TAILS" \/ choice = "EDGE").
Proof.
  unfold FlipEngine.invalid_choice.
  destruct (String.eqb_spec choice "HEADS") as [-> | H1]; [cbn; tauto |].
  destruct (String.eqb_spec choice "TAILS") as [-> | H2]; [cbn; tauto |].
  destruct (String.eqb_spec choice "EDGE") as [-> | H3]; [cbn; tauto |].
  cbn. split; [discriminate | tauto].
Qed.

Lemma has_get {V : Type} (k : string) (m : JsMap.t V) :
  JsMap.has k m = false <-> JsMap.get k m = None.
Proof. unfold JsMap.has. destruct (JsMap.get k m); split; congruence. Qed.

(** C4.  [addBet] puts a bet in the ledger only while the round's status is
    [betting]: it throws "No active round" without a round, "Betting phase
    has ended" when the status is not [betting], the invalid-choice error for
    a choice other than HEADS, TAILS and EDGE, and "Already placed a bet this
    round" when the player has an entry.  A player who has an entry is
    always refused, so the ledger holds a player at most once; and a call
    that throws leaves the whole state, the ledger included, as it was. *)
Theorem addBet_guards :
  forall (w : World) (playerId : string) (amount : float) (choice sessionId : string),
    (current w = None ->
       FlipEngine.addBet playerId amount choice sessionId w
       = (Throw (Error "No active round"), w))
    /\ (forall r, current w = Some r -> Round.status r <> betting ->
          FlipEngine.addBet playerId amount choice sessionId w
          = (Throw (Error "Betting phase has ended"), w))
    /\ (forall r, current w = Some r -> Round.status r = betting ->
          choice <> "HEADS" -> choice <> "TAILS" -> choice <> "EDGE" ->
          FlipEngine.addBet playerId amount choice sessionId w
          = (Throw (Error "Invalid choice. Must be HEADS, TAILS, or EDGE"), w))
    /\ (forall r, current w = Some r -> Round.status r = betting ->
          (choice = "HEADS" \/ choice = "TAILS" \/ choice = "EDGE") ->
          JsMap.has playerId (Round.bets r) = true ->
          FlipEngine.addBet playerId amount choice sessionId w
          = (Throw (Error "Already placed a bet this round"), w))
    /\ (forall r, current w = Some r -> JsMap.has playerId (Round.bets r) = true ->
          exists e, FlipEngine.addBet playerId amount choice sessionId w = (Throw e, w))
    /\ (forall bet w',
          FlipEngine.addBet playerId amount choice sessionId w = (Ok bet, w') ->
          exists r r',
            current w = Some r /\ Round.status r = betting
            /\ (choice = "HEADS" \/ choice = "TAILS" \/ choice = "EDGE")
            /\ JsMap.get playerId (Round.bets r) = None
            /\ current w' = Some r'
            /\ Round.bets r' = JsMap.set playerId bet (Round.bets r)
            /\ JsMap.get playerId (Round.bets r') = Some bet
            /\ JsMap.keys (Round.bets r') = JsMap.keys (Round.bets r) ++ [playerId]
            /\ Bet.amount bet = amount /\ Bet.choice bet = choice
            /\ forall amount' choice' sessionId',
                 exists e, FlipEngine.addBet playerId amount' choice' sessionId' w'
                           = (Throw e, w'))
    /\ (forall e w',
          FlipEngine.addBet playerId amount choice sessionId w = (Throw e, w') -> w' = w)
    /\ (reachable w -> forall r, current w = Some r ->
          List.NoDup (JsMap.keys (Round.bets r))).
Proof.
  intros w playerId amount choice sessionId.
  assert (Hdup : forall w0 a c s r, current w0 = Some r ->
                   JsMap.has playerId (Round.bets r) = true ->
                   exists e, FlipEngine.addBet playerId a c s w0 = (Throw e, w0)).
  { intros w0 a c s r Hr Hhas. rewrite addBet_run, Hr, Hhas.
    destruct (negb (Status_eqb (Round.status r) betting)); [eexists; reflexivity |].
    destruct (FlipEngine.invalid_choice c); eexists; reflexivity. }
  repeat match goal with |- _ /\ _ => split end.
  - intros Hr. rewrite addBet_run, Hr. reflexivity.
  - intros r Hr Hst. rewrite addBet_run, Hr.
    destruct (Status_eqb (Round.status r) betting) eqn:E; [| reflexivity].
    apply Status_eqb_eq in E. contradiction.
  - intros r Hr Hst H1 H2 H3. rewrite addBet_run, Hr, Hst. cbn [Status_eqb negb].
    destruct (FlipEngine.invalid_choice choice) eqn:E; [reflexivity |].
    apply invalid_choice_spec in E. tauto.
  - intros r Hr Hst Hch Hhas. rewrite addBet_run, Hr, Hst. cbn [Status_eqb negb].
    apply invalid_choice_spec in Hch. rewrite Hch, Hhas. reflexivity.
  - intros r Hr Hhas. apply (Hdup w amount choice sessionId r Hr Hhas).
  - intros bet w' H. rewrite addBet_run in H.
    destruct (current w) as [r |] eqn:Hr; [| discriminate].
    destruct (Status_eqb (Round.status r) betting) eqn:Est; cbn [negb] in H; [| discriminate].
    destruct (FlipEngine.invalid_choice choice) eqn:Ech; [discriminate |].
    destruct (JsMap.has playerId (Round.bets r)) eqn:Ehas; [discriminate |].
    injection H as <- <-.
    exists r. eexists.
    split; [reflexivity |]. split; [apply Status_eqb_eq; exact Est |].
    split; [apply invalid_choice_spec; exact Ech |].
    split; [apply has_get; exact Ehas |].
    split; [unfold current, placed; cbn; reflexivity |]. cbn [Round.bets Round.with_bets].
    split; [reflexivity |].
    split; [apply get_set_same |].
    split; [rewrite keys_set, Ehas; reflexivity |].
    split; [reflexivity |]. split; [reflexivity |].
    intros a c s. eapply Hdup.
    + unfold current, placed. cbn. reflexivity.
    + cbn [Round.bets Round.with_bets]. unfold JsMap.has. rewrite get_set_same. reflexivity.
  - intros e w' H. rewrite addBet_run in H.
    destruct (current w) as [r |]; [| congruence].
    destruct (negb (Status_eqb (Round.status r) betting)); [congruence |].
    destruct (FlipEngine.invalid_choice choice); [congruence |].
    destruct (JsMap.has playerId (Round.bets r)); congruence.
  - intros Hreach r Hr.
    destruct (invariant_reachable w Hreach) as [Hc _].
    apply (Hc r Hr).
Qed.

(** ** The winners and the losers of a round *)

Lemma get_keys_None {V : Type} (k : string) (m : JsMap.t V) :
  ~ List.In k (JsMap.keys m) -> JsMap.get k m = None.
Proof.
  intros H. destruct (JsMap.get k m) eqn:E; [| reflexivity].
  exfalso. apply H. apply has_keys. unfold JsMap.has. rewrite E. reflexivity.
Qed.

Lemma settle_result (r : Round.t) (entry : string * Bet.t) :
  Round.result (FlipEngine.settle r entry) = Round.result r.
Proof. apply settle_core. Qed.

(** What one pass of the loop of [calculateResults] over a ledger does to
    the winners and losers of a player. *)
Lemma settle_fold (l : JsMap.t Bet.t) :
  forall (r : Round.t) (p : string),
    List.NoDup (JsMap.keys l) ->
    let r' := List.fold_left FlipEngine.settle l r in
    match JsMap.get p l with
    | Some bet =>
        if String.eqb (Bet.choice bet) (Round.result r)
        then JsMap.get p (Round.winners r')
             = Some (Winner.mk (Bet.amount bet) (payout (Bet.amount bet) (Round.result r))
                               (Bet.choice bet))
             /\ JsMap.get p (Round.losers r') = JsMap.get p (Round.losers r)
        else JsMap.get p (Round.losers r')
             = Some (Loser.mk (Bet.amount bet) (Bet.choice bet))
             /\ JsMap.get p (Round.winners r') = JsMap.get p (Round.winners r)
    | None =>
        JsMap.get p (Round.winners r') = JsMap.get p (Round.winners r)
        /\ JsMap.get p (Round.losers r') = JsMap.get p (Round.losers r)
    end.
Proof.
  induction l as [| [k b] l IH]; intros r p Hnd; cbn [List.fold_left JsMap.get].
  - auto.
  - cbn [JsMap.keys List.map fst] in Hnd. inversion Hnd as [| ? ? Hk Hnd']; subst.
    fold (JsMap.keys l) in Hk, Hnd'.
    specialize (IH (FlipEngine.settle r (k, b)) p Hnd'). cbn zeta in IH.
    rewrite settle_result in IH.
    destruct (String.eqb p k) eqn:Epk.
    + apply String.eqb_eq in Epk. subst p.
      rewrite (get_keys_None k l Hk) in IH. destruct IH as [IHw IHl].
      rewrite IHw, IHl. unfold FlipEngine.settle.
      destruct (String.eqb (Bet.choice b) (Round.result r)) eqn:Ec;
        cbn [Round.winners Round.losers Round.with_winners Round.with_losers];
        rewrite get_set_same; split; reflexivity.
    + apply String.eqb_neq in Epk.
      assert (Hw : JsMap.get p (Round.winners (FlipEngine.settle r (k, b)))
                   = JsMap.get p (Round.winners r)).
      { unfold FlipEngine.settle.
        destruct (String.eqb (Bet.choice b) (Round.result r));
          cbn [Round.winners Round.with_winners Round.with_losers];
          [apply get_set_other; exact Epk | reflexivity]. }
      assert (Hl : JsMap.get p (Round.losers (FlipEngine.settle r (k, b)))
                   = JsMap.get p (Round.losers r)).
      { unfold FlipEngine.settle.
        destruct (String.eqb (Bet.choice b) (Round.result r));
          cbn [Round.losers Round.with_winners Round.with_losers];
          [reflexivity | apply get_set_other; exact Epk]. }
      rewrite Hw, Hl in IH. exact IH.
Qed.

Lemma startNewRound_fresh (w : World) :
  isRunning (proc w) = true ->
  forall r, current (snd (RoundService.startNewRound w)) = Some r ->
            Round.winners r = JsMap.empty /\ Round.losers r = JsMap.empty.
Proof.
  intros Hrun.
  assert (G : exists r w', FlipEngine.generateRound w = (Ok r, w')
                           /\ Round.winners r = JsMap.empty /\ Round.losers r = JsMap.empty).
  { unfold FlipEngine.generateRound.
    destruct (getCurrentServerSeed_frame w) as (s & w1 & H1 & _).
    unfold bind at 1. rewrite H1.
    do 2 eexists. split; [reflexivity |]. cbn. auto. }
  destruct G as (r & w1 & H1 & Hw & Hl).
  destruct (generateRound_run w) as (r' & w1' & H1' & Hc & _).
  rewrite H1 in H1'. injection H1' as <- <-.
  unfold RoundService.startNewRound, bind, gets. cbn [proc]. rewrite Hrun. cbn [negb].
  rewrite H1. rewrite (startBettingPhase_run w1 r Hc). cbn.
  intros r0 H0. unfold current in H0. cbn in H0. injection H0 as <-. cbn. auto.
Qed.

Lemma unsettled_perform (a : Action) (w : World) :
  unsettled w -> unsettled (snd (perform a w)).
Proof.
  intros Hinv. destruct a; cbn [perform].
  - (* Start *)
    unfold RoundService.start, bind at 1, gets at 1. cbn [proc].
    destruct (isRunning (proc w)) eqn:Hrun; [exact Hinv |].
    unfold bind at 1. rewrite initialize_run. cbn zeta.
    unfold bind at 1, modify at 1.
    intros r Hr _. eapply startNewRound_fresh; [| exact Hr]. reflexivity.
  - (* Stop *)
    exact Hinv.
  - (* StartNewRound *)
    destruct (isRunning (proc w)) eqn:Hrun.
    + intros r Hr _. eapply startNewRound_fresh; [exact Hrun | exact Hr].
    + unfold RoundService.startNewRound, bind, gets. cbn [proc]. rewrite Hrun. exact Hinv.
  - (* RevealRound *)
    rewrite revealRound_run.
    destruct (current w) as [r |] eqn:Hcur; [| exact Hinv].
    destruct (isRunning (proc w) && Status_eqb (Round.status r) betting) eqn:E; [| exact Hinv].
    apply andb_true_iff in E. destruct E as [_ Es]. apply Status_eqb_eq in Es.
    rewrite (startReveal_run w r Hcur Es). cbn [snd].
    intros r0 H0 Hst. unfold current in H0. cbn in H0. injection H0 as <-.
    pose proof (results_core (Round.bets r)
                  (Round.with_startTime (Some (clock (proc w))) (Round.with_status revealing r)))
      as Hcore.
    fold (revealed (clock (proc w)) r) in Hcore.
    destruct Hcore as (_ & _ & _ & _ & _ & _ & _ & _ & Cst & _).
    cbn in Cst. congruence.
  - (* FinishRound *)
    unfold RoundService.finishRound, bind at 1, bind at 1, gets at 1. cbn [proc].
    destruct (isRunning (proc w)); cbn [negb]; [| exact Hinv].
    destruct (current w) as [r |] eqn:Hcur.
    + destruct (finishRound_run w r Hcur) as (w' & E & Hc' & _).
      rewrite E. cbn [snd ret]. intros r0 H0. congruence.
    + rewrite (finishRound_idle w Hcur). exact Hinv.
  - (* AddBet *)
    unfold bind. rewrite addBet_run.
    destruct (current w) as [r |] eqn:Hcur; [| exact Hinv].
    destruct (negb (Status_eqb (Round.status r) betting)); [exact Hinv |].
    destruct (FlipEngine.invalid_choice choice); [exact Hinv |].
    destruct (JsMap.has playerId (Round.bets r)) eqn:Hhas; [exact Hinv |].
    cbn [snd ret]. intros r0 H0 Hst.
    unfold current, placed in H0. cbn in H0. injection H0 as <-. cbn in Hst |- *.
    apply (Hinv r Hcur Hst).
  - (* Elapse *)
    exact Hinv.
Qed.

Lemma unsettled_reachable (w : World) : reachable w -> unsettled w.
Proof.
  intros (w0 & actions & (Hs & He & Hr & Ht) & ->).
  assert (H0 : unsettled w0).
  { intros r H. unfold current in H. rewrite He in H. discriminate. }
  clear Hs He Hr Ht. revert w0 H0.
  induction actions as [| a actions IH]; intros w0 H0; cbn [run List.fold_left].
  - exact H0.
  - apply IH. apply unsettled_perform. exact H0.
Qed.

Lemma has_true_get {V : Type} (k : string) (m : JsMap.t V) :
  JsMap.has k m = true <-> exists v, JsMap.get k m = Some v.
Proof.
  unfold JsMap.has. destruct (JsMap.get k m).
  - split; [eexists; reflexivity | reflexivity].
  - split; [discriminate | intros (v & H); discriminate].
Qed.

Lemma all_from_spec (f : Z -> bool) (n : nat) :
  forall c k, all_from n c f = true -> c <= k < c + Z.of_nat n -> f k = true.
Proof.
  induction n as [| n IH]; intros c k H Hk; [lia |].
  cbn [all_from] in H. apply andb_true_iff in H. destruct H as [H1 H2].
  destruct (Z.eq_dec k c) as [-> | Hne]; [exact H1 |].
  apply (IH (c + 1)); [exact H2 | lia].
Qed.

Lemma whole_cent_payouts :
  all_from (Z.to_nat 9901) 100
           (fun c => paid_in_full "HEADS" c || paid_a_cent_less "HEADS" c) = true
  /\ all_from (Z.to_nat 9901) 100
              (fun c => paid_in_full "EDGE" c || paid_a_cent_less "EDGE" c) = true.
Proof. split; vm_compute; reflexivity. Qed.

Lemma payout_label (label : string) :
  (forall c, paid_in_full label c = paid_in_full "EDGE" c
             /\ paid_a_cent_less label c = paid_a_cent_less "EDGE" c)
  \/ (forall c, paid_in_full label c = paid_in_full "HEADS" c
                /\ paid_a_cent_less label c = paid_a_cent_less "HEADS" c).
Proof.
  unfold paid_in_full, paid_a_cent_less, payout, reference_payout, multiplier,
    reference_multiplier.
  destruct (String.eqb label "EDGE"); [left | right]; intros c; split; reflexivity.
Qed.

(** C5.  [calculateResults] splits the ledger of the round: a bet is
    among the winners exactly when its choice is the round's result and
    among the losers exactly when it is not, and a winner's [winAmount] is
    [Math.floor(betAmount * multiplier * 100) / 100] as binary64 computes
    it, the multiplier being 10 for the label EDGE and 1.95 for the others.
    A bet of 10.00 that wins at 1.95 is paid 19.50, which is the amount
    times the multiplier rounded down to the cent.  A bet of 19.00 that wins
    at 1.95 is paid 37.04 where that is 37.05, and a bet of 1.02 that wins at
    10 is paid 10.19 where it is 10.20.  For every bet of whole cents from
    1.00 to 100.00 the win amount is the amount times the multiplier
    rounded down to the cent, or one cent less.  The ledger of every round
    of the round loop meets what the statement asks of it at the reveal. *)
Theorem calculateResults_partition :
  forall (w : World) (r : Round.t),
    (current w = Some r ->
     List.NoDup (JsMap.keys (Round.bets r)) ->
     Round.winners r = JsMap.empty -> Round.losers r = JsMap.empty ->
     exists r',
       FlipEngine.calculateResults w
       = (Ok tt, with_proc (FlipEngine.set_currentRound (Some r') (proc w)) w)
       /\ Round.bets r' = Round.bets r /\ Round.result r' = Round.result r
       /\ forall p : string,
            (JsMap.has p (Round.winners r') = true
             <-> exists bet, JsMap.get p (Round.bets r) = Some bet
                             /\ Bet.choice bet = Round.result r)
            /\ (JsMap.has p (Round.losers r') = true
                <-> exists bet, JsMap.get p (Round.bets r) = Some bet
                                /\ Bet.choice bet <> Round.result r)
            /\ (forall bet, JsMap.get p (Round.bets r) = Some bet ->
                            Bet.choice bet = Round.result r ->
                            JsMap.get p (Round.winners r')
                            = Some (Winner.mk (Bet.amount bet)
                                              (payout (Bet.amount bet) (Round.result r))
                                              (Bet.choice bet))))
    /\ (reachable w -> current w = Some r -> Round.status r = betting ->
        List.NoDup (JsMap.keys (Round.bets r))
        /\ Round.winners r = JsMap.empty /\ Round.losers r = JsMap.empty)
    /\ multiplier "EDGE" = 10%float
    /\ multiplier "HEADS" = 1.95%float
    /\ multiplier "TAILS" = 1.95%float
    /\ payout 10%float "HEADS" = 19.5%float
    /\ (cents 1000 = 10%float /\ cents 1950 = 19.5%float
        /\ (reference_payout (1000 # 100) "HEADS" == 1950 # 100)%Q)
    /\ (cents 1900 = 19%float
        /\ payout (cents 1900) "HEADS" = cents 3704
        /\ (reference_payout (1900 # 100) "HEADS" == 3705 # 100)%Q
        /\ PrimFloat.ltb (cents 3704) (cents 3705) = true)
    /\ (payout (cents 102) "EDGE" = cents 1019
        /\ (reference_payout (102 # 100) "EDGE" == 1020 # 100)%Q
        /\ PrimFloat.ltb (cents 1019) (cents 1020) = true)
    /\ (forall (c : Z) (label : string),
          100 <= c <= 10000 ->
          paid_in_full label c = true \/ paid_a_cent_less label c = true).
Proof.
  intros w r. split; [| split].
  - intros Hcur Hnd Hw Hl.
    exists (List.fold_left FlipEngine.settle (Round.bets r) r).
    split.
    { unfold FlipEngine.calculateResults, FlipEngine.currentRound, bind, gets, modify.
      cbn [proc]. unfold current in Hcur. rewrite Hcur. reflexivity. }
    destruct (results_core (Round.bets r) r) as (_ & _ & _ & _ & _ & Cres & _ & _ & _ & Cb).
    split; [exact Cb |]. split; [exact Cres |].
    intros p.
    pose proof (settle_fold (Round.bets r) r p Hnd) as H. cbn zeta in H.
    rewrite Hw, Hl in H. cbn [JsMap.get JsMap.empty] in H.
    rewrite !has_true_get.
    destruct (JsMap.get p (Round.bets r)) as [bet |] eqn:Eg.
    + destruct (String.eqb (Bet.choice bet) (Round.result r)) eqn:Ec; destruct H as [H1 H2].
      * apply String.eqb_eq in Ec.
        split; [| split].
        -- split; [intros _; exists bet; auto | intros _; eexists; exact H1].
        -- rewrite H2. split; [intros (v & Hv); discriminate |].
           intros (b & Hb & Hne). injection Hb as <-. contradiction.
        -- intros b Hb _. injection Hb as <-. exact H1.
      * apply String.eqb_neq in Ec.
        split; [| split].
        -- rewrite H2. split; [intros (v & Hv); discriminate |].
           intros (b & Hb & He). injection Hb as <-. contradiction.
        -- split; [intros _; exists bet; auto | intros _; eexists; exact H1].
        -- intros b Hb He. injection Hb as <-. contradiction.
    + destruct H as [H1 H2]. rewrite H1, H2.
      split; [| split].
      * split; [intros (v & Hv); discriminate | intros (b & Hb & _); discriminate].
      * split; [intros (v & Hv); discriminate | intros (b & Hb & _); discriminate].
      * intros b Hb. discriminate.
  - intros Hreach Hcur Hst.
    destruct (invariant_reachable w Hreach) as [Hc _].
    destruct (Hc r Hcur) as (_ & _ & _ & Hnd).
    destruct (unsettled_reachable w Hreach r Hcur Hst) as [Hw Hl].
    auto.
  - do 4 (split; [vm_compute; reflexivity |]).
    split; [repeat split; vm_compute; reflexivity |].
    split; [repeat split; vm_compute; reflexivity |].
    split; [repeat split; vm_compute; reflexivity |].
    intros c label Hc.
    destruct whole_cent_payouts as [Hh He].
    assert (Hk : 100 <= c < 100 + Z.of_nat (Z.to_nat 9901)) by lia.
    pose proof (all_from_spec _ _ _ _ Hh Hk) as Hch.
    pose proof (all_from_spec _ _ _ _ He Hk) as Hce.
    cbv beta in Hch, Hce.
    destruct (payout_label label) as [H | H]; destruct (H c) as [-> ->];
      apply orb_true_iff; assumption.
Qed.

Lemma calculateResults_partition_witness :
  (exists r',
      current (snd (FlipEngine.calculateResults (table two_bets))) = Some r'
      /\ Round.result r' = "HEADS"
      /\ JsMap.get "alice" (Round.winners r') = Some (Winner.mk 10%float 19.5%float "HEADS")
      /\ JsMap.has "bob" (Round.winners r') = false
      /\ JsMap.has "bob" (Round.losers r') = true)
  /\ (exists r',
        current (snd (FlipEngine.calculateResults (table nineteen))) = Some r'
        /\ JsMap.get "alice" (Round.winners r')
           = Some (Winner.mk (cents 1900) (cents 3704) "HEADS")).
Proof.
  split.
  - destruct (calculateResults_partition (table two_bets) (table_round two_bets))
      as (H & _).
    destruct H as (r' & E & _ & Hres & Hp).
    + reflexivity.
    + cbn. constructor; [intros [H | []]; discriminate H |].
      constructor; [intros [] | constructor].
    + reflexivity.
    + reflexivity.
    + exists r'. rewrite E. split; [reflexivity |].
      assert (Hr : Round.result (table_round two_bets) = "HEADS")
        by (vm_compute; reflexivity).
      split; [rewrite Hres; exact Hr |].
      split; [| split].
      * destruct (Hp "alice") as (_ & _ & H3).
        rewrite (H3 (Bet.mk "alice" "SESSION-a" 10%float "HEADS" 1700000000500)).
        -- rewrite Hr. f_equal.
        -- reflexivity.
        -- rewrite Hr. reflexivity.
      * destruct (Hp "bob") as (H1 & _).
        destruct (JsMap.has "bob" (Round.winners r')); [| reflexivity].
        destruct H1 as [H1 _]. destruct (H1 eq_refl) as (bet & Hb & Hc).
        cbn in Hb. injection Hb as <-. rewrite Hr in Hc. discriminate.
      * destruct (Hp "bob") as (_ & H2 & _). apply H2.
        eexists. split; [reflexivity |]. rewrite Hr. cbn. discriminate.
  - destruct (calculateResults_partition (table nineteen) (table_round nineteen))
      as (H & _ & _ & _ & _ & _ & _ & (_ & Hpay & _) & _).
    destruct H as (r' & E & _ & Hres & Hp).
    + reflexivity.
    + cbn. constructor; [intros [] | constructor].
    + reflexivity.
    + reflexivity.
    + exists r'. rewrite E. split; [reflexivity |].
      assert (Hr : Round.result (table_round nineteen) = "HEADS")
        by (vm_compute; reflexivity).
      destruct (Hp "alice") as (_ & _ & H3).
      rewrite (H3 (Bet.mk "alice" "SESSION-a" (cents 1900) "HEADS" 1700000000500)).
      * rewrite Hr. cbn [Bet.amount Bet.choice]. rewrite Hpay. reflexivity.
      * reflexivity.
      * rewrite Hr. reflexivity.
Defined.

(** ** What a client sees of the round *)

Lemma sendCurrentState_run (socket : string) (w : World) :
  GameNamespace.sendCurrentState socket w =
  (Ok tt,
   with_trace
     (trace w ++
      [match current w with
       | None => SocketEmit socket "waiting" [("message", Js.Str "Waiting for next round...")]
       | Some r =>
           match Round.status r with
           | betting =>
               SocketEmit socket "betting_phase"
                 [ ("roundId", Js.Str (Round.id r));
                   ("serverSeedHash", Js.Str (Round.serverSeedHash r));
                   ("clientSeed", Js.Str (Round.clientSeed r));
                   ("nonce", Js.Int (Z.of_N (Round.nonce r))) ]
           | revealing =>
               SocketEmit socket "round_revealing"
                 [ ("roundId", Js.Str (Round.id r));
                   ("serverSeedHash", Js.Str (Round.serverSeedHash r));
                   ("result", Js.Str (Round.result r)) ]
           | finished =>
               SocketEmit socket "round_finished"
                 [ ("roundId", Js.Str (Round.id r));
                   ("result", Js.Str (Round.result r)) ]
           | pending =>
               SocketEmit socket "waiting" [("message", Js.Str "Waiting for next round...")]
           end
       end]) w).
Proof.
  unfold GameNamespace.sendCurrentState, bind. rewrite getCurrentRound_run.
  destruct (current w) as [r |]; [| reflexivity].
  cbn [RoundView.status]. destruct (Round.status r); reflexivity.
Qed.

Lemma sendRoundState_run (socket : string) (w : World) :
  ControlsNamespace.sendRoundState socket w =
  (Ok tt,
   with_trace
     (trace w ++
      [match current w with
       | None => SocketEmit socket "waiting" [("message", Js.Str "Waiting for next round...")]
       | Some r =>
           SocketEmit socket "round_state"
             [ ("roundId", Js.Str (Round.id r));
               ("status", Js.Str (Status_label (Round.status r)));
               ("result",
                if Status_eqb (Round.status r) revealing || Status_eqb (Round.status r) finished
                then Js.Str (Round.result r) else Js.Null);
               ("serverSeedHash", Js.Str (Round.serverSeedHash r)) ]
       end]) w).
Proof.
  unfold ControlsNamespace.sendRoundState, bind. rewrite getCurrentRound_run.
  destruct (current w) as [r |]; [| reflexivity].
  cbn [RoundView.status RoundView.result RoundView.id RoundView.serverSeedHash].
  destruct (Status_eqb (Round.status r) revealing || Status_eqb (Round.status r) finished);
    reflexivity.
Qed.

(** ** The expiry of sessions *)

Lemma get_delete {V : Type} (k k' : string) (m : JsMap.t V) :
  JsMap.get k' (JsMap.delete k m) = if String.eqb k' k then None else JsMap.get k' m.
Proof.
  induction m as [| [k0 v0] m IH]; cbn.
  - destruct (String.eqb k' k); reflexivity.
  - destruct (String.eqb k k0) eqn:E.
    + apply String.eqb_eq in E. subst k0. rewrite IH.
      destruct (String.eqb k' k); reflexivity.
    + cbn. rewrite IH.
      destruct (String.eqb k' k) eqn:E'; [| reflexivity].
      apply String.eqb_eq in E'. subst k'. rewrite E. reflexivity.
Qed.

Lemma destroySession_run (sessionId : string) (w : World) :
  exists w',
    SessionService.destroySession sessionId w = (Ok tt, w')
    /\ sessions_of w' = JsMap.delete sessionId (sessions_of w)
    /\ clock (proc w') = clock (proc w)
    /\ trace w' = trace w.
Proof.
  unfold SessionService.destroySession, sessions_of, bind, gets, modify. cbn [proc].
  destruct (JsMap.get sessionId (Directory.sessions (sessionService (proc w)))) as [s |] eqn:E.
  - eexists. split; [reflexivity |]. cbn. auto.
  - eexists. split; [reflexivity |]. split; [| auto].
    symmetry. clear - E.
    induction (Directory.sessions (sessionService (proc w))) as [| [k v] m IH]; [reflexivity |].
    cbn in E |- *. destruct (String.eqb sessionId k); [discriminate |].
    rewrite IH by exact E. reflexivity.
Qed.

Lemma getSession_run (sessionId : string) (w : World) :
  SessionService.getSession sessionId w =
  match JsMap.get sessionId (sessions_of w) with
  | None => (Ok None, w)
  | Some session =>
      if elapsed (clock (proc w)) session
      then (Ok None, snd (SessionService.destroySession sessionId w))
      else (Ok (Some session), w)
  end.
Proof.
  unfold SessionService.getSession, sessions_of, elapsed, bind at 1, gets at 1. cbn [proc].
  destruct (JsMap.get sessionId (Directory.sessions (sessionService (proc w)))) as [s |];
    [| reflexivity].
  unfold bind at 1, dateNow, gets at 1. cbn [proc].
  destruct (Session.expiresAt s <? clock (proc w)); [| reflexivity].
  destruct (destroySession_run sessionId w) as (w' & E & _).
  unfold bind. rewrite E. reflexivity.
Qed.

(** The sweep over a list of ids. *)
Lemma forEach_destroy (ids : list string) :
  forall w,
    exists w',
      SessionService.forEach ids SessionService.destroySession w = (Ok tt, w')
      /\ (forall k, JsMap.get k (sessions_of w')
                    = if List.existsb (String.eqb k) ids then None
                      else JsMap.get k (sessions_of w))
      /\ trace w' = trace w.
Proof.
  induction ids as [| a ids IH]; intros w; cbn [SessionService.forEach List.existsb].
  - exists w. split; [reflexivity |]. split; reflexivity.
  - destruct (destroySession_run a w) as (w1 & E1 & Hs1 & _ & Ht1).
    destruct (IH w1) as (w2 & E2 & Hs2 & Ht2).
    exists w2. unfold bind. rewrite E1, E2. split; [reflexivity |]. split; [| congruence].
    intros k. rewrite Hs2, Hs1, get_delete.
    destruct (String.eqb k a); cbn [orb]; [| reflexivity].
    destruct (List.existsb (String.eqb k) ids); reflexivity.
Qed.

Lemma expired_ids_spec (now : Z) (m : JsMap.t Session.t) (k : string) :
  List.existsb (String.eqb k) (SessionService.expired_ids now m) = true
  <-> exists s, List.In (k, s) m /\ elapsed now s = true.
Proof.
  unfold SessionService.expired_ids. rewrite List.existsb_exists. split.
  - intros (x & Hin & Heq). apply String.eqb_eq in Heq. subst x.
    apply List.in_map_iff in Hin. destruct Hin as ([k' s] & Hk & Hin).
    cbn in Hk. subst k'. apply List.filter_In in Hin. destruct Hin as [Hin He].
    exists s. split; [exact Hin | exact He].
  - intros (s & Hin & He). exists k. split; [| apply String.eqb_refl].
    apply List.in_map_iff. exists (k, s). split; [reflexivity |].
    apply List.filter_In. split; [exact Hin | exact He].
Qed.

Lemma createSession_run (playerId currency token callbackBaseUrl : string) (w : World) :
  SessionService.blank playerId = false -> SessionService.blank currency = false ->
  SessionService.blank token = false -> SessionService.blank callbackBaseUrl = false ->
  exists sessionId w',
    SessionService.createSession playerId currency token callbackBaseUrl w
    = (Ok [ ("sessionId", Js.Str sessionId);
            ("gameUrl", Js.Str ("/game-iframe?sessionId=" ++ sessionId));
            ("controlsUrl", Js.Str ("/controls-iframe?sessionId=" ++ sessionId)) ], w')
    /\ JsMap.get sessionId (sessions_of w')
       = Some (Session.mk sessionId playerId currency token callbackBaseUrl
                          (clock (proc w)) (clock (proc w) + Config.EXPIRY_MS)
                          (Js.Int 0) false None None)
    /\ clock (proc w') = clock (proc w).
Proof.
  intros H1 H2 H3 H4.
  unfold SessionService.createSession. rewrite H1, H2, H3, H4. cbn [orb].
  unfold bind at 1, gets at 1. cbn [proc].
  destruct (JsMap.get playerId (Directory.playerSessions (sessionService (proc w))))
    as [existing |].
  - destruct (SessionService.blank existing);
      do 2 eexists; (split; [reflexivity |]); unfold sessions_of; cbn;
      rewrite get_set_same; split; reflexivity.
  - do 2 eexists. split; [reflexivity |]. unfold sessions_of. cbn.
    rewrite get_set_same. split; reflexivity.
Qed.

(** C9.  A session asked for after its [expiresAt] is not found:
    [getSession] returns [null] and the session is gone from the directory,
    while up to [expiresAt] it is returned.  The sweep deletes every session
    whose [expiresAt] has elapsed and leaves the others as they are.  A
    session is created with [expiresAt] 24 hours (86400000 ms) after its
    creation, so asking for it one millisecond later than that removes it. *)
Theorem expired_session_removed :
  forall w : World,
    (forall sessionId session,
       JsMap.get sessionId (sessions_of w) = Some session ->
       (Session.expiresAt session < clock (proc w) ->
        exists w',
          SessionService.getSession sessionId w = (Ok None, w')
          /\ JsMap.get sessionId (sessions_of w') = None
          /\ forall k, k <> sessionId ->
                       JsMap.get k (sessions_of w') = JsMap.get k (sessions_of w))
       /\ (clock (proc w) <= Session.expiresAt session ->
           SessionService.getSession sessionId w = (Ok (Some session), w)))
    /\ (exists w',
          SessionService.cleanupExpiredSessions w = (Ok tt, w')
          /\ (forall k s, List.In (k, s) (sessions_of w) ->
                          Session.expiresAt s < clock (proc w) ->
                          JsMap.get k (sessions_of w') = None)
          /\ (forall k, (forall s, List.In (k, s) (sessions_of w) ->
                                   clock (proc w) <= Session.expiresAt s) ->
                        JsMap.get k (sessions_of w') = JsMap.get k (sessions_of w)))
    /\ Config.EXPIRY_MS = 86400000
    /\ (forall playerId currency token callbackBaseUrl,
          SessionService.blank playerId = false -> SessionService.blank currency = false ->
          SessionService.blank token = false -> SessionService.blank callbackBaseUrl = false ->
          exists sessionId session w1,
            snd (SessionService.createSession playerId currency token callbackBaseUrl w) = w1
            /\ JsMap.get sessionId (sessions_of w1) = Some session
            /\ Session.expiresAt session = clock (proc w) + 86400000
            /\ SessionService.getSession sessionId (at_time (clock (proc w) + 86400000) w1)
               = (Ok (Some session), at_time (clock (proc w) + 86400000) w1)
            /\ exists w2,
                 SessionService.getSession sessionId (at_time (clock (proc w) + 86400000 + 1) w1)
                 = (Ok None, w2)
                 /\ JsMap.get sessionId (sessions_of w2) = None).
Proof.
  intros w.
  assert (Hget : forall w0 sessionId session,
            JsMap.get sessionId (sessions_of w0) = Some session ->
            (Session.expiresAt session < clock (proc w0) ->
             exists w',
               SessionService.getSession sessionId w0 = (Ok None, w')
               /\ JsMap.get sessionId (sessions_of w') = None
               /\ forall k, k <> sessionId ->
                            JsMap.get k (sessions_of w') = JsMap.get k (sessions_of w0))
            /\ (clock (proc w0) <= Session.expiresAt session ->
                SessionService.getSession sessionId w0 = (Ok (Some session), w0))).
  { intros w0 sessionId session Hs. split.
    - intros Hlt. rewrite getSession_run, Hs. unfold elapsed.
      replace (Session.expiresAt session <? clock (proc w0)) with true
        by (symmetry; apply Z.ltb_lt; exact Hlt).
      destruct (destroySession_run sessionId w0) as (w' & E & Hd & _).
      rewrite E. cbn [snd]. exists w'. split; [reflexivity |].
      rewrite Hd. split.
      + rewrite get_delete, String.eqb_refl. reflexivity.
      + intros k Hk. rewrite get_delete.
        destruct (String.eqb_spec k sessionId); [contradiction | reflexivity].
    - intros Hle. rewrite getSession_run, Hs. unfold elapsed.
      replace (Session.expiresAt session <? clock (proc w0)) with false
        by (symmetry; apply Z.ltb_ge; exact Hle).
      reflexivity. }
  split; [exact (Hget w) |]. split; [| split; [reflexivity |]].
  - unfold SessionService.cleanupExpiredSessions, bind at 1, dateNow, gets at 1. cbn [proc].
    unfold bind at 1, gets at 1. cbn [proc].
    destruct (forEach_destroy
                (SessionService.expired_ids (clock (proc w))
                   (Directory.sessions (sessionService (proc w)))) w)
      as (w' & E & Hs & _).
    exists w'. split; [exact E |]. split.
    + intros k s Hin Hlt. rewrite Hs.
      replace (List.existsb _ _) with true; [reflexivity |].
      symmetry. apply expired_ids_spec. exists s. split; [exact Hin |].
      unfold elapsed. apply Z.ltb_lt. exact Hlt.
    + intros k Hall. rewrite Hs.
      destruct (List.existsb (String.eqb k) _) eqn:Ex; [| reflexivity].
      apply expired_ids_spec in Ex. destruct Ex as (s & Hin & He).
      unfold elapsed in He. apply Z.ltb_lt in He.
      specialize (Hall s Hin). lia.
  - intros playerId currency token callbackBaseUrl H1 H2 H3 H4.
    destruct (createSession_run playerId currency token callbackBaseUrl w H1 H2 H3 H4)
      as (sessionId & w1 & E & Hs & Hc).
    exists sessionId. eexists. exists w1. rewrite E. cbn [snd].
    split; [reflexivity |]. split; [exact Hs |]. split; [reflexivity |].
    split.
    + apply (Hget (at_time (clock (proc w) + 86400000) w1) sessionId); [exact Hs |].
      cbn. change Config.EXPIRY_MS with 86400000. lia.
    + destruct (Hget (at_time (clock (proc w) + 86400000 + 1) w1) sessionId _ Hs)
        as [Hexp _].
      destruct Hexp as (w2 & E2 & Hnone & _).
      * cbn. change Config.EXPIRY_MS with 86400000. lia.
      * exists w2. split; assumption.
Qed.

Lemma expired_session_removed_witness :
  JsMap.get "SESSION-a" (sessions_of (table two_bets))
  = Some (session_of "SESSION-a" "alice")
  /\ fst (SessionService.getSession "SESSION-a" (table two_bets))
     = Ok (Some (session_of "SESSION-a" "alice"))
  /\ exists w',
       SessionService.getSession "SESSION-a"
         (at_time (1700000000000 + 86400000 + 1) (table two_bets)) = (Ok None, w')
       /\ JsMap.get "SESSION-a" (sessions_of w') = None
       /\ JsMap.get "SESSION-b" (sessions_of w') = Some (session_of "SESSION-b" "bob").
Proof.
  split; [reflexivity |]. split.
  - destruct (expired_session_removed (table two_bets)) as (H & _).
    destruct (H "SESSION-a" (session_of "SESSION-a" "alice") eq_refl) as [_ Hlive].
    rewrite Hlive; [reflexivity |]. vm_compute. discriminate.
  - destruct (expired_session_removed
                (at_time (1700000000000 + 86400000 + 1) (table two_bets))) as (H & _).
    destruct (H "SESSION-a" (session_of "SESSION-a" "alice") eq_refl) as [Hexp _].
    destruct Hexp as (w' & E & Hnone & Hother); [vm_compute; reflexivity |].
    exists w'. split; [exact E |]. split; [exact Hnone |].
    rewrite Hother; [reflexivity | discriminate].
Defined.

Lemma attempt_run (url : string) (payload : Js.object) (w : World) :
  CallbackService.attempt url payload w
  = (outcome (network w (fetched w)), attempted url payload w).
Proof.
  unfold CallbackService.attempt, bind, record, await, outcome, attempted, resumed. cbn.
  destruct (network w (fetched w)) as [reason | code data]; [reflexivity |].
  destruct (CallbackService.ok code); [reflexivity |].
  destruct data; reflexivity.
Qed.

Lemma delay_run (ms : Z) (w : World) :
  CallbackService.delay ms w = (Ok tt, waited ms w).
Proof. reflexivity. Qed.

(** The recursion of [makeRequest], as the source writes it. *)
Lemma makeRequest_eq (url : string) (payload : Js.object) (n : N) (w : World) :
  CallbackService.makeRequest url payload n w
  = try_catch (CallbackService.attempt url payload)
      (fun error =>
         if (n <? Config.RETRY_ATTEMPTS)%N then
           (CallbackService.delay (Config.RETRY_DELAY_MS * Z.of_N n) ;;;
            CallbackService.makeRequest url payload (n + 1)%N)
         else throw error) w.
Proof.
  unfold CallbackService.makeRequest.
  destruct (n <? Config.RETRY_ATTEMPTS)%N eqn:E.
  - apply N.ltb_lt in E.
    replace (N.to_nat (Config.RETRY_ATTEMPTS - n))
      with (S (N.to_nat (Config.RETRY_ATTEMPTS - (n + 1)))) by lia.
    cbn [CallbackService.makeRequest_left]. unfold try_catch.
    destruct (CallbackService.attempt url payload w) as [[b | e] w1]; [reflexivity |].
    apply N.ltb_lt in E. rewrite E. reflexivity.
  - destruct (N.to_nat (Config.RETRY_ATTEMPTS - n));
      cbn [CallbackService.makeRequest_left]; unfold try_catch;
      destruct (CallbackService.attempt url payload w) as [[b | e] w1];
      try reflexivity; rewrite ?E; reflexivity.
Qed.

Lemma makeRequest_run (url : string) (payload : Js.object) (w : World) :
  CallbackService.makeRequest url payload 1 w =
  match outcome (network w (fetched w)) with
  | Ok data => (Ok data, first_try url payload w)
  | Throw _ =>
      match outcome (network w (S (fetched w))) with
      | Ok data => (Ok data, second_try url payload w)
      | Throw _ => (outcome (network w (S (S (fetched w)))), third_try url payload w)
      end
  end.
Proof.
  rewrite makeRequest_eq. unfold try_catch at 1. rewrite attempt_run.
  destruct (outcome (network w (fetched w))) as [data | e1]; [reflexivity |].
  cbn [N.ltb N.compare Config.RETRY_ATTEMPTS Pos.compare Pos.compare_cont].
  unfold bind at 1. rewrite delay_run.
  rewrite makeRequest_eq. unfold try_catch at 1. rewrite attempt_run.
  change (network (waited (Config.RETRY_DELAY_MS * Z.of_N 1) (attempted url payload w))
                  (fetched (waited (Config.RETRY_DELAY_MS * Z.of_N 1) (attempted url payload w))))
    with (network w (S (fetched w))).
  destruct (outcome (network w (S (fetched w)))) as [data | e2]; [reflexivity |].
  cbn [N.ltb N.compare Config.RETRY_ATTEMPTS Pos.compare Pos.compare_cont N.add Pos.add
       Pos.succ].
  unfold bind at 1. rewrite delay_run.
  rewrite makeRequest_eq. unfold try_catch at 1. rewrite attempt_run.
  change (network (waited (Config.RETRY_DELAY_MS * Z.of_N 2)
                     (attempted url payload
                        (waited (Config.RETRY_DELAY_MS * Z.of_N 1) (attempted url payload w))))
                  (fetched (waited (Config.RETRY_DELAY_MS * Z.of_N 2)
                     (attempted url payload
                        (waited (Config.RETRY_DELAY_MS * Z.of_N 1) (attempted url payload w))))))
    with (network w (S (S (fetched w)))).
  destruct (outcome (network w (S (S (fetched w))))) as [data | e3]; reflexivity.
Qed.

Lemma tries_trace (url : string) (payload : Js.object) (w : World) :
  trace (first_try url payload w) = trace w ++ retry_trace url payload 1
  /\ trace (second_try url payload w) = trace w ++ retry_trace url payload 2
  /\ trace (third_try url payload w) = trace w ++ retry_trace url payload 3.
Proof.
  unfold first_try, second_try, third_try, attempted, waited, resumed. cbn.
  rewrite <- !List.app_assoc. cbn. auto.
Qed.

Lemma tries_engine (url : string) (payload : Js.object) (w : World) :
  quiet w ->
  flipEngine (proc (first_try url payload w)) = flipEngine (proc w)
  /\ flipEngine (proc (second_try url payload w)) = flipEngine (proc w)
  /\ flipEngine (proc (third_try url payload w)) = flipEngine (proc w).
Proof.
  intros Hq.
  unfold first_try, second_try, third_try, attempted, waited, resumed. cbn.
  repeat (rewrite !Hq; cbn). auto.
Qed.

Lemma settles_try_catch (url : string) (payload : Js.object) (k : Body -> M Js.object)
    (fail : JsError -> Js.object) (w : World) :
  (forall b w0, trace (snd (k b w0)) = trace w0
                /\ flipEngine (proc (snd (k b w0))) = flipEngine (proc w0)) ->
  settles (try_catch (response <- CallbackService.makeRequest url payload 1 ;; k response)
                     (fun error => ret (fail error)))
          url payload fail w.
Proof.
  intros Hk. unfold settles, all_fail, try_catch, bind. rewrite makeRequest_run.
  destruct (tries_trace url payload w) as (T1 & T2 & T3).
  pose proof (tries_engine url payload w) as HE.
  destruct (outcome (network w (fetched w))) as [d1 | e1].
  - pose proof (Hk d1 (first_try url payload w)) as [Ht He].
    destruct (k d1 (first_try url payload w)) as [[r | e] w'] eqn:E; cbn [snd] in Ht, He;
      do 2 eexists; exists 1%nat;
      (split; [reflexivity |]); (split; [lia |]); (split; [rewrite Ht; exact T1 |]);
      (split; [reflexivity |]);
      (split; [intros ? ? ? (H & _); discriminate |]);
      intros Hq; rewrite He; apply (HE Hq).
  - destruct (outcome (network w (S (fetched w)))) as [d2 | e2].
    + pose proof (Hk d2 (second_try url payload w)) as [Ht He].
      destruct (k d2 (second_try url payload w)) as [[r | e] w'] eqn:E; cbn [snd] in Ht, He;
        do 2 eexists; exists 2%nat;
        (split; [reflexivity |]); (split; [lia |]); (split; [rewrite Ht; exact T2 |]);
        (split; [intros ? H; discriminate |]);
        (split; [intros ? ? ? (_ & H & _); discriminate |]);
        intros Hq; rewrite He; apply (HE Hq).
    + destruct (outcome (network w (S (S (fetched w))))) as [d3 | e3].
      * pose proof (Hk d3 (third_try url payload w)) as [Ht He].
        destruct (k d3 (third_try url payload w)) as [[r | e] w'] eqn:E; cbn [snd] in Ht, He;
          do 2 eexists; exists 3%nat;
          (split; [reflexivity |]); (split; [lia |]); (split; [rewrite Ht; exact T3 |]);
          (split; [intros ? H; discriminate |]);
          (split; [intros ? ? ? (_ & _ & H); discriminate |]);
          intros Hq; rewrite He; apply (HE Hq).
      * do 2 eexists. exists 3%nat.
        split; [reflexivity |]. split; [lia |]. split; [exact T3 |].
        split; [intros ? H; discriminate |].
        split; [intros ? ? ? (_ & _ & H); injection H as <-; split; reflexivity |].
        intros Hq. apply (HE Hq).
Qed.

Lemma prop_trace (k : string) (b : Body) (w : World) :
  trace (snd (CallbackService.prop k b w)) = trace w.
Proof. destruct b; reflexivity. Qed.

Ltac body_frame :=
  intros b w0; destruct b as [| | o]; cbn;
  repeat match goal with
         | |- context [if ?c then _ else _] => destruct c; cbn
         | |- context [match ?c with _ => _ end] => destruct c; cbn
         end; split; reflexivity.

Lemma placeBet_settles (callbackBaseUrl roundId playerId sessionId : string)
    (amount : float) (currency : string) (w : World) :
  let payload := bet_payload roundId playerId sessionId amount currency (clock (proc w)) in
  settles (CallbackService.placeBet callbackBaseUrl roundId playerId sessionId amount currency)
          (callbackBaseUrl ++ "/bet") payload (failure_of payload) w.
Proof.
  cbn zeta. unfold settles.
  unfold CallbackService.placeBet, bind at 1, dateNow, gets at 1. cbn [proc].
  unfold bind at 1, gets at 1. cbn [proc].
  apply settles_try_catch. body_frame.
Qed.

Lemma creditWin_settles (callbackBaseUrl roundId playerId sessionId : string)
    (betAmount winAmount : float) (currency : string) (betTransactionId : Js.value)
    (w : World) :
  let payload := win_payload roundId playerId sessionId betAmount winAmount currency
                             betTransactionId (clock (proc w)) in
  settles (CallbackService.creditWin callbackBaseUrl roundId playerId sessionId
             betAmount winAmount currency betTransactionId)
          (callbackBaseUrl ++ "/win") payload (failure_of payload) w.
Proof.
  cbn zeta. unfold settles.
  unfold CallbackService.creditWin, bind at 1, dateNow, gets at 1. cbn [proc].
  unfold bind at 1, gets at 1. cbn [proc].
  apply settles_try_catch. body_frame.
Qed.

Lemma rollback_settles (callbackBaseUrl roundId playerId sessionId : string)
    (amount : float) (currency : string) (originalTransactionId : Js.value)
    (reason : string) (w : World) :
  let payload := rollback_payload roundId playerId sessionId amount currency
                                  originalTransactionId reason (clock (proc w)) in
  settles (CallbackService.rollback callbackBaseUrl roundId playerId sessionId
             amount currency originalTransactionId reason)
          (callbackBaseUrl ++ "/rollback") payload (failure_of payload) w.
Proof.
  cbn zeta. unfold settles.
  unfold CallbackService.rollback, bind at 1, dateNow, gets at 1. cbn [proc].
  unfold bind at 1, gets at 1. cbn [proc].
  apply settles_try_catch. body_frame.
Qed.

Lemma getBalance_settles (callbackBaseUrl playerId sessionId : string) (w : World) :
  let payload := balance_payload playerId sessionId (clock (proc w)) in
  settles (CallbackService.getBalance callbackBaseUrl playerId sessionId)
          (callbackBaseUrl ++ "/balance") payload (failure_of payload) w.
Proof.
  cbn zeta. unfold settles.
  unfold CallbackService.getBalance, bind at 1, dateNow, gets at 1. cbn [proc].
  apply settles_try_catch. body_frame.
Qed.

(** ** BetService.placeBet *)

Lemma getPlayerBet_run (playerId : string) (w : World) :
  FlipEngine.getPlayerBet playerId w
  = (Ok (match current w with
         | None => None
         | Some r => JsMap.get playerId (Round.bets r)
         end), w).
Proof.
  unfold FlipEngine.getPlayerBet, FlipEngine.currentRound, current, bind, gets. cbn [proc].
  destruct (Engine.currentRound (flipEngine (proc w))); reflexivity.
Qed.

(** What [placeBet] has checked when it turns to the platform. *)
Lemma validate_ok (sessionId : string) (amount : float) (choice : string)
    (w w0 : World) (t : BetService.Ticket) :
  BetService.validate sessionId amount choice w = (Ok t, w0) ->
  w0 = w
  /\ exists session r,
       JsMap.get sessionId (sessions_of w) = Some session
       /\ t = BetService.mkTicket (Session.playerId session) (Session.currency session)
                                  (Session.callbackBaseUrl session) (Round.id r)
                                  (BetService.round2 amount)
       /\ current w = Some r
       /\ Round.status r = betting
       /\ JsMap.get (Session.playerId session) (Round.bets r) = None
       /\ FlipEngine.invalid_choice choice = false
       /\ Js.isNaN amount = false
       /\ PrimFloat.ltb amount Config.MIN_BET = false
       /\ PrimFloat.ltb Config.MAX_BET amount = false.
Proof.
  unfold BetService.validate, SessionService.validateSession, bind at 1, bind at 1.
  rewrite getSession_run.
  destruct (JsMap.get sessionId (sessions_of w)) as [session |] eqn:Es;
    [| cbn; discriminate].
  destruct (elapsed (clock (proc w)) session); [cbn; discriminate |].
  cbn [ret].
  destruct (Js.isNaN amount) eqn:E1; [cbn; discriminate |].
  destruct (PrimFloat.ltb amount Config.MIN_BET) eqn:E2; [cbn; discriminate |].
  destruct (PrimFloat.ltb Config.MAX_BET amount) eqn:E3; [cbn; discriminate |].
  destruct (FlipEngine.invalid_choice choice) eqn:E4; [cbn; discriminate |].
  unfold bind at 1. rewrite getPlayerBet_run.
  destruct (current w) as [r |] eqn:Ec.
  - destruct (JsMap.get (Session.playerId session) (Round.bets r)) eqn:Eb;
      [cbn; discriminate |].
    unfold bind at 1. rewrite getCurrentRound_run, Ec.
    cbn [RoundView.status RoundView.id].
    destruct (Status_eqb (Round.status r) betting) eqn:Est; cbn [negb]; [| cbn; discriminate].
    intros H. injection H as <- <-.
    split; [reflexivity |]. exists session, r.
    apply Status_eqb_eq in Est. repeat split; assumption.
  - unfold bind at 1. rewrite getCurrentRound_run, Ec. cbn. discriminate.
Qed.

Lemma updateBalance_frame (sessionId : string) (balance : Js.value) (w : World) :
  exists w',
    SessionService.updateBalance sessionId balance w = (Ok tt, w')
    /\ flipEngine (proc w') = flipEngine (proc w) /\ trace w' = trace w.
Proof.
  unfold SessionService.updateBalance, bind, gets, modify. cbn [proc].
  destruct (JsMap.get sessionId (Directory.sessions (sessionService (proc w))));
    eexists; (split; [reflexivity |]); split; reflexivity.
Qed.

(** The [try] block of [placeBet]: it throws exactly when [addBet] does, and
    then nothing has been written. *)
Lemma register_run (sessionId choice : string) (t : BetService.Ticket)
    (callbackResult : Js.object) (w : World) :
  match FlipEngine.addBet (BetService.playerId t) (BetService.roundedAmount t)
                          choice sessionId w with
  | (Throw e, w') => BetService.register sessionId choice t callbackResult w = (Throw e, w)
  | (Ok bet, w1) =>
      exists w',
        BetService.register sessionId choice t callbackResult w
        = (Ok (BetService.mkPlaced (BetService.roundedAmount t) choice (BetService.roundId t)
                                   (Js.field "transactionId" callbackResult)
                                   (Js.field "newBalance" callbackResult)), w')
        /\ flipEngine (proc w') = flipEngine (proc w1)
        /\ trace w' = trace w
        /\ Bet.amount bet = BetService.roundedAmount t
        /\ current w' = current w1
  end.
Proof.
  pose proof (addBet_run w (BetService.playerId t) (BetService.roundedAmount t)
                choice sessionId) as Hrun.
  destruct (FlipEngine.addBet (BetService.playerId t) (BetService.roundedAmount t)
              choice sessionId w) as [[bet | e] w1] eqn:E.
  - assert (Hb : Bet.amount bet = BetService.roundedAmount t /\ trace w1 = trace w).
    { destruct (current w) as [r |]; [| discriminate].
      destruct (negb (Status_eqb (Round.status r) betting)); [discriminate |].
      destruct (FlipEngine.invalid_choice choice); [discriminate |].
      destruct (JsMap.has (BetService.playerId t) (Round.bets r)); [discriminate |].
      injection Hrun as -> ->. split; reflexivity. }
    destruct Hb as [Hb Ht].
    unfold BetService.register, bind at 1. rewrite E.
    unfold bind, modify. cbv beta iota.
    match goal with
    | |- context [SessionService.updateBalance ?s ?b ?x] =>
        destruct (updateBalance_frame s b x) as (w' & E' & He & Ht')
    end.
    rewrite E'.
    exists w'. split; [reflexivity |].
    cbn in He, Ht'. unfold current. rewrite He, Ht', Ht. auto.
  - assert (w1 = w).
    { destruct (current w) as [r |]; [| congruence].
      destruct (negb (Status_eqb (Round.status r) betting)); [congruence |].
      destruct (FlipEngine.invalid_choice choice); [congruence |].
      destruct (JsMap.has (BetService.playerId t) (Round.bets r)); congruence. }
    subst w1. unfold BetService.register, bind at 1. rewrite E. reflexivity.
Qed.

(** C7.  Each of the four settlement operations (debit, credit, refund,
    balance query) returns an object and never throws; it posts its payload
    at most 3 times ([RETRY_ATTEMPTS]), waiting [attempt * 1000] ms after a
    failed attempt (1000, then 2000); and when the three attempts fail it
    returns [{success: false, code: 'CALLBACK_FAILED', message}] with the
    message of the last error. *)
Theorem settlement_retries :
  forall (w : World) (callbackBaseUrl roundId playerId sessionId currency reason : string)
         (amount betAmount winAmount : float) (transactionId : Js.value),
    let now := clock (proc w) in
    settles (CallbackService.placeBet callbackBaseUrl roundId playerId sessionId
               amount currency)
            (callbackBaseUrl ++ "/bet")
            (bet_payload roundId playerId sessionId amount currency now)
            (failure_of (bet_payload roundId playerId sessionId amount currency now)) w
    /\ settles (CallbackService.creditWin callbackBaseUrl roundId playerId sessionId
                  betAmount winAmount currency transactionId)
               (callbackBaseUrl ++ "/win")
               (win_payload roundId playerId sessionId betAmount winAmount currency
                            transactionId now)
               (failure_of (win_payload roundId playerId sessionId betAmount winAmount
                                        currency transactionId now)) w
    /\ settles (CallbackService.rollback callbackBaseUrl roundId playerId sessionId
                  amount currency transactionId reason)
               (callbackBaseUrl ++ "/rollback")
               (rollback_payload roundId playerId sessionId amount currency
                                 transactionId reason now)
               (failure_of (rollback_payload roundId playerId sessionId amount currency
                                             transactionId reason now)) w
    /\ settles (CallbackService.getBalance callbackBaseUrl playerId sessionId)
               (callbackBaseUrl ++ "/balance")
               (balance_payload playerId sessionId now)
               (failure_of (balance_payload playerId sessionId now)) w
    /\ Config.RETRY_ATTEMPTS = 3%N
    /\ (forall n : N, Config.RETRY_DELAY_MS * Z.of_N n = Z.of_N n * 1000)
    /\ (forall url payload n w0,
          CallbackService.makeRequest url payload n w0
          = try_catch (CallbackService.attempt url payload)
              (fun error =>
                 if (n <? Config.RETRY_ATTEMPTS)%N then
                   (CallbackService.delay (Config.RETRY_DELAY_MS * Z.of_N n) ;;;
                    CallbackService.makeRequest url payload (n + 1)%N)
                 else throw error) w0).
Proof.
  intros w callbackBaseUrl roundId playerId sessionId currency reason
         amount betAmount winAmount transactionId now.
  subst now.
  split; [apply placeBet_settles |].
  split; [apply creditWin_settles |].
  split; [apply rollback_settles |].
  split; [apply getBalance_settles |].
  split; [reflexivity |].
  split; [intros n; unfold Config.RETRY_DELAY_MS; lia |].
  intros url payload n w0. apply makeRequest_eq.
Qed.

Lemma settlement_retries_witness :
  exists w',
    CallbackService.placeBet "http://platform" "F-1" "alice" "SESSION-a" 10%float "EUR"
                             constructed
    = (Ok [ ("success", Js.Bool false);
            ("code", Js.Str "CALLBACK_FAILED");
            ("message", Js.Str "offline");
            ("requestId", Js.Str "BET-F-1-alice-0") ], w')
    /\ trace w'
       = [ HttpPost "http://platform/bet"
             (bet_payload "F-1" "alice" "SESSION-a" 10%float "EUR" 0);
           Wait 1000;
           HttpPost "http://platform/bet"
             (bet_payload "F-1" "alice" "SESSION-a" 10%float "EUR" 0);
           Wait 2000;
           HttpPost "http://platform/bet"
             (bet_payload "F-1" "alice" "SESSION-a" 10%float "EUR" 0) ].
Proof.
  destruct (settlement_retries constructed "http://platform" "F-1" "alice" "SESSION-a"
              "EUR" "" 10%float 10%float 10%float Js.Undefined) as (H & _).
  destruct H as (r & w' & n & E & _ & Ht & _ & Hfail & _).
  destruct (Hfail (Error "offline") (Error "offline") (Error "offline")) as [Hn Hr].
  { repeat split. }
  exists w'. rewrite E, Hr, Ht, Hn. split; reflexivity.
Defined.

Lemma append_cancel (a b c : string) : (a ++ b)%string = (a ++ c)%string -> b = c.
Proof. induction a as [| x a IH]; cbn; intros H; [exact H | injection H as H; auto]. Qed.

Lemma retry_trace_posts (url : string) (payload : Js.object) (n : nat) (e : Effect) :
  List.In e (retry_trace url payload n) -> e = HttpPost url payload \/ exists ms, e = Wait ms.
Proof.
  destruct n as [| [| [| n]]]; cbn; intros H;
    repeat (destruct H as [H | H]; [subst e; eauto |]); try contradiction.
Qed.

Lemma current_placed (w : World) (r : Round.t) (playerId : string) (amount : float)
    (choice sessionId : string) :
  exists r',
    current (placed w r playerId amount choice sessionId) = Some r'
    /\ JsMap.get playerId (Round.bets r')
       = Some (Bet.mk playerId sessionId amount choice (clock (proc w))).
Proof.
  eexists. split; [reflexivity |]. cbn. apply get_set_same.
Qed.

(** C10.  [placeBet] rounds the amount to two decimals with [Math.round]
    before it debits and registers: the ticket carries
    [Math.round(amount * 100) / 100]; this is the amount of the debit posted
    to the platform; and when [placeBet] returns, it is the amount of the bet
    returned and the amount of the player's entry in the ledger of the round.
    The rounding is to the nearest and not down: 1.239 gives 1.24 where
    [Math.floor] gives 1.23, so the amounts differ from the amount
    submitted. *)
Theorem placeBet_rounds_amount :
  forall (w w0 : World) (sessionId : string) (amount : float) (choice : string)
         (t : BetService.Ticket),
    BetService.validate sessionId amount choice w = (Ok t, w0) ->
    BetService.roundedAmount t
    = PrimFloat.div (Js.round (PrimFloat.mul amount 100%float)) 100%float
    /\ (exists (callbackResult : Js.object) (w1 : World) (n : nat) (payload : Js.object),
          BetService.debit sessionId t w = (Ok callbackResult, w1)
          /\ (1 <= n <= 3)%nat
          /\ trace w1
             = trace w ++ retry_trace (BetService.callbackBaseUrl t ++ "/bet") payload n
          /\ Js.field "amount" payload = Js.Num (BetService.round2 amount))
    /\ (forall (bet : BetService.Placed) (w' : World),
          BetService.placeBet sessionId amount choice w = (Ok bet, w') ->
          BetService.amount bet = BetService.round2 amount
          /\ exists (r : Round.t) (entry : Bet.t),
               current w' = Some r
               /\ JsMap.get (BetService.playerId t) (Round.bets r) = Some entry
               /\ Bet.amount entry = BetService.round2 amount)
    /\ BetService.round2 1.239%float = 1.24%float
    /\ floor2 1.239%float = 1.23%float.
Proof.
  intros w w0 sessionId amount choice t Hv.
  destruct (validate_ok sessionId amount choice w w0 t Hv)
    as (-> & session & r0 & _ & Et & _).
  assert (Ea : BetService.roundedAmount t = BetService.round2 amount)
    by (rewrite Et; reflexivity).
  destruct (placeBet_settles (BetService.callbackBaseUrl t) (BetService.roundId t)
              (BetService.playerId t) sessionId (BetService.roundedAmount t)
              (BetService.currency t) w) as (cb & w1 & n & Ed & Hn & Ht & _).
  fold (BetService.debit sessionId t) in Ed.
  split; [exact Ea |]. split; [| split; [| split; vm_compute; reflexivity]].
  - exists cb, w1, n. eexists. split; [exact Ed |]. split; [exact Hn |].
    split; [exact Ht |]. rewrite Ea. reflexivity.
  - intros bet w' Hp.
    unfold BetService.placeBet, bind at 1 in Hp. rewrite Hv in Hp.
    unfold bind at 1 in Hp. rewrite Ed in Hp.
    destruct (negb (Js.truthy (Js.field "success" cb))); [discriminate |].
    unfold try_catch in Hp.
    pose proof (register_run sessionId choice t cb w1) as Hr.
    pose proof (addBet_run w1 (BetService.playerId t) (BetService.roundedAmount t)
                  choice sessionId) as Ha.
    destruct (FlipEngine.addBet (BetService.playerId t) (BetService.roundedAmount t)
                choice sessionId w1) as [[entry | e] w2].
    + destruct Hr as (w3 & Er & _ & _ & Hamt & Hcur).
      rewrite Er in Hp. injection Hp as <- <-.
      split; [cbn; exact Ea |].
      destruct (current w1) as [r |]; [| discriminate].
      destruct (negb (Status_eqb (Round.status r) betting)); [discriminate |].
      destruct (FlipEngine.invalid_choice choice); [discriminate |].
      destruct (JsMap.has (BetService.playerId t) (Round.bets r)); [discriminate |].
      injection Ha as -> ->.
      destruct (current_placed w1 r (BetService.playerId t) (BetService.roundedAmount t)
                  choice sessionId) as (r' & Hc & Hg).
      exists r'. eexists. rewrite Hcur. split; [exact Hc |]. split; [exact Hg |].
      cbn. exact Ea.
    + rewrite Hr in Hp. unfold bind in Hp.
      destruct (BetService.refund sessionId t cb w1) as [[x | e'] w3]; discriminate.
Qed.

Lemma placeBet_rounds_amount_witness :
  exists (bet : BetService.Placed) (w' : World) (r : Round.t) (entry : Bet.t),
    BetService.placeBet "SESSION-a" 1.239%float "HEADS" (table JsMap.empty) = (Ok bet, w')
    /\ BetService.amount bet = 1.24%float
    /\ current w' = Some r
    /\ JsMap.get "alice" (Round.bets r) = Some entry
    /\ Bet.amount entry = 1.24%float
    /\ List.hd_error (trace w')
       = Some (HttpPost "http://platform/bet"
                 (bet_payload "F-1700000000000-7" "alice" "SESSION-a" 1.24%float "EUR"
                              1700000001000)).
Proof.
  destruct (placeBet_rounds_amount (table JsMap.empty) (table JsMap.empty) "SESSION-a"
              1.239%float "HEADS"
              (BetService.mkTicket "alice" "EUR" "http://platform" "F-1700000000000-7"
                                   1.24%float))
    as (_ & _ & Hp & Hr & _).
  { vm_compute. reflexivity. }
  assert (E : exists bet w',
             BetService.placeBet "SESSION-a" 1.239%float "HEADS" (table JsMap.empty)
             = (Ok bet, w')
             /\ List.hd_error (trace w')
                = Some (HttpPost "http://platform/bet"
                          (bet_payload "F-1700000000000-7" "alice" "SESSION-a" 1.24%float
                                       "EUR" 1700000001000))).
  { do 2 eexists. split; vm_compute; reflexivity. }
  destruct E as (bet & w' & E & Htr).
  destruct (Hp bet w' E) as (Ha & r & entry & Hc & Hg & He).
  exists bet, w', r, entry. rewrite Hr in Ha, He.
  repeat (split; [assumption |]). exact Htr.
Defined.

(** ** The steps of the round loop, as they change the engine *)

Lemma initialize_clock (w : World) :
  clock (proc (snd (SeedManager.initialize w))) = clock (proc w)
  /\ current (snd (SeedManager.initialize w)) = current w
  /\ history (snd (SeedManager.initialize w)) = history w
  /\ trace (snd (SeedManager.initialize w)) = trace w
  /\ isRunning (proc (snd (SeedManager.initialize w))) = isRunning (proc w).
Proof. rewrite initialize_run. cbn. repeat split. Qed.

Lemma initialize_not_exhausted (w : World) :
  SeedManager.exhausted (seeds_after SeedManager.initialize w) = false.
Proof.
  destruct (initialize_fresh w) as (_ & Hi & Hl). cbn zeta in Hi, Hl.
  unfold SeedManager.exhausted. rewrite Hi. apply N.leb_gt. lia.
Qed.

Lemma getCurrentServerSeed_exact (w : World) :
  exists w1,
    SeedManager.getCurrentServerSeed w
    = (Ok (List.nth (N.to_nat (Seed.currentIndex (seedManager (proc w1))))
                    (Seed.seedChain (seedManager (proc w1))) ""), w1)
    /\ seed_ready (seedManager (proc w)) (seedManager (proc w1))
    /\ clock (proc w1) = clock (proc w) /\ current w1 = current w
    /\ history w1 = history w /\ trace w1 = trace w
    /\ isRunning (proc w1) = isRunning (proc w).
Proof.
  unfold SeedManager.getCurrentServerSeed, bind at 1, gets at 1. cbn [proc].
  destruct (SeedManager.exhausted (seedManager (proc w))) eqn:E.
  - destruct (initialize_clock w) as (Hc & Hcur & Hh & Ht & Hr).
    unfold bind at 1. unfold bind at 1.
    destruct (SeedManager.initialize w) as [[x | e] w1] eqn:Ei.
    + exists w1. cbn [snd] in *. cbn. split; [reflexivity |].
      split; [| repeat split; assumption].
      right. exists w. split; [reflexivity |]. unfold seeds_after. rewrite Ei. reflexivity.
    + rewrite initialize_run in Ei. discriminate.
  - exists w. cbn. split; [reflexivity |]. split; [left; auto |]. repeat split.
Qed.

Lemma generateRound_exact (w : World) :
  exists w1,
    let sm1 := seedManager (proc w1) in
    let s := List.nth (N.to_nat (Seed.currentIndex sm1)) (Seed.seedChain sm1) "" in
    FlipEngine.generateRound w
    = (Ok (generated sm1 (clock (proc w)) s),
       with_proc (FlipEngine.set_currentRound (Some (generated sm1 (clock (proc w)) s))
                                              (proc w1)) w1)
    /\ seed_ready (seedManager (proc w)) sm1
    /\ history w1 = history w /\ trace w1 = trace w
    /\ isRunning (proc w1) = isRunning (proc w).
Proof.
  destruct (getCurrentServerSeed_exact w) as (w1 & E & Hs & Hc & _ & Hh & Ht & Hr).
  exists w1. cbn zeta. split; [| repeat split; assumption].
  unfold FlipEngine.generateRound, bind at 1. rewrite E.
  cbn. rewrite Hc. reflexivity.
Qed.

Lemma startNewRound_step (w : World) :
  isRunning (proc w) = true ->
  exists s w',
    RoundService.startNewRound w = (Ok tt, w')
    /\ isRunning (proc w') = true /\ clock (proc w') = clock (proc w)
    /\ let sm' := seedManager (proc w') in
       let r := Round.with_status betting (generated sm' (clock (proc w)) s) in
       seed_ready (seedManager (proc w)) sm'
       /\ s = List.nth (N.to_nat (Seed.currentIndex sm')) (Seed.seedChain sm') ""
       /\ current w' = Some r /\ history w' = history w
       /\ trace w' = trace w ++ [Emit "betting_phase" (betting_phase_payload r)].
Proof.
  intros Hrun.
  destruct (getCurrentServerSeed_exact w) as (w1 & E & Hs & Hc & _ & Hh & Ht & Hr).
  unfold RoundService.startNewRound, bind at 1, gets at 1. cbn [proc]. rewrite Hrun.
  cbn [negb]. unfold bind at 1.
  unfold FlipEngine.generateRound, bind at 1. rewrite E.
  do 2 eexists. split; [cbn; reflexivity |].
  cbn. unfold history in *. rewrite Hc, Hr, Hh, Ht, Hrun. repeat split. exact Hs.
Qed.

Lemma seed_ready_after_initialize (w w1 : World) (sm' : Seed.t) :
  seedManager (proc w1) = seeds_after SeedManager.initialize w ->
  seed_ready (seedManager (proc w1)) sm' ->
  seed_ready (seedManager (proc w)) sm'.
Proof.
  intros E [[_ ->] | (wx & Hl & ->)].
  - right. exists w. split; [reflexivity | exact E].
  - right. exists wx. split; [| reflexivity].
    rewrite Hl, E. apply initialize_nonce.
Qed.

Lemma perform_step (a : Action) (w : World) : loop_step w (snd (perform a w)).
Proof.
  destruct a; cbn [perform].
  - (* Start *)
    unfold RoundService.start, bind at 1, gets at 1. cbn [proc].
    destruct (isRunning (proc w)) eqn:Hrun; [apply step_idle; reflexivity |].
    destruct (initialize_clock w) as (Hc & Hcur & Hh & Ht & _).
    unfold bind at 1.
    destruct (SeedManager.initialize w) as [[x | e] w1] eqn:Ei;
      [| rewrite initialize_run in Ei; discriminate].
    cbn [snd] in *.
    unfold bind at 1, modify at 1.
    match goal with
    | |- loop_step _ (snd (RoundService.startNewRound ?x)) =>
        destruct (startNewRound_step x eq_refl)
          as (s & w' & E & _ & _ & Hs & Hn & Hcur' & Hh' & Ht')
    end.
    rewrite E. cbn [snd]. cbn [proc with_proc clock with_isRunning seedManager] in *.
    apply (step_new w w' s); cbn zeta.
    + apply (seed_ready_after_initialize w w1); [| exact Hs].
      unfold seeds_after. rewrite Ei. reflexivity.
    + exact Hn.
    + rewrite Hcur'. rewrite Hc. reflexivity.
    + rewrite Hh'. unfold history in *. cbn. exact Hh.
    + rewrite Ht'. cbn. rewrite Ht, Hc. reflexivity.
  - (* Stop *)
    apply step_idle; reflexivity.
  - (* StartNewRound *)
    destruct (isRunning (proc w)) eqn:Hrun.
    + destruct (startNewRound_step w Hrun) as (s & w' & E & _ & _ & Hs & Hn & Hc & Hh & Ht).
      rewrite E. cbn [snd]. apply (step_new w w' s); assumption.
    + unfold RoundService.startNewRound, bind, gets. cbn [proc]. rewrite Hrun.
      apply step_idle; reflexivity.
  - (* RevealRound *)
    rewrite revealRound_run.
    destruct (current w) as [r |] eqn:Hcur; [| apply step_idle; reflexivity].
    destruct (isRunning (proc w) && Status_eqb (Round.status r) betting) eqn:E;
      [| apply step_idle; reflexivity].
    apply andb_true_iff in E. destruct E as [_ Es]. apply Status_eqb_eq in Es.
    cbn [snd]. rewrite (startReveal_run w r Hcur Es). cbn [snd].
    apply (step_reveal _ _ r); try assumption; reflexivity.
  - (* FinishRound *)
    unfold RoundService.finishRound, bind at 1, bind at 1, gets at 1. cbn [proc].
    destruct (isRunning (proc w)); cbn [negb]; [| apply step_idle; reflexivity].
    destruct (current w) as [r |] eqn:Hcur.
    + destruct (finishRound_run w r Hcur) as (w' & E & Hc' & Hh' & Ht' & _ & Hseed).
      rewrite E. cbn [snd ret].
      apply (step_finish _ _ r); try assumption.
      destruct Hseed as [[He Hb] | Hi]; [left; auto |].
      right. exists w. split; [reflexivity | exact Hi].
    + rewrite (finishRound_idle w Hcur). apply step_idle; reflexivity.
  - (* AddBet *)
    unfold bind. rewrite addBet_run.
    destruct (current w) as [r |] eqn:Hcur; [| apply step_idle; reflexivity].
    destruct (Status_eqb (Round.status r) betting) eqn:Es; cbn [negb];
      [| apply step_idle; reflexivity].
    apply Status_eqb_eq in Es.
    destruct (FlipEngine.invalid_choice choice) eqn:Ec; [apply step_idle; reflexivity |].
    destruct (JsMap.has playerId (Round.bets r)) eqn:Hhas; [apply step_idle; reflexivity |].
    cbn [snd ret].
    apply (step_bet _ _ r playerId amount choice sessionId); try assumption; reflexivity.
  - (* Elapse *)
    apply step_idle; reflexivity.
Qed.

(** Induction on the steps of the loop. *)
Lemma reachable_steps (P : World -> Prop) :
  (forall w, loaded w -> P w) ->
  (forall w w', P w -> loop_step w w' -> P w') ->
  forall w, reachable w -> P w.
Proof.
  intros H0 Hstep w (w0 & actions & Hl & ->).
  apply H0 in Hl. revert w0 Hl.
  induction actions as [| a actions IH]; intros w0 Hl; cbn [run List.fold_left].
  - exact Hl.
  - apply IH. apply (Hstep w0); [exact Hl | apply perform_step].
Qed.

(** ** The history of finished rounds *)

Lemma archive_firstn (e : Archived.t) (l : list Archived.t) :
  (List.length l <= 50)%nat -> FlipEngine.archive e l = List.firstn 50 (e :: l).
Proof.
  intros Hl. unfold FlipEngine.archive.
  destruct (50 <? Z.of_nat (List.length (e :: l))) eqn:E.
  - apply Z.ltb_lt in E. cbn [List.length] in E.
    assert (Hlen : List.length l = 50%nat) by lia.
    rewrite List.removelast_firstn_len. cbn [List.length]. rewrite Hlen. reflexivity.
  - apply Z.ltb_ge in E. cbn [List.length] in E.
    symmetry. apply List.firstn_all2. cbn [List.length]. lia.
Qed.

Lemma history_length (w : World) : reachable w -> (List.length (history w) <= 50)%nat.
Proof.
  revert w. apply reachable_steps.
  - intros w (_ & He & _). unfold history. rewrite He. cbn. lia.
  - intros w w' IH Hstep.
    destruct Hstep as [_ Hh _ _ | s sm' r _ _ _ Hh _ | r r' _ _ _ Hh _ _
                       | r _ _ Hh _ _ | r p a c s _ _ _ _ _ Hh _ _];
      try (rewrite Hh; exact IH).
    rewrite Hh, (archive_firstn _ _ IH). rewrite List.length_firstn. lia.
Qed.

Lemma slice_to_cases {A : Type} (stop : Z) (a : list A) :
  (0 <= stop -> Js.slice_to stop a = List.firstn (Z.to_nat stop) a)
  /\ (stop < 0 ->
      Js.slice_to stop a = List.firstn (List.length a - Z.to_nat (- stop)) a).
Proof.
  unfold Js.slice_to. split; intros H.
  - destruct (stop <? 0) eqn:E; [apply Z.ltb_lt in E; lia |].
    destruct (Z.le_ge_cases stop (Z.of_nat (List.length a))) as [Hle | Hge].
    + rewrite Z.min_l by exact Hle. reflexivity.
    + rewrite Z.min_r by exact Hge. rewrite Nat2Z.id.
      rewrite List.firstn_all. symmetry. apply List.firstn_all2. lia.
  - destruct (stop <? 0) eqn:E; [| apply Z.ltb_ge in E; lia].
    f_equal. lia.
Qed.

(** [FlipEngine.finishRound] keeps the 50 most recent rounds, the newest
    first.  [getHistory(limit)] leaves the state as it is and gives
    [roundHistory.slice(0, limit)]: the first [limit] rounds for a limit
    that is not negative, and for a negative limit all the rounds but the
    last [-limit]; never more than 50.  Without a limit it is 20.
    [GET /game/history] passes the limit of the query, and 50 when that is
    missing, not a number or 0: it answers with the whole history then, and
    with all but the last round for [?limit=-1]. *)
Theorem history_bounded :
  forall w : World,
    reachable w ->
    (List.length (history w) <= 50)%nat
    /\ (forall r, current w = Some r ->
          history (snd (FlipEngine.finishRound w))
          = List.firstn 50 (archived_of (closed (clock (proc w)) r) :: history w))
    /\ (forall limit : Z,
          exists rounds,
            FlipEngine.getHistory (Some limit) w = (Ok rounds, w)
            /\ (0 <= limit ->
                rounds = List.firstn (Z.to_nat limit) (history w)
                /\ List.length rounds = Nat.min (Z.to_nat limit) (List.length (history w)))
            /\ (limit < 0 ->
                rounds = List.firstn (List.length (history w) - Z.to_nat (- limit))
                                     (history w)
                /\ List.length rounds = (List.length (history w) - Z.to_nat (- limit))%nat)
            /\ (List.length rounds <= 50)%nat)
    /\ FlipEngine.getHistory None w = FlipEngine.getHistory (Some 20) w
    /\ (forall parsed : option Z,
          exists rounds,
            Server.gameHistory parsed w = (Ok rounds, w)
            /\ (List.length rounds <= 50)%nat
            /\ (parsed = None \/ parsed = Some 0 -> rounds = history w)
            /\ (parsed = Some (-1) ->
                rounds = List.removelast (history w)
                /\ List.length rounds = (List.length (history w) - 1)%nat)).
Proof.
  intros w Hr. pose proof (history_length w Hr) as Hl.
  assert (Hget : forall limit : Z,
             FlipEngine.getHistory (Some limit) w
             = (Ok (Js.slice_to limit (history w)), w)) by reflexivity.
  split; [exact Hl |]. split; [| split; [| split; [reflexivity |]]].
  - intros r Hcur.
    destruct (finishRound_run w r Hcur) as (w' & E & _ & Hh & _).
    rewrite E. cbn [snd]. rewrite Hh. apply archive_firstn. exact Hl.
  - intros limit. eexists. split; [apply Hget |].
    destruct (slice_to_cases limit (history w)) as [Hpos Hneg].
    split; [| split].
    + intros H. rewrite (Hpos H). split; [reflexivity | apply List.length_firstn].
    + intros H. rewrite (Hneg H). split; [reflexivity |].
      rewrite List.length_firstn. lia.
    + destruct (Z.lt_ge_cases limit 0) as [H | H].
      * rewrite (Hneg H), List.length_firstn. lia.
      * rewrite (Hpos H), List.length_firstn. lia.
  - intros parsed.
    assert (Hall : Js.slice_to 50 (history w) = history w).
    { destruct (slice_to_cases 50 (history w)) as [Hpos _].
      rewrite Hpos by lia. apply List.firstn_all2. exact Hl. }
    assert (Hlen : forall limit, (List.length (Js.slice_to limit (history w)) <= 50)%nat).
    { intros limit. destruct (slice_to_cases limit (history w)) as [Hpos Hneg].
      destruct (Z.lt_ge_cases limit 0) as [H | H].
      - rewrite (Hneg H), List.length_firstn. lia.
      - rewrite (Hpos H), List.length_firstn. lia. }
    unfold Server.gameHistory, RoundService.getHistory. cbn zeta. rewrite Hget.
    eexists. split; [reflexivity |]. split; [apply Hlen |]. split.
    + intros [-> | ->]; exact Hall.
    + intros ->. cbn [Z.eqb].
      destruct (slice_to_cases (-1) (history w)) as [_ Hneg].
      rewrite Hneg by lia. change (Z.to_nat (- -1)) with 1%nat.
      split; [| rewrite List.length_firstn; lia].
      replace (List.length (history w) - 1)%nat with (Nat.pred (List.length (history w)))
        by lia.
      symmetry. apply List.removelast_firstn_len.
Qed.

Lemma history_bounded_witness :
  exists rounds,
    Server.gameHistory (Some (-1))
      (run [Start; RevealRound; FinishRound; StartNewRound] constructed)
    = (Ok rounds, run [Start; RevealRound; FinishRound; StartNewRound] constructed)
    /\ (List.length rounds <= 49)%nat.
Proof.
  destruct (history_bounded (run [Start; RevealRound; FinishRound; StartNewRound] constructed))
    as (Hl & _ & _ & _ & H).
  { exists constructed, [Start; RevealRound; FinishRound; StartNewRound].
    split; [| reflexivity]. repeat split. }
  destruct (H (Some (-1))) as (rounds & E & _ & _ & Hm).
  destruct (Hm eq_refl) as [_ Hlen].
  exists rounds. split; [exact E |]. rewrite Hlen. lia.
Defined.

(** ** Every round can be recomputed from what it reveals *)

Lemma round_verifies_core (r r' : Round.t) :
  same_core r r' -> round_verifies r -> round_verifies r'.
Proof.
  intros (_ & Hs & Hh & Hc & Hn & Hr & _). unfold round_verifies.
  rewrite Hs, Hh, Hc, Hn, Hr. auto.
Qed.

Lemma In_app_event (e x : Effect) (tr : list Effect) :
  List.In e (tr ++ [x]) -> List.In e tr \/ e = x.
Proof.
  intros H. apply List.in_app_or in H. destruct H as [H | [H | []]]; auto.
Qed.

Lemma fair_reachable (w : World) : reachable w -> fair w.
Proof.
  revert w. apply reachable_steps.
  - intros w (_ & He & _ & Ht). split.
    + unfold current. rewrite He. discriminate.
    + unfold history. rewrite He. intros h [].
    + rewrite Ht. intros p [].
  - intros w w' [Hc Hh Htr] Hstep.
    destruct Hstep as [Hc' Hh' _ Ht' | s sm' r _ _ Hc' Hh' Ht' | r r' Hcur _ Hc' Hh' _ Ht'
                       | r Hcur Hc' Hh' _ Ht' | r p a c s Hcur _ _ _ Hc' Hh' _ Ht'].
    + split; rewrite ?Hc', ?Hh', ?Ht'; assumption.
    + split.
      * intros r0 H0. rewrite Hc' in H0. injection H0 as <-. reflexivity.
      * rewrite Hh'. exact Hh.
      * intros p Hin. rewrite Ht' in Hin. apply In_app_event in Hin.
        destruct Hin as [Hin | Hin]; [auto | discriminate].
    + split.
      * intros r0 H0. rewrite Hc' in H0. injection H0 as <-.
        apply (round_verifies_core
                 (Round.with_startTime (Some (clock (proc w))) (Round.with_status revealing r))).
        -- apply results_core.
        -- exact (Hc r Hcur).
      * rewrite Hh'. exact Hh.
      * intros p Hin. rewrite Ht' in Hin. apply In_app_event in Hin.
        destruct Hin as [Hin | Hin]; [auto | discriminate].
    + pose proof (Hc r Hcur) as Hv. split.
      * rewrite Hc'. discriminate.
      * intros h Hin. rewrite Hh' in Hin. apply archive_In in Hin.
        destruct Hin as [-> | Hin]; [exact Hv | auto].
      * intros p Hin. rewrite Ht' in Hin. apply In_app_event in Hin.
        destruct Hin as [Hin | Hin]; [auto |].
        injection Hin as ->.
        exists (Round.serverSeed r), (Round.clientSeed r), (Round.nonce r),
               (Round.result r), (Round.serverSeedHash r).
        repeat (split; [reflexivity |]). exact Hv.
    + split.
      * intros r0 H0. rewrite Hc' in H0. injection H0 as <-. exact (Hc r Hcur).
      * rewrite Hh'. exact Hh.
      * rewrite Ht'. exact Htr.
Qed.

(** Whatever the order of the steps of the round loop and of the bets, the
    result of a round is the one its seeds give: for the round in progress,
    for every round in the history and for every [round_finished] event
    sent, [POST /provably-fair/verify] on the server seed, the client seed
    and the nonce answers with the recorded result and the recorded hash. *)
Theorem rounds_verify :
  forall w : World,
    reachable w ->
    (forall r, current w = Some r ->
       Round.result r
       = FlipEngine.calculateFlipResult (Round.serverSeed r) (Round.clientSeed r)
                                        (Round.nonce r)
       /\ round_verifies r)
    /\ (forall h, List.In h (history w) ->
          Archived.result h
          = FlipEngine.calculateFlipResult (Archived.serverSeed h) (Archived.clientSeed h)
                                           (Archived.nonce h)
          /\ Server.verify (Archived.serverSeed h) (Archived.clientSeed h) (Archived.nonce h)
             = [ ("valid", Js.Bool true); ("result", Js.Str (Archived.result h));
                 ("serverSeedHash", Js.Str (Archived.serverSeedHash h)) ])
    /\ (forall payload, List.In (Emit "round_finished" payload) (trace w) ->
                        payload_verifies payload).
Proof.
  intros w Hr. destruct (fair_reachable w Hr) as [Hc Hh Ht].
  split; [| split; [| exact Ht]].
  - intros r Hcur. pose proof (Hc r Hcur) as Hv. split; [| exact Hv].
    unfold round_verifies, verifies, Server.verify in Hv. congruence.
  - intros h Hin. pose proof (Hh h Hin) as Hv. split; [| exact Hv].
    unfold verifies, Server.verify in Hv. congruence.
Qed.

Lemma rounds_verify_witness :
  exists h,
    history (run [Start; RevealRound; FinishRound] constructed) = [h]
    /\ Archived.result h
       = FlipEngine.calculateFlipResult (Archived.serverSeed h) (Archived.clientSeed h)
                                        (Archived.nonce h).
Proof.
  destruct (first_round_archived constructed) as (h & Hh); [repeat split |].
  exists h. split; [exact Hh |].
  apply (rounds_verify (run [Start; RevealRound; FinishRound] constructed)).
  - exists constructed, [Start; RevealRound; FinishRound]. split; [| reflexivity].
    repeat split.
  - rewrite Hh. left. reflexivity.
Defined.

(** ** The seed manager in the round loop *)

Lemma seed_counters_initialize (wx : World) :
  Seed.chainLength (seedManager (proc wx)) = 10000%N ->
  seed_counters (seeds_after SeedManager.initialize wx)
  /\ Seed.seedChain (seeds_after SeedManager.initialize wx) <> [].
Proof.
  intros Hl. unfold seeds_after. rewrite initialize_run.
  cbn [snd proc with_proc with_seedManager seedManager].
  destruct (fresh_chain (N.to_nat (N.pred (Seed.chainLength (seedManager (proc wx)))))
                        (entropy wx (drawn (proc wx)))) as (Hlen & _ & _).
  cbn zeta in Hlen. rewrite Hl in *.
  split.
  - split; cbn [Seed.chainLength Seed.nonce Seed.currentIndex Seed.initialHash Seed.seedChain].
    + reflexivity.
    + reflexivity.
    + reflexivity.
    + right. rewrite Hlen. split; lia.
  - cbn [Seed.seedChain]. intros E. rewrite E in Hlen. cbn [List.length] in Hlen. lia.
Qed.

Lemma seed_counters_ready (sm sm' : Seed.t) :
  seed_counters sm -> seed_ready sm sm' ->
  seed_counters sm' /\ Seed.seedChain sm' <> [].
Proof.
  intros Hc [[He ->] | (wx & Hl & ->)].
  - split; [exact Hc |]. intros E. unfold SeedManager.exhausted in He. rewrite E in He.
    cbn in He. apply N.leb_gt in He. lia.
  - apply seed_counters_initialize. rewrite Hl. apply Hc.
Qed.

Lemma seed_counters_advanced (sm sm' : Seed.t) :
  seed_counters sm -> seed_advanced sm sm' -> seed_counters sm'.
Proof.
  intros Hc [[He ->] | (wx & Hl & ->)].
  - destruct Hc as [H1 H2 H3 H4].
    unfold SeedManager.exhausted, bumped in He. cbn [Seed.seedChain Seed.currentIndex] in He.
    apply N.leb_gt in He.
    split; unfold bumped;
      cbn [Seed.chainLength Seed.nonce Seed.currentIndex Seed.initialHash Seed.seedChain].
    + exact H1.
    + rewrite H2. reflexivity.
    + exact H3.
    + destruct H4 as [[E _] | [E _]]; [rewrite E in He; cbn in He; lia |].
      right. split; [exact E |]. rewrite E in He. lia.
  - apply seed_counters_initialize. rewrite Hl. apply Hc.
Qed.

Lemma seeded_reachable (w : World) : reachable w -> seeded w.
Proof.
  revert w. apply reachable_steps.
  - intros w (Hs & He & _). split.
    + rewrite Hs. split; cbn; auto.
    + unfold current. rewrite He. discriminate.
  - intros w w' [Hc Hr] Hstep.
    destruct Hstep as [Hc' _ Hs' _ | s sm' r Hs' Hn Hc' _ _ | r r' Hcur _ Hc' _ Hs' _
                       | r Hcur Hc' _ Hs' _ | r p a c s Hcur _ _ _ Hc' _ Hs' _].
    + split; rewrite ?Hc', ?Hs'; assumption.
    + destruct (seed_counters_ready _ _ Hc Hs') as [Hc1 Hne].
      split; [exact Hc1 |].
      intros r0 H0. rewrite Hc' in H0. injection H0 as <-. subst r. cbn.
      repeat split; [exact Hn | exact Hne].
    + split; [rewrite Hs'; exact Hc |].
      intros r0 H0. rewrite Hc' in H0. injection H0 as <-. rewrite Hs'.
      destruct (results_core (Round.bets r)
                  (Round.with_startTime (Some (clock (proc w)))
                                        (Round.with_status revealing r)))
        as (_ & Cs & _ & Cc & Cn & _).
      subst r'. unfold revealed. rewrite Cs, Cc, Cn. cbn. apply Hr. exact Hcur.
    + split; [exact (seed_counters_advanced _ _ Hc Hs') |].
      rewrite Hc'. discriminate.
    + split; [rewrite Hs'; exact Hc |].
      intros r0 H0. rewrite Hc' in H0. injection H0 as <-. rewrite Hs'. cbn.
      apply Hr. exact Hcur.
Qed.

Lemma getPublicData_run (w : World) :
  SeedManager.getPublicData w
  = (Ok [ ("publicHash", Js.Str (Seed.initialHash (seedManager (proc w))));
          ("clientSeed", Js.Str (Seed.clientSeed (seedManager (proc w))));
          ("nonce", Js.Int (Z.of_N (Seed.nonce (seedManager (proc w)))));
          ("gamesRemaining",
           Js.Int (Z.of_N (Seed.chainLength (seedManager (proc w)))
                   - Z.of_N (Seed.currentIndex (seedManager (proc w))))) ], w).
Proof. reflexivity. Qed.

(** In the round loop [getPublicData] reports a nonce between 0 and 9999
    that counts the rounds finished on the chain in use, and
    [gamesRemaining = 10000 - nonce], between 1 and 10000; the round in
    progress carries that nonce and that client seed. *)
Theorem public_data_counts :
  forall w : World,
    reachable w ->
    exists (publicHash clientSeed : string) (nonce gamesRemaining : Z),
      SeedManager.getPublicData w
      = (Ok [ ("publicHash", Js.Str publicHash); ("clientSeed", Js.Str clientSeed);
              ("nonce", Js.Int nonce); ("gamesRemaining", Js.Int gamesRemaining) ], w)
      /\ 0 <= nonce <= 9999
      /\ gamesRemaining = 10000 - nonce
      /\ nonce = Z.of_N (Seed.currentIndex (seedManager (proc w)))
      /\ (forall r, current w = Some r ->
            Z.of_N (Round.nonce r) = nonce /\ Round.clientSeed r = clientSeed).
Proof.
  intros w Hr. destruct (seeded_reachable w Hr) as [[H1 H2 H3 H4] Hround].
  do 4 eexists. rewrite getPublicData_run. split; [reflexivity |].
  rewrite H1, H2.
  split; [destruct H4 as [[_ E] | [_ E]]; lia |].
  split; [lia |]. split; [reflexivity |].
  intros r Hcur. destruct (Hround r Hcur) as (Hn & Hc & _).
  rewrite Hn, H2, Hc. auto.
Qed.

Lemma public_data_counts_witness :
  exists (publicHash clientSeed : string) (nonce gamesRemaining : Z),
    fst (SeedManager.getPublicData (run [Start; RevealRound; FinishRound] constructed))
    = Ok [ ("publicHash", Js.Str publicHash); ("clientSeed", Js.Str clientSeed);
           ("nonce", Js.Int nonce); ("gamesRemaining", Js.Int gamesRemaining) ]
    /\ nonce + gamesRemaining = 10000.
Proof.
  destruct (public_data_counts (run [Start; RevealRound; FinishRound] constructed))
    as (h & c & n & g & E & _ & Hg & _).
  { exists constructed, [Start; RevealRound; FinishRound]. split; [| reflexivity].
    repeat split. }
  exists h, c, n, g. rewrite E. split; [reflexivity | lia].
Defined.

(** While the first round of a chain (nonce 0) is in progress, its betting
    phase included, the [publicHash] that [getPublicData] gives out is the
    server seed of that round: with the client seed and the nonce of the
    same answer it gives the result of the round. *)
Theorem public_hash_is_first_seed :
  forall (w : World) (r : Round.t),
    reachable w -> current w = Some r -> Round.nonce r = 0%N ->
    exists (clientSeed : string) (gamesRemaining : Z),
      SeedManager.getPublicData w
      = (Ok [ ("publicHash", Js.Str (Round.serverSeed r)); ("clientSeed", Js.Str clientSeed);
              ("nonce", Js.Int 0); ("gamesRemaining", Js.Int gamesRemaining) ], w)
      /\ FlipEngine.calculateFlipResult (Round.serverSeed r) clientSeed 0 = Round.result r.
Proof.
  intros w r Hr Hcur Hn.
  destruct (seeded_reachable w Hr) as [[H1 H2 H3 H4] Hround].
  destruct (Hround r Hcur) as (Hn' & Hc & Hs & Hne).
  destruct (fair_reachable w Hr) as [Hfair _ _].
  pose proof (Hfair r Hcur) as Hv. unfold round_verifies, verifies, Server.verify in Hv.
  assert (Hz : Seed.nonce (seedManager (proc w)) = 0%N) by congruence.
  assert (Hi : Seed.currentIndex (seedManager (proc w)) = 0%N) by congruence.
  assert (Hseed : Round.serverSeed r = List.hd "" (Seed.seedChain (seedManager (proc w)))).
  { rewrite Hs, Hi. destruct (Seed.seedChain (seedManager (proc w))); reflexivity. }
  exists (Round.clientSeed r). eexists. rewrite getPublicData_run.
  rewrite H3, <- Hseed, Hz, <- Hc. split; [reflexivity |].
  rewrite Hn in Hv. congruence.
Qed.

Lemma start_first_round (w0 : World) :
  loaded w0 ->
  exists r, current (run [Start] w0) = Some r
            /\ Round.status r = betting /\ Round.nonce r = 0%N
            /\ Round.bets r = JsMap.empty.
Proof.
  intros (_ & _ & Hrun & _).
  unfold run. cbn [List.fold_left perform].
  unfold RoundService.start, bind at 1, gets at 1. cbn [proc]. rewrite Hrun.
  unfold bind at 1. rewrite initialize_run. cbn zeta. unfold bind at 1, modify at 1.
  match goal with
  | |- context [RoundService.startNewRound ?x] =>
      destruct (startNewRound_step x eq_refl)
        as (s & w' & E & _ & _ & Hs & _ & Hc & _); rewrite E
  end.
  cbn [snd]. eexists. split; [exact Hc |]. split; [reflexivity |].
  split; [| reflexivity].
  cbn. cbn zeta in Hs.
  destruct Hs as [[_ ->] | (wx & _ & ->)]; [reflexivity | apply initialize_nonce].
Qed.

Lemma public_hash_is_first_seed_witness :
  exists (r : Round.t) (clientSeed : string) (gamesRemaining : Z),
    current (run [Start] constructed) = Some r
    /\ Round.status r = betting
    /\ fst (SeedManager.getPublicData (run [Start] constructed))
       = Ok [ ("publicHash", Js.Str (Round.serverSeed r)); ("clientSeed", Js.Str clientSeed);
              ("nonce", Js.Int 0); ("gamesRemaining", Js.Int gamesRemaining) ].
Proof.
  assert (Hl : loaded constructed) by (repeat split).
  assert (Hreach : reachable (run [Start] constructed)).
  { exists constructed, [Start]. split; [exact Hl | reflexivity]. }
  destruct (start_first_round constructed Hl) as (r & Hcur & Hst & Hn & _).
  destruct (public_hash_is_first_seed _ r Hreach Hcur Hn) as (c & g & E & _).
  exists r, c, g. rewrite E. auto.
Defined.

(** ** The phases of a round *)

(** A round is revealed once and archived once: after [startReveal] the
    round is in [revealing] with the ledger it had, a second [startReveal]
    and every [addBet] throw and change nothing; after [finishRound] there
    is no round in progress, so [getCurrentRound] gives null, [addBet] and
    [startReveal] throw, and a second [finishRound] gives null and archives
    nothing. *)
Theorem round_revealed_and_archived_once :
  forall (w : World) (r : Round.t),
    current w = Some r -> Round.status r = betting ->
    let w1 := snd (FlipEngine.startReveal w) in
    let w2 := snd (FlipEngine.finishRound w1) in
    (exists r1,
       current w1 = Some r1 /\ Round.status r1 = revealing
       /\ Round.startTime r1 = Some (clock (proc w)) /\ Round.bets r1 = Round.bets r
       /\ Round.result r1 = Round.result r)
    /\ FlipEngine.startReveal w1 = (Throw (Error "No round in betting phase"), w1)
    /\ (forall playerId amount choice sessionId,
          FlipEngine.addBet playerId amount choice sessionId w1
          = (Throw (Error "Betting phase has ended"), w1))
    /\ current w2 = None
    /\ (exists rest, history w2 = archived_of (closed (clock (proc w1))
                                                      (revealed (clock (proc w)) r)) :: rest)
    /\ FlipEngine.getCurrentRound w2 = (Ok None, w2)
    /\ (forall playerId amount choice sessionId,
          FlipEngine.addBet playerId amount choice sessionId w2
          = (Throw (Error "No active round"), w2))
    /\ FlipEngine.startReveal w2 = (Throw (Error "No round in betting phase"), w2)
    /\ FlipEngine.finishRound w2 = (Ok None, w2).
Proof.
  intros w r Hcur Hst w1 w2.
  pose proof (startReveal_run w r Hcur Hst) as E1.
  assert (Hc1 : current w1 = Some (revealed (clock (proc w)) r)).
  { subst w1. rewrite E1. reflexivity. }
  destruct (results_core (Round.bets r)
              (Round.with_startTime (Some (clock (proc w))) (Round.with_status revealing r)))
    as (_ & _ & _ & _ & _ & Cr & Ct & _ & Cs & Cb).
  fold (revealed (clock (proc w)) r) in Cr, Ct, Cs, Cb. cbn in Cr, Ct, Cs, Cb.
  destruct (finishRound_run w1 _ Hc1) as (w2' & E2 & Hc2 & Hh2 & _).
  assert (Ew2 : w2 = w2') by (subst w2; rewrite E2; reflexivity).
  rewrite <- Ew2 in *. clear w2' Ew2 E2.
  split; [eexists; split; [exact Hc1 |]; repeat split; assumption |].
  split.
  { apply startReveal_throws. right. eexists. split; [exact Hc1 |]. rewrite Cs. discriminate. }
  split.
  { intros p a c s. rewrite addBet_run, Hc1, Cs. reflexivity. }
  split; [exact Hc2 |].
  split.
  { rewrite Hh2. apply archive_head. }
  split; [rewrite getCurrentRound_run, Hc2; reflexivity |].
  split; [intros p a c s; rewrite addBet_run, Hc2; reflexivity |].
  split; [apply startReveal_throws; left; exact Hc2 |].
  apply finishRound_idle. exact Hc2.
Qed.

Lemma round_revealed_and_archived_once_witness :
  FlipEngine.startReveal (snd (FlipEngine.startReveal (table two_bets)))
  = (Throw (Error "No round in betting phase"), snd (FlipEngine.startReveal (table two_bets)))
  /\ current (snd (FlipEngine.finishRound (snd (FlipEngine.startReveal (table two_bets)))))
     = None.
Proof.
  destruct (round_revealed_and_archived_once (table two_bets) (table_round two_bets)
              eq_refl eq_refl) as (_ & H1 & _ & H2 & _).
  split; [exact H1 | exact H2].
Defined.

(** ** The loop when it is stopped *)

Lemma timer_step_stopped (a : Action) (w : World) :
  timer_step a -> isRunning (proc w) = false -> snd (perform a w) = w.
Proof.
  intros [-> | [-> | ->]] Hrun; cbn [perform].
  - unfold RoundService.startNewRound, bind, gets. cbn [proc]. rewrite Hrun. reflexivity.
  - rewrite revealRound_run. rewrite Hrun.
    destruct (current w) as [r |]; reflexivity.
  - unfold RoundService.finishRound, bind, gets. cbn [proc]. rewrite Hrun. reflexivity.
Qed.

(** After [stop()] the timers that are still pending do nothing, however
    many fire and in whatever order: the round in progress stays as it is,
    is neither revealed nor archived, and when it is in its betting phase
    [addBet] goes on taking bets.  [start()] on a loop that runs changes
    nothing. *)
Theorem stopped_loop_is_inert :
  forall (w : World) (actions : list Action),
    List.Forall timer_step actions ->
    let stopped := snd (RoundService.stop w) in
    run actions stopped = stopped
    /\ current stopped = current w /\ history stopped = history w
    /\ trace stopped = trace w
    /\ (forall r playerId amount choice sessionId,
          current w = Some r -> Round.status r = betting ->
          FlipEngine.invalid_choice choice = false ->
          JsMap.has playerId (Round.bets r) = false ->
          exists bet w', FlipEngine.addBet playerId amount choice sessionId (run actions stopped)
                         = (Ok bet, w'))
    /\ (isRunning (proc w) = true -> RoundService.start w = (Ok tt, w)).
Proof.
  intros w actions Hall stopped.
  assert (Hrun : run actions stopped = stopped).
  { assert (Hs : isRunning (proc stopped) = false) by reflexivity.
    revert Hs. generalize stopped. clear stopped.
    induction Hall as [| a actions Ha _ IH]; intros v Hv; cbn [run List.fold_left].
    - reflexivity.
    - rewrite (timer_step_stopped a v Ha Hv). apply IH. exact Hv. }
  split; [exact Hrun |]. split; [reflexivity |]. split; [reflexivity |].
  split; [reflexivity |]. split.
  - intros r p a c s Hcur Hst Hc Hhas. rewrite Hrun, addBet_run.
    change (current stopped) with (current w). rewrite Hcur, Hst, Hc, Hhas. cbn.
    eauto.
  - intros Hr. unfold RoundService.start, bind, gets. cbn [proc]. rewrite Hr. reflexivity.
Qed.

Lemma stopped_loop_is_inert_witness :
  run [RevealRound; FinishRound; StartNewRound] (snd (RoundService.stop (table two_bets)))
  = snd (RoundService.stop (table two_bets)).
Proof.
  apply (stopped_loop_is_inert (table two_bets) [RevealRound; FinishRound; StartNewRound]).
  apply List.Forall_cons; [right; left; reflexivity |].
  apply List.Forall_cons; [right; right; reflexivity |].
  apply List.Forall_cons; [left; reflexivity |].
  apply List.Forall_nil.
Defined.

(** ** One turn of the round loop *)

Lemma bets_run (bets : list Action) :
  List.Forall bet_step bets ->
  forall (w : World) (r : Round.t),
    current w = Some r ->
    exists r',
      current (run bets w) = Some r' /\ same_round r r'
      /\ history (run bets w) = history w /\ trace (run bets w) = trace w
      /\ isRunning (proc (run bets w)) = isRunning (proc w)
      /\ clock (proc (run bets w)) = clock (proc w).
Proof.
  induction 1 as [| a bets (p & amt & c & s & ->) _ IH]; intros w r Hcur;
    cbn [run List.fold_left].
  - exists r. repeat split; auto.
  - assert (Hstep : snd (perform (AddBet p amt c s) w) = w
                   \/ snd (perform (AddBet p amt c s) w)
                      = placed w r p amt c s).
    { cbn [perform]. unfold bind. rewrite addBet_run, Hcur.
      destruct (negb (Status_eqb (Round.status r) betting)); [left; reflexivity |].
      destruct (FlipEngine.invalid_choice c); [left; reflexivity |].
      destruct (JsMap.has p (Round.bets r)); [left; reflexivity |].
      right. reflexivity. }
    destruct Hstep as [-> | ->]; [apply IH; exact Hcur |].
    destruct (IH (placed w r p amt c s)
                 (Round.with_bets
                    (JsMap.set p (Bet.mk p s amt c (clock (proc w))) (Round.bets r)) r)
                 eq_refl) as (r' & H1 & H2 & H3 & H4 & H5 & H6).
    exists r'. split; [exact H1 |]. split; [exact H2 |]. auto.
Qed.

(** One turn of the loop, whatever bets are registered in its betting
    phase, sends three events for one round id, in this order:
    [betting_phase] with the hash of the server seed and neither the seed
    nor the result, [round_reveal] with the result, [round_finished] with the
    server seed; the hash is that of the seed, the result is the one the
    seed gives, and the round is then the first of the history. *)
Theorem round_cycle_events :
  forall (w : World) (bets : list Action),
    isRunning (proc w) = true -> List.Forall bet_step bets ->
    let w' := run (StartNewRound :: bets ++ [RevealRound; FinishRound]) w in
    exists (roundId serverSeed clientSeed result : string) (nonce : N)
           (p1 p2 p3 : Js.object),
      trace w'
      = trace w ++ [ Emit "betting_phase" p1; Emit "round_reveal" p2;
                     Emit "round_finished" p3 ]
      /\ (Js.field "roundId" p1 = Js.Str roundId /\ Js.field "roundId" p2 = Js.Str roundId
          /\ Js.field "roundId" p3 = Js.Str roundId)
      /\ (Js.field "serverSeedHash" p1 = Js.Str (Crypto.sha256 serverSeed)
          /\ Js.field "serverSeedHash" p2 = Js.Str (Crypto.sha256 serverSeed)
          /\ Js.field "serverSeedHash" p3 = Js.Str (Crypto.sha256 serverSeed))
      /\ (Js.has_field "result" p1 = false /\ Js.has_field "serverSeed" p1 = false
          /\ Js.has_field "serverSeed" p2 = false)
      /\ (Js.field "result" p2 = Js.Str result /\ Js.field "result" p3 = Js.Str result
          /\ Js.field "serverSeed" p3 = Js.Str serverSeed
          /\ Js.field "clientSeed" p3 = Js.Str clientSeed
          /\ Js.field "nonce" p3 = Js.Int (Z.of_N nonce))
      /\ result = FlipEngine.calculateFlipResult serverSeed clientSeed nonce
      /\ current w' = None
      /\ exists h rest,
           history w' = h :: rest /\ Archived.id h = roundId
           /\ Archived.result h = result /\ Archived.serverSeed h = serverSeed.
Proof.
  intros w bets Hrun Hbets w'.
  destruct (startNewRound_step w Hrun)
    as (s & w1 & E1 & Hr1 & Hk1 & _ & _ & Hc1 & Hh1 & Ht1).
  cbn zeta in Hc1, Ht1.
  set (r0 := Round.with_status betting
               (generated (seedManager (proc w1)) (clock (proc w)) s)) in *.
  destruct (bets_run bets Hbets w1 r0 Hc1)
    as (r2 & Hc2 & (Si & Ss & Sh & Sc & Sn & Sr & St) & Hh2 & Ht2 & Hr2 & Hk2).
  set (w2 := run bets w1) in *.
  assert (Hst2 : Round.status r2 = betting) by (rewrite St; reflexivity).
  pose proof (startReveal_run w2 r2 Hc2 Hst2) as E3.
  set (r3 := revealed (clock (proc w2)) r2) in *.
  set (w3 := with_trace
               (trace w2 ++ [Emit "round_reveal" (round_reveal_payload (clock (proc w2)) r3)])
               (with_proc (FlipEngine.set_currentRound (Some r3) (proc w2)) w2)) in *.
  assert (Hc3 : current w3 = Some r3) by reflexivity.
  destruct (finishRound_run w3 r3 Hc3) as (w4 & E4 & Hc4 & Hh4 & Ht4 & _).
  assert (Ew : w' = w4).
  { subst w'. unfold run. cbn [List.fold_left]. rewrite List.fold_left_app.
    cbn [perform]. rewrite E1. cbn [snd]. fold (run bets w1). fold w2.
    cbn [List.fold_left perform]. rewrite revealRound_run, Hc2, Hr2, Hr1, Hst2.
    cbn [andb Status_eqb snd]. rewrite E3. cbn [snd].
    unfold RoundService.finishRound, bind at 1, bind at 1, gets at 1.
    cbn [proc]. change (isRunning (proc w3)) with (isRunning (proc w2)).
    rewrite Hr2, Hr1. cbn [negb]. rewrite E4. reflexivity. }
  destruct (results_core (Round.bets r2)
              (Round.with_startTime (Some (clock (proc w2))) (Round.with_status revealing r2)))
    as (Ci & Cs & Ch & Cc & Cn & Cr & _).
  fold (revealed (clock (proc w2)) r2) in Ci, Cs, Ch, Cc, Cn, Cr. fold r3 in Ci, Cs, Ch, Cc, Cn, Cr.
  cbn in Ci, Cs, Ch, Cc, Cn, Cr.
  exists (Round.id r0), (Round.serverSeed r0), (Round.clientSeed r0), (Round.result r0),
         (Round.nonce r0).
  exists (betting_phase_payload r0), (round_reveal_payload (clock (proc w2)) r3),
         (verification_payload r3).
  rewrite Ew.
  split.
  { rewrite Ht4. unfold w3. cbn [trace with_trace with_proc]. rewrite Ht2, Ht1.
    rewrite <- !List.app_assoc. reflexivity. }
  split.
  { cbn. rewrite Ci, Si. auto. }
  split.
  { cbn. rewrite Ch, Sh. auto. }
  split; [cbn; auto |].
  split.
  { cbn. rewrite Cr, Sr, Cs, Ss, Cc, Sc, Cn, Sn. repeat split. }
  split; [reflexivity |].
  split; [exact Hc4 |].
  destruct (archive_head (archived_of (closed (clock (proc w3)) r3)) (history w3))
    as (rest & Hrest).
  eexists. exists rest. rewrite Hh4. split; [exact Hrest |].
  cbn. rewrite Ci, Si, Cr, Sr, Cs, Ss. repeat split.
Qed.

Lemma round_cycle_events_witness :
  exists (roundId : string) (p1 p2 p3 : Js.object),
    trace (run (StartNewRound
                  :: [AddBet "carol" 3%float "EDGE" "SESSION-c"] ++ [RevealRound; FinishRound])
               (table two_bets))
    = [ Emit "betting_phase" p1; Emit "round_reveal" p2; Emit "round_finished" p3 ]
    /\ Js.field "roundId" p1 = Js.Str roundId /\ Js.field "roundId" p3 = Js.Str roundId
    /\ Js.field "result" p2 = Js.field "result" p3.
Proof.
  destruct (round_cycle_events (table two_bets) [AddBet "carol" 3%float "EDGE" "SESSION-c"])
    as (i & s & c & res & n & p1 & p2 & p3 & Ht & (Hi1 & _ & Hi3) & _ & _
        & (Hr2 & Hr3 & _) & _).
  - reflexivity.
  - apply List.Forall_cons; [| apply List.Forall_nil].
    exists "carol", 3%float, "EDGE", "SESSION-c". reflexivity.
  - exists i, p1, p2, p3. rewrite Ht. cbn [trace table List.app].
    repeat split; congruence.
Defined.

(** ** Winners and losers *)

Lemma length_set_new {V : Type} (k : string) (v : V) (m : JsMap.t V) :
  JsMap.get k m = None -> List.length (JsMap.set k v m) = S (List.length m).
Proof.
  induction m as [| [k' v'] m IH]; cbn; [reflexivity |].
  destruct (String.eqb k k'); [discriminate |].
  intros H. cbn. rewrite (IH H). reflexivity.
Qed.

Lemma settle_count (l : JsMap.t Bet.t) :
  forall r : Round.t,
    List.NoDup (JsMap.keys l) ->
    (forall k, List.In k (JsMap.keys l) ->
               JsMap.get k (Round.winners r) = None /\ JsMap.get k (Round.losers r) = None) ->
    let r' := List.fold_left FlipEngine.settle l r in
    (List.length (Round.winners r') + List.length (Round.losers r')
     = List.length (Round.winners r) + List.length (Round.losers r) + List.length l)%nat.
Proof.
  induction l as [| [k b] l IH]; intros r Hnd Hfresh; cbn [List.fold_left List.length].
  - lia.
  - cbn [JsMap.keys List.map fst] in Hnd, Hfresh.
    inversion Hnd as [| ? ? Hk Hnd']; subst. fold (JsMap.keys l) in Hk, Hnd', Hfresh.
    destruct (Hfresh k (or_introl eq_refl)) as [Hw Hl].
    cbn zeta in IH. rewrite IH; [| exact Hnd' |].
    + unfold FlipEngine.settle.
      destruct (String.eqb (Bet.choice b) (Round.result r));
        cbn [Round.winners Round.losers Round.with_winners Round.with_losers];
        rewrite length_set_new by assumption; lia.
    + intros k' Hk'.
      assert (Hne : k' <> k) by (intros ->; contradiction).
      destruct (Hfresh k' (or_intror Hk')) as [Hw' Hl'].
      unfold FlipEngine.settle.
      destruct (String.eqb (Bet.choice b) (Round.result r));
        cbn [Round.winners Round.losers Round.with_winners Round.with_losers];
        rewrite ?get_set_other by exact Hne; auto.
Qed.

(** At the reveal every bet of the ledger becomes one winner or one loser:
    in the round loop the round that [startReveal] leaves has as many
    winners and losers together as the ledger has bets, no player is both,
    and [finishRound] archives these two counts and returns the two lists. *)
Theorem reveal_counts_every_bet :
  forall (w : World) (r : Round.t),
    reachable w -> current w = Some r -> Round.status r = betting ->
    exists r1 w1,
      FlipEngine.startReveal w = (Ok r1, w1) /\ current w1 = Some r1
      /\ (JsMap.size (Round.winners r1) + JsMap.size (Round.losers r1)
          = JsMap.size (Round.bets r))%N
      /\ (forall p, JsMap.has p (Round.winners r1) = true ->
                    JsMap.has p (Round.losers r1) = false)
      /\ (forall p, JsMap.has p (Round.bets r) = true ->
                    JsMap.has p (Round.winners r1) = true
                    \/ JsMap.has p (Round.losers r1) = true)
      /\ exists out w2 h rest,
           FlipEngine.finishRound w1 = (Ok (Some out), w2)
           /\ (List.length (FlipEngine.winners out) + List.length (FlipEngine.losers out)
               = List.length (Round.bets r))%nat
           /\ history w2 = h :: rest
           /\ (Archived.winnersCount h + Archived.losersCount h
               = JsMap.size (Round.bets r))%N.
Proof.
  intros w r Hreach Hcur Hst.
  destruct (invariant_reachable w Hreach) as [Hinv _].
  destruct (Hinv r Hcur) as (_ & _ & _ & Hnd).
  destruct (unsettled_reachable w Hreach r Hcur Hst) as [Hw0 Hl0].
  pose proof (startReveal_run w r Hcur Hst) as E.
  set (r1 := revealed (clock (proc w)) r) in *.
  set (r0 := Round.with_startTime (Some (clock (proc w))) (Round.with_status revealing r)).
  assert (Hcount : (List.length (Round.winners r1) + List.length (Round.losers r1)
                    = List.length (Round.bets r))%nat).
  { subst r1. unfold revealed. fold r0.
    change (Round.bets r) with (Round.bets r0).
    rewrite (settle_count (Round.bets r0) r0 Hnd).
    - subst r0. cbn. rewrite Hw0, Hl0. reflexivity.
    - intros k _. subst r0. cbn. rewrite Hw0, Hl0. auto. }
  assert (Hpart : forall p,
             match JsMap.get p (Round.bets r) with
             | Some bet =>
                 if String.eqb (Bet.choice bet) (Round.result r)
                 then JsMap.has p (Round.winners r1) = true
                      /\ JsMap.has p (Round.losers r1) = false
                 else JsMap.has p (Round.losers r1) = true
                      /\ JsMap.has p (Round.winners r1) = false
             | None => JsMap.has p (Round.winners r1) = false
                       /\ JsMap.has p (Round.losers r1) = false
             end).
  { intros p. pose proof (settle_fold (Round.bets r0) r0 p Hnd) as H.
    cbn zeta in H. subst r1. unfold revealed. fold r0.
    change (Round.bets r0) with (Round.bets r) in H.
    change (Round.result r0) with (Round.result r) in H.
    change (Round.winners r0) with (Round.winners r) in H.
    change (Round.losers r0) with (Round.losers r) in H.
    rewrite Hw0, Hl0 in H. unfold JsMap.has.
    destruct (JsMap.get p (Round.bets r)) as [bet |].
    - destruct (String.eqb (Bet.choice bet) (Round.result r));
        destruct H as [H1 H2]; rewrite H1, H2; auto.
    - destruct H as [H1 H2]. rewrite H1, H2. auto. }
  do 2 eexists. split; [exact E |]. split; [reflexivity |].
  split; [unfold JsMap.size; lia |].
  split.
  { intros p Hp. specialize (Hpart p).
    destruct (JsMap.get p (Round.bets r)) as [bet |].
    - destruct (String.eqb (Bet.choice bet) (Round.result r)); destruct Hpart; congruence.
    - destruct Hpart; congruence. }
  split.
  { intros p Hp. specialize (Hpart p). unfold JsMap.has in Hp.
    destruct (JsMap.get p (Round.bets r)) as [bet |]; [| discriminate].
    destruct (String.eqb (Bet.choice bet) (Round.result r)); destruct Hpart; auto. }
  match goal with
  | |- context [FlipEngine.finishRound ?x] =>
      destruct (finishRound_run x r1 eq_refl) as (w2 & E2 & _ & Hh2 & _)
  end.
  destruct (archive_head (archived_of (closed (clock (proc w)) r1)) (history w))
    as (rest & Hrest).
  do 4 eexists. split; [exact E2 |]. cbn [FlipEngine.winners FlipEngine.losers].
  split; [exact Hcount |]. split; [rewrite Hh2; exact Hrest |].
  cbn. unfold JsMap.size. lia.
Qed.

Lemma reachable_run (actions : list Action) (w : World) :
  reachable w -> reachable (run actions w).
Proof.
  intros (w0 & acts & Hl & ->). exists w0, (acts ++ actions). split; [exact Hl |].
  unfold run. rewrite List.fold_left_app. reflexivity.
Qed.

Lemma reveal_counts_every_bet_witness :
  exists r1 w1,
    FlipEngine.startReveal
      (run [AddBet "alice" 10%float "HEADS" "SESSION-a";
            AddBet "bob" 5%float "TAILS" "SESSION-b"] (run [Start] constructed)) = (Ok r1, w1)
    /\ (JsMap.size (Round.winners r1) + JsMap.size (Round.losers r1) = 2)%N.
Proof.
  assert (Hl : loaded constructed) by (repeat split).
  assert (Hreach0 : reachable (run [Start] constructed)).
  { exists constructed, [Start]. split; [exact Hl | reflexivity]. }
  destruct (start_first_round constructed Hl) as (r0 & Hc0 & Hs0 & _ & Hb0).
  revert Hreach0 Hc0. generalize (run [Start] constructed). intros v Hreach0 Hv.
  set (w := run [AddBet "alice" 10%float "HEADS" "SESSION-a";
                 AddBet "bob" 5%float "TAILS" "SESSION-b"] v).
  assert (Hreach : reachable w) by (apply reachable_run; exact Hreach0).
  assert (Hcur : exists r, current w = Some r /\ Round.status r = betting
                           /\ JsMap.size (Round.bets r) = 2%N).
  { subst w. unfold run. cbn [List.fold_left].
    assert (H1 : snd (perform (AddBet "alice" 10%float "HEADS" "SESSION-a") v)
                 = placed v r0 "alice" 10%float "HEADS" "SESSION-a").
    { cbn [perform]. unfold bind. rewrite addBet_run, Hv, Hs0, Hb0. reflexivity. }
    rewrite H1. cbn [perform]. unfold bind. rewrite addBet_run.
    assert (H2 : current (placed v r0 "alice" 10%float "HEADS" "SESSION-a")
                 = Some (Round.with_bets
                           (JsMap.set "alice"
                              (Bet.mk "alice" "SESSION-a" 10%float "HEADS" (clock (proc v)))
                              (Round.bets r0)) r0)) by reflexivity.
    rewrite H2. cbn [Round.status Round.with_bets Round.bets].
    rewrite Hs0, Hb0. cbn. eexists. split; [reflexivity |]. split; [exact Hs0 |].
    reflexivity. }
  destruct Hcur as (r & Hcur & Hst & Hsize).
  destruct (reveal_counts_every_bet w r Hreach Hcur Hst) as (r1 & w1 & E & _ & Hn & _).
  exists r1, w1. split; [exact E |]. rewrite Hn. exact Hsize.
Defined.

Lemma revealed_winner (now : Z) (r : Round.t) (p : string) :
  List.NoDup (JsMap.keys (Round.bets r)) ->
  Round.winners r = JsMap.empty ->
  JsMap.get p (Round.winners (revealed now r))
  = match JsMap.get p (Round.bets r) with
    | Some bet =>
        if String.eqb (Bet.choice bet) (Round.result r)
        then Some (Winner.mk (Bet.amount bet) (payout (Bet.amount bet) (Round.result r))
                             (Bet.choice bet))
        else None
    | None => None
    end.
Proof.
  intros Hnd Hw0.
  set (r0 := Round.with_startTime (Some now) (Round.with_status revealing r)).
  pose proof (settle_fold (Round.bets r0) r0 p Hnd) as H. cbn zeta in H.
  unfold revealed. fold r0.
  change (Round.bets r0) with (Round.bets r) in H.
  change (Round.result r0) with (Round.result r) in H.
  change (Round.winners r0) with (Round.winners r) in H.
  rewrite Hw0 in H.
  destruct (JsMap.get p (Round.bets r)) as [bet |].
  - destruct (String.eqb (Bet.choice bet) (Round.result r)); destruct H as [H1 H2];
      [exact H1 | exact H2].
  - destruct H as [H1 _]. exact H1.
Qed.

Lemma outcome_labels (b : Z) :
  FlipEngine.outcome_of_byte b = "HEADS" \/ FlipEngine.outcome_of_byte b = "TAILS"
  \/ FlipEngine.outcome_of_byte b = "EDGE".
Proof.
  unfold FlipEngine.outcome_of_byte. cbn zeta.
  destruct (PrimFloat.ltb _ Config.PROBABILITY_HEADS); [left; reflexivity |].
  destruct (PrimFloat.ltb _ _); [right; left | right; right]; reflexivity.
Qed.

Lemma three_bets_placed (v : World) (r0 : Round.t) (a : float) :
  current v = Some r0 -> Round.status r0 = betting -> Round.bets r0 = JsMap.empty ->
  exists r,
    current (run [AddBet "alice" a "HEADS" "SESSION-a"; AddBet "bob" a "TAILS" "SESSION-b";
                  AddBet "carol" a "EDGE" "SESSION-c"] v) = Some r
    /\ Round.status r = betting /\ Round.result r = Round.result r0
    /\ Round.bets r
       = [ ("alice", Bet.mk "alice" "SESSION-a" a "HEADS" (clock (proc v)));
           ("bob", Bet.mk "bob" "SESSION-b" a "TAILS" (clock (proc v)));
           ("carol", Bet.mk "carol" "SESSION-c" a "EDGE" (clock (proc v))) ].
Proof.
  intros Hv Hs0 Hb0.
  unfold run. cbn [List.fold_left].
  assert (H1 : snd (perform (AddBet "alice" a "HEADS" "SESSION-a") v)
               = placed v r0 "alice" a "HEADS" "SESSION-a").
  { cbn [perform]. unfold bind. rewrite addBet_run, Hv, Hs0, Hb0. reflexivity. }
  rewrite H1.
  set (r1 := Round.with_bets
               (JsMap.set "alice" (Bet.mk "alice" "SESSION-a" a "HEADS" (clock (proc v)))
                          (Round.bets r0)) r0).
  set (v1 := placed v r0 "alice" a "HEADS" "SESSION-a").
  assert (Hv1 : current v1 = Some r1) by reflexivity.
  assert (Hk1 : clock (proc v1) = clock (proc v)) by reflexivity.
  assert (Hs1 : Round.status r1 = betting) by exact Hs0.
  assert (Hb1 : Round.bets r1
                = [("alice", Bet.mk "alice" "SESSION-a" a "HEADS" (clock (proc v)))]).
  { subst r1. cbn [Round.with_bets Round.bets]. rewrite Hb0. reflexivity. }
  assert (Hr1 : Round.result r1 = Round.result r0) by reflexivity.
  clearbody r1 v1.
  assert (H2 : snd (perform (AddBet "bob" a "TAILS" "SESSION-b") v1)
               = placed v1 r1 "bob" a "TAILS" "SESSION-b").
  { cbn [perform]. unfold bind. rewrite addBet_run, Hv1, Hs1, Hb1. reflexivity. }
  rewrite H2.
  set (r2 := Round.with_bets
               (JsMap.set "bob" (Bet.mk "bob" "SESSION-b" a "TAILS" (clock (proc v1)))
                          (Round.bets r1)) r1).
  set (v2 := placed v1 r1 "bob" a "TAILS" "SESSION-b").
  assert (Hv2 : current v2 = Some r2) by reflexivity.
  assert (Hk2 : clock (proc v2) = clock (proc v)) by exact Hk1.
  assert (Hs2 : Round.status r2 = betting) by exact Hs1.
  assert (Hb2 : Round.bets r2
                = [("alice", Bet.mk "alice" "SESSION-a" a "HEADS" (clock (proc v)));
                   ("bob", Bet.mk "bob" "SESSION-b" a "TAILS" (clock (proc v)))]).
  { subst r2. cbn [Round.with_bets Round.bets]. rewrite Hb1, Hk1. reflexivity. }
  assert (Hr2 : Round.result r2 = Round.result r0) by exact Hr1.
  clearbody r2 v2.
  cbn [perform]. unfold bind. rewrite addBet_run, Hv2, Hs2, Hb2.
  cbn -[placed]. eexists. split; [reflexivity |].
  cbn [Round.with_bets Round.status Round.result Round.bets].
  split; [exact Hs2 |]. split; [exact Hr2 |]. rewrite Hk2, Hb2. reflexivity.
Qed.

(** [didPlayerWin] and [getPlayerWinAmount] in the round loop: both give
    null while bets are taken; once the round is revealed, [didPlayerWin] is
    true exactly for a player whose bet is on the result (false for a player
    who lost or did not bet), and [getPlayerWinAmount] is the amount the
    engine recorded for such a player and null for the others. That amount
    is [payout], the value of [Math.floor(amount * multiplier * 100) / 100]
    in binary64: 37.04 for a bet of 19 on HEADS or TAILS, a cent under the
    exact 37.05, and 190 for the same bet on EDGE. *)
Theorem didPlayerWin_after_reveal :
  forall (w : World) (r : Round.t) (playerId : string),
    reachable w -> current w = Some r -> Round.status r = betting ->
    let w1 := snd (FlipEngine.startReveal w) in
    FlipEngine.didPlayerWin playerId w = (Ok None, w)
    /\ FlipEngine.getPlayerWinAmount playerId w = (Ok None, w)
    /\ FlipEngine.didPlayerWin playerId w1
       = (Ok (Some match JsMap.get playerId (Round.bets r) with
                   | Some bet => String.eqb (Bet.choice bet) (Round.result r)
                   | None => false
                   end), w1)
    /\ FlipEngine.getPlayerWinAmount playerId w1
       = (Ok match JsMap.get playerId (Round.bets r) with
             | Some bet =>
                 if String.eqb (Bet.choice bet) (Round.result r)
                 then Some (payout (Bet.amount bet) (Round.result r))
                 else None
             | None => None
             end, w1).
Proof.
  intros w r p Hreach Hcur Hst w1.
  destruct (invariant_reachable w Hreach) as [Hinv _].
  destruct (Hinv r Hcur) as (_ & _ & _ & Hnd).
  destruct (unsettled_reachable w Hreach r Hcur Hst) as [Hw0 Hl0].
  pose proof (revealed_winner (clock (proc w)) r p Hnd Hw0) as Hwin.
  assert (Hc1 : current w1 = Some (revealed (clock (proc w)) r)).
  { subst w1. rewrite (startReveal_run w r Hcur Hst). reflexivity. }
  destruct (results_core (Round.bets r)
              (Round.with_startTime (Some (clock (proc w))) (Round.with_status revealing r)))
    as (_ & _ & _ & _ & _ & _ & _ & _ & Cs & _).
  fold (revealed (clock (proc w)) r) in Cs. cbn in Cs.
  unfold current in Hcur, Hc1.
  split.
  { unfold FlipEngine.didPlayerWin, FlipEngine.currentRound, bind, gets.
    rewrite Hcur, Hst. reflexivity. }
  split.
  { unfold FlipEngine.getPlayerWinAmount, FlipEngine.currentRound, bind, gets.
    rewrite Hcur, Hw0. reflexivity. }
  split.
  { unfold FlipEngine.didPlayerWin, FlipEngine.currentRound, bind, gets.
    rewrite Hc1, Cs. cbn [Status_eqb]. unfold JsMap.has. rewrite Hwin.
    destruct (JsMap.get p (Round.bets r)) as [bet |]; [| reflexivity].
    destruct (String.eqb (Bet.choice bet) (Round.result r)); reflexivity. }
  unfold FlipEngine.getPlayerWinAmount, FlipEngine.currentRound, bind, gets.
  rewrite Hc1, Hwin.
  destruct (JsMap.get p (Round.bets r)) as [bet |]; [| reflexivity].
  destruct (String.eqb (Bet.choice bet) (Round.result r)); reflexivity.
Qed.

Lemma didPlayerWin_after_reveal_witness :
  exists r w1,
    let w := run [AddBet "alice" (cents 1900) "HEADS" "SESSION-a";
                  AddBet "bob" (cents 1900) "TAILS" "SESSION-b";
                  AddBet "carol" (cents 1900) "EDGE" "SESSION-c"] (run [Start] constructed) in
    current w = Some r
    /\ FlipEngine.didPlayerWin "alice" w = (Ok None, w)
    /\ w1 = snd (FlipEngine.startReveal w)
    /\ FlipEngine.didPlayerWin "dave" w1 = (Ok (Some false), w1)
    /\ FlipEngine.getPlayerWinAmount "dave" w1 = (Ok None, w1)
    /\ ((Round.result r = "HEADS"
         /\ FlipEngine.didPlayerWin "alice" w1 = (Ok (Some true), w1)
         /\ FlipEngine.getPlayerWinAmount "alice" w1 = (Ok (Some (cents 3704)), w1)
         /\ FlipEngine.didPlayerWin "bob" w1 = (Ok (Some false), w1)
         /\ FlipEngine.getPlayerWinAmount "bob" w1 = (Ok None, w1))
        \/ (Round.result r = "TAILS"
            /\ FlipEngine.didPlayerWin "bob" w1 = (Ok (Some true), w1)
            /\ FlipEngine.getPlayerWinAmount "bob" w1 = (Ok (Some (cents 3704)), w1)
            /\ FlipEngine.didPlayerWin "carol" w1 = (Ok (Some false), w1)
            /\ FlipEngine.getPlayerWinAmount "carol" w1 = (Ok None, w1))
        \/ (Round.result r = "EDGE"
            /\ FlipEngine.didPlayerWin "carol" w1 = (Ok (Some true), w1)
            /\ FlipEngine.getPlayerWinAmount "carol" w1 = (Ok (Some (cents 19000)), w1)
            /\ FlipEngine.didPlayerWin "alice" w1 = (Ok (Some false), w1)
            /\ FlipEngine.getPlayerWinAmount "alice" w1 = (Ok None, w1))).
Proof.
  assert (Hl : loaded constructed) by (repeat split).
  assert (Hreach0 : reachable (run [Start] constructed)).
  { exists constructed, [Start]. split; [exact Hl | reflexivity]. }
  destruct (start_first_round constructed Hl) as (r0 & Hc0 & Hs0 & _ & Hb0).
  revert Hreach0 Hc0. generalize (run [Start] constructed). intros v Hreach0 Hv.
  destruct (three_bets_placed v r0 (cents 1900) Hv Hs0 Hb0) as (r & Hcur & Hst & _ & Hb).
  pose proof (reachable_run
                [AddBet "alice" (cents 1900) "HEADS" "SESSION-a";
                 AddBet "bob" (cents 1900) "TAILS" "SESSION-b";
                 AddBet "carol" (cents 1900) "EDGE" "SESSION-c"] v Hreach0) as Hreach.
  revert Hcur Hreach. generalize (run [AddBet "alice" (cents 1900) "HEADS" "SESSION-a";
                 AddBet "bob" (cents 1900) "TAILS" "SESSION-b";
                 AddBet "carol" (cents 1900) "EDGE" "SESSION-c"] v). intros w Hcur Hreach.
  assert (Hres : Round.result r = "HEADS" \/ Round.result r = "TAILS"
                 \/ Round.result r = "EDGE").
  { destruct (fair_reachable w Hreach) as [Hc _ _]. pose proof (Hc r Hcur) as Hv'.
    unfold round_verifies, verifies, Server.verify in Hv'.
    assert (E : Round.result r
                = FlipEngine.calculateFlipResult (Round.serverSeed r) (Round.clientSeed r)
                    (Round.nonce r)) by congruence.
    rewrite E. apply outcome_labels. }
  exists r, (snd (FlipEngine.startReveal w)). cbn zeta.
  pose proof (didPlayerWin_after_reveal w r "alice" Hreach Hcur Hst) as (A1 & _ & A3 & A4).
  pose proof (didPlayerWin_after_reveal w r "bob" Hreach Hcur Hst) as (_ & _ & B3 & B4).
  pose proof (didPlayerWin_after_reveal w r "carol" Hreach Hcur Hst) as (_ & _ & C3 & C4).
  pose proof (didPlayerWin_after_reveal w r "dave" Hreach Hcur Hst) as (_ & _ & D3 & D4).
  cbn zeta in *. rewrite Hb in *. cbn [JsMap.get String.eqb Ascii.eqb Bool.eqb Bet.choice Bet.amount] in *.
  split; [exact Hcur |]. split; [exact A1 |]. split; [reflexivity |].
  split; [exact D3 |]. split; [exact D4 |].
  destruct Hres as [E | [E | E]]; rewrite E in *;
    cbn [String.eqb Ascii.eqb Bool.eqb] in *;
    [left | right; left | right; right]; (split; [reflexivity |]); auto.
Defined.

(** ** The client seed *)

Lemma startNewRound_ready (w : World) :
  isRunning (proc w) = true ->
  SeedManager.exhausted (seedManager (proc w)) = false ->
  let sm := seedManager (proc w) in
  let s := List.nth (N.to_nat (Seed.currentIndex sm)) (Seed.seedChain sm) "" in
  let r := Round.with_status betting (generated sm (clock (proc w)) s) in
  RoundService.startNewRound w
  = (Ok tt,
     with_trace (trace w ++ [Emit "betting_phase" (betting_phase_payload r)])
       (with_proc (FlipEngine.set_currentRound (Some r) (proc w)) w)).
Proof.
  intros Hrun He. cbn zeta.
  unfold RoundService.startNewRound, bind at 1, gets at 1. cbn [proc]. rewrite Hrun.
  cbn [negb]. unfold bind at 1.
  unfold FlipEngine.generateRound, bind at 1.
  unfold SeedManager.getCurrentServerSeed, bind at 1, gets at 1. cbn [proc]. rewrite He.
  cbn. reflexivity.
Qed.

(** [setClientSeed] leaves the round in progress as it is, its client seed
    included; the next round that the loop generates on the chain in use
    carries the new client seed, and its result is the one that the server
    seed gives with it. *)
Theorem setClientSeed_next_round :
  forall (w : World) (newClientSeed : string),
    isRunning (proc w) = true ->
    SeedManager.exhausted (seedManager (proc w)) = false ->
    let w1 := snd (SeedManager.setClientSeed newClientSeed w) in
    current w1 = current w
    /\ fst (SeedManager.getClientSeed w1) = Ok newClientSeed
    /\ exists r w2,
         RoundService.startNewRound w1 = (Ok tt, w2)
         /\ current w2 = Some r
         /\ Round.clientSeed r = newClientSeed
         /\ Round.nonce r = Seed.nonce (seedManager (proc w))
         /\ Round.serverSeed r
            = List.nth (N.to_nat (Seed.currentIndex (seedManager (proc w))))
                       (Seed.seedChain (seedManager (proc w))) ""
         /\ Round.result r
            = FlipEngine.calculateFlipResult (Round.serverSeed r) newClientSeed
                                             (Round.nonce r).
Proof.
  intros w c Hrun He w1.
  split; [reflexivity |]. split; [reflexivity |].
  assert (Hrun1 : isRunning (proc w1) = true) by exact Hrun.
  assert (He1 : SeedManager.exhausted (seedManager (proc w1)) = false) by exact He.
  pose proof (startNewRound_ready w1 Hrun1 He1) as E. cbn zeta in E.
  do 2 eexists. split; [exact E |]. split; [reflexivity |].
  cbn. repeat split.
Qed.

Lemma setClientSeed_next_round_witness :
  exists r w2,
    RoundService.startNewRound
      (snd (SeedManager.setClientSeed "mine"
              (with_proc (with_seedManager (Seed.mk 10000 1 ["s0"; "s1"] "client" "s0" 1)
                            (proc (table two_bets))) (table two_bets)))) = (Ok tt, w2)
    /\ current w2 = Some r
    /\ Round.clientSeed r = "mine" /\ Round.serverSeed r = "s1".
Proof.
  destruct (setClientSeed_next_round
              (with_proc (with_seedManager (Seed.mk 10000 1 ["s0"; "s1"] "client" "s0" 1)
                            (proc (table two_bets))) (table two_bets)) "mine")
    as (_ & _ & r & w2 & E & Hc & Hs & _ & Hseed & _).
  - reflexivity.
  - reflexivity.
  - exists r, w2. rewrite E, Hc, Hs, Hseed. repeat split.
Defined.

(** ** The session directory *)

Lemma with_directory_same (w : World) :
  with_directory (sessions_of w) (players_of w) w = w.
Proof.
  unfold with_directory, sessions_of, players_of.
  destruct w as [p e n f c a t]. destruct p as [k d sm fe ss pt ab ir]. destruct ss. reflexivity.
Qed.

Lemma createSession_exact (playerId currency token callbackBaseUrl : string) (w : World) :
  SessionService.blank playerId = false -> SessionService.blank currency = false ->
  SessionService.blank token = false -> SessionService.blank callbackBaseUrl = false ->
  let sessionId := ("SESSION-" ++ entropy w (drawn (proc w)))%string in
  let session := opened sessionId playerId currency token callbackBaseUrl (clock (proc w)) in
  SessionService.createSession playerId currency token callbackBaseUrl w
  = (Ok [ ("sessionId", Js.Str sessionId);
          ("gameUrl", Js.Str ("/game-iframe?sessionId=" ++ sessionId)%string);
          ("controlsUrl", Js.Str ("/controls-iframe?sessionId=" ++ sessionId)%string) ],
     with_directory (JsMap.set sessionId session (without_previous playerId w))
                    (JsMap.set playerId sessionId (players_of w))
                    (with_proc (with_drawn (S (drawn (proc w))) (proc w)) w)).
Proof.
  intros H1 H2 H3 H4. cbn zeta.
  unfold SessionService.createSession. rewrite H1, H2, H3, H4. cbn [orb].
  unfold bind at 1, gets at 1. cbn [proc].
  unfold without_previous, players_of, sessions_of.
  destruct (JsMap.get playerId (Directory.playerSessions (sessionService (proc w))))
    as [existing |]; [destruct (SessionService.blank existing) |]; reflexivity.
Qed.

Lemma destroySession_exact (sessionId : string) (w : World) :
  SessionService.destroySession sessionId w
  = (Ok tt,
     match JsMap.get sessionId (sessions_of w) with
     | Some session =>
         with_directory (JsMap.delete sessionId (sessions_of w))
                        (JsMap.delete (Session.playerId session) (players_of w)) w
     | None => w
     end).
Proof.
  unfold SessionService.destroySession, sessions_of, players_of, bind, gets, modify.
  cbn [proc].
  destruct (JsMap.get sessionId (Directory.sessions (sessionService (proc w)))); reflexivity.
Qed.

Lemma consistent_destroy (sessionId : string) (w : World) :
  consistent w -> consistent (snd (SessionService.destroySession sessionId w)).
Proof.
  intros Hc. rewrite destroySession_exact. cbn [snd].
  destruct (JsMap.get sessionId (sessions_of w)) as [s |] eqn:Es; [| exact Hc].
  destruct (Hc sessionId s Es) as (_ & _ & Hp).
  intros k s' Hk. unfold sessions_of, players_of, with_directory in Hk |- *. cbn in Hk |- *.
  fold (sessions_of w) in Hk. fold (players_of w).
  rewrite get_delete in Hk. destruct (String.eqb k sessionId) eqn:E; [discriminate |].
  apply String.eqb_neq in E.
  destruct (Hc k s' Hk) as (Hb & Hi & Hp').
  split; [exact Hb |]. split; [exact Hi |].
  rewrite get_delete.
  destruct (String.eqb (Session.playerId s') (Session.playerId s)) eqn:E2; [| exact Hp'].
  apply String.eqb_eq in E2. rewrite E2 in Hp'. congruence.
Qed.

Lemma consistent_create (playerId currency token callbackBaseUrl : string) (w : World) :
  consistent w ->
  consistent (snd (SessionService.createSession playerId currency token callbackBaseUrl w)).
Proof.
  intros Hc.
  destruct (SessionService.blank playerId || SessionService.blank currency
            || SessionService.blank token || SessionService.blank callbackBaseUrl) eqn:Eb.
  - unfold SessionService.createSession. rewrite Eb. exact Hc.
  - apply orb_false_iff in Eb. destruct Eb as [Eb H4].
    apply orb_false_iff in Eb. destruct Eb as [Eb H3].
    apply orb_false_iff in Eb. destruct Eb as [H1 H2].
    rewrite (createSession_exact _ _ _ _ w H1 H2 H3 H4). cbn [snd].
    set (sid := ("SESSION-" ++ entropy w (drawn (proc w)))%string).
    intros k s Hk. unfold sessions_of, players_of, with_directory in Hk |- *.
    cbn in Hk |- *. fold (players_of w).
    destruct (String.eqb k sid) eqn:E.
    + apply String.eqb_eq in E. subst k. rewrite get_set_same in Hk.
      injection Hk as <-. cbn. split; [reflexivity |]. split; [reflexivity |].
      apply get_set_same.
    + apply String.eqb_neq in E. rewrite get_set_other in Hk by exact E.
      assert (Hin : JsMap.get k (sessions_of w) = Some s
                    /\ JsMap.get playerId (players_of w) <> Some k).
      { unfold without_previous in Hk.
        destruct (JsMap.get playerId (players_of w)) as [existing |] eqn:Ee.
        - destruct (SessionService.blank existing) eqn:Ebl.
          + split; [exact Hk |]. intros Heq. injection Heq as ->.
            destruct (Hc k s Hk) as (Hb & _). congruence.
          + rewrite get_delete in Hk.
            destruct (String.eqb k existing) eqn:E3; [discriminate |].
            apply String.eqb_neq in E3. split; [exact Hk | congruence].
        - split; [exact Hk | discriminate]. }
      destruct Hin as [Hk' Hne]. destruct (Hc k s Hk') as (Hb & Hi & Hp).
      split; [exact Hb |]. split; [exact Hi |].
      rewrite get_set_other; [exact Hp |].
      intros Heq. rewrite Heq in Hp. contradiction.
Qed.

(** A session written in place: the id and the player stay. *)
Lemma consistent_update (sessionId : string) (session' : Session.t) (w : World) :
  consistent w ->
  (exists session, JsMap.get sessionId (sessions_of w) = Some session
                   /\ Session.sessionId session' = Session.sessionId session
                   /\ Session.playerId session' = Session.playerId session) ->
  consistent (with_proc
                (SessionService.set_sessions
                   (JsMap.set sessionId session' (sessions_of w)) (proc w)) w).
Proof.
  intros Hc (s & Es & Hi & Hp) k s0 Hk.
  unfold sessions_of, players_of in Hk |- *. cbn in Hk |- *.
  fold (sessions_of w) in Hk. fold (players_of w).
  destruct (Hc sessionId s Es) as (Hb & Hsid & Hpl).
  destruct (String.eqb k sessionId) eqn:E.
  - apply String.eqb_eq in E. subst k. rewrite get_set_same in Hk. injection Hk as <-.
    rewrite Hi, Hp. auto.
  - apply String.eqb_neq in E. rewrite get_set_other in Hk by exact E.
    exact (Hc k s0 Hk).
Qed.

Lemma consistent_getSession (sessionId : string) (w : World) :
  consistent w -> consistent (snd (SessionService.getSession sessionId w)).
Proof.
  intros Hc. rewrite getSession_run.
  destruct (JsMap.get sessionId (sessions_of w)) as [s |]; [| exact Hc].
  destruct (elapsed (clock (proc w)) s); [| exact Hc].
  cbn [snd]. apply consistent_destroy. exact Hc.
Qed.

Lemma consistent_forEach (ids : list string) :
  forall w, consistent w ->
            consistent (snd (SessionService.forEach ids SessionService.destroySession w)).
Proof.
  induction ids as [| k ids IH]; intros w Hc; cbn [SessionService.forEach].
  - exact Hc.
  - unfold bind. rewrite destroySession_exact.
    pose proof (consistent_destroy k w Hc) as H. rewrite destroySession_exact in H.
    cbn [snd] in H. apply IH. exact H.
Qed.

Lemma consistent_call (c : SessionCall) (w : World) : consistent w -> consistent (call c w).
Proof.
  intros Hc. destruct c; cbn [call].
  - apply consistent_create. exact Hc.
  - apply consistent_destroy. exact Hc.
  - apply consistent_getSession. exact Hc.
  - unfold SessionService.getSessionByPlayerId, bind, gets. cbn [proc].
    destruct (JsMap.get playerId (Directory.playerSessions (sessionService (proc w))))
      as [sid |]; [| exact Hc].
    destruct (SessionService.blank sid); [exact Hc |].
    apply consistent_getSession. exact Hc.
  - unfold SessionService.validateSession, bind.
    pose proof (consistent_getSession sessionId w Hc) as H.
    destruct (SessionService.getSession sessionId w) as [[[s |] | e] w']; exact H.
  - unfold SessionService.updateBalance, bind, gets, modify. cbn [proc].
    fold (sessions_of w).
    destruct (JsMap.get sessionId (sessions_of w)) as [s |] eqn:Es; [| exact Hc].
    cbn [snd]. apply consistent_update; [exact Hc |]. exists s. auto.
  - unfold SessionService.setGameSocket, bind, gets, modify. cbn [proc].
    fold (sessions_of w).
    destruct (JsMap.get sessionId (sessions_of w)) as [s |] eqn:Es; [| exact Hc].
    cbn [snd]. apply consistent_update; [exact Hc |]. exists s. auto.
  - unfold SessionService.setControlsSocket, bind, gets, modify. cbn [proc].
    fold (sessions_of w).
    destruct (JsMap.get sessionId (sessions_of w)) as [s |] eqn:Es; [| exact Hc].
    cbn [snd]. apply consistent_update; [exact Hc |]. exists s. auto.
  - unfold SessionService.clearSocket, bind, gets, modify. cbn [proc].
    fold (sessions_of w).
    destruct (JsMap.get sessionId (sessions_of w)) as [s |] eqn:Es; [| exact Hc].
    cbn [snd]. apply consistent_update; [exact Hc |]. exists s. split; [exact Es |].
    destruct (String.eqb socketType "game"); [| destruct (String.eqb socketType "controls")];
      match goal with
      | |- context [if ?b then _ else _] => destruct b
      end; auto.
  - unfold SessionService.cleanupExpiredSessions, bind at 1, dateNow, gets at 1.
    unfold bind at 1, gets at 1. apply consistent_forEach. exact Hc.
  - exact Hc.
Qed.

Lemma consistent_serve (calls : list SessionCall) :
  forall w, consistent w -> consistent (serve calls w).
Proof.
  induction calls as [| c calls IH]; intros w Hc; cbn [serve List.fold_left].
  - exact Hc.
  - apply IH. apply consistent_call. exact Hc.
Qed.

Lemma getSessionByPlayerId_run (playerId : string) (w : World) :
  SessionService.getSessionByPlayerId playerId w
  = match JsMap.get playerId (players_of w) with
    | None => (Ok None, w)
    | Some sessionId =>
        if SessionService.blank sessionId then (Ok None, w)
        else SessionService.getSession sessionId w
    end.
Proof.
  unfold SessionService.getSessionByPlayerId, players_of, bind, gets. cbn [proc].
  destruct (JsMap.get playerId (Directory.playerSessions (sessionService (proc w))))
    as [sid |]; [| reflexivity].
  destruct (SessionService.blank sid); reflexivity.
Qed.

(** A player has one session at most.  From a directory in which the two
    maps agree (the empty one of a process just started is such), after any
    sequence of calls of SessionService and whatever ids the random source
    gives: the maps agree, two stored sessions of one player are one
    session, and a stored session is the one found through its player. *)
Theorem one_session_per_player :
  forall (calls : list SessionCall) (w : World),
    consistent w ->
    let w' := serve calls w in
    consistent w'
    /\ (forall id1 id2 s1 s2,
          JsMap.get id1 (sessions_of w') = Some s1 ->
          JsMap.get id2 (sessions_of w') = Some s2 ->
          Session.playerId s1 = Session.playerId s2 -> id1 = id2 /\ s1 = s2)
    /\ (forall sessionId session,
          JsMap.get sessionId (sessions_of w') = Some session ->
          SessionService.getSessionByPlayerId (Session.playerId session) w'
          = SessionService.getSession sessionId w').
Proof.
  intros calls w Hc w'.
  pose proof (consistent_serve calls w Hc) as Hc'. fold w' in Hc'.
  split; [exact Hc' |]. split.
  - intros id1 id2 s1 s2 H1 H2 Hp.
    destruct (Hc' id1 s1 H1) as (_ & _ & P1). destruct (Hc' id2 s2 H2) as (_ & _ & P2).
    rewrite Hp in P1. assert (id1 = id2) by congruence. subst id2.
    split; [reflexivity | congruence].
  - intros sid s Es. destruct (Hc' sid s Es) as (Hb & _ & Hp).
    rewrite getSessionByPlayerId_run, Hp, Hb. reflexivity.
Qed.

Lemma one_session_per_player_witness :
  consistent (serve [CreateSession "alice" "EUR" "t1" "http://platform"; Tick 5;
                     CreateSession "alice" "EUR" "t2" "http://platform";
                     CleanupExpiredSessions] constructed).
Proof.
  apply (one_session_per_player
           [CreateSession "alice" "EUR" "t1" "http://platform"; Tick 5;
            CreateSession "alice" "EUR" "t2" "http://platform";
            CleanupExpiredSessions] constructed).
  intros k s H. discriminate.
Defined.

(** ** Opening a session *)

(** [POST /session/init] answers 400 with [Missing required fields] and
    leaves the directory as it is when the player id, the currency, the
    token or the callback URL is missing or empty; otherwise it answers 200
    with the new session id, and the session is stored for 24 hours with a
    balance of 0, not connected, and is the one found for the player. *)
Theorem session_init_answers :
  forall (w : World) (playerId currency token callbackBaseUrl : string),
    (SessionService.blank playerId || SessionService.blank currency
     || SessionService.blank token || SessionService.blank callbackBaseUrl = true ->
     SessionService.createSession playerId currency token callbackBaseUrl w
     = (Throw (Error "Missing required fields"), w)
     /\ Server.sessionInit playerId currency token callbackBaseUrl w
        = (Ok (400, [ ("success", Js.Bool false);
                      ("error", Js.Str "Missing required fields") ]), w))
    /\ (SessionService.blank playerId || SessionService.blank currency
        || SessionService.blank token || SessionService.blank callbackBaseUrl = false ->
        exists sessionId w',
          Server.sessionInit playerId currency token callbackBaseUrl w
          = (Ok (200, [ ("success", Js.Bool true); ("sessionId", Js.Str sessionId);
                        ("gameUrl", Js.Str ("/game-iframe?sessionId=" ++ sessionId)%string);
                        ("controlsUrl",
                         Js.Str ("/controls-iframe?sessionId=" ++ sessionId)%string) ]), w')
          /\ sessionId = ("SESSION-" ++ entropy w (drawn (proc w)))%string
          /\ SessionService.getSession sessionId w'
             = (Ok (Some (opened sessionId playerId currency token callbackBaseUrl
                                 (clock (proc w)))), w')
          /\ SessionService.getSessionByPlayerId playerId w'
             = (Ok (Some (opened sessionId playerId currency token callbackBaseUrl
                                 (clock (proc w)))), w')
          /\ trace w' = trace w /\ flipEngine (proc w') = flipEngine (proc w)).
Proof.
  intros w p c t u. split.
  - intros Eb. unfold Server.sessionInit, try_catch, bind, SessionService.createSession.
    rewrite Eb. split; reflexivity.
  - intros Eb.
    apply orb_false_iff in Eb. destruct Eb as [Eb H4].
    apply orb_false_iff in Eb. destruct Eb as [Eb H3].
    apply orb_false_iff in Eb. destruct Eb as [H1 H2].
    pose proof (createSession_exact p c t u w H1 H2 H3 H4) as E. cbn zeta in E.
    set (sid := ("SESSION-" ++ entropy w (drawn (proc w)))%string) in *.
    set (w' := with_directory
                 (JsMap.set sid (opened sid p c t u (clock (proc w))) (without_previous p w))
                 (JsMap.set p sid (players_of w))
                 (with_proc (with_drawn (S (drawn (proc w))) (proc w)) w)) in *.
    exists sid, w'. split.
    { unfold Server.sessionInit, try_catch, bind. rewrite E. reflexivity. }
    split; [reflexivity |].
    assert (Hget : JsMap.get sid (sessions_of w')
                   = Some (opened sid p c t u (clock (proc w)))).
    { unfold sessions_of, w', with_directory. cbn. apply get_set_same. }
    assert (Hs : SessionService.getSession sid w'
                 = (Ok (Some (opened sid p c t u (clock (proc w)))), w')).
    { rewrite getSession_run, Hget. unfold elapsed.
      change (clock (proc w')) with (clock (proc w)).
      change (Session.expiresAt (opened sid p c t u (clock (proc w))))
        with (clock (proc w) + 86400000).
      replace (clock (proc w) + 86400000 <? clock (proc w)) with false; [reflexivity |].
      symmetry. apply Z.ltb_ge. lia. }
    split; [exact Hs |]. split; [| split; reflexivity].
    rewrite getSessionByPlayerId_run.
    assert (Hp : JsMap.get p (players_of w') = Some sid).
    { unfold players_of, w', with_directory. cbn. apply get_set_same. }
    rewrite Hp. change (SessionService.blank sid) with false. exact Hs.
Qed.

Lemma session_init_answers_witness :
  fst (Server.sessionInit "alice" "EUR" "" "http://platform" constructed)
  = Ok (400, [ ("success", Js.Bool false); ("error", Js.Str "Missing required fields") ]).
Proof.
  destruct (session_init_answers constructed "alice" "EUR" "" "http://platform") as [H _].
  destruct (H eq_refl) as [_ E]. rewrite E. reflexivity.
Defined.

(** When the platform opens a session for a player who has one, the id of
    the previous session stops being valid ([getSession] gives null for it),
    the player is sent to the new session, and the sessions of the other
    players stay as they are. *)
Theorem new_session_replaces_previous :
  forall (w : World) (playerId currency token callbackBaseUrl previous : string),
    SessionService.blank playerId || SessionService.blank currency
    || SessionService.blank token || SessionService.blank callbackBaseUrl = false ->
    JsMap.get playerId (players_of w) = Some previous ->
    SessionService.blank previous = false ->
    previous <> ("SESSION-" ++ entropy w (drawn (proc w)))%string ->
    exists sessionId session w',
      SessionService.createSession playerId currency token callbackBaseUrl w
      = (Ok [ ("sessionId", Js.Str sessionId);
              ("gameUrl", Js.Str ("/game-iframe?sessionId=" ++ sessionId)%string);
              ("controlsUrl", Js.Str ("/controls-iframe?sessionId=" ++ sessionId)%string) ],
         w')
      /\ SessionService.getSession previous w' = (Ok None, w')
      /\ SessionService.validateSession previous w'
         = (Throw (Error "Invalid or expired session"), w')
      /\ JsMap.get playerId (players_of w') = Some sessionId
      /\ JsMap.get sessionId (sessions_of w') = Some session
      /\ Session.playerId session = playerId
      /\ (forall k, k <> previous -> k <> sessionId ->
                    JsMap.get k (sessions_of w') = JsMap.get k (sessions_of w)).
Proof.
  intros w p c t u old Eb Hold Hnb Hne.
  apply orb_false_iff in Eb. destruct Eb as [Eb H4].
  apply orb_false_iff in Eb. destruct Eb as [Eb H3].
  apply orb_false_iff in Eb. destruct Eb as [H1 H2].
  pose proof (createSession_exact p c t u w H1 H2 H3 H4) as E. cbn zeta in E.
  set (sid := ("SESSION-" ++ entropy w (drawn (proc w)))%string) in *.
  set (w' := with_directory
               (JsMap.set sid (opened sid p c t u (clock (proc w))) (without_previous p w))
               (JsMap.set p sid (players_of w))
               (with_proc (with_drawn (S (drawn (proc w))) (proc w)) w)) in *.
  assert (Hs : forall k, JsMap.get k (sessions_of w')
                         = if String.eqb k sid then Some (opened sid p c t u (clock (proc w)))
                           else if String.eqb k old then None
                                else JsMap.get k (sessions_of w)).
  { intros k. unfold sessions_of at 1, w', with_directory.
    cbn [proc with_proc sessionService with_sessionService Directory.sessions].
    destruct (String.eqb k sid) eqn:Ek.
    - apply String.eqb_eq in Ek. subst k. apply get_set_same.
    - apply String.eqb_neq in Ek. rewrite get_set_other by exact Ek.
      unfold without_previous. rewrite Hold, Hnb. apply get_delete. }
  assert (Hg : SessionService.getSession old w' = (Ok None, w')).
  { rewrite getSession_run, Hs.
    apply String.eqb_neq in Hne. rewrite Hne, String.eqb_refl. reflexivity. }
  exists sid, (opened sid p c t u (clock (proc w))), w'.
  split; [exact E |]. split; [exact Hg |].
  split; [unfold SessionService.validateSession, bind; rewrite Hg; reflexivity |].
  split.
  { unfold players_of, w', with_directory.
    cbn [proc with_proc sessionService with_sessionService Directory.playerSessions].
    apply get_set_same. }
  split; [rewrite Hs, String.eqb_refl; reflexivity |].
  split; [reflexivity |].
  intros k Hk1 Hk2. rewrite Hs.
  apply String.eqb_neq in Hk1, Hk2. rewrite Hk1, Hk2. reflexivity.
Qed.

Lemma new_session_replaces_previous_witness :
  exists sessionId w',
    SessionService.createSession "alice" "EUR" "token-2" "http://platform" (table two_bets)
    = (Ok [ ("sessionId", Js.Str sessionId);
            ("gameUrl", Js.Str ("/game-iframe?sessionId=" ++ sessionId)%string);
            ("controlsUrl", Js.Str ("/controls-iframe?sessionId=" ++ sessionId)%string) ],
       w')
    /\ SessionService.getSession "SESSION-a" w' = (Ok None, w')
    /\ JsMap.get "alice" (players_of w') = Some sessionId.
Proof.
  destruct (new_session_replaces_previous (table two_bets) "alice" "EUR" "token-2"
              "http://platform" "SESSION-a")
    as (sid & s & w' & E & Hg & _ & Hp & _).
  - reflexivity.
  - reflexivity.
  - reflexivity.
  - discriminate.
  - exists sid, w'. auto.
Defined.

(** ** The sockets of a session *)

Lemma getConnectedPlayersCount_run (w : World) :
  SessionService.getConnectedPlayersCount w = (Ok (N.of_nat (connected w)), w).
Proof. reflexivity. Qed.

Lemma count_set {V : Type} (f : V -> bool) (k : string) (v v' : V) (m : JsMap.t V) :
  JsMap.get k m = Some v ->
  (List.length (List.filter (fun e => f (snd e)) (JsMap.set k v' m))
   + (if f v then 1 else 0)
   = List.length (List.filter (fun e => f (snd e)) m) + (if f v' then 1 else 0))%nat.
Proof.
  induction m as [| [k0 v0] m IH]; cbn [JsMap.get JsMap.set]; [discriminate |].
  destruct (String.eqb k k0).
  - intros H. injection H as ->. cbn [List.filter snd].
    destruct (f v), (f v'); cbn [List.length]; lia.
  - intros H. specialize (IH H). cbn [List.filter snd].
    destruct (f v0); cbn [List.length]; lia.
Qed.

Lemma setGameSocket_run (sessionId socketId : string) (w : World) :
  SessionService.setGameSocket sessionId socketId w
  = (Ok tt,
     match JsMap.get sessionId (sessions_of w) with
     | Some s =>
         rewritten sessionId
           (Session.with_isConnected true (Session.with_gameSocketId (Some socketId) s)) w
     | None => w
     end).
Proof.
  unfold SessionService.setGameSocket, sessions_of, rewritten, bind, gets, modify. cbn [proc].
  destruct (JsMap.get sessionId (Directory.sessions (sessionService (proc w)))); reflexivity.
Qed.

Lemma setControlsSocket_run (sessionId socketId : string) (w : World) :
  SessionService.setControlsSocket sessionId socketId w
  = (Ok tt,
     match JsMap.get sessionId (sessions_of w) with
     | Some s =>
         rewritten sessionId
           (Session.with_isConnected true (Session.with_controlsSocketId (Some socketId) s)) w
     | None => w
     end).
Proof.
  unfold SessionService.setControlsSocket, sessions_of, rewritten, bind, gets, modify.
  cbn [proc].
  destruct (JsMap.get sessionId (Directory.sessions (sessionService (proc w)))); reflexivity.
Qed.

Lemma clearSocket_run (sessionId socketType : string) (w : World) :
  SessionService.clearSocket sessionId socketType w
  = (Ok tt,
     match JsMap.get sessionId (sessions_of w) with
     | Some s => rewritten sessionId (cleared socketType s) w
     | None => w
     end).
Proof.
  unfold SessionService.clearSocket, sessions_of, rewritten, cleared, bind, gets, modify.
  cbn [proc].
  destruct (JsMap.get sessionId (Directory.sessions (sessionService (proc w)))); reflexivity.
Qed.

Lemma get_rewritten (sessionId : string) (s : Session.t) (w : World) :
  JsMap.get sessionId (sessions_of (rewritten sessionId s w)) = Some s.
Proof. unfold sessions_of, rewritten. cbn. apply get_set_same. Qed.

Lemma connected_rewritten (sessionId : string) (s s' : Session.t) (w : World) :
  JsMap.get sessionId (sessions_of w) = Some s ->
  (connected (rewritten sessionId s' w) + (if Session.isConnected s then 1 else 0)
   = connected w + (if Session.isConnected s' then 1 else 0))%nat.
Proof.
  intros H. unfold connected, sessions_of at 1, rewritten. cbn.
  fold (sessions_of w). apply (count_set Session.isConnected). exact H.
Qed.

(** A player counts once in [getConnectedPlayersCount] however many of the
    two iframes are connected, and stops counting when both have
    disconnected: for a session that is not connected, the count goes up by
    one when the game socket is set, stays when the controls socket is set
    and when the first of the two is cleared, and is back where it was when
    the second is cleared.  On an id that has no session the three calls do
    nothing. *)
Theorem connected_players_count :
  forall (w : World) (sessionId game controls : string) (session : Session.t),
    JsMap.get sessionId (sessions_of w) = Some session ->
    Session.isConnected session = false ->
    SessionService.blank game = false -> SessionService.blank controls = false ->
    let w1 := snd (SessionService.setGameSocket sessionId game w) in
    let w2 := snd (SessionService.setControlsSocket sessionId controls w1) in
    let w3 := snd (SessionService.clearSocket sessionId "game" w2) in
    let w4 := snd (SessionService.clearSocket sessionId "controls" w3) in
    connected w1 = S (connected w) /\ connected w2 = S (connected w)
    /\ connected w3 = S (connected w) /\ connected w4 = connected w
    /\ JsMap.get sessionId (sessions_of w4)
       = Some (Session.with_controlsSocketId None (Session.with_gameSocketId None session))
    /\ (forall other socketId socketType,
          JsMap.get other (sessions_of w) = None ->
          SessionService.setGameSocket other socketId w = (Ok tt, w)
          /\ SessionService.setControlsSocket other socketId w = (Ok tt, w)
          /\ SessionService.clearSocket other socketType w = (Ok tt, w)).
Proof.
  intros w sid g c s Hs Hc Hg Hcs w1 w2 w3 w4.
  set (s1 := Session.with_isConnected true (Session.with_gameSocketId (Some g) s)).
  set (s2 := Session.with_isConnected true (Session.with_controlsSocketId (Some c) s1)).
  assert (E1 : w1 = rewritten sid s1 w).
  { subst w1. rewrite setGameSocket_run, Hs. reflexivity. }
  assert (G1 : JsMap.get sid (sessions_of w1) = Some s1).
  { rewrite E1. apply get_rewritten. }
  assert (E2 : w2 = rewritten sid s2 w1).
  { subst w2. rewrite setControlsSocket_run, G1. reflexivity. }
  assert (G2 : JsMap.get sid (sessions_of w2) = Some s2).
  { rewrite E2. apply get_rewritten. }
  assert (E3 : w3 = rewritten sid (cleared "game" s2) w2).
  { subst w3. rewrite clearSocket_run, G2. reflexivity. }
  assert (G3 : JsMap.get sid (sessions_of w3) = Some (cleared "game" s2)).
  { rewrite E3. apply get_rewritten. }
  assert (E4 : w4 = rewritten sid (cleared "controls" (cleared "game" s2)) w3).
  { subst w4. rewrite clearSocket_run, G3. reflexivity. }
  assert (C3 : cleared "game" s2 = Session.with_gameSocketId None s2).
  { unfold cleared. cbn [String.eqb Ascii.eqb Bool.eqb].
    unfold s2, s1. cbn. rewrite Hcs. reflexivity. }
  assert (C4 : cleared "controls" (cleared "game" s2)
               = Session.with_isConnected false
                   (Session.with_controlsSocketId None (Session.with_gameSocketId None s2))).
  { rewrite C3. unfold cleared. cbn. reflexivity. }
  pose proof (connected_rewritten sid s s1 w Hs) as N1. rewrite <- E1 in N1.
  pose proof (connected_rewritten sid s1 s2 w1 G1) as N2. rewrite <- E2 in N2.
  pose proof (connected_rewritten sid s2 (cleared "game" s2) w2 G2) as N3. rewrite <- E3 in N3.
  pose proof (connected_rewritten sid _ (cleared "controls" (cleared "game" s2)) w3 G3) as N4.
  rewrite <- E4 in N4. rewrite C4 in N4. rewrite C3 in N3, N4.
  rewrite Hc in N1. cbn in N1, N2, N3, N4.
  split; [lia |]. split; [lia |]. split; [lia |]. split; [lia |].
  split.
  { rewrite E4, get_rewritten, C4. unfold s2, s1. destruct s. cbn in Hc |- *. rewrite Hc.
    reflexivity. }
  intros other sock ty Ho.
  rewrite setGameSocket_run, setControlsSocket_run, clearSocket_run, Ho. auto.
Qed.

Lemma connected_players_count_witness :
  connected (snd (SessionService.setGameSocket "SESSION-a" "sock-1" (table two_bets))) = 1%nat
  /\ connected
       (snd (SessionService.clearSocket "SESSION-a" "controls"
          (snd (SessionService.clearSocket "SESSION-a" "game"
             (snd (SessionService.setControlsSocket "SESSION-a" "sock-2"
                (snd (SessionService.setGameSocket "SESSION-a" "sock-1"
                        (table two_bets))))))))) = 0%nat.
Proof.
  destruct (connected_players_count (table two_bets) "SESSION-a" "sock-1" "sock-2"
              (session_of "SESSION-a" "alice") eq_refl eq_refl eq_refl eq_refl)
    as (H1 & _ & _ & H4 & _).
  split; [exact H1 | exact H4].
Defined.

Lemma sessions_rewritten (sessionId : string) (s : Session.t) (w : World) :
  sessions_of (rewritten sessionId s w) = JsMap.set sessionId s (sessions_of w).
Proof. reflexivity. Qed.

Lemma findSessionBySocketId_run (socketId : string) (w : World) :
  SessionService.findSessionBySocketId socketId w
  = (Ok (option_map snd (List.find (fun e => holds socketId (snd e)) (sessions_of w))), w).
Proof. reflexivity. Qed.

Lemma find_set {V : Type} (f : V -> bool) (k : string) (v v' : V) (m : JsMap.t V) :
  JsMap.get k m = Some v -> f v' = true ->
  (forall k0 v0, List.In (k0, v0) m -> f v0 = false) ->
  List.find (fun e => f (snd e)) (JsMap.set k v' m) = Some (k, v').
Proof.
  induction m as [| [k0 v0] m IH]; cbn [JsMap.get JsMap.set]; [discriminate |].
  intros H Hf Hall.
  destruct (String.eqb k k0) eqn:E.
  - apply String.eqb_eq in E. subst k0. cbn [List.find snd]. rewrite Hf. reflexivity.
  - cbn [List.find snd]. rewrite (Hall k0 v0 (or_introl eq_refl)).
    apply IH; [exact H | exact Hf |].
    intros k1 v1 Hin. apply (Hall k1 v1). right. exact Hin.
Qed.

(** [findSessionBySocketId] gives a stored session that holds the socket
    as its game or its controls socket, and null only when no stored session
    holds it; the state is left as it is.  After [setGameSocket] or
    [setControlsSocket] with a socket id that no session holds, it is the
    session that was written which is found. *)
Theorem socket_finds_its_session :
  forall (w : World) (socketId : string),
    (forall found w',
       SessionService.findSessionBySocketId socketId w = (Ok found, w') ->
       w' = w
       /\ match found with
          | Some s =>
              (exists k, List.In (k, s) (sessions_of w))
              /\ (Session.gameSocketId s = Some socketId
                  \/ Session.controlsSocketId s = Some socketId)
          | None =>
              forall k s, List.In (k, s) (sessions_of w) ->
                          Session.gameSocketId s <> Some socketId
                          /\ Session.controlsSocketId s <> Some socketId
          end)
    /\ (forall sessionId session,
          JsMap.get sessionId (sessions_of w) = Some session ->
          (forall k s, List.In (k, s) (sessions_of w) -> holds socketId s = false) ->
          fst (SessionService.findSessionBySocketId socketId
                 (snd (SessionService.setGameSocket sessionId socketId w)))
          = Ok (Some (Session.with_isConnected true
                        (Session.with_gameSocketId (Some socketId) session)))
          /\ fst (SessionService.findSessionBySocketId socketId
                    (snd (SessionService.setControlsSocket sessionId socketId w)))
             = Ok (Some (Session.with_isConnected true
                           (Session.with_controlsSocketId (Some socketId) session)))).
Proof.
  intros w sock.
  assert (Hsock : forall o, SessionService.is_socket sock o = true <-> o = Some sock).
  { intros [x |]; cbn; [| split; discriminate].
    rewrite String.eqb_eq. split; congruence. }
  split.
  - intros found w' E. rewrite findSessionBySocketId_run in E. injection E as <- <-.
    split; [reflexivity |].
    destruct (List.find (fun e => holds sock (snd e)) (sessions_of w)) as [[k s] |] eqn:Ef.
    + cbn [option_map snd]. apply List.find_some in Ef. destruct Ef as [Hin Hh].
      split; [exists k; exact Hin |].
      cbn [snd] in Hh. unfold holds in Hh. apply orb_true_iff in Hh.
      destruct Hh as [Hh | Hh]; apply Hsock in Hh; auto.
    + cbn [option_map]. intros k s Hin.
      pose proof (List.find_none _ _ Ef (k, s) Hin) as Hh. cbn [snd] in Hh.
      unfold holds in Hh. apply orb_false_iff in Hh. destruct Hh as [H1 H2].
      split; intros Heq; apply Hsock in Heq; congruence.
  - intros sid s Hs Hnone.
    rewrite setGameSocket_run, setControlsSocket_run, Hs. cbn [snd].
    rewrite !findSessionBySocketId_run. cbn [fst].
    rewrite !sessions_rewritten.
    rewrite (find_set (holds sock) sid s _ (sessions_of w) Hs);
      [| unfold holds; cbn; rewrite String.eqb_refl; reflexivity | exact Hnone].
    rewrite (find_set (holds sock) sid s _ (sessions_of w) Hs);
      [| unfold holds; cbn; rewrite String.eqb_refl; apply orb_true_r | exact Hnone].
    split; reflexivity.
Qed.

(** ** The cached balance *)

Lemma updateBalance_run (sessionId : string) (balance : Js.value) (w : World) :
  SessionService.updateBalance sessionId balance w
  = (Ok tt,
     match JsMap.get sessionId (sessions_of w) with
     | Some s => rewritten sessionId (Session.with_balance balance s) w
     | None => w
     end).
Proof.
  unfold SessionService.updateBalance, sessions_of, rewritten, bind, gets, modify.
  cbn [proc].
  destruct (JsMap.get sessionId (Directory.sessions (sessionService (proc w)))); reflexivity.
Qed.

Lemma getBalance_run (sessionId : string) (w : World) :
  SessionService.getBalance sessionId w
  = (Ok (option_map Session.balance (JsMap.get sessionId (sessions_of w))), w).
Proof. reflexivity. Qed.

(** [getBalance] gives back what [updateBalance] stored for a session and
    null for an id that has no session, for which [updateBalance] does
    nothing; the balances of the other sessions and the map of the players
    are left as they are. *)
Theorem balance_cache_round_trip :
  forall (w : World) (sessionId : string) (balance : Js.value),
    let w' := snd (SessionService.updateBalance sessionId balance w) in
    match JsMap.get sessionId (sessions_of w) with
    | Some session =>
        SessionService.getBalance sessionId w' = (Ok (Some balance), w')
        /\ JsMap.get sessionId (sessions_of w') = Some (Session.with_balance balance session)
        /\ (forall k, k <> sessionId ->
                      SessionService.getBalance k w'
                      = (Ok (option_map Session.balance (JsMap.get k (sessions_of w))), w'))
        /\ players_of w' = players_of w
    | None =>
        SessionService.updateBalance sessionId balance w = (Ok tt, w)
        /\ SessionService.getBalance sessionId w = (Ok None, w)
    end.
Proof.
  intros w sid b w'. subst w'.
  rewrite updateBalance_run.
  destruct (JsMap.get sid (sessions_of w)) as [s |] eqn:Es.
  - cbn [snd]. rewrite getBalance_run, !sessions_rewritten, get_set_same.
    split; [reflexivity |]. split; [reflexivity |]. split; [| reflexivity].
    intros k Hk. rewrite getBalance_run, sessions_rewritten, get_set_other by exact Hk.
    reflexivity.
  - rewrite getBalance_run, Es. split; reflexivity.
Qed.

(** ** Sessions at their expiry time *)

(** [getActiveSessions] lists the stored sessions whose expiry time is
    still ahead, in the order of the map, and removes nothing.  At the
    millisecond of its expiry a session is not listed any more, although
    [getSession] still returns it. *)
Theorem active_sessions_at_expiry :
  forall (w : World),
    exists active,
      SessionService.getActiveSessions w = (Ok active, w)
      /\ active
         = List.map snd
             (List.filter (fun e => clock (proc w) <? Session.expiresAt (snd e))
                          (sessions_of w))
      /\ (forall s, List.In s active <->
                    exists k, List.In (k, s) (sessions_of w)
                              /\ clock (proc w) < Session.expiresAt s)
      /\ (forall sessionId session,
            JsMap.get sessionId (sessions_of w) = Some session ->
            Session.expiresAt session = clock (proc w) ->
            ~ List.In session active
            /\ SessionService.getSession sessionId w = (Ok (Some session), w)).
Proof.
  intros w. eexists. split; [reflexivity |]. split; [reflexivity |].
  fold (sessions_of w).
  assert (Hin : forall s,
             List.In s (List.map snd
                          (List.filter (fun e => clock (proc w) <? Session.expiresAt (snd e))
                                       (sessions_of w)))
             <-> exists k, List.In (k, s) (sessions_of w)
                           /\ clock (proc w) < Session.expiresAt s).
  { intros s. rewrite List.in_map_iff. split.
    - intros ([k s'] & <- & Hf). apply List.filter_In in Hf. destruct Hf as [Hi Hlt].
      cbn [snd] in *. apply Z.ltb_lt in Hlt. eauto.
    - intros (k & Hi & Hlt). exists (k, s). split; [reflexivity |].
      apply List.filter_In. split; [exact Hi |]. cbn [snd]. apply Z.ltb_lt. exact Hlt. }
  split; [exact Hin |].
  intros sid s Hs He. split.
  { intros H. apply Hin in H. destruct H as (k & _ & Hlt). lia. }
  rewrite getSession_run, Hs. unfold elapsed. rewrite He, Z.ltb_irrefl. reflexivity.
Qed.

(** ** What a settlement call leaves alone *)

Lemma same_services_refl (w : World) : same_services w w.
Proof. repeat split. Qed.

Lemma same_services_trans (a b c : World) :
  same_services a b -> same_services b c -> same_services a c.
Proof.
  intros (A1 & A2 & A3 & A4 & A5 & A6) (B1 & B2 & B3 & B4 & B5 & B6).
  repeat split; congruence.
Qed.

Lemma quiet_same (w w' : World) : same_services w w' -> quiet w -> quiet w'.
Proof. intros (_ & _ & _ & _ & _ & H) Hq k p. rewrite H. apply Hq. Qed.

Lemma tries_services (url : string) (payload : Js.object) (w : World) :
  quiet w ->
  same_services w (first_try url payload w)
  /\ same_services w (second_try url payload w)
  /\ same_services w (third_try url payload w).
Proof.
  intros Hq.
  unfold same_services, first_try, second_try, third_try, attempted, waited, resumed. cbn.
  repeat (rewrite !Hq; cbn). repeat split.
Qed.

Lemma try_services (url : string) (payload : Js.object) (k : Body -> M Js.object)
    (fail : JsError -> Js.object) (w : World) :
  (forall b w0, same_services w0 (snd (k b w0))) ->
  quiet w ->
  same_services w
    (snd (try_catch (response <- CallbackService.makeRequest url payload 1 ;; k response)
                    (fun error => ret (fail error)) w)).
Proof.
  intros Hk Hq. unfold try_catch, bind. rewrite makeRequest_run.
  destruct (tries_services url payload w Hq) as (S1 & S2 & S3).
  destruct (outcome (network w (fetched w))) as [d1 | e1].
  - pose proof (Hk d1 (first_try url payload w)) as H.
    destruct (k d1 (first_try url payload w)) as [[r | e] w'];
      cbn [snd] in *; apply (same_services_trans _ _ _ S1 H).
  - destruct (outcome (network w (S (fetched w)))) as [d2 | e2].
    + pose proof (Hk d2 (second_try url payload w)) as H.
      destruct (k d2 (second_try url payload w)) as [[r | e] w'];
        cbn [snd] in *; apply (same_services_trans _ _ _ S2 H).
    + destruct (outcome (network w (S (S (fetched w))))) as [d3 | e3].
      * pose proof (Hk d3 (third_try url payload w)) as H.
        destruct (k d3 (third_try url payload w)) as [[r | e] w'];
          cbn [snd] in *; apply (same_services_trans _ _ _ S3 H).
      * cbn [snd]. exact S3.
Qed.

Ltac body_services :=
  intros b w0; destruct b as [| | o]; cbn;
  repeat match goal with
         | |- context [if ?c then _ else _] => destruct c; cbn
         | |- context [match ?c with _ => _ end] => destruct c; cbn
         end; repeat split.

Lemma placeBet_services (callbackBaseUrl roundId playerId sessionId : string)
    (amount : float) (currency : string) (w : World) :
  quiet w ->
  same_services w
    (snd (CallbackService.placeBet callbackBaseUrl roundId playerId sessionId
                                   amount currency w)).
Proof.
  unfold CallbackService.placeBet, bind at 1, dateNow, gets at 1. cbn [proc].
  unfold bind at 1, gets at 1. cbn [proc].
  apply try_services. body_services.
Qed.

Lemma creditWin_services (callbackBaseUrl roundId playerId sessionId : string)
    (betAmount winAmount : float) (currency : string) (betTransactionId : Js.value)
    (w : World) :
  quiet w ->
  same_services w
    (snd (CallbackService.creditWin callbackBaseUrl roundId playerId sessionId
            betAmount winAmount currency betTransactionId w)).
Proof.
  unfold CallbackService.creditWin, bind at 1, dateNow, gets at 1. cbn [proc].
  unfold bind at 1, gets at 1. cbn [proc].
  apply try_services. body_services.
Qed.

Lemma rollback_services (callbackBaseUrl roundId playerId sessionId : string)
    (amount : float) (currency : string) (originalTransactionId : Js.value)
    (reason : string) (w : World) :
  quiet w ->
  same_services w
    (snd (CallbackService.rollback callbackBaseUrl roundId playerId sessionId
            amount currency originalTransactionId reason w)).
Proof.
  unfold CallbackService.rollback, bind at 1, dateNow, gets at 1. cbn [proc].
  unfold bind at 1, gets at 1. cbn [proc].
  apply try_services. body_services.
Qed.

Lemma getBalance_services (callbackBaseUrl playerId sessionId : string) (w : World) :
  quiet w ->
  same_services w (snd (CallbackService.getBalance callbackBaseUrl playerId sessionId w)).
Proof.
  unfold CallbackService.getBalance, bind at 1, dateNow, gets at 1. cbn [proc].
  apply try_services. body_services.
Qed.

(** ** Bets that are refused *)

Lemma validate_cases (sessionId : string) (amount : float) (choice : string) (w : World) :
  BetService.validate sessionId amount choice w
  = match JsMap.get sessionId (sessions_of w) with
    | None => (Throw (Error "Invalid or expired session"), w)
    | Some session =>
        if elapsed (clock (proc w)) session
        then (Throw (Error "Invalid or expired session"),
              snd (SessionService.destroySession sessionId w))
        else if Js.isNaN amount then (Throw (Error "Invalid bet amount"), w)
        else if PrimFloat.ltb amount 1%float then (Throw (Error "Minimum bet is 1"), w)
        else if PrimFloat.ltb 100000000000%float amount
        then (Throw (Error "Maximum bet is 100000000000"), w)
        else if FlipEngine.invalid_choice choice
        then (Throw (Error "Invalid choice. Must be HEADS, TAILS, or EDGE"), w)
        else
          match current w with
          | None => (Throw (Error "No active round"), w)
          | Some r =>
              if JsMap.has (Session.playerId session) (Round.bets r)
              then (Throw (Error "Already placed a bet this round"), w)
              else if negb (Status_eqb (Round.status r) betting)
              then (Throw (Error "Betting phase has ended"), w)
              else (Ok (BetService.mkTicket (Session.playerId session)
                          (Session.currency session) (Session.callbackBaseUrl session)
                          (Round.id r) (BetService.round2 amount)), w)
          end
    end.
Proof.
  unfold BetService.validate, SessionService.validateSession, bind at 1, bind at 1.
  rewrite getSession_run.
  destruct (JsMap.get sessionId (sessions_of w)) as [session |] eqn:Es; [| reflexivity].
  destruct (elapsed (clock (proc w)) session); [reflexivity |].
  cbn [ret].
  destruct (Js.isNaN amount); [reflexivity |].
  change Config.MIN_BET with 1%float. change Config.MAX_BET with 100000000000%float.
  destruct (PrimFloat.ltb amount 1%float); [reflexivity |].
  destruct (PrimFloat.ltb 100000000000%float amount); [reflexivity |].
  destruct (FlipEngine.invalid_choice choice); [reflexivity |].
  unfold bind at 1. rewrite getPlayerBet_run.
  destruct (current w) as [r |] eqn:Ec.
  - unfold JsMap.has.
    destruct (JsMap.get (Session.playerId session) (Round.bets r)); [reflexivity |].
    unfold bind at 1. rewrite getCurrentRound_run, Ec.
    cbn [RoundView.status RoundView.id].
    destruct (Status_eqb (Round.status r) betting); reflexivity.
  - unfold bind at 1. rewrite getCurrentRound_run, Ec. reflexivity.
Qed.

Lemma destroySession_frame (sessionId : string) (w : World) :
  let w' := snd (SessionService.destroySession sessionId w) in
  trace w' = trace w /\ fetched w' = fetched w /\ flipEngine (proc w') = flipEngine (proc w)
  /\ activeBets (proc w') = activeBets (proc w)
  /\ pendingTransactions (proc w') = pendingTransactions (proc w).
Proof.
  cbn zeta. unfold SessionService.destroySession, bind, gets, modify. cbn [proc].
  destruct (JsMap.get sessionId (Directory.sessions (sessionService (proc w))));
    repeat split.
Qed.

Lemma validate_throws (sessionId : string) (amount : float) (choice : string)
    (w w0 : World) (e : JsError) :
  BetService.validate sessionId amount choice w = (Throw e, w0) ->
  BetService.placeBet sessionId amount choice w = (Throw e, w0)
  /\ trace w0 = trace w /\ fetched w0 = fetched w
  /\ flipEngine (proc w0) = flipEngine (proc w)
  /\ activeBets (proc w0) = activeBets (proc w)
  /\ pendingTransactions (proc w0) = pendingTransactions (proc w)
  /\ (w0 = w
      \/ exists session,
           JsMap.get sessionId (sessions_of w) = Some session
           /\ Session.expiresAt session < clock (proc w)
           /\ JsMap.get sessionId (sessions_of w0) = None).
Proof.
  intros Hv.
  split; [unfold BetService.placeBet, bind; rewrite Hv; reflexivity |].
  rewrite validate_cases in Hv.
  destruct (JsMap.get sessionId (sessions_of w)) as [session |] eqn:Es.
  - destruct (elapsed (clock (proc w)) session) eqn:Ee.
    + injection Hv as <- <-.
      destruct (destroySession_frame sessionId w) as (H1 & H2 & H3 & H4 & H5).
      cbn zeta in *.
      repeat (split; [assumption |]).
      right. exists session. split; [reflexivity |].
      unfold elapsed in Ee. apply Z.ltb_lt in Ee. split; [exact Ee |].
      destruct (destroySession_run sessionId w) as (w' & E & Hd & _).
      rewrite E. cbn [snd]. rewrite Hd, get_delete, String.eqb_refl. reflexivity.
    + assert (Hw : w0 = w).
      { destruct (Js.isNaN amount); [congruence |].
        destruct (PrimFloat.ltb amount 1%float); [congruence |].
        destruct (PrimFloat.ltb 100000000000%float amount); [congruence |].
        destruct (FlipEngine.invalid_choice choice); [congruence |].
        destruct (current w) as [r |]; [| congruence].
        destruct (JsMap.has (Session.playerId session) (Round.bets r)); [congruence |].
        destruct (negb (Status_eqb (Round.status r) betting)); congruence. }
      subst w0. repeat (split; [reflexivity |]). left; reflexivity.
  - injection Hv as <- <-. repeat (split; [reflexivity |]). left; reflexivity.
Qed.

(** A bet that the checks of [placeBet] refuse costs nothing: [placeBet]
    throws the error of the check without a request to the platform and
    without writing the engine, the active bets or the pending
    transactions; the only thing that can change is that the session, when
    it has expired, is removed.  For a valid session the amount is checked
    first, before the choice and the round: NaN, then an amount below 1,
    then an amount above 100000000000 are refused with their own messages. *)
Theorem refused_bet_moves_no_money :
  forall (w w0 : World) (sessionId : string) (amount : float) (choice : string)
         (e : JsError),
    BetService.validate sessionId amount choice w = (Throw e, w0) ->
    BetService.placeBet sessionId amount choice w = (Throw e, w0)
    /\ trace w0 = trace w /\ fetched w0 = fetched w
    /\ flipEngine (proc w0) = flipEngine (proc w)
    /\ activeBets (proc w0) = activeBets (proc w)
    /\ pendingTransactions (proc w0) = pendingTransactions (proc w)
    /\ (w0 = w
        \/ exists session,
             JsMap.get sessionId (sessions_of w) = Some session
             /\ Session.expiresAt session < clock (proc w)
             /\ JsMap.get sessionId (sessions_of w0) = None)
    /\ (forall session,
          JsMap.get sessionId (sessions_of w) = Some session ->
          clock (proc w) <= Session.expiresAt session ->
          (Js.isNaN amount = true -> e = Error "Invalid bet amount")
          /\ (Js.isNaN amount = false -> PrimFloat.ltb amount 1%float = true ->
              e = Error "Minimum bet is 1")
          /\ (Js.isNaN amount = false -> PrimFloat.ltb amount 1%float = false ->
              PrimFloat.ltb 100000000000%float amount = true ->
              e = Error "Maximum bet is 100000000000")).
Proof.
  intros w w0 sid amount choice e Hv.
  destruct (validate_throws sid amount choice w w0 e Hv) as (H1 & H2 & H3 & H4 & H5 & H6 & H7).
  repeat (split; [assumption |]).
  intros s Hs Hle. rewrite validate_cases, Hs in Hv.
  replace (elapsed (clock (proc w)) s) with false in Hv
    by (symmetry; apply Z.ltb_ge; exact Hle).
  split; [| split].
  - intros E1. rewrite E1 in Hv. congruence.
  - intros E1 E2. rewrite E1, E2 in Hv. congruence.
  - intros E1 E2 E3. rewrite E1, E2, E3 in Hv. congruence.
Qed.

Lemma refused_bet_moves_no_money_witness :
  BetService.placeBet "SESSION-a" 0.5%float "HEADS" (table JsMap.empty)
  = (Throw (Error "Minimum bet is 1"), table JsMap.empty)
  /\ BetService.placeBet "SESSION-a" 10%float "HEADS" (table two_bets)
     = (Throw (Error "Already placed a bet this round"), table two_bets).
Proof.
  split.
  - apply (refused_bet_moves_no_money (table JsMap.empty) (table JsMap.empty) "SESSION-a"
             0.5%float "HEADS" (Error "Minimum bet is 1")).
    rewrite validate_cases. reflexivity.
  - apply (refused_bet_moves_no_money (table two_bets) (table two_bets) "SESSION-a"
             10%float "HEADS" (Error "Already placed a bet this round")).
    rewrite validate_cases. reflexivity.
Defined.

(** ** Bets that the platform answers *)

Lemma outcome_answered (w : World) (code : Z) (body : Body) :
  network w (fetched w) = Http code body -> CallbackService.ok code = true ->
  outcome (network w (fetched w)) = Ok body.
Proof. intros H Hok. rewrite H. unfold outcome. rewrite Hok. reflexivity. Qed.

Lemma placeBet_answered (callbackBaseUrl roundId playerId sessionId : string)
    (amount : float) (currency : string) (w : World) (code : Z) (o : Js.object) :
  network w (fetched w) = Http code (BObject o) -> CallbackService.ok code = true ->
  let now := clock (proc w) in
  let payload := bet_payload roundId playerId sessionId amount currency now in
  let w1 := first_try (callbackBaseUrl ++ "/bet")%string payload w in
  CallbackService.placeBet callbackBaseUrl roundId playerId sessionId amount currency w
  = if CallbackService.is_undefined (Js.field "transactionId" o)
    then (Ok [ ("success", Js.Bool false); ("code", Js.field "code" o);
               ("message", Js.field "message" o);
               ("requestId", Js.Str (bet_request roundId playerId now)) ], w1)
    else (Ok [ ("success", Js.Bool true); ("transactionId", Js.field "transactionId" o);
               ("newBalance", Js.field "newBalance" o);
               ("requestId", Js.Str (bet_request roundId playerId now)) ],
          with_proc
            (with_pendingTransactions
               (JsMap.set (bet_request roundId playerId now)
                          (pending_bet payload (Js.field "transactionId" o))
                          (pendingTransactions (proc w1))) (proc w1)) w1).
Proof.
  intros Hn Hok. cbn zeta.
  unfold CallbackService.placeBet, bind at 1, dateNow, gets at 1. cbn [proc].
  unfold bind at 1, gets at 1. cbn [proc].
  unfold try_catch, bind at 1. rewrite makeRequest_run.
  rewrite (outcome_answered w code (BObject o) Hn Hok).
  cbn [CallbackService.prop]. unfold bind at 1, ret at 1.
  destruct (CallbackService.is_undefined (Js.field "transactionId" o)); reflexivity.
Qed.

Lemma first_try_quiet (url : string) (payload : Js.object) (w : World) :
  quiet w ->
  proc (first_try url payload w) = proc w
  /\ trace (first_try url payload w) = trace w ++ [HttpPost url payload]
  /\ concurrent (first_try url payload w) = concurrent w.
Proof.
  intros Hq. unfold first_try, attempted, resumed. cbn. rewrite Hq. repeat split.
Qed.

(** A debit that the platform answers without a transaction id (the
    status ERROR of a player not found or of insufficient funds) is not
    tried again: one request is sent, [placeBet] throws an error whose
    message is the platform's [message], else its [code], else
    [Bet rejected by platform], no rollback is sent, and when no other task
    ran nothing is registered: the process is as it was.  The message is
    stated for a reply whose [message] and [code] are not numbers. *)
Theorem platform_rejection_reaches_player :
  forall (w w0 : World) (sessionId : string) (amount : float) (choice : string)
         (t : BetService.Ticket) (code : Z) (o : Js.object),
    BetService.validate sessionId amount choice w = (Ok t, w0) ->
    network w (fetched w) = Http code (BObject o) ->
    CallbackService.ok code = true ->
    Js.field "transactionId" o = Js.Undefined ->
    Js.is_number (Js.field "message" o) = false ->
    Js.is_number (Js.field "code" o) = false ->
    exists w1,
      BetService.placeBet sessionId amount choice w
      = (Throw (Error (Js.to_string
                         (Js.or (Js.or (Js.field "message" o) (Js.field "code" o))
                                (Js.Str "Bet rejected by platform")))), w1)
      /\ trace w1
         = trace w ++ [HttpPost (BetService.callbackBaseUrl t ++ "/bet")%string
                         (bet_payload (BetService.roundId t) (BetService.playerId t)
                            sessionId (BetService.round2 amount) (BetService.currency t)
                            (clock (proc w)))]
      /\ (quiet w -> proc w1 = proc w).
Proof.
  intros w w0 sid amount choice t code o Hv Hn Hok Hu _ _.
  destruct (validate_ok sid amount choice w w0 t Hv) as (-> & session & r & _ & Et & _).
  assert (Ea : BetService.roundedAmount t = BetService.round2 amount)
    by (rewrite Et; reflexivity).
  pose proof (placeBet_answered (BetService.callbackBaseUrl t) (BetService.roundId t)
                (BetService.playerId t) sid (BetService.roundedAmount t)
                (BetService.currency t) w code o Hn Hok) as E.
  cbn zeta in E. rewrite Hu in E. cbn [CallbackService.is_undefined] in E.
  fold (BetService.debit sid t) in E.
  eexists. split.
  { unfold BetService.placeBet, bind. rewrite Hv, E. reflexivity. }
  rewrite <- Ea. split.
  - unfold first_try, attempted, resumed. reflexivity.
  - intros Hq. apply first_try_quiet. exact Hq.
Qed.

Lemma platform_rejection_reaches_player_witness :
  exists w1,
    BetService.placeBet "SESSION-a" 10%float "HEADS"
      (mkWorld (table_process JsMap.empty) (fun _ => "00")
         (fun _ => Http 200 (BObject [ ("status", Js.Str "ERROR");
                                       ("code", Js.Str "INSUFFICIENT_FUNDS");
                                       ("message", Js.Str "Insufficient balance") ]))
         0%nat (fun _ p => p) 0%nat [])
    = (Throw (Error "Insufficient balance"), w1)
    /\ List.length (trace w1) = 1%nat.
Proof.
  destruct (platform_rejection_reaches_player
              (mkWorld (table_process JsMap.empty) (fun _ => "00")
                 (fun _ => Http 200 (BObject [ ("status", Js.Str "ERROR");
                                               ("code", Js.Str "INSUFFICIENT_FUNDS");
                                               ("message", Js.Str "Insufficient balance") ]))
                 0%nat (fun _ p => p) 0%nat [])
              (mkWorld (table_process JsMap.empty) (fun _ => "00")
                 (fun _ => Http 200 (BObject [ ("status", Js.Str "ERROR");
                                               ("code", Js.Str "INSUFFICIENT_FUNDS");
                                               ("message", Js.Str "Insufficient balance") ]))
                 0%nat (fun _ p => p) 0%nat [])
              "SESSION-a" 10%float "HEADS"
              (BetService.mkTicket "alice" "EUR" "http://platform" "F-1700000000000-7"
                                   10%float)
              200 [ ("status", Js.Str "ERROR"); ("code", Js.Str "INSUFFICIENT_FUNDS");
                    ("message", Js.Str "Insufficient balance") ])
    as (w1 & E & Ht & _).
  - rewrite validate_cases. vm_compute. reflexivity.
  - reflexivity.
  - reflexivity.
  - reflexivity.
  - reflexivity.
  - reflexivity.
  - exists w1. split; [exact E |]. rewrite Ht. reflexivity.
Defined.

(** ** Bets that are registered *)

Lemma register_exact (sessionId choice : string) (t : BetService.Ticket)
    (callbackResult : Js.object) (r : Round.t) (w : World) :
  current w = Some r -> Round.status r = betting ->
  FlipEngine.invalid_choice choice = false ->
  JsMap.has (BetService.playerId t) (Round.bets r) = false ->
  BetService.register sessionId choice t callbackResult w
  = (Ok (BetService.mkPlaced (BetService.roundedAmount t) choice (BetService.roundId t)
                             (Js.field "transactionId" callbackResult)
                             (Js.field "newBalance" callbackResult)),
     registered sessionId choice t callbackResult r w).
Proof.
  intros Hc Hs Hi Hh.
  unfold BetService.register, bind at 1. rewrite addBet_run, Hc, Hs, Hi, Hh.
  cbn [negb Status_eqb]. unfold bind at 1, modify at 1.
  unfold bind at 1. unfold registered. cbn zeta.
  rewrite updateBalance_run. reflexivity.
Qed.

Lemma registered_facts (sessionId choice : string) (t : BetService.Ticket)
    (callbackResult : Js.object) (r : Round.t) (w : World) :
  let w' := registered sessionId choice t callbackResult r w in
  let bet := Bet.mk (BetService.playerId t) sessionId (BetService.roundedAmount t) choice
                    (clock (proc w)) in
  current w'
  = Some (Round.with_bets (JsMap.set (BetService.playerId t) bet (Round.bets r)) r)
  /\ JsMap.get (BetService.playerId t) (activeBets (proc w'))
     = Some (ActiveBet.mk bet (Js.field "transactionId" callbackResult)
                          (BetService.roundId t) (BetService.callbackBaseUrl t)
                          (BetService.currency t))
  /\ (forall k, JsMap.get k (sessions_of w')
                = if String.eqb k sessionId
                  then option_map (Session.with_balance (Js.field "newBalance" callbackResult))
                                  (JsMap.get k (sessions_of w))
                  else JsMap.get k (sessions_of w))
  /\ trace w' = trace w /\ fetched w' = fetched w
  /\ pendingTransactions (proc w') = pendingTransactions (proc w)
  /\ clock (proc w') = clock (proc w).
Proof.
  cbn zeta. unfold registered. rewrite updateBalance_run. cbn [snd].
  set (w2 := with_proc _ (placed w r _ _ _ _)).
  assert (Hs2 : sessions_of w2 = sessions_of w) by reflexivity.
  rewrite Hs2.
  destruct (JsMap.get sessionId (sessions_of w)) as [s |] eqn:Es.
  - split; [reflexivity |]. split; [cbn; apply get_set_same |].
    split; [| repeat split].
    intros k. rewrite sessions_rewritten, Hs2.
    destruct (String.eqb k sessionId) eqn:E.
    + apply String.eqb_eq in E. subst k. rewrite get_set_same, Es. reflexivity.
    + apply String.eqb_neq in E. apply get_set_other. exact E.
  - split; [reflexivity |]. split; [cbn; apply get_set_same |].
    split; [| repeat split].
    intros k. rewrite Hs2. destruct (String.eqb k sessionId) eqn:E; [| reflexivity].
    apply String.eqb_eq in E. subst k. rewrite Es. reflexivity.
Qed.

(** A second bet of the session on a world where the player has a bet in
    the ledger is refused by the checks. *)
Lemma second_bet_refused (sessionId : string) (amount : float) (choice : string)
    (w : World) (session : Session.t) (r : Round.t) :
  JsMap.get sessionId (sessions_of w) = Some session ->
  current w = Some r ->
  JsMap.has (Session.playerId session) (Round.bets r) = true ->
  exists e w',
    BetService.placeBet sessionId amount choice w = (Throw e, w')
    /\ trace w' = trace w /\ fetched w' = fetched w
    /\ (clock (proc w) <= Session.expiresAt session -> Js.isNaN amount = false ->
        PrimFloat.ltb amount 1%float = false ->
        PrimFloat.ltb 100000000000%float amount = false ->
        FlipEngine.invalid_choice choice = false ->
        e = Error "Already placed a bet this round").
Proof.
  intros Hs Hc Hh.
  assert (Hv : exists e w', BetService.validate sessionId amount choice w = (Throw e, w')
                            /\ (clock (proc w) <= Session.expiresAt session ->
                                Js.isNaN amount = false ->
                                PrimFloat.ltb amount 1%float = false ->
                                PrimFloat.ltb 100000000000%float amount = false ->
                                FlipEngine.invalid_choice choice = false ->
                                e = Error "Already placed a bet this round")).
  { rewrite validate_cases, Hs, Hc, Hh.
    destruct (elapsed (clock (proc w)) session) eqn:Ee.
    { do 2 eexists. split; [reflexivity |]. intros Hle.
      unfold elapsed in Ee. apply Z.ltb_lt in Ee. lia. }
    destruct (Js.isNaN amount);
      [do 2 eexists; split; [reflexivity | intros; discriminate] |].
    destruct (PrimFloat.ltb amount 1%float);
      [do 2 eexists; split; [reflexivity | intros; discriminate] |].
    destruct (PrimFloat.ltb 100000000000%float amount);
      [do 2 eexists; split; [reflexivity | intros; discriminate] |].
    destruct (FlipEngine.invalid_choice choice);
      [do 2 eexists; split; [reflexivity | intros; discriminate] |].
    do 2 eexists. split; [reflexivity |]. reflexivity. }
  destruct Hv as (e & w' & Hv & He).
  destruct (validate_throws sessionId amount choice w w' e Hv) as (H1 & H2 & H3 & _).
  exists e, w'. auto.
Qed.

(** A player is debited once in a round at most.  When [placeBet] has
    returned a bet to a session and no other task ran meanwhile, a further
    [placeBet] of that session, whatever its amount and choice, throws
    without a request to the platform; with a session still valid, an amount
    in the bounds and a valid choice the error is
    [Already placed a bet this round]. *)
Theorem no_second_debit :
  forall (w w' : World) (sessionId : string) (amount : float) (choice : string)
         (bet : BetService.Placed),
    quiet w ->
    BetService.placeBet sessionId amount choice w = (Ok bet, w') ->
    forall (amount' : float) (choice' : string),
    exists e w'',
      BetService.placeBet sessionId amount' choice' w' = (Throw e, w'')
      /\ trace w'' = trace w' /\ fetched w'' = fetched w'
      /\ (forall session,
            JsMap.get sessionId (sessions_of w') = Some session ->
            clock (proc w') <= Session.expiresAt session ->
            Js.isNaN amount' = false -> PrimFloat.ltb amount' 1%float = false ->
            PrimFloat.ltb 100000000000%float amount' = false ->
            FlipEngine.invalid_choice choice' = false ->
            e = Error "Already placed a bet this round").
Proof.
  intros w w' sid amount choice bet Hq Hp amount' choice'.
  unfold BetService.placeBet, bind at 1 in Hp.
  destruct (BetService.validate sid amount choice w) as [[t | e0] w0] eqn:Hv;
    [| discriminate].
  destruct (validate_ok sid amount choice w w0 t Hv)
    as (-> & session & r & Hs & Et & Hc & Hst & Hb & Hi & _).
  unfold bind at 1 in Hp.
  pose proof (placeBet_services (BetService.callbackBaseUrl t) (BetService.roundId t)
                (BetService.playerId t) sid (BetService.roundedAmount t)
                (BetService.currency t) w Hq) as Hsv.
  fold (BetService.debit sid t) in Hsv.
  destruct (BetService.debit sid t w) as [[cb | e1] w1] eqn:Ed; [| discriminate].
  cbn [snd] in Hsv. destruct Hsv as (S1 & S2 & S3 & _).
  destruct (negb (Js.truthy (Js.field "success" cb))); [discriminate |].
  assert (Hc1 : current w1 = Some r) by (unfold current in *; rewrite S1; exact Hc).
  assert (Hpl : BetService.playerId t = Session.playerId session)
    by (rewrite Et; reflexivity).
  assert (Hh1 : JsMap.has (BetService.playerId t) (Round.bets r) = false).
  { unfold JsMap.has. rewrite Hpl, Hb. reflexivity. }
  unfold try_catch in Hp.
  rewrite (register_exact sid choice t cb r w1 Hc1 Hst Hi Hh1) in Hp.
  injection Hp as _ <-.
  destruct (registered_facts sid choice t cb r w1) as (Rc & _ & Rs & _).
  cbn zeta in Rc, Rs.
  assert (Hs' : JsMap.get sid (sessions_of (registered sid choice t cb r w1))
                = Some (Session.with_balance (Js.field "newBalance" cb) session)).
  { rewrite Rs, String.eqb_refl. unfold sessions_of. rewrite S2.
    fold (sessions_of w). rewrite Hs. reflexivity. }
  destruct (second_bet_refused sid amount' choice' _ _ _ Hs' Rc) as (e & w'' & E & T & F & He).
  { cbn. rewrite <- Hpl. unfold JsMap.has. rewrite get_set_same. reflexivity. }
  exists e, w''. split; [exact E |]. split; [exact T |]. split; [exact F |].
  intros s Hs0 Hle. rewrite Hs' in Hs0. injection Hs0 as <-. apply He. exact Hle.
Qed.

Lemma no_second_debit_witness :
  exists bet w' e w'',
    BetService.placeBet "SESSION-a" 10%float "HEADS" (table JsMap.empty) = (Ok bet, w')
    /\ BetService.placeBet "SESSION-a" 20%float "TAILS" w' = (Throw e, w'')
    /\ trace w'' = trace w'.
Proof.
  assert (E : exists bet w',
             BetService.placeBet "SESSION-a" 10%float "HEADS" (table JsMap.empty)
             = (Ok bet, w')).
  { do 2 eexists. vm_compute. reflexivity. }
  destruct E as (bet & w' & E).
  destruct (no_second_debit (table JsMap.empty) w' "SESSION-a" 10%float "HEADS" bet
              (fun _ _ => eq_refl) E 20%float "TAILS") as (e & w'' & E2 & Ht & _).
  exists bet, w', e, w''. auto.
Defined.

(** A bet that passes the checks and whose debit the platform accepts at
    once (a reply with a transaction id), with no other task in between:
    one request is sent; the bet returned carries the rounded amount, the
    round id, and the transaction id and new balance of the platform's
    answer; the bet is in the ledger of the round, the active bet of the
    player records the transaction id, the session caches the new balance,
    and the debit is among the pending transactions under its request id. *)
Theorem accepted_bet_is_recorded :
  forall (w w0 : World) (sessionId : string) (amount : float) (choice : string)
         (t : BetService.Ticket) (code : Z) (o : Js.object),
    BetService.validate sessionId amount choice w = (Ok t, w0) ->
    quiet w ->
    network w (fetched w) = Http code (BObject o) ->
    CallbackService.ok code = true ->
    CallbackService.is_undefined (Js.field "transactionId" o) = false ->
    let now := clock (proc w) in
    let payload := bet_payload (BetService.roundId t) (BetService.playerId t) sessionId
                               (BetService.round2 amount) (BetService.currency t) now in
    let bet := Bet.mk (BetService.playerId t) sessionId (BetService.round2 amount) choice now in
    exists w',
      BetService.placeBet sessionId amount choice w
      = (Ok (BetService.mkPlaced (BetService.round2 amount) choice (BetService.roundId t)
                                 (Js.field "transactionId" o) (Js.field "newBalance" o)), w')
      /\ trace w' = trace w ++ [HttpPost (BetService.callbackBaseUrl t ++ "/bet")%string payload]
      /\ FlipEngine.getPlayerBet (BetService.playerId t) w' = (Ok (Some bet), w')
      /\ BetService.getActiveBet (BetService.playerId t) w'
         = (Ok (Some (ActiveBet.mk bet (Js.field "transactionId" o) (BetService.roundId t)
                                   (BetService.callbackBaseUrl t) (BetService.currency t))),
            w')
      /\ SessionService.getBalance sessionId w' = (Ok (Some (Js.field "newBalance" o)), w')
      /\ JsMap.get (bet_request (BetService.roundId t) (BetService.playerId t) now)
                   (pendingTransactions (proc w'))
         = Some (pending_bet payload (Js.field "transactionId" o)).
Proof.
  intros w w0 sid amount choice t code o Hv Hq Hn Hok Hu. cbn zeta.
  destruct (validate_ok sid amount choice w w0 t Hv)
    as (-> & session & r & Hs & Et & Hc & Hst & Hb & Hi & _).
  assert (Ea : BetService.roundedAmount t = BetService.round2 amount)
    by (rewrite Et; reflexivity).
  assert (Hpl : BetService.playerId t = Session.playerId session)
    by (rewrite Et; reflexivity).
  pose proof (placeBet_answered (BetService.callbackBaseUrl t) (BetService.roundId t)
                (BetService.playerId t) sid (BetService.roundedAmount t)
                (BetService.currency t) w code o Hn Hok) as E.
  cbn zeta in E. rewrite Hu in E. fold (BetService.debit sid t) in E.
  destruct (first_try_quiet (BetService.callbackBaseUrl t ++ "/bet")%string
              (bet_payload (BetService.roundId t) (BetService.playerId t) sid
                           (BetService.roundedAmount t) (BetService.currency t)
                           (clock (proc w))) w Hq) as (Hp1 & Ht1 & _).
  set (w1 := first_try _ _ w) in *.
  set (cb := [ ("success", Js.Bool true); ("transactionId", Js.field "transactionId" o);
               ("newBalance", Js.field "newBalance" o);
               ("requestId", Js.Str (bet_request (BetService.roundId t)
                                                 (BetService.playerId t) (clock (proc w)))) ])
    in *.
  set (w1' := with_proc _ w1) in E.
  assert (Hc1 : current w1' = Some r).
  { unfold current. change (flipEngine (proc w1')) with (flipEngine (proc w1)).
    rewrite Hp1. exact Hc. }
  assert (Hh1 : JsMap.has (BetService.playerId t) (Round.bets r) = false).
  { unfold JsMap.has. rewrite Hpl, Hb. reflexivity. }
  pose proof (register_exact sid choice t cb r w1' Hc1 Hst Hi Hh1) as Er.
  destruct (registered_facts sid choice t cb r w1') as (Rc & Ra & Rs & Rt & _ & Rp & _).
  cbn zeta in Rc, Ra, Rs.
  assert (Hk1 : clock (proc w1') = clock (proc w)).
  { change (clock (proc w1')) with (clock (proc w1)). rewrite Hp1. reflexivity. }
  rewrite Hk1 in Rc, Ra. rewrite Ea in *.
  exists (registered sid choice t cb r w1').
  split.
  { unfold BetService.placeBet, bind at 1. rewrite Hv. unfold bind at 1. rewrite E.
    change (Js.truthy (Js.field "success" cb)) with true. cbn [negb].
    unfold try_catch. rewrite Er. reflexivity. }
  split; [rewrite Rt; exact Ht1 |].
  split.
  { rewrite getPlayerBet_run, Rc. cbn [Round.bets Round.with_bets].
    rewrite get_set_same. reflexivity. }
  split.
  { unfold BetService.getActiveBet, gets. rewrite Ra. reflexivity. }
  split.
  { rewrite getBalance_run, Rs, String.eqb_refl.
    assert (Hs1 : JsMap.get sid (sessions_of w1') = Some session).
    { unfold sessions_of. change (sessionService (proc w1')) with (sessionService (proc w1)).
      rewrite Hp1. exact Hs. }
    rewrite Hs1. reflexivity. }
  rewrite Rp. unfold w1'. cbn [proc with_proc pendingTransactions with_pendingTransactions].
  rewrite ?Ea. apply get_set_same.
Qed.

Lemma accepted_bet_is_recorded_witness :
  exists w',
    BetService.placeBet "SESSION-a" 10%float "HEADS" (table JsMap.empty)
    = (Ok (BetService.mkPlaced 10%float "HEADS" "F-1700000000000-7" (Js.Str "TX-1")
                               (Js.Num 90%float)), w')
    /\ SessionService.getBalance "SESSION-a" w' = (Ok (Some (Js.Num 90%float)), w').
Proof.
  destruct (accepted_bet_is_recorded (table JsMap.empty) (table JsMap.empty) "SESSION-a"
              10%float "HEADS"
              (BetService.mkTicket "alice" "EUR" "http://platform" "F-1700000000000-7"
                                   10%float)
              200 [ ("status", Js.Str "OK"); ("transactionId", Js.Str "TX-1");
                    ("newBalance", Js.Num 90%float) ])
    as (w' & E & _ & _ & _ & Hb & _).
  - rewrite validate_cases. vm_compute. reflexivity.
  - intros k p. reflexivity.
  - reflexivity.
  - reflexivity.
  - reflexivity.
  - exists w'. split; [| exact Hb].
    rewrite E. assert (H : BetService.round2 10%float = 10%float) by (vm_compute; reflexivity).
    rewrite H. reflexivity.
Defined.

(** ** The results of a round *)

Lemma only_sessions_refl (w : World) : only_sessions w w.
Proof. repeat split. Qed.

Lemma destroySession_only (sessionId : string) (w : World) :
  only_sessions w (snd (SessionService.destroySession sessionId w)).
Proof.
  rewrite destroySession_exact. cbn [snd].
  destruct (JsMap.get sessionId (sessions_of w)); repeat split.
Qed.

Lemma getSessionByPlayerId_only (playerId : string) (w : World) :
  exists session w',
    SessionService.getSessionByPlayerId playerId w = (Ok session, w')
    /\ only_sessions w w'.
Proof.
  rewrite getSessionByPlayerId_run.
  destruct (JsMap.get playerId (players_of w)) as [sid |];
    [| do 2 eexists; split; [reflexivity | apply only_sessions_refl]].
  destruct (SessionService.blank sid);
    [do 2 eexists; split; [reflexivity | apply only_sessions_refl] |].
  rewrite getSession_run.
  destruct (JsMap.get sid (sessions_of w)) as [s |];
    [| do 2 eexists; split; [reflexivity | apply only_sessions_refl]].
  destruct (elapsed (clock (proc w)) s);
    do 2 eexists; (split; [reflexivity |]);
    [apply destroySession_only | apply only_sessions_refl].
Qed.

Lemma updateBalance_only (sessionId : string) (balance : Js.value) (w : World) :
  only_sessions w (snd (SessionService.updateBalance sessionId balance w)).
Proof.
  rewrite updateBalance_run. cbn [snd].
  destruct (JsMap.get sessionId (sessions_of w)); repeat split.
Qed.

Lemma delete_absent {V : Type} (k : string) (m : JsMap.t V) :
  JsMap.get k m = None -> JsMap.delete k m = m.
Proof.
  induction m as [| [k0 v0] m IH]; cbn; [reflexivity |].
  destruct (String.eqb k k0); [discriminate |]. intros H. rewrite (IH H). reflexivity.
Qed.

Lemma process_winner_run (roundId : string) (results : list Js.object)
    (winnerId : string) (data : Winner.t) (w : World) :
  quiet w ->
  match JsMap.get winnerId (activeBets (proc w)) with
  | None =>
      BetService.process_winner roundId results (winnerId, data) w = (Ok results, w)
  | Some activeBet =>
      exists callbackResult w1 w' n,
        CallbackService.creditWin (ActiveBet.callbackBaseUrl activeBet) roundId winnerId
          (Bet.sessionId (ActiveBet.bet activeBet)) (Winner.betAmount data)
          (Winner.winAmount data) (ActiveBet.currency activeBet)
          (ActiveBet.transactionId activeBet) w = (Ok callbackResult, w1)
        /\ BetService.process_winner roundId results (winnerId, data) w
           = (Ok (results ++ [credit_entry winnerId data callbackResult]), w')
        /\ (1 <= n <= 3)%nat
        /\ trace w'
           = trace w ++ retry_trace (ActiveBet.callbackBaseUrl activeBet ++ "/win")%string
                          (win_payload roundId winnerId (Bet.sessionId (ActiveBet.bet activeBet))
                             (Winner.betAmount data) (Winner.winAmount data)
                             (ActiveBet.currency activeBet)
                             (ActiveBet.transactionId activeBet) (clock (proc w))) n
        /\ activeBets (proc w') = JsMap.delete winnerId (activeBets (proc w))
        /\ flipEngine (proc w') = flipEngine (proc w)
        /\ pendingTransactions (proc w') = pendingTransactions (proc w1)
        /\ concurrent w' = concurrent w
        /\ (forall body, outcome (network w (fetched w)) = Ok body -> n = 1%nat)
        /\ (forall e1 e2 e3, all_fail w e1 e2 e3 -> n = 3%nat)
  end.
Proof.
  intros Hq.
  destruct (JsMap.get winnerId (activeBets (proc w))) as [ab |] eqn:Ea.
  2: { unfold BetService.process_winner, bind at 1, gets at 1. cbn [proc].
       rewrite Ea. reflexivity. }
  unfold BetService.process_winner, bind at 1, gets at 1. cbn [proc]. rewrite Ea.
  destruct (creditWin_settles (ActiveBet.callbackBaseUrl ab) roundId winnerId
              (Bet.sessionId (ActiveBet.bet ab)) (Winner.betAmount data)
              (Winner.winAmount data) (ActiveBet.currency ab) (ActiveBet.transactionId ab) w)
    as (cb & w1 & n & Ec & Hn & Ht & Hone & Hall & _).
  assert (Hthree : forall e1 e2 e3, all_fail w e1 e2 e3 -> n = 3%nat)
    by (intros e1 e2 e3 Hf; apply (Hall e1 e2 e3 Hf)).
  pose proof (creditWin_services (ActiveBet.callbackBaseUrl ab) roundId winnerId
                (Bet.sessionId (ActiveBet.bet ab)) (Winner.betAmount data)
                (Winner.winAmount data) (ActiveBet.currency ab) (ActiveBet.transactionId ab)
                w Hq) as Hsv.
  rewrite Ec in Hsv. cbn [snd] in Hsv. destruct Hsv as (S1 & _ & S3 & _ & _ & S6).
  unfold try_catch, bind at 1. rewrite Ec.
  destruct (Js.truthy (Js.field "success" cb)) eqn:Etr.
  - destruct (getSessionByPlayerId_only winnerId w1) as (session & w2 & Eg & O2).
    unfold bind at 1. unfold bind at 1. unfold bind at 1. rewrite Eg.
    destruct session as [session |].
    + pose proof (updateBalance_only (Session.sessionId session)
                    (Js.field "newBalance" cb) w2) as O3.
      destruct (SessionService.updateBalance (Session.sessionId session)
                  (Js.field "newBalance" cb) w2) as [[[] | e] w3] eqn:Eu;
        [| rewrite updateBalance_run in Eu; discriminate].
      cbn [snd] in O3.
      destruct O2 as (A1 & A2 & A3 & _ & A5 & _ & A7 & _).
      destruct O3 as (B1 & B2 & B3 & _ & B5 & _ & B7 & _).
      exists cb, w1. eexists. exists n. split; [reflexivity |].
      unfold credit_entry. rewrite Etr.
      split; [cbn; reflexivity |]. split; [exact Hn |].
      cbn. rewrite B5, A5, B2, A2, S3, B1, A1, S1, B3, A3, B7, A7, S6.
      repeat split; assumption.
    + destruct O2 as (A1 & A2 & A3 & _ & A5 & _ & A7 & _).
      exists cb, w1. eexists. exists n. split; [reflexivity |].
      unfold credit_entry. rewrite Etr.
      split; [cbn; reflexivity |]. split; [exact Hn |].
      cbn. rewrite A5, A2, S3, A1, S1, A3, A7, S6. repeat split; assumption.
  - exists cb, w1. eexists. exists n. split; [reflexivity |].
    unfold credit_entry. rewrite Etr.
    split; [cbn; reflexivity |]. split; [exact Hn |].
    cbn. rewrite S3, S1, S6. repeat split; assumption.
Qed.

Lemma retry_trace_win (base : string) (payload : Js.object) (n : nat) :
  List.Forall win_effect (retry_trace (base ++ "/win")%string payload n).
Proof.
  destruct n as [| [| [| n]]]; cbn; repeat constructor; exists base; reflexivity.
Qed.

Lemma process_winners_run (roundId : string) (winners : list (string * Winner.t)) :
  forall (results : list Js.object) (w : World),
    quiet w ->
    exists results' w' extra,
      BetService.process_winners roundId results winners w = (Ok results', w')
      /\ trace w' = trace w ++ extra /\ List.Forall win_effect extra
      /\ (forall p, JsMap.get p (activeBets (proc w'))
                    = if List.existsb (String.eqb p) (ids winners) then None
                      else JsMap.get p (activeBets (proc w)))
      /\ flipEngine (proc w') = flipEngine (proc w)
      /\ (List.length results' <= List.length results + List.length winners)%nat
      /\ quiet w'.
Proof.
  induction winners as [| [p data] winners IH]; intros results w Hq;
    cbn [BetService.process_winners].
  - exists results, w, []. split; [reflexivity |]. rewrite List.app_nil_r.
    repeat split; auto. cbn. lia.
  - pose proof (process_winner_run roundId results p data w Hq) as H.
    unfold bind at 1.
    destruct (JsMap.get p (activeBets (proc w))) as [ab |] eqn:Ea.
    + destruct H as (cb & w1 & w2 & n & _ & E & _ & Ht & Ha & He & _ & Hc & _).
      rewrite E.
      assert (Hq2 : quiet w2) by (intros k x; rewrite Hc; apply Hq).
      destruct (IH (results ++ [credit_entry p data cb]) w2 Hq2)
        as (results' & w' & extra & E' & Ht' & Hf' & Ha' & He' & Hl' & Hq').
      exists results', w'. eexists. split; [exact E' |].
      split; [rewrite Ht', Ht, <- List.app_assoc; reflexivity |].
      split; [apply List.Forall_app; split; [apply retry_trace_win | exact Hf'] |].
      split.
      { intros k. rewrite Ha', Ha, get_delete. cbn [ids List.map fst List.existsb].
        fold (ids winners).
        destruct (List.existsb (String.eqb k) (ids winners)); [rewrite orb_true_r; reflexivity |].
        rewrite orb_false_r. reflexivity. }
      split; [congruence |]. split; [| exact Hq'].
      rewrite List.length_app in Hl'. cbn [List.length] in *. lia.
    + rewrite H.
      destruct (IH results w Hq)
        as (results' & w' & extra & E' & Ht' & Hf' & Ha' & He' & Hl' & Hq').
      exists results', w', extra. split; [exact E' |]. split; [exact Ht' |].
      split; [exact Hf' |]. split.
      { intros k. rewrite Ha'. cbn [ids List.map fst List.existsb]. fold (ids winners).
        destruct (List.existsb (String.eqb k) (ids winners)); [rewrite orb_true_r; reflexivity |].
        rewrite orb_false_r.
        destruct (String.eqb k p) eqn:Ek; [| reflexivity].
        apply String.eqb_eq in Ek. subst k. exact Ea. }
      split; [exact He' |]. split; [| exact Hq'].
      cbn [List.length]. lia.
Qed.

Lemma process_losers_run (losers : list (string * Loser.t)) :
  forall w : World,
    exists w',
      SessionService.forEach losers BetService.process_loser w = (Ok tt, w')
      /\ trace w' = trace w
      /\ (forall p, JsMap.get p (activeBets (proc w'))
                    = if List.existsb (String.eqb p) (ids losers) then None
                      else JsMap.get p (activeBets (proc w)))
      /\ flipEngine (proc w') = flipEngine (proc w)
      /\ pendingTransactions (proc w') = pendingTransactions (proc w)
      /\ sessionService (proc w') = sessionService (proc w).
Proof.
  induction losers as [| [p data] losers IH]; intros w; cbn [SessionService.forEach].
  - exists w. repeat split.
  - unfold bind at 1, BetService.process_loser, bind at 1, gets at 1. cbn [proc fst].
    destruct (JsMap.get p (activeBets (proc w))) as [ab |] eqn:Ea.
    + unfold modify at 1.
      match goal with
      | |- context [SessionService.forEach losers _ ?x] =>
          destruct (IH x) as (w' & E & Ht & Ha & He & Hp & Hs)
      end.
      exists w'. split; [exact E |]. split; [exact Ht |]. split; [| auto].
      intros k. rewrite Ha. cbn [proc with_proc activeBets with_activeBets].
      rewrite get_delete. cbn [ids List.map fst List.existsb]. fold (ids losers).
      destruct (List.existsb (String.eqb k) (ids losers)); [rewrite orb_true_r; reflexivity |].
      rewrite orb_false_r. reflexivity.
    + unfold ret at 1.
      destruct (IH w) as (w' & E & Ht & Ha & He & Hp & Hs).
      exists w'. split; [exact E |]. split; [exact Ht |]. split; [| auto].
      intros k. rewrite Ha. cbn [ids List.map fst List.existsb]. fold (ids losers).
      destruct (List.existsb (String.eqb k) (ids losers)); [rewrite orb_true_r; reflexivity |].
      rewrite orb_false_r.
      destruct (String.eqb k p) eqn:Ek; [| reflexivity].
      apply String.eqb_eq in Ek. subst k. exact Ea.
Qed.

(** When the results of a round are processed with no other task in
    between, [processRoundResults] returns without throwing, whatever the
    platform answers; the only requests it sends go to a [/win] URL; after
    it no winner and no loser of the lists has an active bet, and the active
    bets of the other players are as they were; there is at most one result
    per winner; the engine is not written.  With no winner nothing is sent:
    the losers' active bets are dropped, and their pending transactions are
    left where they are. *)
Theorem round_results_clear_active_bets :
  forall (w : World) (roundId : string) (winners : list (string * Winner.t))
         (losers : list (string * Loser.t)),
    quiet w ->
    exists results w' extra,
      BetService.processRoundResults roundId winners losers w = (Ok results, w')
      /\ trace w' = trace w ++ extra /\ List.Forall win_effect extra
      /\ (forall p, JsMap.get p (activeBets (proc w'))
                    = if List.existsb (String.eqb p) (ids winners ++ ids losers) then None
                      else JsMap.get p (activeBets (proc w)))
      /\ flipEngine (proc w') = flipEngine (proc w)
      /\ (List.length results <= List.length winners)%nat
      /\ (winners = [] ->
          results = [] /\ extra = []
          /\ pendingTransactions (proc w') = pendingTransactions (proc w)
          /\ sessionService (proc w') = sessionService (proc w)).
Proof.
  intros w roundId winners losers Hq.
  destruct (process_winners_run roundId winners [] w Hq)
    as (results & w1 & extra & E1 & Ht1 & Hf1 & Ha1 & He1 & Hl1 & _).
  destruct (process_losers_run losers w1) as (w2 & E2 & Ht2 & Ha2 & He2 & Hp2 & Hs2).
  exists results, w2, extra.
  split.
  { unfold BetService.processRoundResults, bind. rewrite E1, E2. reflexivity. }
  split; [congruence |]. split; [exact Hf1 |]. split.
  { intros p. rewrite Ha2, Ha1, List.existsb_app.
    destruct (List.existsb (String.eqb p) (ids losers)); [rewrite orb_true_r; reflexivity |].
    rewrite orb_false_r. reflexivity. }
  split; [congruence |]. split; [exact Hl1 |].
  intros ->. cbn [BetService.process_winners] in E1. injection E1 as <- <-.
  split; [reflexivity |]. split; [| split; assumption].
  apply (List.app_inv_head (trace w)). rewrite List.app_nil_r. symmetry. exact Ht1.
Qed.

Lemma round_results_clear_active_bets_witness :
  exists results w',
    BetService.processRoundResults "F-1" [("alice", Winner.mk 10%float 19.5%float "HEADS")]
      [("bob", Loser.mk 5%float "TAILS")] (table two_bets) = (Ok results, w')
    /\ (List.length results <= 1)%nat.
Proof.
  destruct (round_results_clear_active_bets (table two_bets) "F-1"
              [("alice", Winner.mk 10%float 19.5%float "HEADS")]
              [("bob", Loser.mk 5%float "TAILS")])
    as (results & w' & extra & E & _ & _ & _ & _ & Hl & _).
  - intros k p. reflexivity.
  - exists results, w'. cbn [List.length] in Hl. auto.
Defined.

Lemma with_pending_same (p : Process) :
  with_pendingTransactions (pendingTransactions p) p = p.
Proof. destruct p. reflexivity. Qed.

Lemma creditWin_answered (callbackBaseUrl roundId playerId sessionId : string)
    (betAmount winAmount : float) (currency : string) (betTransactionId : Js.value)
    (w : World) (code : Z) (o : Js.object) :
  network w (fetched w) = Http code (BObject o) -> CallbackService.ok code = true ->
  CallbackService.is_undefined (Js.field "transactionId" o) = false ->
  let now := clock (proc w) in
  let payload := win_payload roundId playerId sessionId betAmount winAmount currency
                             betTransactionId now in
  let w1 := first_try (callbackBaseUrl ++ "/win")%string payload w in
  CallbackService.creditWin callbackBaseUrl roundId playerId sessionId betAmount winAmount
                            currency betTransactionId w
  = (Ok [ ("success", Js.Bool true); ("transactionId", Js.field "transactionId" o);
          ("newBalance", Js.field "newBalance" o);
          ("requestId", Js.Str (win_request roundId playerId now)) ],
     with_proc
       (with_pendingTransactions
          (cleared_pending betTransactionId (pendingTransactions (proc w1))) (proc w1)) w1).
Proof.
  intros Hn Hok Hu. cbn zeta.
  unfold CallbackService.creditWin, bind at 1, dateNow, gets at 1. cbn [proc].
  unfold bind at 1, gets at 1. cbn [proc].
  unfold try_catch, bind at 1. rewrite makeRequest_run.
  rewrite (outcome_answered w code (BObject o) Hn Hok).
  cbn [CallbackService.prop]. unfold bind at 1, ret at 1. rewrite Hu. cbn [negb].
  unfold bind at 1, CallbackService.clearPendingTransaction, modify at 1.
  unfold cleared_pending.
  set (w1 := first_try _ _ w).
  destruct (CallbackService.find_transaction betTransactionId (pendingTransactions (proc w1)));
    [reflexivity |].
  rewrite with_pending_same. reflexivity.
Qed.

Lemma creditWin_failed (callbackBaseUrl roundId playerId sessionId : string)
    (betAmount winAmount : float) (currency : string) (betTransactionId : Js.value)
    (w : World) (e1 e2 e3 : JsError) :
  all_fail w e1 e2 e3 ->
  let now := clock (proc w) in
  let payload := win_payload roundId playerId sessionId betAmount winAmount currency
                             betTransactionId now in
  CallbackService.creditWin callbackBaseUrl roundId playerId sessionId betAmount winAmount
                            currency betTransactionId w
  = (Ok [ ("success", Js.Bool false); ("code", Js.Str "CALLBACK_FAILED");
          ("message", Js.Str (message e3));
          ("requestId", Js.Str (win_request roundId playerId now)) ],
     third_try (callbackBaseUrl ++ "/win")%string payload w).
Proof.
  intros (H1 & H2 & H3). cbn zeta.
  unfold CallbackService.creditWin, bind at 1, dateNow, gets at 1. cbn [proc].
  unfold bind at 1, gets at 1. cbn [proc].
  unfold try_catch, bind at 1. rewrite makeRequest_run, H1, H2, H3. reflexivity.
Qed.

Lemma tries_pending (url : string) (payload : Js.object) (w : World) :
  quiet w ->
  pendingTransactions (proc (first_try url payload w)) = pendingTransactions (proc w)
  /\ pendingTransactions (proc (third_try url payload w)) = pendingTransactions (proc w).
Proof.
  intros Hq. unfold first_try, third_try, second_try, attempted, waited, resumed. cbn.
  repeat (rewrite !Hq; cbn). auto.
Qed.

(** A winner who has an active bet is credited by one call, with no other
    task in between: the payload names the bet amount, the win amount and
    the transaction id of the debit, and goes to the [/win] URL of the
    session's platform once when the platform answers, three times when it
    does not.  When the platform accepts, the result carries the win amount
    and the new balance, and the pending debit is cleared.  When the three
    attempts fail, the result is a failure with the message of the last
    error and the pending debit stays.  In both cases the active bet is
    dropped, so the credit is not tried again. *)
Theorem winner_is_credited_once :
  forall (w : World) (roundId playerId : string) (data : Winner.t) (activeBet : ActiveBet.t),
    quiet w ->
    JsMap.get playerId (activeBets (proc w)) = Some activeBet ->
    let payload := win_payload roundId playerId (Bet.sessionId (ActiveBet.bet activeBet))
                               (Winner.betAmount data) (Winner.winAmount data)
                               (ActiveBet.currency activeBet)
                               (ActiveBet.transactionId activeBet) (clock (proc w)) in
    let url := (ActiveBet.callbackBaseUrl activeBet ++ "/win")%string in
    exists entry w' n,
      BetService.processRoundResults roundId [(playerId, data)] [] w = (Ok [entry], w')
      /\ (1 <= n <= 3)%nat
      /\ trace w' = trace w ++ retry_trace url payload n
      /\ Js.field "betTransactionId" payload = ActiveBet.transactionId activeBet
      /\ JsMap.get playerId (activeBets (proc w')) = None
      /\ (forall code o,
            network w (fetched w) = Http code (BObject o) ->
            CallbackService.ok code = true ->
            CallbackService.is_undefined (Js.field "transactionId" o) = false ->
            n = 1%nat
            /\ entry = [ ("playerId", Js.Str playerId); ("success", Js.Bool true);
                         ("winAmount", Js.Num (Winner.winAmount data));
                         ("newBalance", Js.field "newBalance" o) ]
            /\ pendingTransactions (proc w')
               = cleared_pending (ActiveBet.transactionId activeBet)
                                 (pendingTransactions (proc w)))
      /\ (forall e1 e2 e3,
            all_fail w e1 e2 e3 ->
            n = 3%nat
            /\ entry = [ ("playerId", Js.Str playerId); ("success", Js.Bool false);
                         ("error", Js.or (Js.Str (message e3)) (Js.Str "CALLBACK_FAILED")) ]
            /\ pendingTransactions (proc w') = pendingTransactions (proc w)).
Proof.
  intros w roundId p data ab Hq Ha. cbn zeta.
  pose proof (process_winner_run roundId [] p data w Hq) as H. rewrite Ha in H.
  destruct H as (cb & w1 & w' & n & Ec & E & Hn & Ht & Hab & _ & Hp & _ & Hone & Hthree).
  exists (credit_entry p data cb), w', n.
  split.
  { unfold BetService.processRoundResults, bind.
    cbn [BetService.process_winners]. unfold bind. rewrite E. reflexivity. }
  split; [exact Hn |]. split; [exact Ht |]. split; [reflexivity |].
  split; [rewrite Hab, get_delete, String.eqb_refl; reflexivity |].
  split.
  - intros code o Hnet Hok Hu.
    split; [apply (Hone (BObject o)); apply (outcome_answered w code _ Hnet Hok) |].
    pose proof (creditWin_answered (ActiveBet.callbackBaseUrl ab) roundId p
                  (Bet.sessionId (ActiveBet.bet ab)) (Winner.betAmount data)
                  (Winner.winAmount data) (ActiveBet.currency ab)
                  (ActiveBet.transactionId ab) w code o Hnet Hok Hu) as Ea.
    cbn zeta in Ea. rewrite Ec in Ea. injection Ea as -> ->.
    split; [reflexivity |].
    rewrite Hp. cbn [proc with_proc pendingTransactions with_pendingTransactions].
    destruct (tries_pending (ActiveBet.callbackBaseUrl ab ++ "/win")%string
                (win_payload roundId p (Bet.sessionId (ActiveBet.bet ab))
                   (Winner.betAmount data) (Winner.winAmount data) (ActiveBet.currency ab)
                   (ActiveBet.transactionId ab) (clock (proc w))) w Hq) as [P1 _].
    clear P1. rewrite Hq. reflexivity.
  - intros e1 e2 e3 Hf.
    split; [apply (Hthree e1 e2 e3 Hf) |].
    pose proof (creditWin_failed (ActiveBet.callbackBaseUrl ab) roundId p
                  (Bet.sessionId (ActiveBet.bet ab)) (Winner.betAmount data)
                  (Winner.winAmount data) (ActiveBet.currency ab)
                  (ActiveBet.transactionId ab) w e1 e2 e3 Hf) as Ea.
    cbn zeta in Ea. rewrite Ec in Ea. injection Ea as -> ->.
    split; [reflexivity |].
    rewrite Hp.
    destruct (tries_pending (ActiveBet.callbackBaseUrl ab ++ "/win")%string
                (win_payload roundId p (Bet.sessionId (ActiveBet.bet ab))
                   (Winner.betAmount data) (Winner.winAmount data) (ActiveBet.currency ab)
                   (ActiveBet.transactionId ab) (clock (proc w))) w Hq) as [_ P3].
    exact P3.
Qed.

Lemma winner_is_credited_once_witness :
  exists entry w',
    BetService.processRoundResults "F-1" [("alice", Winner.mk 10%float 19.5%float "HEADS")] []
      (with_proc
         (with_activeBets
            [("alice", ActiveBet.mk (Bet.mk "alice" "SESSION-a" 10%float "HEADS" 1700000000500)
                                    (Js.Str "TX-0") "F-1" "http://platform" "EUR")]
            (proc (table two_bets))) (table two_bets)) = (Ok [entry], w')
    /\ JsMap.get "alice" (activeBets (proc w')) = None
    /\ entry = [ ("playerId", Js.Str "alice"); ("success", Js.Bool true);
                 ("winAmount", Js.Num 19.5%float); ("newBalance", Js.Num 90%float) ].
Proof.
  destruct (winner_is_credited_once
              (with_proc
                 (with_activeBets
                    [("alice", ActiveBet.mk
                                 (Bet.mk "alice" "SESSION-a" 10%float "HEADS" 1700000000500)
                                 (Js.Str "TX-0") "F-1" "http://platform" "EUR")]
                    (proc (table two_bets))) (table two_bets))
              "F-1" "alice" (Winner.mk 10%float 19.5%float "HEADS")
              (ActiveBet.mk (Bet.mk "alice" "SESSION-a" 10%float "HEADS" 1700000000500)
                            (Js.Str "TX-0") "F-1" "http://platform" "EUR"))
    as (entry & w' & n & E & _ & _ & _ & Ha & Hacc & _).
  - intros k p. reflexivity.
  - reflexivity.
  - destruct (Hacc 200 [ ("status", Js.Str "OK"); ("transactionId", Js.Str "TX-1");
                         ("newBalance", Js.Num 90%float) ] eq_refl eq_refl eq_refl)
      as (_ & He & _).
    exists entry, w'. split; [exact E |]. split; [exact Ha | exact He].
Defined.

(** ** The signature of the platform *)

Lemma unhex_hex_digit (n : Z) : 0 <= n < 16 -> Hmac.unhex (Crypto.hex_digit n) = Some n.
Proof.
  intros H.
  assert (Hc : List.In n (List.map Z.of_nat (List.seq 0 16))).
  { rewrite <- (Z2Nat.id n) by lia. apply List.in_map, List.in_seq. lia. }
  cbn in Hc.
  repeat (destruct Hc as [<- | Hc]; [reflexivity |]). destruct Hc.
Qed.

Lemma byte_halves (b : Z) :
  is_byte b ->
  0 <= Z.shiftr b 4 < 16 /\ 0 <= Z.land b 15 < 16
  /\ Z.shiftr b 4 * 16 + Z.land b 15 = b.
Proof.
  intros [H0 H1]. rewrite Z.shiftr_div_pow2 by lia.
  change 15 with (Z.ones 4). rewrite Z.land_ones by lia.
  change (2 ^ 4) with 16.
  pose proof (Z.div_mod b 16 ltac:(lia)) as Hd.
  pose proof (Z.mod_pos_bound b 16 ltac:(lia)) as Hm.
  assert (0 <= b / 16 < 16).
  { split; [apply Z.div_pos; lia | apply Z.div_lt_upper_bound; lia]. }
  lia.
Qed.

Lemma hex_decode_hex (l : Crypto.bytes) :
  List.Forall is_byte l -> Hmac.hex_decode (Crypto.hex l) = l.
Proof.
  induction 1 as [| b l Hb _ IH]; [reflexivity |].
  destruct (byte_halves b Hb) as (H1 & H2 & H3).
  cbn [Crypto.hex Hmac.hex_decode].
  rewrite (unhex_hex_digit _ H1), (unhex_hex_digit _ H2), IH, H3. reflexivity.
Qed.

Lemma land_byte (x : Z) : is_byte (Z.land x 0xFF).
Proof.
  unfold is_byte. change 0xFF with (Z.ones 8). rewrite Z.land_ones by lia.
  apply Z.mod_pos_bound. reflexivity.
Qed.

Lemma digest_bytes (s : Crypto.regs) :
  let d := Crypto.digest_of s in
  List.length (fst d :: snd d) = 32%nat /\ List.Forall is_byte (fst d :: snd d).
Proof.
  cbn zeta. unfold Crypto.digest_of, Crypto.bytes_of_word. cbn [fst snd List.tl List.app].
  split; [reflexivity |].
  repeat (apply List.Forall_cons; [apply land_byte |]). apply List.Forall_nil.
Qed.

Lemma hmac_bytes_format (key message : string) :
  List.length (hmac_bytes key message) = 32%nat
  /\ List.Forall is_byte (hmac_bytes key message)
  /\ Crypto.hmacSha256 key message = Crypto.hex (hmac_bytes key message).
Proof.
  with_strategy transparent [Crypto.hmacSha256Buffer]
    unfold hmac_bytes, Crypto.hmacSha256, Crypto.hmacSha256Buffer.
  destruct (digest_bytes (Crypto.hmac_regs key message)) as [H1 H2].
  cbn zeta in H1, H2. auto.
Qed.

Lemma same_bytes_eq (a b : Crypto.bytes) : Hmac.same_bytes a b = true <-> a = b.
Proof.
  revert b. induction a as [| x a IH]; intros [| y b]; cbn; try (split; congruence).
  rewrite andb_true_iff, Z.eqb_eq, IH. split; [intros [-> ->]; reflexivity |].
  intros H. injection H as -> ->. auto.
Qed.

(** [validateSignature] accepts the signature that the platform computes,
    the HMAC-SHA256 of [playerId + token + timestamp] under the provider
    secret in hexadecimal.  For a signature that decodes to 32 bytes it
    answers whether these are the bytes of that HMAC.  For any other
    signature (empty, cut short, or not hexadecimal from some point on) it
    does not answer false: it throws. *)
Theorem validateSignature_accepts_the_hmac :
  forall (providerSecret playerId token timestamp : string),
    let expected := hmac_bytes providerSecret (playerId ++ token ++ timestamp)%string in
    Hmac.validateSignature providerSecret playerId token timestamp
      (Crypto.hmacSha256 providerSecret (playerId ++ token ++ timestamp)%string) = Ok true
    /\ Hmac.hex_decode (Crypto.hex expected) = expected
    /\ (forall signature,
          List.length (Hmac.hex_decode signature) = 32%nat ->
          exists valid,
            Hmac.validateSignature providerSecret playerId token timestamp signature
            = Ok valid
            /\ (valid = true <-> Hmac.hex_decode signature = expected))
    /\ (forall signature,
          List.length (Hmac.hex_decode signature) <> 32%nat ->
          Hmac.validateSignature providerSecret playerId token timestamp signature
          = Throw (Error "Input buffers must have the same byte length"))
    /\ Hmac.validateSignature providerSecret playerId token timestamp ""
       = Throw (Error "Input buffers must have the same byte length")
    /\ Hmac.hex_decode "0aFFzz12" = [10; 255].
Proof.
  intros secret p t ts expected.
  destruct (hmac_bytes_format secret (p ++ t ++ ts)%string) as (Hlen & Hb & Hhex).
  fold expected in Hlen, Hb, Hhex.
  pose proof (hex_decode_hex expected Hb) as Hrt.
  assert (Hv : forall signature,
             Hmac.validateSignature secret p t ts signature
             = Hmac.timingSafeEqual (Hmac.hex_decode signature) expected).
  { intros signature. unfold Hmac.validateSignature. cbn zeta. rewrite Hhex, Hrt.
    reflexivity. }
  split.
  { rewrite Hv, Hhex, Hrt. unfold Hmac.timingSafeEqual. rewrite Nat.eqb_refl.
    f_equal. apply same_bytes_eq. reflexivity. }
  split; [exact Hrt |]. split.
  { intros signature Hl. rewrite Hv. unfold Hmac.timingSafeEqual. rewrite Hl, Hlen.
    rewrite Nat.eqb_refl. eexists. split; [reflexivity |].
    apply same_bytes_eq. }
  assert (Hne : forall signature,
             List.length (Hmac.hex_decode signature) <> 32%nat ->
             Hmac.validateSignature secret p t ts signature
             = Throw (Error "Input buffers must have the same byte length")).
  { intros signature Hl. rewrite Hv. unfold Hmac.timingSafeEqual. rewrite Hlen.
    destruct (Nat.eqb (List.length (Hmac.hex_decode signature)) 32) eqn:E; [| reflexivity].
    apply Nat.eqb_eq in E. contradiction. }
  split; [exact Hne |]. split; [apply Hne; cbn; discriminate |].
  reflexivity.
Qed.

Lemma validateSignature_accepts_the_hmac_witness :
  Hmac.validateSignature "secret" "player-1" "token" "1700000000"
    (Crypto.hmacSha256 "secret" "player-1token1700000000") = Ok true
  /\ Hmac.validateSignature "secret" "player-1" "token" "1700000000" "abcd"
     = Throw (Error "Input buffers must have the same byte length").
Proof.
  destruct (validateSignature_accepts_the_hmac "secret" "player-1" "token" "1700000000")
    as (H1 & _ & _ & H4 & _).
  split; [exact H1 | apply H4; cbn; discriminate].
Defined.

(** ** Rollbacks *)

Lemma rollback_answered (callbackBaseUrl roundId playerId sessionId : string)
    (amount : float) (currency : string) (originalTransactionId : Js.value)
    (reason : string) (w : World) (code : Z) (o : Js.object) :
  network w (fetched w) = Http code (BObject o) -> CallbackService.ok code = true ->
  let now := clock (proc w) in
  let payload := rollback_payload roundId playerId sessionId amount currency
                                  originalTransactionId reason now in
  let w1 := first_try (callbackBaseUrl ++ "/rollback")%string payload w in
  CallbackService.rollback callbackBaseUrl roundId playerId sessionId amount currency
                           originalTransactionId reason w
  = if Js.strict_eq (Js.field "status" o) (Js.Str "OK")
    then (Ok [ ("success", Js.Bool true); ("transactionId", Js.field "transactionId" o);
               ("newBalance", Js.field "newBalance" o);
               ("requestId", Js.Str (rollback_request roundId playerId now)) ],
          with_proc
            (with_pendingTransactions
               (cleared_pending originalTransactionId (pendingTransactions (proc w1)))
               (proc w1)) w1)
    else (Ok [ ("success", Js.Bool false); ("code", Js.field "code" o);
               ("message", Js.field "message" o);
               ("requestId", Js.Str (rollback_request roundId playerId now)) ], w1).
Proof.
  intros Hn Hok. cbn zeta.
  unfold CallbackService.rollback, bind at 1, dateNow, gets at 1. cbn [proc].
  unfold bind at 1, gets at 1. cbn [proc].
  unfold try_catch, bind at 1. rewrite makeRequest_run.
  rewrite (outcome_answered w code (BObject o) Hn Hok).
  cbn [CallbackService.prop]. unfold bind at 1, ret at 1.
  destruct (Js.strict_eq (Js.field "status" o) (Js.Str "OK")); [| reflexivity].
  unfold bind at 1, CallbackService.clearPendingTransaction, modify at 1.
  unfold cleared_pending.
  set (w1 := first_try _ _ w).
  destruct (CallbackService.find_transaction originalTransactionId
              (pendingTransactions (proc w1)));
    [reflexivity |].
  rewrite with_pending_same. reflexivity.
Qed.

Lemma rollback_failed (callbackBaseUrl roundId playerId sessionId : string)
    (amount : float) (currency : string) (originalTransactionId : Js.value)
    (reason : string) (w : World) (e1 e2 e3 : JsError) :
  all_fail w e1 e2 e3 ->
  let now := clock (proc w) in
  let payload := rollback_payload roundId playerId sessionId amount currency
                                  originalTransactionId reason now in
  CallbackService.rollback callbackBaseUrl roundId playerId sessionId amount currency
                           originalTransactionId reason w
  = (Ok [ ("success", Js.Bool false); ("code", Js.Str "CALLBACK_FAILED");
          ("message", Js.Str (message e3));
          ("requestId", Js.Str (rollback_request roundId playerId now)) ],
     third_try (callbackBaseUrl ++ "/rollback")%string payload w).
Proof.
  intros (H1 & H2 & H3). cbn zeta.
  unfold CallbackService.rollback, bind at 1, dateNow, gets at 1. cbn [proc].
  unfold bind at 1, gets at 1. cbn [proc].
  unfold try_catch, bind at 1. rewrite makeRequest_run, H1, H2, H3. reflexivity.
Qed.

(** A rollback counts as done only when the platform answers with the
    status OK: then the result is a success with the platform's transaction
    id and balance, and the pending transaction of the refunded debit is
    cleared.  Any other answer of the platform is not tried again: one
    request is sent, the result is a failure with the platform's code and
    message, and the pending transactions stay.  When the three attempts
    fail the result is the failure CALLBACK_FAILED and the pending
    transactions stay as well.  The rollback never throws. *)
Theorem rollback_done_on_status_ok :
  forall (w : World) (callbackBaseUrl roundId playerId sessionId : string)
         (amount : float) (currency : string) (originalTransactionId : Js.value)
         (reason : string),
    quiet w ->
    let payload := rollback_payload roundId playerId sessionId amount currency
                                    originalTransactionId reason (clock (proc w)) in
    let url := (callbackBaseUrl ++ "/rollback")%string in
    let rollback := CallbackService.rollback callbackBaseUrl roundId playerId sessionId
                      amount currency originalTransactionId reason in
    (forall code o,
        network w (fetched w) = Http code (BObject o) ->
        CallbackService.ok code = true ->
        exists result w',
          rollback w = (Ok result, w')
          /\ trace w' = trace w ++ [HttpPost url payload]
          /\ Js.field "success" result
             = Js.Bool (Js.strict_eq (Js.field "status" o) (Js.Str "OK"))
          /\ (Js.strict_eq (Js.field "status" o) (Js.Str "OK") = true ->
              Js.field "transactionId" result = Js.field "transactionId" o
              /\ Js.field "newBalance" result = Js.field "newBalance" o
              /\ pendingTransactions (proc w')
                 = cleared_pending originalTransactionId (pendingTransactions (proc w)))
          /\ (Js.strict_eq (Js.field "status" o) (Js.Str "OK") = false ->
              Js.field "code" result = Js.field "code" o
              /\ Js.field "message" result = Js.field "message" o
              /\ pendingTransactions (proc w') = pendingTransactions (proc w)))
    /\ (forall e1 e2 e3,
          all_fail w e1 e2 e3 ->
          exists result w',
            rollback w = (Ok result, w')
            /\ trace w' = trace w ++ retry_trace url payload 3
            /\ Js.field "success" result = Js.Bool false
            /\ Js.field "code" result = Js.Str "CALLBACK_FAILED"
            /\ Js.field "message" result = Js.Str (message e3)
            /\ pendingTransactions (proc w') = pendingTransactions (proc w)).
Proof.
  intros w base roundId playerId sessionId amount currency tx reason Hq payload url rollback.
  destruct (tries_pending url payload w Hq) as [P1 P3].
  destruct (tries_trace url payload w) as (T1 & _ & T3).
  split.
  - intros code o Hn Hok. unfold rollback.
    rewrite (rollback_answered base roundId playerId sessionId amount currency tx reason
               w code o Hn Hok).
    cbn zeta. fold payload url.
    destruct (Js.strict_eq (Js.field "status" o) (Js.Str "OK")) eqn:Es.
    + do 2 eexists. split; [reflexivity |]. split; [exact T1 |].
      split; [reflexivity |]. split; [| discriminate].
      intros _. split; [reflexivity |]. split; [reflexivity |].
      cbn [proc with_proc pendingTransactions with_pendingTransactions].
      rewrite P1. reflexivity.
    + do 2 eexists. split; [reflexivity |]. split; [exact T1 |].
      split; [reflexivity |]. split; [discriminate |].
      intros _. split; [reflexivity |]. split; [reflexivity |]. exact P1.
  - intros e1 e2 e3 Hf. unfold rollback.
    rewrite (rollback_failed base roundId playerId sessionId amount currency tx reason
               w e1 e2 e3 Hf).
    cbn zeta. fold payload url.
    do 2 eexists. split; [reflexivity |]. split; [exact T3 |].
    repeat (split; [reflexivity |]). exact P3.
Qed.

Lemma rollback_done_on_status_ok_witness :
  (exists result w',
      CallbackService.rollback "http://platform" "F-1700000000000-7" "alice" "SESSION-a"
        10%float "EUR" (Js.Str "TX-1") "REGISTRATION_FAILED" (table JsMap.empty)
      = (Ok result, w')
      /\ Js.field "success" result = Js.Bool true
      /\ List.length (trace w') = 1%nat)
  /\ (exists result w',
        CallbackService.rollback "http://platform" "F-1700000000000-7" "alice" "SESSION-a"
          10%float "EUR" (Js.Str "TX-1") "REGISTRATION_FAILED"
          (mkWorld (table_process JsMap.empty) (fun _ => "00")
             (fun _ => Http 200 (BObject [ ("status", Js.Str "ERROR");
                                           ("code", Js.Str "TRANSACTION_NOT_FOUND") ]))
             0%nat (fun _ p => p) 0%nat [])
        = (Ok result, w')
        /\ Js.field "success" result = Js.Bool false
        /\ List.length (trace w') = 1%nat).
Proof.
  split.
  - destruct (rollback_done_on_status_ok (table JsMap.empty) "http://platform"
                "F-1700000000000-7" "alice" "SESSION-a" 10%float "EUR" (Js.Str "TX-1")
                "REGISTRATION_FAILED" (fun _ _ => eq_refl)) as [H _].
    destruct (H 200 [ ("status", Js.Str "OK"); ("transactionId", Js.Str "TX-1");
                      ("newBalance", Js.Num 90%float) ] eq_refl eq_refl)
      as (result & w' & E & Ht & Hs & _).
    exists result, w'. split; [exact E |]. split; [exact Hs |]. rewrite Ht. reflexivity.
  - destruct (rollback_done_on_status_ok
                (mkWorld (table_process JsMap.empty) (fun _ => "00")
                   (fun _ => Http 200 (BObject [ ("status", Js.Str "ERROR");
                                                 ("code", Js.Str "TRANSACTION_NOT_FOUND") ]))
                   0%nat (fun _ p => p) 0%nat [])
                "http://platform"
                "F-1700000000000-7" "alice" "SESSION-a" 10%float "EUR" (Js.Str "TX-1")
                "REGISTRATION_FAILED" (fun _ _ => eq_refl)) as [H _].
    destruct (H 200 [ ("status", Js.Str "ERROR"); ("code", Js.Str "TRANSACTION_NOT_FOUND") ]
                eq_refl eq_refl)
      as (result & w' & E & Ht & Hs & _).
    exists result, w'. split; [exact E |]. split; [exact Hs |]. rewrite Ht. reflexivity.
Defined.

(** ** A debit and its rollback *)

Lemma set_absent {V : Type} (k : string) (v : V) (m : JsMap.t V) :
  JsMap.get k m = None -> JsMap.set k v m = m ++ [(k, v)].
Proof.
  induction m as [| [k' v'] m IH]; [reflexivity |]. cbn.
  destruct (String.eqb k k'); [discriminate |]. intros H. rewrite (IH H). reflexivity.
Qed.

Lemma delete_last {V : Type} (k : string) (v : V) (m : JsMap.t V) :
  JsMap.get k m = None -> JsMap.delete k (m ++ [(k, v)]) = m.
Proof.
  induction m as [| [k' v'] m IH]; cbn.
  - rewrite String.eqb_refl. reflexivity.
  - destruct (String.eqb k k'); [discriminate |]. intros H. rewrite (IH H). reflexivity.
Qed.

Lemma find_transaction_last (transactionId : Js.value) (k : string) (tx : Js.object)
    (m : JsMap.t Js.object) :
  CallbackService.find_transaction transactionId m = None ->
  Js.strict_eq (Js.field "transactionId" tx) transactionId = true ->
  CallbackService.find_transaction transactionId (m ++ [(k, tx)]) = Some k.
Proof.
  intros Hm Htx. induction m as [| [k' tx'] m IH]; cbn.
  - rewrite Htx. reflexivity.
  - cbn in Hm. destruct (Js.strict_eq (Js.field "transactionId" tx') transactionId);
      [discriminate |]. exact (IH Hm).
Qed.

Lemma cleared_pending_bet (roundId playerId sessionId : string) (amount : float)
    (currency : string) (now : Z) (transactionId : Js.value) (requestId : string)
    (pending : JsMap.t Js.object) :
  Js.strict_eq transactionId transactionId = true ->
  CallbackService.find_transaction transactionId pending = None ->
  JsMap.get requestId pending = None ->
  cleared_pending transactionId
    (JsMap.set requestId
       (pending_bet (bet_payload roundId playerId sessionId amount currency now)
                    transactionId) pending)
  = pending.
Proof.
  intros Hs Hf Hg. unfold cleared_pending. rewrite (set_absent _ _ _ Hg).
  rewrite (find_transaction_last transactionId requestId
             (pending_bet (bet_payload roundId playerId sessionId amount currency now)
                          transactionId) pending Hf Hs).
  apply delete_last. exact Hg.
Qed.

(** The debit of [placeBet] followed by the rollback of its [catch] block.
    A debit that the platform accepts leaves a pending transaction; the
    rollback of its transaction id, once the platform answers with the
    status OK, removes it again.  When the transaction id was not pending
    before and the request id of the debit is new, the pending transactions
    are afterwards what they were before the debit, and two requests have
    been sent: the debit to [/bet] and the rollback, naming the
    transaction id of the debit and the reason REGISTRATION_FAILED, to
    [/rollback]. *)
Theorem refunded_debit_is_not_pending :
  forall (w : World) (sessionId : string) (t : BetService.Ticket)
         (c1 c2 : Z) (o1 o2 : Js.object),
    quiet w ->
    network w (fetched w) = Http c1 (BObject o1) -> CallbackService.ok c1 = true ->
    network w (S (fetched w)) = Http c2 (BObject o2) -> CallbackService.ok c2 = true ->
    CallbackService.is_undefined (Js.field "transactionId" o1) = false ->
    Js.strict_eq (Js.field "transactionId" o1) (Js.field "transactionId" o1) = true ->
    Js.strict_eq (Js.field "status" o2) (Js.Str "OK") = true ->
    CallbackService.find_transaction (Js.field "transactionId" o1)
      (pendingTransactions (proc w)) = None ->
    JsMap.get (bet_request (BetService.roundId t) (BetService.playerId t) (clock (proc w)))
      (pendingTransactions (proc w)) = None ->
    exists result w',
      (callbackResult <- BetService.debit sessionId t ;;
       BetService.refund sessionId t callbackResult) w
      = (Ok result, w')
      /\ Js.field "success" result = Js.Bool true
      /\ pendingTransactions (proc w') = pendingTransactions (proc w)
      /\ trace w'
         = trace w
           ++ [ HttpPost (BetService.callbackBaseUrl t ++ "/bet")%string
                  (bet_payload (BetService.roundId t) (BetService.playerId t) sessionId
                     (BetService.roundedAmount t) (BetService.currency t) (clock (proc w)));
                HttpPost (BetService.callbackBaseUrl t ++ "/rollback")%string
                  (rollback_payload (BetService.roundId t) (BetService.playerId t) sessionId
                     (BetService.roundedAmount t) (BetService.currency t)
                     (Js.field "transactionId" o1) "REGISTRATION_FAILED"
                     (clock (proc w))) ].
Proof.
  intros w sessionId [playerId currency base roundId amount] c1 c2 o1 o2
         Hq Hn1 Hok1 Hn2 Hok2 Hu Hs Hst Hf Hg.
  cbn [BetService.roundId BetService.playerId BetService.callbackBaseUrl
       BetService.roundedAmount BetService.currency] in *.
  unfold BetService.debit, BetService.refund, bind at 1.
  cbn [BetService.roundId BetService.playerId BetService.callbackBaseUrl
       BetService.roundedAmount BetService.currency].
  rewrite (placeBet_answered base roundId playerId sessionId amount currency w c1 o1 Hn1 Hok1).
  cbn zeta. rewrite Hu.
  set (payload := bet_payload roundId playerId sessionId amount currency (clock (proc w))).
  destruct (first_try_quiet (base ++ "/bet")%string payload w Hq) as (Ep & Et & Ec).
  set (w1 := first_try (base ++ "/bet")%string payload w) in *.
  set (w2 := with_proc _ w1).
  assert (Hq2 : quiet w2).
  { intros k p. change (concurrent w2) with (concurrent w1). rewrite Ec. apply Hq. }
  assert (Hn : network w2 (fetched w2) = Http c2 (BObject o2)) by exact Hn2.
  assert (Ecl : clock (proc w2) = clock (proc w)).
  { unfold w2. cbn [proc with_proc clock with_pendingTransactions]. rewrite Ep.
    destruct (proc w). reflexivity. }
  change (Js.field "transactionId"
            [("success", Js.Bool true); ("transactionId", Js.field "transactionId" o1);
             ("newBalance", Js.field "newBalance" o1);
             ("requestId", Js.Str (bet_request roundId playerId (clock (proc w))))])
    with (Js.field "transactionId" o1).
  rewrite (rollback_answered base roundId playerId sessionId amount currency
             (Js.field "transactionId" o1) "REGISTRATION_FAILED" w2 c2 o2 Hn Hok2).
  cbn zeta. rewrite Hst, Ecl.
  set (payload2 := rollback_payload _ _ _ _ _ _ _ _).
  destruct (first_try_quiet (base ++ "/rollback")%string payload2 w2 Hq2) as (Ep2 & Et2 & _).
  do 2 eexists. split; [reflexivity |]. split; [reflexivity |]. split.
  - cbn [proc with_proc pendingTransactions with_pendingTransactions].
    rewrite Ep2. unfold w2. cbn [proc with_proc pendingTransactions with_pendingTransactions].
    rewrite Ep.
    apply cleared_pending_bet; assumption.
  - cbn [trace with_proc]. rewrite Et2.
    change (trace w2) with (trace w1). rewrite Et, <- List.app_assoc. reflexivity.
Qed.

Lemma refunded_debit_is_not_pending_witness :
  exists result w',
    (callbackResult <-
       BetService.debit "SESSION-a"
         (BetService.mkTicket "alice" "EUR" "http://platform" "F-1700000000000-7" 10%float) ;;
     BetService.refund "SESSION-a"
       (BetService.mkTicket "alice" "EUR" "http://platform" "F-1700000000000-7" 10%float)
       callbackResult) (table JsMap.empty)
    = (Ok result, w')
    /\ pendingTransactions (proc w') = JsMap.empty
    /\ List.length (trace w') = 2%nat.
Proof.
  destruct (refunded_debit_is_not_pending (table JsMap.empty) "SESSION-a"
              (BetService.mkTicket "alice" "EUR" "http://platform" "F-1700000000000-7"
                                   10%float)
              200 200
              [ ("status", Js.Str "OK"); ("transactionId", Js.Str "TX-1");
                ("newBalance", Js.Num 90%float) ]
              [ ("status", Js.Str "OK"); ("transactionId", Js.Str "TX-1");
                ("newBalance", Js.Num 90%float) ]
              (fun _ _ => eq_refl) eq_refl eq_refl eq_refl eq_refl eq_refl eq_refl eq_refl
              eq_refl eq_refl)
    as (result & w' & E & _ & Hp & Ht).
  exists result, w'. split; [exact E |]. split; [exact Hp |]. rewrite Ht. reflexivity.
Defined.

(** ** The balance sent to a player *)

Lemma field_assign_same (k : string) (v : Js.value) (o : Js.object) :
  Js.field k (CallbackService.assign k v o) = v.
Proof.
  induction o as [| [k' v'] o IH]; cbn.
  - rewrite String.eqb_refl. reflexivity.
  - destruct (String.eqb k k') eqn:E; cbn; rewrite E; [reflexivity | exact IH].
Qed.

Lemma field_assign_other (k k' : string) (v : Js.value) (o : Js.object) :
  String.eqb k k' = false ->
  Js.field k (CallbackService.assign k' v o) = Js.field k o.
Proof.
  intros Hk. induction o as [| [k0 v0] o IH]; cbn.
  - rewrite Hk. reflexivity.
  - destruct (String.eqb k' k0) eqn:E; cbn.
    + apply String.eqb_eq in E. subst k0. rewrite Hk. reflexivity.
    + rewrite IH. reflexivity.
Qed.

Lemma sessions_with_trace (t : list Effect) (w : World) :
  sessions_of (with_trace t w) = sessions_of w.
Proof. reflexivity. Qed.

Lemma getBalance_answered (callbackBaseUrl playerId sessionId : string) (w : World)
    (code : Z) (o : Js.object) :
  network w (fetched w) = Http code (BObject o) -> CallbackService.ok code = true ->
  CallbackService.getBalance callbackBaseUrl playerId sessionId w
  = (Ok (CallbackService.assign "success" (Js.Bool true) o),
     first_try (callbackBaseUrl ++ "/balance")%string
               (balance_payload playerId sessionId (clock (proc w))) w).
Proof.
  intros Hn Hok.
  unfold CallbackService.getBalance, bind at 1, dateNow, gets at 1. cbn [proc].
  unfold try_catch, bind at 1. rewrite makeRequest_run.
  rewrite (outcome_answered w code (BObject o) Hn Hok). reflexivity.
Qed.

Lemma getBalance_failed (callbackBaseUrl playerId sessionId : string) (w : World)
    (e1 e2 e3 : JsError) :
  all_fail w e1 e2 e3 ->
  CallbackService.getBalance callbackBaseUrl playerId sessionId w
  = (Ok [ ("success", Js.Bool false); ("code", Js.Str "CALLBACK_FAILED");
          ("message", Js.Str (message e3)) ],
     third_try (callbackBaseUrl ++ "/balance")%string
               (balance_payload playerId sessionId (clock (proc w))) w).
Proof.
  intros (H1 & H2 & H3).
  unfold CallbackService.getBalance, bind at 1, dateNow, gets at 1. cbn [proc].
  unfold try_catch, bind at 1. rewrite makeRequest_run, H1, H2, H3. reflexivity.
Qed.

(** [sendBalanceUpdate] never throws.  Whatever object the platform answers
    with a 2xx status counts as a balance: its [balance] is stored in the
    session, when the directory still has it, and sent as [balance_update]
    with the platform's currency or else the session's, after one request.
    When the three attempts fail the directory is left as it is and, after
    the three requests, the cached balance of the session is sent as
    [balance_update] marked [cached], unless there is no session or its
    balance is null: then the error BALANCE_FETCH_FAILED is sent. *)
Theorem balance_update_falls_back_to_cache :
  forall (w : World) (socket : string) (session : Session.t),
    quiet w ->
    let sessionId := Session.sessionId session in
    let url := (Session.callbackBaseUrl session ++ "/balance")%string in
    let payload := balance_payload (Session.playerId session) sessionId (clock (proc w)) in
    (forall code o,
        network w (fetched w) = Http code (BObject o) ->
        CallbackService.ok code = true ->
        exists w',
          ControlsNamespace.sendBalanceUpdate socket session w = (Ok tt, w')
          /\ trace w'
             = trace w
               ++ [ HttpPost url payload;
                    SocketEmit socket "balance_update"
                      [ ("balance", Js.field "balance" o);
                        ("currency", Js.or (Js.field "currency" o)
                                           (Js.Str (Session.currency session))) ] ]
          /\ fst (SessionService.getBalance sessionId w')
             = Ok (option_map (fun _ => Js.field "balance" o)
                              (JsMap.get sessionId (sessions_of w))))
    /\ (forall e1 e2 e3,
          all_fail w e1 e2 e3 ->
          exists w' sent,
            ControlsNamespace.sendBalanceUpdate socket session w = (Ok tt, w')
            /\ sessions_of w' = sessions_of w
            /\ trace w' = trace w ++ retry_trace url payload 3 ++ [sent]
            /\ (forall s,
                  JsMap.get sessionId (sessions_of w) = Some s ->
                  Session.balance s <> Js.Null ->
                  sent = SocketEmit socket "balance_update"
                           [ ("balance", Session.balance s);
                             ("currency", Js.Str (Session.currency session));
                             ("cached", Js.Bool true) ])
            /\ (JsMap.get sessionId (sessions_of w) = None
                \/ (exists s, JsMap.get sessionId (sessions_of w) = Some s
                              /\ Session.balance s = Js.Null) ->
                sent = SocketEmit socket "error"
                         [ ("code", Js.Str "BALANCE_FETCH_FAILED");
                           ("message", Js.Str "Could not fetch balance") ])).
Proof.
  intros w socket session Hq sessionId url payload. split.
  - intros code o Hn Hok.
    unfold ControlsNamespace.sendBalanceUpdate, try_catch, bind at 1.
    rewrite (getBalance_answered _ _ _ w code o Hn Hok).
    fold sessionId url payload.
    rewrite field_assign_same. cbn [Js.truthy].
    rewrite !field_assign_other by reflexivity.
    destruct (first_try_quiet url payload w Hq) as (Ep & Et & _).
    set (w1 := first_try url payload w) in *.
    assert (Es : sessions_of w1 = sessions_of w) by (unfold sessions_of; rewrite Ep; reflexivity).
    unfold bind at 1. rewrite updateBalance_run, Es.
    destruct (JsMap.get sessionId (sessions_of w)) as [s |] eqn:Eg.
    + eexists. split; [reflexivity |]. split.
      * cbn [snd record trace with_trace rewritten with_proc]. rewrite Et, <- List.app_assoc.
        reflexivity.
      * rewrite getBalance_run. cbn [fst option_map]. f_equal.
        rewrite sessions_with_trace, sessions_rewritten, get_set_same. reflexivity.
    + eexists. split; [reflexivity |]. split.
      * cbn [snd record trace with_trace]. rewrite Et, <- List.app_assoc. reflexivity.
      * rewrite getBalance_run. cbn [fst option_map]. f_equal.
        rewrite sessions_with_trace, Es, Eg. reflexivity.
  - intros e1 e2 e3 Hf.
    unfold ControlsNamespace.sendBalanceUpdate, try_catch, bind at 1.
    rewrite (getBalance_failed _ _ _ w e1 e2 e3 Hf).
    fold sessionId url payload.
    change (Js.truthy (Js.field "success" _)) with false. cbv iota.
    destruct (tries_services url payload w Hq) as (_ & _ & S3).
    destruct (tries_trace url payload w) as (_ & _ & T3).
    set (w3 := third_try url payload w) in *.
    assert (Es : sessions_of w3 = sessions_of w).
    { unfold sessions_of. destruct S3 as (_ & -> & _). reflexivity. }
    unfold bind at 1. rewrite getBalance_run, Es.
    assert (Hrun : forall e : Effect,
               (let (r, w'0) := record e w3 in
                match r with
                | Ok a => (Ok a, w'0)
                | Throw e0 =>
                    record (SocketEmit socket "error"
                              [ ("code", Js.Str "BALANCE_FETCH_FAILED");
                                ("message", Js.Str (message e0)) ]) w'0
                end) = (Ok tt, with_trace (trace w3 ++ [e]) w3)) by reflexivity.
    assert (Htr : forall e : Effect,
               trace (with_trace (trace w3 ++ [e]) w3)
               = trace w ++ retry_trace url payload 3 ++ [e]).
    { intros e. cbn [trace with_trace]. rewrite T3, <- List.app_assoc. reflexivity. }
    destruct (JsMap.get sessionId (sessions_of w)) as [s |] eqn:Eg; cbn [option_map].
    + destruct (Session.balance s) eqn:Eb; cbv iota; rewrite Hrun.
      all: eexists; eexists.
      all: split; [reflexivity |].
      all: split; [rewrite sessions_with_trace; exact Es |].
      all: split; [apply Htr |].
      all: split.
      all: try (intros s' Hs' Hb; injection Hs' as <-; rewrite Eb in *;
                first [reflexivity | contradiction]).
      all: intros [H | (s' & Hs' & Hb)]; [discriminate |];
        injection Hs' as <-; rewrite Eb in Hb; first [discriminate | reflexivity].
    + rewrite Hrun. do 2 eexists. split; [reflexivity |].
      split; [rewrite sessions_with_trace; exact Es |]. split; [apply Htr |].
      split.
      * intros s' Hs'. discriminate.
      * intros _. reflexivity.
Qed.

Lemma balance_update_falls_back_to_cache_witness :
  (exists w',
      ControlsNamespace.sendBalanceUpdate "socket-1" (session_of "SESSION-a" "alice")
        (mkWorld (table_process JsMap.empty) (fun _ => "00")
           (fun _ => Http 200 (BObject [ ("status", Js.Str "OK");
                                         ("balance", Js.Num 90%float) ]))
           0%nat (fun _ p => p) 0%nat [])
      = (Ok tt, w')
      /\ fst (SessionService.getBalance "SESSION-a" w') = Ok (Some (Js.Num 90%float)))
  /\ (exists w',
        ControlsNamespace.sendBalanceUpdate "socket-1" (session_of "SESSION-a" "alice")
          (mkWorld (table_process JsMap.empty) (fun _ => "00") (fun _ => Failed "timeout")
             0%nat (fun _ p => p) 0%nat [])
        = (Ok tt, w')
        /\ List.last (trace w') (Wait 0)
           = SocketEmit "socket-1" "balance_update"
               [ ("balance", Js.Int 0); ("currency", Js.Str "EUR");
                 ("cached", Js.Bool true) ]).
Proof.
  split.
  - destruct (balance_update_falls_back_to_cache
                (mkWorld (table_process JsMap.empty) (fun _ => "00")
                   (fun _ => Http 200 (BObject [ ("status", Js.Str "OK");
                                                 ("balance", Js.Num 90%float) ]))
                   0%nat (fun _ p => p) 0%nat [])
                "socket-1" (session_of "SESSION-a" "alice") (fun _ _ => eq_refl)) as [H _].
    destruct (H 200 [ ("status", Js.Str "OK"); ("balance", Js.Num 90%float) ]
                eq_refl eq_refl) as (w' & E & _ & Hb).
    exists w'. split; [exact E | exact Hb].
  - destruct (balance_update_falls_back_to_cache
                (mkWorld (table_process JsMap.empty) (fun _ => "00")
                   (fun _ => Failed "timeout") 0%nat (fun _ p => p) 0%nat [])
                "socket-1" (session_of "SESSION-a" "alice") (fun _ _ => eq_refl)) as [_ H].
    destruct (H (Error "timeout") (Error "timeout") (Error "timeout")
                (conj eq_refl (conj eq_refl eq_refl)))
      as (w' & sent & E & _ & Ht & Hc & _).
    exists w'. split; [exact E |]. rewrite Ht.
    rewrite (Hc (session_of "SESSION-a" "alice") eq_refl); [reflexivity | discriminate].
Defined.

(** ** What the players are told when a round finishes *)

Lemma only_sessions_trans (w1 w2 w3 : World) :
  only_sessions w1 w2 -> only_sessions w2 w3 -> only_sessions w1 w3.
Proof.
  unfold only_sessions.
  intros (A1 & A2 & A3 & A4 & A5 & A6 & A7 & A8) (B1 & B2 & B3 & B4 & B5 & B6 & B7 & B8).
  repeat split; congruence.
Qed.

Lemma notify_winner_run (round : Round.t) (processResults : list Js.object)
    (winner : string * Winner.t) (w : World) :
  exists w' told,
    RoundService.notify_winner round processResults winner w = (Ok tt, w')
    /\ trace w' = trace w ++ told /\ List.Forall notice told
    /\ (List.length told <= 2)%nat
    /\ flipEngine (proc w') = flipEngine (proc w)
    /\ activeBets (proc w') = activeBets (proc w)
    /\ pendingTransactions (proc w') = pendingTransactions (proc w).
Proof.
  unfold RoundService.notify_winner, bind at 1.
  destruct (getSessionByPlayerId_only (fst winner) w)
    as (session & w1 & E & (He & Ha & Hp & _ & Ht & _)).
  rewrite E.
  assert (Hnone : exists w' told,
             (Ok tt, w1) = (Ok tt, w')
             /\ trace w' = trace w ++ told /\ List.Forall notice told
             /\ (List.length told <= 2)%nat
             /\ flipEngine (proc w') = flipEngine (proc w)
             /\ activeBets (proc w') = activeBets (proc w)
             /\ pendingTransactions (proc w') = pendingTransactions (proc w)).
  { exists w1, []. rewrite List.app_nil_r. cbn. repeat split; auto. }
  destruct session as [session |]; [| exact Hnone].
  destruct (Session.controlsSocketId session) as [socket |]; [| exact Hnone].
  destruct (SessionService.blank socket); [exact Hnone |].
  cbn zeta. unfold bind at 1, record at 1.
  match goal with
  | |- context [if ?c then _ else _] => destruct c
  end.
  - eexists. eexists [_; _]. split; [reflexivity |].
    cbn [trace with_trace record snd proc]. rewrite Ht, <- List.app_assoc.
    split; [reflexivity |]. split.
    { apply List.Forall_cons; [left; reflexivity |].
      apply List.Forall_cons; [right; left; reflexivity | apply List.Forall_nil]. }
    cbn. repeat split; auto.
  - eexists. eexists [_]. split; [reflexivity |].
    cbn [trace with_trace ret snd proc]. rewrite Ht.
    split; [reflexivity |]. split.
    { apply List.Forall_cons; [left; reflexivity | apply List.Forall_nil]. }
    cbn. repeat split; auto.
Qed.

Lemma notify_loser_run (round : Round.t) (loser : string * Loser.t) (w : World) :
  exists w' told,
    RoundService.notify_loser round loser w = (Ok tt, w')
    /\ trace w' = trace w ++ told /\ List.Forall notice told
    /\ (List.length told <= 1)%nat
    /\ flipEngine (proc w') = flipEngine (proc w)
    /\ activeBets (proc w') = activeBets (proc w)
    /\ pendingTransactions (proc w') = pendingTransactions (proc w).
Proof.
  unfold RoundService.notify_loser, bind at 1.
  destruct (getSessionByPlayerId_only (fst loser) w)
    as (session & w1 & E & (He & Ha & Hp & _ & Ht & _)).
  rewrite E.
  assert (Hnone : exists w' told,
             (Ok tt, w1) = (Ok tt, w')
             /\ trace w' = trace w ++ told /\ List.Forall notice told
             /\ (List.length told <= 1)%nat
             /\ flipEngine (proc w') = flipEngine (proc w)
             /\ activeBets (proc w') = activeBets (proc w)
             /\ pendingTransactions (proc w') = pendingTransactions (proc w)).
  { exists w1, []. rewrite List.app_nil_r. cbn. repeat split; auto. }
  destruct session as [session |]; [| exact Hnone].
  destruct (Session.controlsSocketId session) as [socket |]; [| exact Hnone].
  destruct (SessionService.blank socket); [exact Hnone |].
  eexists. eexists [_]. split; [reflexivity |].
  cbn [trace with_trace record snd proc]. rewrite Ht.
  split; [reflexivity |]. split.
  { apply List.Forall_cons; [right; right; reflexivity | apply List.Forall_nil]. }
  cbn. repeat split; auto.
Qed.

Lemma notify_winners_run (round : Round.t) (processResults : list Js.object)
    (winners : list (string * Winner.t)) :
  forall w : World,
    exists w' told,
      SessionService.forEach winners (RoundService.notify_winner round processResults) w
      = (Ok tt, w')
      /\ trace w' = trace w ++ told /\ List.Forall notice told
      /\ (List.length told <= 2 * List.length winners)%nat
      /\ flipEngine (proc w') = flipEngine (proc w)
      /\ activeBets (proc w') = activeBets (proc w)
      /\ pendingTransactions (proc w') = pendingTransactions (proc w).
Proof.
  induction winners as [| winner winners IH]; intros w; cbn [SessionService.forEach].
  - exists w, []. rewrite List.app_nil_r. cbn. repeat split; auto.
  - destruct (notify_winner_run round processResults winner w)
      as (w1 & t1 & E1 & Ht1 & Hf1 & Hl1 & He1 & Ha1 & Hp1).
    destruct (IH w1) as (w2 & t2 & E2 & Ht2 & Hf2 & Hl2 & He2 & Ha2 & Hp2).
    exists w2, (t1 ++ t2). unfold bind. rewrite E1, E2.
    split; [reflexivity |]. split; [rewrite Ht2, Ht1, <- List.app_assoc; reflexivity |].
    split; [apply List.Forall_app; split; assumption |].
    split; [rewrite List.length_app; cbn [List.length]; lia |].
    repeat split; congruence.
Qed.

Lemma notify_losers_run (round : Round.t) (losers : list (string * Loser.t)) :
  forall w : World,
    exists w' told,
      SessionService.forEach losers (RoundService.notify_loser round) w = (Ok tt, w')
      /\ trace w' = trace w ++ told /\ List.Forall notice told
      /\ (List.length told <= List.length losers)%nat
      /\ flipEngine (proc w') = flipEngine (proc w)
      /\ activeBets (proc w') = activeBets (proc w)
      /\ pendingTransactions (proc w') = pendingTransactions (proc w).
Proof.
  induction losers as [| loser losers IH]; intros w; cbn [SessionService.forEach].
  - exists w, []. rewrite List.app_nil_r. cbn. repeat split; auto.
  - destruct (notify_loser_run round loser w)
      as (w1 & t1 & E1 & Ht1 & Hf1 & Hl1 & He1 & Ha1 & Hp1).
    destruct (IH w1) as (w2 & t2 & E2 & Ht2 & Hf2 & Hl2 & He2 & Ha2 & Hp2).
    exists w2, (t1 ++ t2). unfold bind. rewrite E1, E2.
    split; [reflexivity |]. split; [rewrite Ht2, Ht1, <- List.app_assoc; reflexivity |].
    split; [apply List.Forall_app; split; assumption |].
    split; [rewrite List.length_app; cbn [List.length]; lia |].
    repeat split; congruence.
Qed.

Lemma advanceToNextSeed_others (w : World) :
  same_others w (snd (SeedManager.advanceToNextSeed w)).
Proof.
  unfold SeedManager.advanceToNextSeed, bind, gets, modify. cbn [proc with_proc].
  match goal with |- context [SeedManager.exhausted ?x] => destruct (SeedManager.exhausted x) end;
    cbn; repeat split.
Qed.

Lemma finishRound_quiet (w : World) :
  exists res w', FlipEngine.finishRound w = (res, w') /\ same_others w w'.
Proof.
  unfold FlipEngine.finishRound, FlipEngine.currentRound, bind at 1, gets at 1. cbn [proc].
  destruct (Engine.currentRound (flipEngine (proc w))) as [r |];
    [| do 2 eexists; split; [reflexivity | repeat split]].
  unfold bind at 1, dateNow, gets at 1. cbn [proc].
  unfold bind at 1, modify at 1.
  unfold bind at 1, FlipEngine.emit, record at 1.
  unfold bind at 1, modify at 1.
  unfold bind at 1.
  match goal with
  | |- context [SeedManager.advanceToNextSeed ?x] =>
      pose proof (advanceToNextSeed_others x) as Ho;
      destruct (advanceToNextSeed_frame x) as (w2 & H2 & _); rewrite H2 in *
  end.
  do 2 eexists. split; [reflexivity |].
  destruct Ho as (O1 & O2 & O3 & O4 & O5 & O6 & O7).
  unfold same_others. cbn in O1, O2, O3, O4, O5, O6, O7 |- *.
  rewrite O1, O2, O3, O4, O5, O6, O7. repeat split.
Qed.

(** The task of [finishRound] never throws when no other task runs in
    between.  It does nothing when the loop is stopped or no round is in
    progress.  Otherwise the round is archived and [round_finished] is
    broadcast first; then come the requests to the [/win] URLs and the waits
    between their attempts; the players are told only after the last credit
    was settled, by [bet_won], [balance_update] and [bet_lost] messages, at
    most two for a winner and one for a loser.  A winner therefore waits for
    the credits of all the winners, failed attempts included.  After the
    task no winner and no loser of the round has an active bet. *)
Theorem players_are_told_after_the_credits :
  forall w : World,
    quiet w ->
    exists w',
      RoundService.finishRoundTask w = (Ok tt, w')
      /\ (isRunning (proc w) = false \/ current w = None -> w' = w)
      /\ (forall r,
            isRunning (proc w) = true -> current w = Some r ->
            exists credits told,
              trace w'
              = trace w ++ [Emit "round_finished" (verification_payload r)]
                        ++ credits ++ told
              /\ List.Forall win_effect credits
              /\ List.Forall notice told
              /\ (List.length told
                  <= 2 * List.length (Round.winners r) + List.length (Round.losers r))%nat
              /\ current w' = None
              /\ history w'
                 = FlipEngine.archive (archived_of (closed (clock (proc w)) r)) (history w)
              /\ (forall p,
                    List.In p (ids (Round.winners r) ++ ids (Round.losers r)) ->
                    JsMap.get p (activeBets (proc w')) = None)).
Proof.
  intros w Hq.
  unfold RoundService.finishRoundTask, bind at 1, RoundService.finishRound, bind at 1,
    gets at 1.
  cbn [proc].
  destruct (isRunning (proc w)) eqn:Er; cbn [negb].
  2: { exists w. split; [reflexivity |]. split; [reflexivity |]. intros r H. discriminate. }
  destruct (current w) as [r |] eqn:Ec.
  2: { rewrite (finishRound_idle w Ec). exists w. split; [reflexivity |].
       split; [reflexivity |]. intros r _ H. discriminate. }
  destruct (finishRound_quiet w) as (res0 & w0 & E0 & Hc1 & Ha1 & _).
  destruct (finishRound_run w r Ec) as (w1 & E1 & Hcur & Hhist & Ht1 & _).
  rewrite E1 in E0. injection E0 as <- <-. rewrite E1.
  cbn [FlipEngine.round FlipEngine.winners FlipEngine.losers].
  assert (Hq1 : quiet w1) by (intros k x; rewrite Hc1; apply Hq).
  destruct (process_winners_run (Round.id (closed (clock (proc w)) r)) (Round.winners r) [] w1
              Hq1)
    as (results & w2 & credits & E2 & Ht2 & Hf2 & Ha2 & He2 & _ & _).
  destruct (process_losers_run (Round.losers r) w2) as (w3 & E3 & Ht3 & Ha3 & He3 & _).
  destruct (notify_winners_run (closed (clock (proc w)) r) results (Round.winners r) w3)
    as (w4 & t4 & E4 & Ht4 & Hf4 & Hl4 & He4 & Ha4 & _).
  destruct (notify_losers_run (closed (clock (proc w)) r) (Round.losers r) w4)
    as (w5 & t5 & E5 & Ht5 & Hf5 & Hl5 & He5 & Ha5 & _).
  exists w5. split.
  { unfold bind at 1, BetService.processRoundResults, bind at 1. rewrite E2.
    unfold bind at 1. rewrite E3. unfold ret at 1.
    unfold bind at 1. rewrite E4. exact E5. }
  split; [intros [H | H]; discriminate |].
  intros r' _ Hr'. injection Hr' as <-.
  exists credits, (t4 ++ t5).
  split.
  { rewrite Ht5, Ht4, Ht3, Ht2, Ht1, <- !List.app_assoc. reflexivity. }
  split; [exact Hf2 |].
  split; [apply List.Forall_app; split; assumption |].
  split; [rewrite List.length_app; lia |].
  assert (Heng : flipEngine (proc w5) = flipEngine (proc w1)) by congruence.
  split; [unfold current in *; rewrite Heng; exact Hcur |].
  split; [unfold history in *; rewrite Heng; exact Hhist |].
  intros p Hin. rewrite Ha5, Ha4, Ha3.
  destruct (List.existsb (String.eqb p) (ids (Round.losers r))) eqn:El; [reflexivity |].
  rewrite Ha2.
  destruct (List.existsb (String.eqb p) (ids (Round.winners r))) eqn:Ew; [reflexivity |].
  exfalso. apply List.in_app_or in Hin.
  assert (Hex : forall l, List.In p l -> List.existsb (String.eqb p) l = true).
  { intros l Hl. apply List.existsb_exists. exists p. split; [exact Hl |].
    apply String.eqb_refl. }
  destruct Hin as [Hin | Hin]; apply Hex in Hin; congruence.
Qed.

Lemma players_are_told_after_the_credits_witness :
  exists w',
    RoundService.finishRoundTask (table two_bets) = (Ok tt, w')
    /\ current w' = None.
Proof.
  destruct (players_are_told_after_the_credits (table two_bets) (fun _ _ => eq_refl))
    as (w' & E & _ & H).
  destruct (H (table_round two_bets) eq_refl eq_refl)
    as (credits & told & _ & _ & _ & _ & Hc & _).
  exists w'. split; [exact E | exact Hc].
Defined.

(** ** What one winner is told *)

Lemma process_winner_credited (roundId : string) (results : list Js.object)
    (p : string) (data : Winner.t) (w : World) (ab : ActiveBet.t) (code : Z) (o : Js.object)
    (sid : string) (s : Session.t) :
  quiet w ->
  JsMap.get p (activeBets (proc w)) = Some ab ->
  network w (fetched w) = Http code (BObject o) -> CallbackService.ok code = true ->
  CallbackService.is_undefined (Js.field "transactionId" o) = false ->
  JsMap.get p (players_of w) = Some sid -> SessionService.blank sid = false ->
  JsMap.get sid (sessions_of w) = Some s -> Session.sessionId s = sid ->
  elapsed (clock (proc w)) s = false ->
  exists w',
    BetService.process_winner roundId results (p, data) w
    = (Ok (results ++ [[ ("playerId", Js.Str p); ("success", Js.Bool true);
                         ("winAmount", Js.Num (Winner.winAmount data));
                         ("newBalance", Js.field "newBalance" o) ]]), w')
    /\ trace w'
       = trace w ++ [HttpPost (ActiveBet.callbackBaseUrl ab ++ "/win")%string
                       (win_payload roundId p (Bet.sessionId (ActiveBet.bet ab))
                          (Winner.betAmount data) (Winner.winAmount data)
                          (ActiveBet.currency ab) (ActiveBet.transactionId ab)
                          (clock (proc w)))]
    /\ sessions_of w'
       = JsMap.set sid (Session.with_balance (Js.field "newBalance" o) s) (sessions_of w)
    /\ players_of w' = players_of w
    /\ clock (proc w') = clock (proc w)
    /\ activeBets (proc w') = JsMap.delete p (activeBets (proc w)).
Proof.
  intros Hq Ea Hn Hok Hu Hp Hb Hs Hid Hel.
  unfold BetService.process_winner, bind at 1, gets at 1. cbn [proc]. rewrite Ea.
  unfold try_catch, bind at 1.
  rewrite (creditWin_answered _ roundId p _ _ _ _ _ w code o Hn Hok Hu). cbn zeta.
  set (payload := win_payload _ _ _ _ _ _ _ _).
  set (url := (ActiveBet.callbackBaseUrl ab ++ "/win")%string).
  destruct (first_try_quiet url payload w Hq) as (Ep & Et & _).
  set (w1 := first_try url payload w) in *.
  set (w2 := with_proc _ w1).
  assert (Es2 : sessionService (proc w2) = sessionService (proc w)).
  { unfold w2. cbn [proc with_proc]. rewrite Ep. destruct (proc w). reflexivity. }
  assert (Ec2 : clock (proc w2) = clock (proc w)).
  { unfold w2. cbn [proc with_proc]. rewrite Ep. destruct (proc w). reflexivity. }
  assert (Ea2 : activeBets (proc w2) = activeBets (proc w)).
  { unfold w2. cbn [proc with_proc]. rewrite Ep. destruct (proc w). reflexivity. }
  assert (Et2 : trace w2 = trace w ++ [HttpPost url payload]) by exact Et.
  clearbody w2. clear Ep Et.
  change (Js.truthy (Js.field "success" _)) with true. cbv iota.
  change (Js.field "newBalance"
            [("success", Js.Bool true); ("transactionId", Js.field "transactionId" o);
             ("newBalance", Js.field "newBalance" o);
             ("requestId", Js.Str (win_request roundId p (clock (proc w))))])
    with (Js.field "newBalance" o).
  assert (Eg : SessionService.getSessionByPlayerId p w2 = (Ok (Some s), w2)).
  { rewrite getSessionByPlayerId_run. unfold players_of. rewrite Es2.
    fold (players_of w). rewrite Hp, Hb, getSession_run. unfold sessions_of.
    rewrite Es2. fold (sessions_of w). rewrite Hs, Ec2, Hel. reflexivity. }
  unfold bind at 1. unfold bind at 1. unfold bind at 1. rewrite Eg.
  rewrite updateBalance_run, Hid. unfold sessions_of at 1. rewrite Es2.
  fold (sessions_of w). rewrite Hs.
  eexists. split; [reflexivity |].
  cbn [snd modify ret proc with_proc trace rewritten].
  split; [exact Et2 |].
  unfold sessions_of, players_of.
  cbn. rewrite Es2, Ec2, Ea2. repeat split.
Qed.

Lemma attempted_quiet (url : string) (payload : Js.object) (w : World) :
  quiet w ->
  proc (attempted url payload w) = proc w /\ quiet (attempted url payload w).
Proof.
  intros Hq. unfold attempted, resumed. cbn. rewrite Hq. split; [reflexivity |].
  intros k x. cbn. apply Hq.
Qed.

Lemma waited_quiet (ms : Z) (w : World) :
  quiet w ->
  clock (proc (waited ms w)) = clock (proc w) + ms /\ quiet (waited ms w).
Proof.
  intros Hq. unfold waited, resumed. cbn. rewrite Hq. split.
  - destruct (proc w). reflexivity.
  - intros k x. cbn. apply Hq.
Qed.

Lemma third_try_clock (url : string) (payload : Js.object) (w : World) :
  quiet w -> clock (proc (third_try url payload w)) = clock (proc w) + 3000.
Proof.
  intros Hq. unfold third_try, second_try, first_try.
  destruct (attempted_quiet url payload w Hq) as [P1 Q1].
  destruct (waited_quiet 1000 _ Q1) as [C2 Q2].
  destruct (attempted_quiet url payload _ Q2) as [P3 Q3].
  destruct (waited_quiet 2000 _ Q3) as [C4 Q4].
  destruct (attempted_quiet url payload _ Q4) as [P5 _].
  rewrite P5, C4, P3, C2, P1. lia.
Qed.

Lemma trace_with_proc (x : Process) (w : World) : trace (with_proc x w) = trace w.
Proof. reflexivity. Qed.

Lemma proc_with_proc (x : Process) (w : World) : proc (with_proc x w) = x.
Proof. reflexivity. Qed.

Lemma with_activeBets_fields (a : JsMap.t ActiveBet.t) (x : Process) :
  sessionService (with_activeBets a x) = sessionService x
  /\ clock (with_activeBets a x) = clock x
  /\ activeBets (with_activeBets a x) = a.
Proof. destruct x. repeat split. Qed.

Lemma with_clock_fields (now : Z) (x : Process) :
  sessionService (with_clock now x) = sessionService x
  /\ clock (with_clock now x) = now
  /\ activeBets (with_clock now x) = activeBets x.
Proof. destruct x. repeat split. Qed.

(** [process_winner] once the credit has come back as a failure. *)
Lemma process_winner_unpaid (roundId : string) (results : list Js.object)
    (p : string) (data : Winner.t) (w w1 : World) (ab : ActiveBet.t) (cb : Js.object) :
  JsMap.get p (activeBets (proc w)) = Some ab ->
  CallbackService.creditWin (ActiveBet.callbackBaseUrl ab) roundId p
    (Bet.sessionId (ActiveBet.bet ab)) (Winner.betAmount data) (Winner.winAmount data)
    (ActiveBet.currency ab) (ActiveBet.transactionId ab) w = (Ok cb, w1) ->
  Js.truthy (Js.field "success" cb) = false ->
  BetService.process_winner roundId results (p, data) w
  = (Ok (results ++ [[ ("playerId", Js.Str p); ("success", Js.Bool false);
                       ("error", Js.or (Js.field "message" cb) (Js.field "code" cb)) ]]),
     with_proc (with_activeBets (JsMap.delete p (activeBets (proc w1))) (proc w1)) w1).
Proof.
  intros Ea Ec Hs.
  unfold BetService.process_winner, bind at 1, gets at 1. cbn [proc]. rewrite Ea.
  unfold try_catch, bind at 1. rewrite Ec, Hs. reflexivity.
Qed.

Lemma process_winner_failed (roundId : string) (results : list Js.object)
    (p : string) (data : Winner.t) (w : World) (ab : ActiveBet.t) (e1 e2 e3 : JsError) :
  quiet w ->
  JsMap.get p (activeBets (proc w)) = Some ab ->
  all_fail w e1 e2 e3 ->
  exists w',
    BetService.process_winner roundId results (p, data) w
    = (Ok (results ++ [[ ("playerId", Js.Str p); ("success", Js.Bool false);
                         ("error", Js.or (Js.Str (message e3))
                                         (Js.Str "CALLBACK_FAILED")) ]]), w')
    /\ trace w'
       = trace w ++ retry_trace (ActiveBet.callbackBaseUrl ab ++ "/win")%string
                      (win_payload roundId p (Bet.sessionId (ActiveBet.bet ab))
                         (Winner.betAmount data) (Winner.winAmount data)
                         (ActiveBet.currency ab) (ActiveBet.transactionId ab)
                         (clock (proc w))) 3
    /\ sessionService (proc w') = sessionService (proc w)
    /\ clock (proc w') = clock (proc w) + 3000
    /\ activeBets (proc w') = JsMap.delete p (activeBets (proc w)).
Proof.
  intros Hq Ea Hf.
  pose proof (creditWin_failed (ActiveBet.callbackBaseUrl ab) roundId p
                (Bet.sessionId (ActiveBet.bet ab)) (Winner.betAmount data)
                (Winner.winAmount data) (ActiveBet.currency ab) (ActiveBet.transactionId ab)
                w e1 e2 e3 Hf) as Ec.
  cbn zeta in Ec.
  eexists. split.
  { exact (process_winner_unpaid roundId results p data w _ ab _ Ea Ec eq_refl). }
  rewrite trace_with_proc, proc_with_proc.
  destruct (with_activeBets_fields
              (JsMap.delete p (activeBets (proc (third_try
                 (ActiveBet.callbackBaseUrl ab ++ "/win")%string
                 (win_payload roundId p (Bet.sessionId (ActiveBet.bet ab))
                    (Winner.betAmount data) (Winner.winAmount data)
                    (ActiveBet.currency ab) (ActiveBet.transactionId ab)
                    (clock (proc w))) w))))
              (proc (third_try
                 (ActiveBet.callbackBaseUrl ab ++ "/win")%string
                 (win_payload roundId p (Bet.sessionId (ActiveBet.bet ab))
                    (Winner.betAmount data) (Winner.winAmount data)
                    (ActiveBet.currency ab) (ActiveBet.transactionId ab)
                    (clock (proc w))) w)))
    as (F1 & F2 & F3).
  rewrite F1, F2, F3.
  rewrite (third_try_clock _ _ w Hq).
  destruct (tries_services (ActiveBet.callbackBaseUrl ab ++ "/win")%string
              (win_payload roundId p (Bet.sessionId (ActiveBet.bet ab))
                 (Winner.betAmount data) (Winner.winAmount data)
                 (ActiveBet.currency ab) (ActiveBet.transactionId ab)
                 (clock (proc w))) w Hq) as (_ & _ & (_ & G1 & G3 & _)).
  rewrite G1, G3.
  destruct (tries_trace (ActiveBet.callbackBaseUrl ab ++ "/win")%string
              (win_payload roundId p (Bet.sessionId (ActiveBet.bet ab))
                 (Winner.betAmount data) (Winner.winAmount data)
                 (ActiveBet.currency ab) (ActiveBet.transactionId ab)
                 (clock (proc w))) w) as (_ & _ & T3).
  split; [exact T3 |]. split; [reflexivity |]. split; reflexivity.
Qed.

Lemma find_result_single (p : string) (entry : list (string * Js.value)) :
  RoundService.find_result p [("playerId", Js.Str p) :: entry]
  = Some (("playerId", Js.Str p) :: entry).
Proof.
  unfold RoundService.find_result. cbn. rewrite String.eqb_refl. reflexivity.
Qed.

Lemma notify_winner_told (round : Round.t) (processResults : list Js.object)
    (p : string) (data : Winner.t) (w : World) (sid : string) (s : Session.t)
    (socket : string) :
  JsMap.get p (players_of w) = Some sid -> SessionService.blank sid = false ->
  JsMap.get sid (sessions_of w) = Some s ->
  elapsed (clock (proc w)) s = false ->
  Session.controlsSocketId s = Some socket -> SessionService.blank socket = false ->
  let processedResult := RoundService.find_result p processResults in
  let credited :=
    match processedResult with
    | Some r => Js.truthy (Js.field "success" r)
    | None => false
    end in
  let newBalance :=
    match processedResult with
    | Some r => Js.field "newBalance" r
    | None => Js.Undefined
    end in
  let won :=
    SocketEmit socket "bet_won"
      [ ("roundId", Js.Str (Round.id round)); ("result", Js.Str (Round.result round));
        ("betAmount", Js.Num (Winner.betAmount data));
        ("winAmount", Js.Num (Winner.winAmount data));
        ("choice", Js.Str (Winner.choice data));
        ("newBalance", if credited then newBalance else Js.Null) ] in
  RoundService.notify_winner round processResults (p, data) w
  = (Ok tt,
     with_trace
       (trace w ++ won
          :: (if credited && negb (CallbackService.is_undefined newBalance)
              then [SocketEmit socket "balance_update"
                      [ ("balance", newBalance);
                        ("currency", Js.Str (Session.currency s)) ]]
              else [])) w).
Proof.
  intros Hp Hb Hs Hel Hc Hbs. cbn zeta.
  unfold RoundService.notify_winner, bind at 1. cbn [fst snd].
  rewrite getSessionByPlayerId_run, Hp, Hb, getSession_run, Hs, Hel, Hc, Hbs.
  unfold bind at 1, record at 1.
  match goal with
  | |- context [if ?c then record _ else _] => destruct c
  end.
  - unfold record. cbn [trace with_trace]. rewrite <- List.app_assoc.
    destruct w. reflexivity.
  - unfold ret. destruct w. reflexivity.
Qed.

Lemma trace_with_trace (t : list Effect) (w : World) : trace (with_trace t w) = t.
Proof. reflexivity. Qed.

Lemma finishRoundTask_one (w w1 w2 w3 : World) (round : Round.t) (p : string)
    (data : Winner.t) (verification : Js.object) (processResults : list Js.object) :
  RoundService.finishRound w
  = (Ok (Some (FlipEngine.mkFinished round [(p, data)] [] verification)), w1) ->
  BetService.process_winner (Round.id round) [] (p, data) w1 = (Ok processResults, w2) ->
  RoundService.notify_winner round processResults (p, data) w2 = (Ok tt, w3) ->
  RoundService.finishRoundTask w = (Ok tt, w3).
Proof.
  intros H1 H2 H3.
  unfold RoundService.finishRoundTask, bind at 1. rewrite H1.
  cbn [FlipEngine.round FlipEngine.winners FlipEngine.losers].
  unfold bind at 1, BetService.processRoundResults, bind at 1.
  cbn [BetService.process_winners]. unfold bind at 1. rewrite H2.
  cbn [SessionService.forEach]. unfold ret at 1, bind at 1, ret at 1, ret at 1.
  unfold bind at 1, bind at 1. rewrite H3. reflexivity.
Qed.

(** The round that finishes has one winner, who has an active bet and a
    live session with a controls socket, and no loser.  When the platform
    accepts the credit, the winner is sent [bet_won] with the new balance of
    the platform's answer, then [balance_update] with it when the answer has
    one, and the session caches it.  When the three attempts fail, the
    winner is still sent [bet_won], with a null balance and no
    [balance_update], after the three requests; the active bet is dropped,
    so nothing credits the win later. *)
Theorem winner_is_told_the_new_balance :
  forall (w : World) (r : Round.t) (p : string) (data : Winner.t) (ab : ActiveBet.t)
         (sid : string) (s : Session.t) (socket : string),
    quiet w ->
    isRunning (proc w) = true -> current w = Some r ->
    Round.winners r = [(p, data)] -> Round.losers r = [] ->
    JsMap.get p (activeBets (proc w)) = Some ab ->
    JsMap.get p (players_of w) = Some sid -> SessionService.blank sid = false ->
    JsMap.get sid (sessions_of w) = Some s -> Session.sessionId s = sid ->
    elapsed (clock (proc w) + 3000) s = false ->
    Session.controlsSocketId s = Some socket -> SessionService.blank socket = false ->
    let url := (ActiveBet.callbackBaseUrl ab ++ "/win")%string in
    let payload := win_payload (Round.id r) p (Bet.sessionId (ActiveBet.bet ab))
                               (Winner.betAmount data) (Winner.winAmount data)
                               (ActiveBet.currency ab) (ActiveBet.transactionId ab)
                               (clock (proc w)) in
    let won newBalance :=
      SocketEmit socket "bet_won"
        [ ("roundId", Js.Str (Round.id r)); ("result", Js.Str (Round.result r));
          ("betAmount", Js.Num (Winner.betAmount data));
          ("winAmount", Js.Num (Winner.winAmount data));
          ("choice", Js.Str (Winner.choice data));
          ("newBalance", newBalance) ] in
    (forall code o,
        network w (fetched w) = Http code (BObject o) ->
        CallbackService.ok code = true ->
        CallbackService.is_undefined (Js.field "transactionId" o) = false ->
        exists w',
          RoundService.finishRoundTask w = (Ok tt, w')
          /\ trace w'
             = trace w
               ++ [ Emit "round_finished" (verification_payload r);
                    HttpPost url payload;
                    won (Js.field "newBalance" o) ]
               ++ (if CallbackService.is_undefined (Js.field "newBalance" o) then []
                   else [SocketEmit socket "balance_update"
                           [ ("balance", Js.field "newBalance" o);
                             ("currency", Js.Str (Session.currency s)) ]])
          /\ fst (SessionService.getBalance sid w') = Ok (Some (Js.field "newBalance" o))
          /\ JsMap.get p (activeBets (proc w')) = None)
    /\ (forall e1 e2 e3,
          all_fail w e1 e2 e3 ->
          exists w',
            RoundService.finishRoundTask w = (Ok tt, w')
            /\ trace w'
               = trace w
                 ++ [Emit "round_finished" (verification_payload r)]
                 ++ retry_trace url payload 3
                 ++ [won Js.Null]
            /\ fst (SessionService.getBalance sid w') = Ok (Some (Session.balance s))
            /\ JsMap.get p (activeBets (proc w')) = None).
Proof.
  intros w r p data ab sid s socket Hq Hrun Hcur Hw Hl Ea Hp Hb Hs Hid Hel Hc Hbs
         url payload won.
  assert (Hel0 : elapsed (clock (proc w)) s = false).
  { unfold elapsed in *. apply Z.ltb_ge in Hel. apply Z.ltb_ge. lia. }
  destruct (finishRound_quiet w) as (res0 & w0 & E0 & O1 & O2 & O3 & O4 & O5 & O6 & O7).
  destruct (finishRound_run w r Hcur) as (w1 & E1 & _ & _ & Ht1 & _).
  rewrite E1 in E0. injection E0 as <- <-.
  rewrite Hw, Hl in E1.
  assert (F1 : RoundService.finishRound w
               = (Ok (Some (FlipEngine.mkFinished (closed (clock (proc w)) r) [(p, data)] []
                              (verification_payload r))), w1)).
  { unfold RoundService.finishRound, bind at 1, gets at 1. cbn [proc].
    rewrite Hrun. exact E1. }
  assert (Hq1 : quiet w1) by (intros k x; rewrite O1; apply Hq).
  assert (Ea1 : JsMap.get p (activeBets (proc w1)) = Some ab) by (rewrite O2; exact Ea).
  assert (Hp1 : JsMap.get p (players_of w1) = Some sid)
    by (unfold players_of; rewrite O3; exact Hp).
  assert (Hs1 : JsMap.get sid (sessions_of w1) = Some s)
    by (unfold sessions_of; rewrite O3; exact Hs).
  split.
  - intros code o Hn Hok Hu.
    assert (Hn1 : network w1 (fetched w1) = Http code (BObject o))
      by (rewrite O6, O7; exact Hn).
    assert (Hel1 : elapsed (clock (proc w1)) s = false) by (rewrite O5; exact Hel0).
    destruct (process_winner_credited (Round.id (closed (clock (proc w)) r)) [] p data w1 ab
                code o sid s Hq1 Ea1 Hn1 Hok Hu Hp1 Hb Hs1 Hid Hel1)
      as (w2 & E2 & Ht2 & Hs2 & Hp2 & Hc2 & Ha2).
    set (s' := Session.with_balance (Js.field "newBalance" o) s) in *.
    assert (Hg2 : JsMap.get sid (sessions_of w2) = Some s')
      by (rewrite Hs2; apply get_set_same).
    assert (Hel2 : elapsed (clock (proc w2)) s' = false)
      by (rewrite Hc2; exact Hel1).
    pose proof (notify_winner_told (closed (clock (proc w)) r)
                  [[ ("playerId", Js.Str p); ("success", Js.Bool true);
                     ("winAmount", Js.Num (Winner.winAmount data));
                     ("newBalance", Js.field "newBalance" o) ]]
                  p data w2 sid s' socket
                  (eq_trans (f_equal (JsMap.get p) Hp2) Hp1) Hb Hg2 Hel2 Hc Hbs) as E3.
    cbn zeta in E3. cbn [List.app] in E2, E3. rewrite find_result_single in E3.
    eexists. split; [exact (finishRoundTask_one w w1 w2 _ _ p data _ _ F1 E2 E3) |].
    split.
    { rewrite (trace_with_trace _ w2), Ht2, Ht1, O5, <- !List.app_assoc.
      cbn [Js.field Js.truthy String.eqb Ascii.eqb Bool.eqb andb List.app].
      destruct (CallbackService.is_undefined (Js.field "newBalance" o)); reflexivity. }
    split.
    { rewrite getBalance_run, sessions_with_trace, Hg2. reflexivity. }
    change (activeBets (proc (with_trace _ w2))) with (activeBets (proc w2)).
    rewrite Ha2, get_delete, String.eqb_refl. reflexivity.
  - intros e1 e2 e3 Hf.
    assert (Hf1 : all_fail w1 e1 e2 e3).
    { unfold all_fail. rewrite O6, O7. exact Hf. }
    destruct (process_winner_failed (Round.id (closed (clock (proc w)) r)) [] p data w1 ab
                e1 e2 e3 Hq1 Ea1 Hf1)
      as (w2 & E2 & Ht2 & Hs2 & Hc2 & Ha2).
    assert (Hg2 : JsMap.get sid (sessions_of w2) = Some s)
      by (unfold sessions_of; rewrite Hs2; exact Hs1).
    assert (Hp2 : JsMap.get p (players_of w2) = Some sid)
      by (unfold players_of; rewrite Hs2; exact Hp1).
    assert (Hel2 : elapsed (clock (proc w2)) s = false)
      by (rewrite Hc2, O5; exact Hel).
    pose proof (notify_winner_told (closed (clock (proc w)) r)
                  [[ ("playerId", Js.Str p); ("success", Js.Bool false);
                     ("error", Js.or (Js.Str (message e3)) (Js.Str "CALLBACK_FAILED")) ]]
                  p data w2 sid s socket
                  Hp2 Hb Hg2 Hel2 Hc Hbs) as E3.
    cbn zeta in E3. cbn [List.app] in E2, E3. rewrite find_result_single in E3.
    eexists. split; [exact (finishRoundTask_one w w1 w2 _ _ p data _ _ F1 E2 E3) |].
    split.
    { rewrite (trace_with_trace _ w2), Ht2, Ht1, O5, <- !List.app_assoc. reflexivity. }
    split.
    { rewrite getBalance_run, sessions_with_trace, Hg2. reflexivity. }
    change (activeBets (proc (with_trace _ w2))) with (activeBets (proc w2)).
    rewrite Ha2, get_delete, String.eqb_refl. reflexivity.
Qed.

Lemma winner_is_told_the_new_balance_witness :
  (exists w',
      RoundService.finishRoundTask (won_table platform_ok) = (Ok tt, w')
      /\ List.last (trace w') (Wait 0)
         = SocketEmit "socket-1" "balance_update"
             [ ("balance", Js.Num 90%float); ("currency", Js.Str "EUR") ])
  /\ (exists w',
        RoundService.finishRoundTask (won_table (fun _ => Failed "timeout")) = (Ok tt, w')
        /\ List.last (trace w') (Wait 0)
           = SocketEmit "socket-1" "bet_won"
               [ ("roundId", Js.Str "F-1700000000000-7"); ("result", Js.Str "HEADS");
                 ("betAmount", Js.Num 10%float); ("winAmount", Js.Num 19.5%float);
                 ("choice", Js.Str "HEADS"); ("newBalance", Js.Null) ]).
Proof.
  split.
  - destruct (winner_is_told_the_new_balance (won_table platform_ok) won_round "alice"
                (Winner.mk 10%float 19.5%float "HEADS")
                (ActiveBet.mk (Bet.mk "alice" "SESSION-a" 10%float "HEADS" 1700000000500)
                              (Js.Str "TX-1") "F-1700000000000-7" "http://platform" "EUR")
                "SESSION-a" connected_session "socket-1"
                (fun _ _ => eq_refl) eq_refl eq_refl eq_refl eq_refl eq_refl eq_refl eq_refl
                eq_refl eq_refl eq_refl eq_refl eq_refl) as [H _].
    destruct (H 200 [ ("status", Js.Str "OK"); ("transactionId", Js.Str "TX-1");
                      ("newBalance", Js.Num 90%float) ] eq_refl eq_refl eq_refl)
      as (w' & E & Ht & _).
    exists w'. split; [exact E |]. rewrite Ht. reflexivity.
  - destruct (winner_is_told_the_new_balance (won_table (fun _ => Failed "timeout"))
                won_round "alice"
                (Winner.mk 10%float 19.5%float "HEADS")
                (ActiveBet.mk (Bet.mk "alice" "SESSION-a" 10%float "HEADS" 1700000000500)
                              (Js.Str "TX-1") "F-1700000000000-7" "http://platform" "EUR")
                "SESSION-a" connected_session "socket-1"
                (fun _ _ => eq_refl) eq_refl eq_refl eq_refl eq_refl eq_refl eq_refl eq_refl
                eq_refl eq_refl eq_refl eq_refl eq_refl) as [_ H].
    destruct (H (Error "timeout") (Error "timeout") (Error "timeout")
                (conj eq_refl (conj eq_refl eq_refl)))
      as (w' & E & Ht & _).
    exists w'. split; [exact E |]. rewrite Ht. reflexivity.
Defined.

(** ** The debit before the bet *)

(** C3.  Once its checks have passed, [placeBet] debits the platform before
    it touches the ledger.  When the debit fails, [placeBet] throws the
    platform's rejection and stops there: the message of the error is the
    [message] of the debit's result, else its [code], else
    [Bet rejected by platform]; the state is as the debit left it (the
    engine unwritten), and nothing was posted but the debit.  For a reply of
    the platform without a transaction id that is its [message], else its
    [code], after one request; when the three attempts fail it is the
    message of the last error.  The text of the message is stated for values
    that are not numbers.  When the debit succeeds and [addBet] then throws,
    [placeBet] makes one rollback call (one payload, posted once when the
    platform answers, at most three times otherwise) that names the
    transaction id of the debit and the reason REGISTRATION_FAILED, and
    throws the error of [addBet]. *)
Theorem placeBet_compensates :
  forall (w w0 : World) (sessionId : string) (amount : float) (choice : string)
         (t : BetService.Ticket),
    BetService.validate sessionId amount choice w = (Ok t, w0) ->
    exists (callbackResult : Js.object) (w1 : World) (n : nat),
      w0 = w
      /\ BetService.debit sessionId t w = (Ok callbackResult, w1)
      /\ (1 <= n <= 3)%nat
      /\ trace w1
         = trace w ++ retry_trace (BetService.callbackBaseUrl t ++ "/bet")
                        (bet_payload (BetService.roundId t) (BetService.playerId t) sessionId
                                     (BetService.roundedAmount t) (BetService.currency t)
                                     (clock (proc w))) n
      /\ (Js.truthy (Js.field "success" callbackResult) = false ->
          (exists e,
             BetService.placeBet sessionId amount choice w = (Throw e, w1)
             /\ (Js.is_number
                   (Js.or (Js.or (Js.field "message" callbackResult)
                                 (Js.field "code" callbackResult))
                          (Js.Str "Bet rejected by platform")) = false ->
                 message e
                 = Js.to_string
                     (Js.or (Js.or (Js.field "message" callbackResult)
                                   (Js.field "code" callbackResult))
                            (Js.Str "Bet rejected by platform"))))
          /\ (quiet w -> flipEngine (proc w1) = flipEngine (proc w))
          /\ forall payload,
               ~ List.In (HttpPost (BetService.callbackBaseUrl t ++ "/rollback") payload)
                         (retry_trace (BetService.callbackBaseUrl t ++ "/bet")
                            (bet_payload (BetService.roundId t) (BetService.playerId t)
                                         sessionId (BetService.roundedAmount t)
                                         (BetService.currency t) (clock (proc w))) n))
      /\ (forall code o,
            network w (fetched w) = Http code (BObject o) ->
            CallbackService.ok code = true ->
            Js.field "transactionId" o = Js.Undefined ->
            Js.is_number (Js.field "message" o) = false ->
            Js.is_number (Js.field "code" o) = false ->
            n = 1%nat
            /\ BetService.placeBet sessionId amount choice w
               = (Throw (Error (Js.to_string
                                  (Js.or (Js.or (Js.field "message" o) (Js.field "code" o))
                                         (Js.Str "Bet rejected by platform")))), w1))
      /\ (forall e1 e2 e3,
            all_fail w e1 e2 e3 ->
            n = 3%nat
            /\ BetService.placeBet sessionId amount choice w
               = (Throw (Error (if String.eqb (message e3) "" then "CALLBACK_FAILED"
                                else message e3)), w1))
      /\ (Js.truthy (Js.field "success" callbackResult) = true ->
          forall e w2,
            FlipEngine.addBet (BetService.playerId t) (BetService.roundedAmount t)
                              choice sessionId w1 = (Throw e, w2) ->
            exists (w3 : World) (m : nat),
              BetService.placeBet sessionId amount choice w = (Throw e, w3)
              /\ (1 <= m <= 3)%nat
              /\ trace w3
                 = trace w1
                   ++ retry_trace (BetService.callbackBaseUrl t ++ "/rollback")
                        (rollback_payload (BetService.roundId t) (BetService.playerId t)
                           sessionId (BetService.roundedAmount t) (BetService.currency t)
                           (Js.field "transactionId" callbackResult)
                           "REGISTRATION_FAILED" (clock (proc w1))) m
              /\ (forall data, outcome (network w1 (fetched w1)) = Ok data -> m = 1%nat)
              /\ (quiet w1 -> flipEngine (proc w3) = flipEngine (proc w1))).
Proof.
  intros w w0 sessionId amount choice t Hv.
  destruct (validate_ok sessionId amount choice w w0 t Hv) as (-> & _).
  destruct (placeBet_settles (BetService.callbackBaseUrl t) (BetService.roundId t)
              (BetService.playerId t) sessionId (BetService.roundedAmount t)
              (BetService.currency t) w) as (cb & w1 & n & Ed & Hn & Ht & Hone & Hall & Hq).
  fold (BetService.debit sessionId t) in Ed.
  assert (Hthrow : Js.truthy (Js.field "success" cb) = false ->
                   BetService.placeBet sessionId amount choice w
                   = (Throw (BetService.rejection cb), w1)).
  { intros Hs. unfold BetService.placeBet, bind. rewrite Hv, Ed, Hs. reflexivity. }
  exists cb, w1, n.
  split; [reflexivity |]. split; [exact Ed |]. split; [exact Hn |]. split; [exact Ht |].
  split; [| split; [| split]].
  - intros Hs. split; [| split; [exact Hq |]].
    + exists (BetService.rejection cb). split; [exact (Hthrow Hs) |].
      intros _. reflexivity.
    + intros payload Hin. apply retry_trace_posts in Hin.
      destruct Hin as [H | (ms & H)]; [| discriminate].
      injection H as H _. apply append_cancel in H. discriminate.
  - intros code o Hnet Hok Hu _ _.
    pose proof (placeBet_answered (BetService.callbackBaseUrl t) (BetService.roundId t)
                  (BetService.playerId t) sessionId (BetService.roundedAmount t)
                  (BetService.currency t) w code o Hnet Hok) as E.
    cbn zeta in E. rewrite Hu in E. cbn [CallbackService.is_undefined] in E.
    fold (BetService.debit sessionId t) in E.
    rewrite E in Ed. injection Ed as <- <-.
    split; [exact (Hone _ (outcome_answered w code (BObject o) Hnet Hok)) |].
    rewrite Hthrow by reflexivity. reflexivity.
  - intros e1 e2 e3 Hf. destruct (Hall e1 e2 e3 Hf) as [-> ->].
    split; [reflexivity |].
    rewrite Hthrow by reflexivity.
    unfold BetService.rejection, failure_of.
    cbn [List.app Js.field String.eqb Ascii.eqb Bool.eqb].
    unfold Js.or. cbn [Js.truthy].
    destruct (String.eqb (message e3) "") eqn:Em; cbn [negb Js.truthy];
      rewrite ?Em; reflexivity.
  - intros Hs e w2 Ha.
    pose proof (register_run sessionId choice t cb w1) as Hr. rewrite Ha in Hr.
    destruct (rollback_settles (BetService.callbackBaseUrl t) (BetService.roundId t)
                (BetService.playerId t) sessionId (BetService.roundedAmount t)
                (BetService.currency t) (Js.field "transactionId" cb)
                "REGISTRATION_FAILED" w1)
      as (rb & w3 & m & Er & Hm & Htr & Hone' & _ & Hqr).
    fold (BetService.refund sessionId t cb) in Er.
    exists w3, m.
    split; [| split; [exact Hm | split; [exact Htr | split; [exact Hone' | exact Hqr]]]].
    unfold BetService.placeBet, bind at 1. rewrite Hv.
    unfold bind at 1. rewrite Ed, Hs. cbn [negb].
    unfold try_catch. rewrite Hr. unfold bind. rewrite Er. reflexivity.
Qed.

Lemma placeBet_compensates_witness :
  (exists w3,
      BetService.placeBet "SESSION-a" 10%float "HEADS" racing
      = (Throw (Error "Betting phase has ended"), w3)
      /\ trace w3
         = [ HttpPost "http://platform/bet"
               (bet_payload "F-1700000000000-7" "alice" "SESSION-a" 10%float "EUR"
                            1700000001000);
             HttpPost "http://platform/rollback"
               (rollback_payload "F-1700000000000-7" "alice" "SESSION-a" 10%float "EUR"
                                 (Js.Str "TX-1") "REGISTRATION_FAILED" 1700000001000) ])
  /\ (exists w1,
        BetService.placeBet "SESSION-a" 10%float "HEADS"
          (mkWorld (table_process JsMap.empty) (fun _ => "00")
             (fun _ => Http 200 (BObject [ ("status", Js.Str "ERROR");
                                           ("code", Js.Str "INSUFFICIENT_FUNDS");
                                           ("message", Js.Str "Insufficient balance") ]))
             0%nat (fun _ p => p) 0%nat [])
        = (Throw (Error "Insufficient balance"), w1)
        /\ trace w1
           = [ HttpPost "http://platform/bet"
                 (bet_payload "F-1700000000000-7" "alice" "SESSION-a" 10%float "EUR"
                              1700000001000) ])
  /\ (exists w1,
        BetService.placeBet "SESSION-a" 10%float "HEADS"
          (mkWorld (table_process JsMap.empty) (fun _ => "00") (fun _ => Failed "timeout")
             0%nat (fun _ p => p) 0%nat [])
        = (Throw (Error "timeout"), w1)
        /\ List.length (trace w1) = 5%nat).
Proof.
  split; [| split].
  - destruct (placeBet_compensates racing racing "SESSION-a" 10%float "HEADS"
                (BetService.mkTicket "alice" "EUR" "http://platform" "F-1700000000000-7"
                                     10%float))
      as (cb & w1 & n & _ & Ed & _ & Ht & _ & _ & _ & Hok).
    { vm_compute. reflexivity. }
    assert (Ed' : exists w1',
               BetService.debit "SESSION-a"
                 (BetService.mkTicket "alice" "EUR" "http://platform" "F-1700000000000-7"
                                      10%float) racing
               = (Ok [ ("success", Js.Bool true); ("transactionId", Js.Str "TX-1");
                       ("newBalance", Js.Num 90%float);
                       ("requestId", Js.Str "BET-F-1700000000000-7-alice-1700000001000") ],
                  w1')
               /\ trace w1'
                  = [ HttpPost "http://platform/bet"
                        (bet_payload "F-1700000000000-7" "alice" "SESSION-a" 10%float "EUR"
                                     1700000001000) ]
               /\ clock (proc w1') = 1700000001000
               /\ FlipEngine.addBet "alice" 10%float "HEADS" "SESSION-a" w1'
                  = (Throw (Error "Betting phase has ended"), w1')
               /\ outcome (network w1' (fetched w1')) = Ok (BObject [ ("status", Js.Str "OK");
                        ("transactionId", Js.Str "TX-1");
                        ("newBalance", Js.Num 90%float) ])).
    { eexists. split; [vm_compute; reflexivity |]. repeat split; vm_compute; reflexivity. }
    destruct Ed' as (w1' & Ed' & Ht' & Hc' & Ha' & Ho').
    rewrite Ed' in Ed. injection Ed as <- <-.
    destruct (Hok eq_refl _ _ Ha') as (w3 & m & E & _ & Htr & Hone & _).
    exists w3. split; [exact E |].
    rewrite Htr, Ht', (Hone _ Ho'), Hc'. reflexivity.
  - destruct (placeBet_compensates
                (mkWorld (table_process JsMap.empty) (fun _ => "00")
                   (fun _ => Http 200 (BObject [ ("status", Js.Str "ERROR");
                                                 ("code", Js.Str "INSUFFICIENT_FUNDS");
                                                 ("message", Js.Str "Insufficient balance") ]))
                   0%nat (fun _ p => p) 0%nat [])
                (mkWorld (table_process JsMap.empty) (fun _ => "00")
                   (fun _ => Http 200 (BObject [ ("status", Js.Str "ERROR");
                                                 ("code", Js.Str "INSUFFICIENT_FUNDS");
                                                 ("message", Js.Str "Insufficient balance") ]))
                   0%nat (fun _ p => p) 0%nat [])
                "SESSION-a" 10%float "HEADS"
                (BetService.mkTicket "alice" "EUR" "http://platform" "F-1700000000000-7"
                                     10%float))
      as (cb & w1 & n & _ & _ & _ & Ht & _ & Hrej & _).
    { rewrite validate_cases. vm_compute. reflexivity. }
    destruct (Hrej 200 [ ("status", Js.Str "ERROR"); ("code", Js.Str "INSUFFICIENT_FUNDS");
                         ("message", Js.Str "Insufficient balance") ]
                eq_refl eq_refl eq_refl eq_refl eq_refl) as [En E].
    exists w1. split; [exact E |]. rewrite Ht, En. reflexivity.
  - destruct (placeBet_compensates
                (mkWorld (table_process JsMap.empty) (fun _ => "00")
                   (fun _ => Failed "timeout") 0%nat (fun _ p => p) 0%nat [])
                (mkWorld (table_process JsMap.empty) (fun _ => "00")
                   (fun _ => Failed "timeout") 0%nat (fun _ p => p) 0%nat [])
                "SESSION-a" 10%float "HEADS"
                (BetService.mkTicket "alice" "EUR" "http://platform" "F-1700000000000-7"
                                     10%float))
      as (cb & w1 & n & _ & _ & _ & Ht & _ & _ & Hfail & _).
    { rewrite validate_cases. vm_compute. reflexivity. }
    destruct (Hfail (Error "timeout") (Error "timeout") (Error "timeout")
                (conj eq_refl (conj eq_refl eq_refl))) as [En E].
    exists w1. split; [exact E |]. rewrite Ht, En. reflexivity.
Defined.

(** ** The first round of a chain *)

Lemma start_run (w0 : World) :
  loaded w0 ->
  let sm := seeds_after SeedManager.initialize w0 in
  let r := Round.with_status betting
             (generated sm (clock (proc w0)) (Seed.initialHash sm)) in
  current (run [Start] w0) = Some r
  /\ seedManager (proc (run [Start] w0)) = sm
  /\ history (run [Start] w0) = []
  /\ fst (SeedManager.initialize w0) = Ok (Seed.initialHash sm, Seed.clientSeed sm)
  /\ Seed.nonce sm = 0%N /\ Seed.currentIndex sm = 0%N.
Proof.
  intros (Hsm & Hfe & Hrun & _). cbn zeta.
  assert (Hstart : run [Start] w0
                   = snd (RoundService.startNewRound
                            (with_proc (with_isRunning true
                                          (proc (snd (SeedManager.initialize w0))))
                                       (snd (SeedManager.initialize w0))))).
  { unfold run. cbn [List.fold_left perform].
    unfold RoundService.start, bind at 1, gets at 1. cbn [proc]. rewrite Hrun.
    unfold bind at 1. rewrite initialize_run. cbn zeta. unfold bind at 1, modify at 1.
    reflexivity. }
  rewrite Hstart, startNewRound_ready; clear Hstart.
  - unfold seeds_after. rewrite initialize_run. cbn zeta.
    cbn [snd fst proc with_proc with_seedManager seedManager Seed.initialHash Seed.clientSeed
         Seed.nonce Seed.currentIndex].
    split; [| split; [| split; [| repeat split]]].
    + unfold current.
      cbn [proc with_proc with_trace flipEngine FlipEngine.set_currentRound with_flipEngine
           Engine.currentRound seedManager with_seedManager with_isRunning with_drawn
           Seed.currentIndex Seed.seedChain clock N.to_nat].
      do 3 f_equal.
      destruct (List.rev _); reflexivity.
    + reflexivity.
    + unfold history.
      cbn [proc with_proc with_trace flipEngine FlipEngine.set_currentRound with_flipEngine
           Engine.roundHistory with_seedManager with_isRunning with_drawn].
      rewrite Hfe. reflexivity.
  - reflexivity.
  - rewrite initialize_run. cbn zeta. unfold SeedManager.exhausted.
    cbn [snd proc with_proc seedManager with_seedManager with_isRunning with_drawn
         Seed.currentIndex Seed.seedChain].
    destruct (fresh_chain (N.to_nat (N.pred (Seed.chainLength (seedManager (proc w0)))))
                          (entropy w0 (drawn (proc w0)))) as (Hlen & _).
    cbn zeta in Hlen. rewrite Hlen. apply N.leb_gt. lia.
Qed.

Lemma provablyFair_run (w : World) :
  Server.provablyFair w
  = (Ok (ProvablyFair.mk
           [ ("publicHash", Js.Str (Seed.initialHash (seedManager (proc w))));
             ("clientSeed", Js.Str (Seed.clientSeed (seedManager (proc w))));
             ("nonce", Js.Int (Z.of_N (Seed.nonce (seedManager (proc w)))));
             ("gamesRemaining",
              Js.Int (Z.of_N (Seed.chainLength (seedManager (proc w)))
                      - Z.of_N (Seed.currentIndex (seedManager (proc w))))) ]
           (List.map Server.recentRound (List.firstn 10 (history w)))), w).
Proof.
  unfold Server.provablyFair, bind. rewrite getPublicData_run.
  unfold RoundService.getHistory, FlipEngine.getHistory, gets.
  destruct (slice_to_cases 10 (Engine.roundHistory (flipEngine (proc w)))) as [H _].
  rewrite H by lia. reflexivity.
Qed.

Lemma first_round_seed (w : World) (r : Round.t) :
  reachable w -> current w = Some r -> Round.nonce r = 0%N ->
  Seed.currentIndex (seedManager (proc w)) = 0%N
  /\ Seed.nonce (seedManager (proc w)) = 0%N
  /\ Round.serverSeed r = Seed.initialHash (seedManager (proc w))
  /\ Round.clientSeed r = Seed.clientSeed (seedManager (proc w))
  /\ Round.result r
     = FlipEngine.calculateFlipResult (Round.serverSeed r) (Round.clientSeed r) 0.
Proof.
  intros Hr Hcur Hn.
  destruct (seeded_reachable w Hr) as [[H1 H2 H3 H4] Hround].
  destruct (Hround r Hcur) as (Hn' & Hc & Hs & Hne).
  destruct (fair_reachable w Hr) as [Hfair _ _].
  pose proof (Hfair r Hcur) as Hv. unfold round_verifies, verifies, Server.verify in Hv.
  assert (Hz : Seed.nonce (seedManager (proc w)) = 0%N) by congruence.
  assert (Hi : Seed.currentIndex (seedManager (proc w)) = 0%N) by congruence.
  split; [exact Hi |]. split; [exact Hz |]. split.
  { rewrite Hs, Hi, H3. destruct (Seed.seedChain (seedManager (proc w))); reflexivity. }
  split; [exact Hc |]. rewrite Hn in Hv. congruence.
Qed.

(** C2.  [initialize] builds a chain of [chainLength] = 10000 seeds in which
    each seed is the SHA-256 of the next, and the public commitment it
    returns is [seedChain[0]].  In every state of the round loop, the round
    in progress and every archived round carry [serverSeedHash =
    sha256(serverSeed)], that hash was broadcast in the [betting_phase]
    event of the round, and from the second round of a chain on the hash of
    the round's server seed is the server seed the round before revealed.
    The first round of a chain has no such check: its server seed is
    [seedChain[0]], the public commitment itself, so the hash of the seed is
    the commitment only if the commitment is its own SHA-256; after [start]
    the seed of the round that takes bets is the [publicHash] that
    [initialize] returned, and no round has been archived. *)
Theorem seed_chain_commitments :
  (forall w : World,
     let sm := seeds_after SeedManager.initialize w in
     (Seed.chainLength (seedManager (proc w)) = 10000%N ->
      List.length (Seed.seedChain sm) = N.to_nat 10000)
     /\ linked (Seed.seedChain sm)
     /\ List.nth_error (Seed.seedChain sm) 0 = Some (Seed.initialHash sm)
     /\ exists clientSeed,
          fst (SeedManager.initialize w) = Ok (Seed.initialHash sm, clientSeed))
  /\ Seed.chainLength SeedManager.constructor = 10000%N
  /\ (forall w : World, reachable w ->
        Seed.chainLength (seedManager (proc w)) = 10000%N
        /\ linked (Seed.seedChain (seedManager (proc w)))
        /\ (forall r, current w = Some r ->
              Crypto.sha256 (Round.serverSeed r) = Round.serverSeedHash r
              /\ published (Round.id r) (Round.serverSeedHash r) (trace w)
              /\ ((0 < Seed.currentIndex (seedManager (proc w)))%N ->
                  exists h rest,
                    history w = h :: rest
                    /\ Crypto.sha256 (Round.serverSeed r) = Archived.serverSeed h)
              /\ (Seed.currentIndex (seedManager (proc w)) = 0%N ->
                  Round.serverSeed r = Seed.initialHash (seedManager (proc w))
                  /\ (Crypto.sha256 (Round.serverSeed r)
                      = Seed.initialHash (seedManager (proc w))
                      <-> Crypto.sha256 (Seed.initialHash (seedManager (proc w)))
                          = Seed.initialHash (seedManager (proc w)))))
        /\ (forall h, List.In h (history w) ->
              Crypto.sha256 (Archived.serverSeed h) = Archived.serverSeedHash h
              /\ published (Archived.id h) (Archived.serverSeedHash h) (trace w)))
  /\ (forall w0 : World, loaded w0 ->
        exists publicHash clientSeed r,
          fst (SeedManager.initialize w0) = Ok (publicHash, clientSeed)
          /\ current (run [Start] w0) = Some r
          /\ Round.status r = betting
          /\ Round.serverSeed r = publicHash
          /\ Round.serverSeedHash r = Crypto.sha256 publicHash
          /\ Seed.initialHash (seedManager (proc (run [Start] w0))) = publicHash
          /\ Seed.currentIndex (seedManager (proc (run [Start] w0))) = 0%N
          /\ history (run [Start] w0) = []).
Proof.
  split; [| split; [reflexivity | split]].
  - intros w sm. subst sm. unfold seeds_after. rewrite initialize_run.
    cbn [snd fst proc with_proc with_seedManager seedManager Seed.seedChain Seed.initialHash].
    destruct (fresh_chain (N.to_nat (N.pred (Seed.chainLength (seedManager (proc w)))))
                          (entropy w (drawn (proc w)))) as (Hlen & Hlink & Hhd).
    cbn zeta in Hlen, Hlink, Hhd.
    split; [| split; [| split]].
    + intros E. rewrite Hlen, E. lia.
    + intros i Hi. apply Hlink. lia.
    + exact Hhd.
    + eexists. reflexivity.
  - intros w Hreach.
    pose proof (invariant_reachable w Hreach) as [Hc Hh].
    pose proof (seed_invariant_reachable w Hreach) as [Sn Sl Ss Sp].
    split; [exact Sn |]. split; [exact Sl |]. split; [| exact Hh].
    intros r Hr. destruct (Hc r Hr) as (H1 & _ & H3 & _).
    split; [exact H1 |]. split; [exact H3 |]. split.
    + intros Hpos. destruct (Sp Hpos) as (h & rest & Hhist & Hseed).
      exists h, rest. split; [exact Hhist |].
      destruct (Ss r Hr) as [Hs1 Hs2]. rewrite Hs1, Hseed.
      replace (N.to_nat (Seed.currentIndex (seedManager (proc w))))
        with (S (N.to_nat (Seed.currentIndex (seedManager (proc w))) - 1)) at 1 by lia.
      apply Sl. lia.
    + intros Hz.
      destruct (seeded_reachable w Hreach) as [[_ Hnonce _ _] Hround].
      destruct (Hround r Hr) as (Hn & _).
      destruct (first_round_seed w r Hreach Hr) as (_ & _ & Hseed & _); [congruence |].
      split; [exact Hseed |]. rewrite Hseed. split; intros E; exact E.
  - intros w0 Hl.
    destruct (start_run w0 Hl) as (Hcur & Hsm & Hhist & Hinit & _ & Hidx).
    cbn zeta in Hcur.
    do 3 eexists. split; [exact Hinit |]. split; [exact Hcur |].
    split; [reflexivity |]. split; [reflexivity |]. split; [reflexivity |].
    rewrite Hsm. split; [reflexivity |]. split; [exact Hidx | exact Hhist].
Qed.

Lemma seed_chain_commitments_witness :
  Seed.chainLength (seedManager (proc constructed)) = 10000%N
  /\ List.length (Seed.seedChain (seeds_after SeedManager.initialize constructed))
     = N.to_nat 10000
  /\ (exists h,
        history (run [Start; RevealRound; FinishRound] constructed) = [h]
        /\ Crypto.sha256 (Archived.serverSeed h) = Archived.serverSeedHash h
        /\ published (Archived.id h) (Archived.serverSeedHash h)
                     (trace (run [Start; RevealRound; FinishRound] constructed)))
  /\ exists publicHash clientSeed r,
       fst (SeedManager.initialize constructed) = Ok (publicHash, clientSeed)
       /\ current (run [Start] constructed) = Some r
       /\ Round.status r = betting
       /\ Round.serverSeed r = publicHash
       /\ history (run [Start] constructed) = [].
Proof.
  destruct seed_chain_commitments as (Hchain & _ & Hloop & Hfirst).
  assert (Hl : loaded constructed) by (repeat split).
  split; [reflexivity |]. split; [| split].
  - apply (Hchain constructed). reflexivity.
  - destruct (first_round_archived constructed Hl) as (h & Hh).
    exists h. split; [exact Hh |].
    apply (Hloop (run [Start; RevealRound; FinishRound] constructed)).
    + exists constructed, [Start; RevealRound; FinishRound]. split; [exact Hl | reflexivity].
    + rewrite Hh. left. reflexivity.
  - destruct (Hfirst constructed Hl) as (p & c & r & H1 & H2 & H3 & H4 & _ & _ & _ & H8).
    exists p, c, r. auto.
Defined.

(** C6.  While the status of the round is [pending] or [betting],
    [getCurrentRound] hands out [result = null], and it hands out the result
    once the status is [revealing] or [finished].  During the betting phase a
    socket that connects to the game namespace is sent [betting_phase] with
    the round id, the committed seed hash, the client seed and the nonce (the
    event name carries the status) and no result; the controls namespace
    sends the status with [result: null]; the broadcast at the betting start
    has no result either.  So before the reveal what [getCurrentRound] and
    the two namespaces give a client is the same whatever the outcome of the
    round is.  [GET /provably-fair] is not: while the first round of a chain
    (nonce 0) is in progress, its betting phase included, the [publicHash] of
    the answer is the server seed of the round, and with the [clientSeed]
    and the [nonce] of the same answer [calculateFlipResult] gives the result
    of the round. *)
Theorem result_concealed :
  forall (w : World) (r : Round.t) (socket : string),
    current w = Some r ->
    (concealing (Round.status r) ->
       FlipEngine.getCurrentRound w = (Ok (Some (view_of r None)), w))
    /\ (~ concealing (Round.status r) ->
       FlipEngine.getCurrentRound w = (Ok (Some (view_of r (Some (Round.result r)))), w))
    /\ (Round.status r = betting ->
        exists payload,
          GameNamespace.sendCurrentState socket w
          = (Ok tt, with_trace (trace w ++ [SocketEmit socket "betting_phase" payload]) w)
          /\ payload = [ ("roundId", Js.Str (Round.id r));
                         ("serverSeedHash", Js.Str (Round.serverSeedHash r));
                         ("clientSeed", Js.Str (Round.clientSeed r));
                         ("nonce", Js.Int (Z.of_N (Round.nonce r))) ]
          /\ Js.has_field "result" payload = false
          /\ Js.has_field "serverSeed" payload = false)
    /\ (concealing (Round.status r) ->
        exists event payload,
          ControlsNamespace.sendRoundState socket w
          = (Ok tt, with_trace (trace w ++ [SocketEmit socket event payload]) w)
          /\ Js.field "result" payload = Js.Null
          /\ Js.has_field "serverSeed" payload = false)
    /\ Js.has_field "result" (betting_phase_payload r) = false
    /\ (concealing (Round.status r) ->
        forall serverSeed' result',
          snapshot socket (other_outcome serverSeed' result' w) = snapshot socket w)
    /\ (reachable w -> Round.nonce r = 0%N ->
        exists (publicHash clientSeed : string) (gamesRemaining : Z),
          Server.provablyFair w
          = (Ok (ProvablyFair.mk
                   [ ("publicHash", Js.Str publicHash); ("clientSeed", Js.Str clientSeed);
                     ("nonce", Js.Int 0); ("gamesRemaining", Js.Int gamesRemaining) ]
                   (List.map Server.recentRound (List.firstn 10 (history w)))), w)
          /\ publicHash = Round.serverSeed r
          /\ FlipEngine.calculateFlipResult publicHash clientSeed 0 = Round.result r).
Proof.
  intros w r socket Hcur.
  assert (Hview : FlipEngine.getCurrentRound w
                  = (Ok (Some (view_of r
                                  (if Status_eqb (Round.status r) revealing
                                      || Status_eqb (Round.status r) finished
                                   then Some (Round.result r) else None))), w)).
  { rewrite getCurrentRound_run, Hcur. reflexivity. }
  repeat match goal with |- _ /\ _ => split end.
  - intros [Hs | Hs]; rewrite Hview, Hs; reflexivity.
  - intros Hn. rewrite Hview. unfold concealing in Hn.
    destruct (Round.status r); try reflexivity; exfalso; apply Hn; auto.
  - intros Hs. eexists. rewrite sendCurrentState_run, Hcur, Hs.
    split; [reflexivity |]. split; [reflexivity |]. split; reflexivity.
  - intros Hc. do 2 eexists. rewrite sendRoundState_run, Hcur.
    split; [reflexivity |].
    destruct Hc as [Hs | Hs]; rewrite Hs; split; reflexivity.
  - reflexivity.
  - intros Hc serverSeed' result'.
    unfold snapshot, other_outcome. rewrite Hcur.
    rewrite !getCurrentRound_run, !sendCurrentState_run, !sendRoundState_run.
    unfold current. cbn. unfold current in Hcur. rewrite Hcur.
    destruct Hc as [Hs | Hs]; rewrite Hs; reflexivity.
  - intros Hreach Hn.
    destruct (first_round_seed w r Hreach Hcur Hn) as (_ & Hz & Hseed & Hc & Hres).
    exists (Round.serverSeed r), (Round.clientSeed r). eexists.
    rewrite provablyFair_run, <- Hseed, <- Hc, Hz.
    split; [reflexivity |]. split; [reflexivity |]. symmetry. exact Hres.
Qed.

Lemma result_concealed_witness :
  (current (table two_bets) = Some (table_round two_bets)
   /\ concealing (Round.status (table_round two_bets))
   /\ fst (FlipEngine.getCurrentRound (table two_bets))
      = Ok (Some (view_of (table_round two_bets) None))
   /\ snapshot "socket-1" (other_outcome "another seed" "EDGE" (table two_bets))
      = snapshot "socket-1" (table two_bets))
  /\ exists (r : Round.t) (publicHash clientSeed : string) (gamesRemaining : Z),
       current (run [Start] constructed) = Some r
       /\ Round.status r = betting
       /\ fst (FlipEngine.getCurrentRound (run [Start] constructed))
          = Ok (Some (view_of r None))
       /\ fst (Server.provablyFair (run [Start] constructed))
          = Ok (ProvablyFair.mk
                  [ ("publicHash", Js.Str publicHash); ("clientSeed", Js.Str clientSeed);
                    ("nonce", Js.Int 0); ("gamesRemaining", Js.Int gamesRemaining) ] [])
       /\ FlipEngine.calculateFlipResult publicHash clientSeed 0 = Round.result r.
Proof.
  split.
  - assert (Hc : concealing (Round.status (table_round two_bets))) by (right; reflexivity).
    destruct (result_concealed (table two_bets) (table_round two_bets) "socket-1" eq_refl)
      as (H1 & _ & _ & _ & _ & H6 & _).
    split; [reflexivity |]. split; [exact Hc |]. split.
    + rewrite (H1 Hc). reflexivity.
    + apply (H6 Hc).
  - assert (Hl : loaded constructed) by (repeat split).
    assert (Hreach : reachable (run [Start] constructed)).
    { exists constructed, [Start]. split; [exact Hl | reflexivity]. }
    destruct (start_first_round constructed Hl) as (r & Hcur & Hst & Hn & _).
    destruct (start_run constructed Hl) as (_ & _ & Hhist & _).
    destruct (result_concealed _ r "socket-1" Hcur) as (H1 & _ & _ & _ & _ & _ & H7).
    destruct (H7 Hreach Hn) as (p & c & g & E & _ & Hres).
    exists r, p, c, g. split; [exact Hcur |]. split; [exact Hst |].
    split; [rewrite H1; [reflexivity | right; exact Hst] |].
    rewrite E, Hhist. split; [reflexivity | exact Hres].
Defined.
